(** * Loop detection and session turn bounding of gomini, verified

    A shallow embedding of [pkg/core/loop_detection.go] (the
    [LoopDetectionService]) and of [Client.SendMessageStream] from
    [pkg/core/client.go], followed by the properties of the loop detector
    and of the stream session controller.

    Go [string]s are byte sequences and are modelled as [list ascii]; the
    [int] fields are modelled as [Z]; [map[string][]int] is a
    [gmap string (list Z)].  Run-time panics (index or slice out of range)
    are an explicit outcome of the functions that can raise them. *)

From Stdlib Require Import ZArith QArith Ascii String List Lia.
From stdpp Require Import base option list gmap strings.

Local Open Scope Z_scope.

(** ** Go run-time conventions *)

(** Go strings: sequences of bytes.  [len(s)] is the number of bytes. *)
Abbreviation gostring := (list ascii).

Definition len {A} (s : list A) : Z := Z.of_nat (length s).

(** [s[lo:hi]]; the bounds are checked by the caller (see [slice_ok]). *)
Definition slice {A} (s : list A) (lo hi : Z) : list A :=
  take (Z.to_nat (hi - lo)) (drop (Z.to_nat lo) s).

(** [s[lo:]] *)
Definition slice_from {A} (s : list A) (lo : Z) : list A :=
  drop (Z.to_nat lo) s.

(** The run-time check of [s[lo:hi]]: [0 <= lo <= hi <= len(s)]. *)
Definition slice_ok {A} (s : list A) (lo hi : Z) : bool :=
  (0 <=? lo) && (lo <=? hi) && (hi <=? len s).

(** Two's complement wrap-around of the 64-bit [int] on [x++]. *)
Definition wrap64 (z : Z) : Z := (z + 2 ^ 63) mod 2 ^ 64 - 2 ^ 63.

Definition maxInt64 : Z := 2 ^ 63 - 1.

(** [l[i]] on a slice, with its bounds check. *)
Definition at_ {A} (l : list A) (i : Z) : option A :=
  if i <? 0 then None else l !! Z.to_nat i.

(** Outcome of a Go call: a normal return, a run-time panic, or (for the
    model of a [for] loop only) exhausted fuel. *)
Inductive outcome (A : Type) : Type :=
| Done (a : A)
| Panic
| Fuel.
Arguments Done {A} a.
Arguments Panic {A}.
Arguments Fuel {A}.

#[global] Instance outcome_ret : MRet outcome := fun A a => Done a.
#[global] Instance outcome_bind : MBind outcome := fun A B k m =>
  match m with
  | Done a => k a
  | Panic => Panic
  | Fuel => Fuel
  end.

(** ** Regular expressions of Go's [regexp] package (RE2 syntax, no flags)

    Only the operators used by the detector's patterns.  [RBot] is [^] and
    [REot] is [$]: without the [m] flag they match at the beginning and at
    the end of the text only. *)
Inductive regex : Type :=
| RNone
| REps
| RBot
| REot
| RClass (p : ascii -> bool)
| RCat (r1 r2 : regex)
| RAlt (r1 r2 : regex)
| RStar (r : regex).

(** Does [r] match the empty string at a position that is ([bot]) the
    beginning and ([eot]) the end of the text? *)
Fixpoint nullable (bot eot : bool) (r : regex) : bool :=
  match r with
  | RNone => false
  | REps => true
  | RBot => bot
  | REot => eot
  | RClass _ => false
  | RCat r1 r2 => nullable bot eot r1 && nullable bot eot r2
  | RAlt r1 r2 => nullable bot eot r1 || nullable bot eot r2
  | RStar _ => true
  end.

Definition rcat (r1 r2 : regex) : regex :=
  match r1 with
  | RNone => RNone
  | REps => r2
  | _ => RCat r1 r2
  end.

Definition ralt (r1 r2 : regex) : regex :=
  match r1, r2 with
  | RNone, _ => r2
  | _, RNone => r1
  | _, _ => RAlt r1 r2
  end.

(** Brzozowski derivative by the byte [c], read at a position that is
    ([bot]) the beginning of the text. *)
Fixpoint deriv (bot : bool) (c : ascii) (r : regex) : regex :=
  match r with
  | RNone | REps | RBot | REot => RNone
  | RClass p => if p c then REps else RNone
  | RCat r1 r2 =>
      ralt (rcat (deriv bot c r1) r2)
           (if nullable bot false r1 then deriv bot c r2 else RNone)
  | RAlt r1 r2 => ralt (deriv bot c r1) (deriv bot c r2)
  | RStar r1 => rcat (deriv bot c r1) (RStar r1)
  end.

(** [r] matches some prefix of [s]. *)
Fixpoint matchPrefix (bot : bool) (r : regex) (s : gostring) : bool :=
  nullable bot (if s is [] then true else false) r ||
  match s with
  | [] => false
  | c :: s' => matchPrefix false (deriv bot c r) s'
  end.

Fixpoint matchFrom (bot : bool) (r : regex) (s : gostring) : bool :=
  matchPrefix bot r s ||
  match s with
  | [] => false
  | _ :: s' => matchFrom false r s'
  end.

(** [regexp.MustCompile(r).MatchString(s)]: [r] matches somewhere in [s]. *)
Definition MatchString (r : regex) (s : gostring) : bool := matchFrom true r s.

Definition chr (a : ascii) : regex := RClass (Ascii.eqb a).
Definition range (lo hi : ascii) (c : ascii) : bool :=
  (N_of_ascii lo <=? N_of_ascii c)%N && (N_of_ascii c <=? N_of_ascii hi)%N.
Definition oneOf (cs : gostring) (c : ascii) : bool :=
  existsb (Ascii.eqb c) cs.
Definition rplus (r : regex) : regex := RCat r (RStar r).

Definition nl : ascii := "010"%char.
(** [\s] is [[\t\n\f\r ]]. *)
Definition reSpace : regex :=
  RClass (oneOf ["009"; "010"; "012"; "013"; " "]%char).
(** [\d] is [[0-9]]. *)
Definition reDigit : regex := RClass (range "0" "9").
(** [.] is any byte but the newline. *)
Definition reDot : regex := RClass (fun c => negb (Ascii.eqb c nl)).
(** [(^|\n)] *)
Definition reLineStart : regex := RAlt RBot (chr nl).

(** [(^|\n)\s*(\|.*\||[|+-]{3,})] *)
Definition reTable : regex :=
  let bar := chr "|" in
  let sep := RClass (oneOf ["|"; "+"; "-"]%char) in
  RCat reLineStart
    (RCat (RStar reSpace)
       (RAlt (RCat bar (RCat (RStar reDot) bar))
             (RCat sep (RCat sep (RCat sep (RStar sep)))))).

(** [(^|\n)\s*[*-+]\s]: the class [[*-+]] is the range from [*] to [+]. *)
Definition reBullet : regex :=
  RCat reLineStart (RCat (RStar reSpace) (RCat (RClass (range "*" "+")) reSpace)).

(** [(^|\n)\s*\d+\.\s] *)
Definition reNumbered : regex :=
  RCat reLineStart
    (RCat (RStar reSpace) (RCat (rplus reDigit) (RCat (chr ".") reSpace))).

(** [(^|\n)#+\s] *)
Definition reHeading : regex :=
  RCat reLineStart (RCat (rplus (chr "#")) reSpace).

(** [(^|\n)>\s] *)
Definition reBlockquote : regex :=
  RCat reLineStart (RCat (chr ">") reSpace).

(** [^[+\-_=*]+$] *)
Definition reDivider : regex :=
  RCat RBot (RCat (rplus (RClass (oneOf ["+"; "-"; "_"; "="; "*"]%char))) REot).

(** [strings.Count(s, "```")]: the number of non-overlapping occurrences,
    found from left to right. *)
Fixpoint countFences (s : gostring) : Z :=
  match s with
  | [] => 0
  | c :: s1 =>
      match c, s1 with
      | "`"%char, "`"%char :: "`"%char :: s3 => 1 + countFences s3
      | _, _ => countFences s1
      end
  end.

Definition str (s : string) : gostring := list_ascii_of_string s.

(** ** Constants *)

Definition TOOL_CALL_LOOP_THRESHOLD : Z := 5.
Definition CONTENT_LOOP_THRESHOLD : Z := 10.
Definition CONTENT_CHUNK_SIZE : Z := 50.
Definition MAX_HISTORY_LENGTH : Z := 1000.
Definition DEFAULT_LLM_CHECK_INTERVAL : Z := 3.

(** [gomini.EventType] and [providers.EventType] are strings. *)
Abbreviation EventType := string (only parsing).
Abbreviation ProviderType := string (only parsing).

Definition EventContent : EventType := "content".
Definition EventThought : EventType := "thought".
Definition EventToolCall : EventType := "tool_call".
Definition EventFinished : EventType := "finished".
Definition EventError : EventType := "error".
Definition EventLoopDetected : EventType := "loop_detected".
Definition EventMaxSessionTurns : EventType := "max_session_turns".

(** [gomini.LoopType] *)
Inductive LoopType : Type :=
| LoopTypeToolCall
| LoopTypeContent
| LoopTypeLLMDetected.

(** The helper [max] at the end of loop_detection.go. *)
Definition max (a b : Z) : Z := if a >? b then a else b.

(** ** The loop detection service

    The state of [LoopDetectionService], without the mutex and without the
    [config] pointer: the detector reads [config.Debug] only to print a
    line when it has found a loop, which changes neither its state nor
    its result ([NewClient] never builds a service on a nil
    configuration). *)
Record LoopDetectionService : Type := mkLoopDetectionService {
  promptID : string;
  lastToolCallKey : string;
  toolCallRepetitionCount : Z;
  streamContentHistory : gostring;
  contentStats : gmap string (list Z);
  lastContentIndex : Z;
  loopDetected : bool;
  inCodeBlock : bool;
  turnsInCurrentPrompt : Z;
  llmCheckInterval : Z;
  lastCheckTurn : Z
}.

Definition with_promptID (v : string) (l : LoopDetectionService) :=
  mkLoopDetectionService v (lastToolCallKey l) (toolCallRepetitionCount l)
    (streamContentHistory l) (contentStats l) (lastContentIndex l)
    (loopDetected l) (inCodeBlock l) (turnsInCurrentPrompt l)
    (llmCheckInterval l) (lastCheckTurn l).
Definition with_toolCall (k : string) (n : Z) (l : LoopDetectionService) :=
  mkLoopDetectionService (promptID l) k n
    (streamContentHistory l) (contentStats l) (lastContentIndex l)
    (loopDetected l) (inCodeBlock l) (turnsInCurrentPrompt l)
    (llmCheckInterval l) (lastCheckTurn l).
Definition with_history (v : gostring) (l : LoopDetectionService) :=
  mkLoopDetectionService (promptID l) (lastToolCallKey l)
    (toolCallRepetitionCount l) v (contentStats l) (lastContentIndex l)
    (loopDetected l) (inCodeBlock l) (turnsInCurrentPrompt l)
    (llmCheckInterval l) (lastCheckTurn l).
Definition with_stats (v : gmap string (list Z)) (l : LoopDetectionService) :=
  mkLoopDetectionService (promptID l) (lastToolCallKey l)
    (toolCallRepetitionCount l) (streamContentHistory l) v
    (lastContentIndex l) (loopDetected l) (inCodeBlock l)
    (turnsInCurrentPrompt l) (llmCheckInterval l) (lastCheckTurn l).
Definition with_index (v : Z) (l : LoopDetectionService) :=
  mkLoopDetectionService (promptID l) (lastToolCallKey l)
    (toolCallRepetitionCount l) (streamContentHistory l) (contentStats l) v
    (loopDetected l) (inCodeBlock l) (turnsInCurrentPrompt l)
    (llmCheckInterval l) (lastCheckTurn l).
Definition with_loopDetected (v : bool) (l : LoopDetectionService) :=
  mkLoopDetectionService (promptID l) (lastToolCallKey l)
    (toolCallRepetitionCount l) (streamContentHistory l) (contentStats l)
    (lastContentIndex l) v (inCodeBlock l) (turnsInCurrentPrompt l)
    (llmCheckInterval l) (lastCheckTurn l).
Definition with_inCodeBlock (v : bool) (l : LoopDetectionService) :=
  mkLoopDetectionService (promptID l) (lastToolCallKey l)
    (toolCallRepetitionCount l) (streamContentHistory l) (contentStats l)
    (lastContentIndex l) (loopDetected l) v (turnsInCurrentPrompt l)
    (llmCheckInterval l) (lastCheckTurn l).
Definition with_llm (turns interval lastCheck : Z) (l : LoopDetectionService) :=
  mkLoopDetectionService (promptID l) (lastToolCallKey l)
    (toolCallRepetitionCount l) (streamContentHistory l) (contentStats l)
    (lastContentIndex l) (loopDetected l) (inCodeBlock l) turns interval
    lastCheck.

(** [NewLoopDetectionService]: zero values, an empty map and the default
    check interval. *)
Definition NewLoopDetectionService : LoopDetectionService :=
  mkLoopDetectionService "" "" 0 [] ∅ 0 false false 0
    DEFAULT_LLM_CHECK_INTERVAL 0.

Definition resetToolCallCount (l : LoopDetectionService) :=
  with_toolCall "" 0 l.

Definition resetContentTracking (resetHistory : bool)
    (l : LoopDetectionService) : LoopDetectionService :=
  let l := if resetHistory then with_history [] l else l in
  let l := with_stats ∅ l in
  with_index 0 l.

Definition resetLLMCheckTracking (l : LoopDetectionService) :=
  with_llm 0 DEFAULT_LLM_CHECK_INTERVAL 0 l.

(** [Reset]: note that [inCodeBlock] is not among the fields it clears. *)
Definition Reset (promptID : string) (l : LoopDetectionService) :=
  let l := with_promptID promptID l in
  let l := resetToolCallCount l in
  let l := resetContentTracking true l in
  let l := resetLLMCheckTracking l in
  with_loopDetected false l.

(** [TurnStarted]: counts the turn; the LLM-based check is not implemented
    and the result is always [false]. *)
Definition TurnStarted (l : LoopDetectionService) : bool * LoopDetectionService :=
  (false,
   with_llm (wrap64 (turnsInCurrentPrompt l + 1)) (llmCheckInterval l)
     (lastCheckTurn l) l).

Definition IsLoopDetected (l : LoopDetectionService) : bool := loopDetected l.

Definition hasMoreChunksToProcess (l : LoopDetectionService) : bool :=
  lastContentIndex l + CONTENT_CHUNK_SIZE <=? len (streamContentHistory l).

(** The loop body of [truncateAndUpdate] over one list of indices. *)
Fixpoint adjustIndices (truncationAmount : Z) (oldIndices : list Z) : list Z :=
  match oldIndices with
  | [] => []
  | index :: rest =>
      let adjustedIndex := index - truncationAmount in
      if adjustedIndex >=? 0
      then adjustedIndex :: adjustIndices truncationAmount rest
      else adjustIndices truncationAmount rest
  end.

(** [truncateAndUpdate].  The [range] loop replaces or deletes the entry
    of the key it is visiting and adds no key, so it visits every entry
    once: it is [omap] over the map. *)
Definition truncateAndUpdate (l : LoopDetectionService) : LoopDetectionService :=
  if len (streamContentHistory l) <=? MAX_HISTORY_LENGTH then l
  else
    let truncationAmount := len (streamContentHistory l) - MAX_HISTORY_LENGTH in
    let l := with_history (slice_from (streamContentHistory l) truncationAmount) l in
    let l := with_index (max 0 (lastContentIndex l - truncationAmount)) l in
    with_stats
      (omap (fun oldIndices =>
               let adjustedIndices := adjustIndices truncationAmount oldIndices in
               if len adjustedIndices >? 0 then Some adjustedIndices else None)
            (contentStats l)) l.

(** [isActualContentMatch]; the slice expression panics on a negative
    [originalIndex]. *)
Definition isActualContentMatch (l : LoopDetectionService)
    (currentChunk : gostring) (originalIndex : Z) : outcome bool :=
  if originalIndex + CONTENT_CHUNK_SIZE >? len (streamContentHistory l)
  then Done false
  else if slice_ok (streamContentHistory l) originalIndex
            (originalIndex + CONTENT_CHUNK_SIZE)
  then
    let originalChunk :=
      slice (streamContentHistory l) originalIndex
        (originalIndex + CONTENT_CHUNK_SIZE) in
    Done (bool_decide (originalChunk = currentChunk))
  else Panic.

Definition of_index {A} (o : option A) : outcome A :=
  match o with
  | Some a => Done a
  | None => Panic
  end.

(** [isLoopDetectedForChunk].  The quotient and the bound are [float64]s
    in the source; the operands are integers far below [2^53] and the
    bound 75 is exact, so the comparison is the one of the rationals. *)
Definition isLoopDetectedForChunk (l : LoopDetectionService)
    (chunk : gostring) (hash : string) : outcome (bool * LoopDetectionService) :=
  match contentStats l !! hash with
  | None =>
      Done (false, with_stats (<[hash := [lastContentIndex l]]> (contentStats l)) l)
  | Some existingIndices =>
      first ← of_index (at_ existingIndices 0);
      matches ← isActualContentMatch l chunk first;
      if negb matches then Done (false, l)
      else
        let existingIndices := existingIndices ++ [lastContentIndex l] in
        let l := with_stats (<[hash := existingIndices]> (contentStats l)) l in
        if len existingIndices <? CONTENT_LOOP_THRESHOLD then Done (false, l)
        else
          let recentIndices :=
            slice_from existingIndices
              (len existingIndices - CONTENT_LOOP_THRESHOLD) in
          newest ← of_index (at_ recentIndices (len recentIndices - 1));
          oldest ← of_index (at_ recentIndices 0);
          let totalDistance := newest - oldest in
          let averageDistance :=
            (inject_Z totalDistance / inject_Z (CONTENT_LOOP_THRESHOLD - 1))%Q in
          let maxAllowedDistance := (inject_Z CONTENT_CHUNK_SIZE * (3 # 2))%Q in
          Done (Qle_bool averageDistance maxAllowedDistance, l)
  end.

(** [gomini.ContentEvent]; [providers.ContentEvent] has the same fields. *)
Record ContentEvent : Type := mkContentEvent {
  Text : gostring;
  Delta : bool;
  Complete : bool
}.

(** [gomini.ThoughtEvent]; [providers.ThoughtEvent] has the same fields. *)
Record ThoughtEvent : Type := mkThoughtEvent {
  Subject : string;
  Description : string;
  ThoughtText : string
}.

(** [gomini.LoopDetectedEvent] *)
Record LoopDetectedEvent : Type := mkLoopDetectedEvent {
  LoopKind : LoopType;
  LoopPromptID : string;
  LoopDescription : string;
  TurnCount : Z;
  RepeatCount : Z
}.

(** [gomini.MaxSessionTurnsEvent] *)
Record MaxSessionTurnsEvent : Type := mkMaxSessionTurnsEvent {
  CurrentTurns : Z;
  MaxTurns : Z;
  MaxPromptID : string
}.

(** [providers.Usage] *)
Record Usage : Type := mkUsage {
  InputTokens : Z;
  OutputTokens : Z;
  TotalTokens : Z;
  CompletionTokens : Z;
  PromptTokens : Z
}.

(** [providers.EventMeta] *)
Record ProviderEventMeta : Type := mkProviderEventMeta {
  PFinishReason : string;
  PUsage : option Usage
}.

(** [gomini.EventMeta]; [ExtraData] is [None] for the nil map. *)
Record EventMeta : Type := mkEventMeta {
  ChoiceIndex : Z;
  FinishReason : string;
  MetaUsage : option Usage;
  ExtraData : option (list (string * string))
}.

(** [gomini.Config]: the fields the controller reads. *)
Record Config : Type := mkConfig {
  MaxSessionTurns : Z;
  LoopDetectionEnabled : bool
}.

(** [gomini.ChatRequest]: the fields the controller reads; the rest of the
    request is handed to the provider untouched. *)
Record ChatRequest : Type := mkChatRequest {
  ReqModel : string;
  ReqProvider : ProviderType
}.

(** [gomini.ToolCallEvent]; [Args] is the dynamic type
    [map[string]interface{}] of the arguments. *)
Record ToolCallEvent (Args : Type) : Type := mkToolCallEvent {
  CallID : string;
  ToolName : string;
  ToolArguments : Args;
  Reasoning : string;
  Confidence : Q
}.

(** The dynamic type of the [Data interface{}] field of an event. *)
Inductive EventData (Args : Type) : Type :=
| DataNil
| DataContent (e : ContentEvent)
| DataThought (e : ThoughtEvent)
| DataToolCall (e : ToolCallEvent Args)
| DataProvidersContent (e : ContentEvent)
| DataProvidersThought (e : ThoughtEvent)
| DataError (message : string) (retryable : bool)
| DataLoopDetected (e : LoopDetectedEvent)
| DataMaxSessionTurns (e : MaxSessionTurnsEvent)
| DataOther (dynamicType : string).

(** [providers.StreamEvent] *)
Record ProviderStreamEvent (Args : Type) : Type := mkProviderStreamEvent {
  PType : EventType;
  PProvider : ProviderType;
  PModel : string;
  PData : EventData Args;
  PError : option string;
  PTimestamp : Z;
  PRequestID : string;
  PMetadata : ProviderEventMeta
}.

(** [gomini.StreamEvent] *)
Record StreamEvent (Args : Type) : Type := mkStreamEvent {
  EvType : EventType;
  Provider : ProviderType;
  Model : string;
  Data : EventData Args;
  Error : option string;
  Timestamp : Z;
  RequestID : string;
  Metadata : EventMeta
}.


Arguments mkToolCallEvent {Args}.
Arguments CallID {Args}.
Arguments ToolName {Args}.
Arguments ToolArguments {Args}.
Arguments Reasoning {Args}.
Arguments Confidence {Args}.
Arguments DataNil {Args}.
Arguments DataContent {Args}.
Arguments DataThought {Args}.
Arguments DataToolCall {Args}.
Arguments DataProvidersContent {Args}.
Arguments DataProvidersThought {Args}.
Arguments DataError {Args}.
Arguments DataLoopDetected {Args}.
Arguments DataMaxSessionTurns {Args}.
Arguments DataOther {Args}.
Arguments mkProviderStreamEvent {Args}.
Arguments PType {Args}.
Arguments PProvider {Args}.
Arguments PModel {Args}.
Arguments PData {Args}.
Arguments PError {Args}.
Arguments PTimestamp {Args}.
Arguments PRequestID {Args}.
Arguments PMetadata {Args}.
Arguments mkStreamEvent {Args}.
Arguments EvType {Args}.
Arguments Provider {Args}.
Arguments Model {Args}.
Arguments Data {Args}.
Arguments Error {Args}.
Arguments Timestamp {Args}.
Arguments RequestID {Args}.
Arguments Metadata {Args}.

Definition zeroMeta : EventMeta := mkEventMeta 0 "" None None.

(** ** An instance of the library functions, for examples

    Arguments are key/value lists; a value is a string or ([None]) a Go
    value that [json.Marshal] rejects, such as a channel.  The digest is
    the text itself, which is injective as SHA-256 practically is. *)
Definition exArguments : Type := list (string * option string).

Fixpoint exMarshalFields (a : exArguments) : option gostring :=
  match a with
  | [] => Some []
  | (k, v) :: rest =>
      match v, exMarshalFields rest with
      | Some v, Some fields =>
          Some (str k ++ str ":" ++ str v ++ str "," ++ fields)
      | _, _ => None
      end
  end.

Definition exMarshal (a : exArguments) : option gostring :=
  match exMarshalFields a with
  | Some fields => Some (str "{" ++ fields ++ str "}")
  | None => None
  end.

Definition exHash (s : gostring) : string := string_of_list_ascii s.

Definition exInit (cfg : Config) (t : ProviderType) : option string := None.

(** The data of the examples: the events and calls of the repository's
    tests, and a tool call whose argument is a channel. *)
Definition exEvent (t : EventType) (d : EventData exArguments)
    : StreamEvent exArguments :=
  mkStreamEvent t "openai" "test-model" d None 0 "" zeroMeta.

Definition exContentEvent (text : string) : StreamEvent exArguments :=
  exEvent EventContent (DataContent (mkContentEvent (str text) true false)).

Definition exToolCall : ToolCallEvent exArguments :=
  mkToolCallEvent "call-1" "test_tool" [("arg1", Some "value1")] "" 0%Q.

Definition exOtherCall : ToolCallEvent exArguments :=
  mkToolCallEvent "call-2" "tool2" [("arg1", Some "value2")] "" 0%Q.

Definition exChannelCall : ToolCallEvent exArguments :=
  mkToolCallEvent "call-3" "watch" [("events", None)] "" 0%Q.

Definition exToolCallEvent (tc : ToolCallEvent exArguments)
    : StreamEvent exArguments :=
  exEvent EventToolCall (DataToolCall tc).

Definition exRepeatingText : string :=
  "This is a repeating pattern that should be detected as a loop. ".

Definition exRequest : ChatRequest := mkChatRequest "test-model" "".

Definition exProviderEvent (t : EventType) (d : EventData exArguments)
    : ProviderStreamEvent exArguments :=
  mkProviderStreamEvent t "openai" "test-model" d None 0 ""
    (mkProviderEventMeta "" None).

Definition exHello (t : ProviderType) : list (ProviderStreamEvent exArguments) :=
  [exProviderEvent EventContent
     (DataContent (mkContentEvent (str "Hello") true false));
   exProviderEvent EventFinished DataNil].

Definition exToolCalls (t : ProviderType)
    : list (ProviderStreamEvent exArguments) :=
  replicate 10 (exProviderEvent EventToolCall (DataToolCall exToolCall)).

Definition exErrorFirst (t : ProviderType)
    : list (ProviderStreamEvent exArguments) :=
  [exProviderEvent EventError (DataError "boom" false);
   exProviderEvent EventContent
     (DataContent (mkContentEvent (str "Hello") true false))].

Definition exA58 : string :=
  "aaaaaaaaaaaaaaaaaaaaaaaaaaaaaaaaaaaaaaaaaaaaaaaaaaaaaaaaaa".

(** Text without repetition: the numbers from [from] on, three digits
    each. *)
Definition exDigits (k : nat) : gostring :=
  map (fun d => ascii_of_nat (48 + d))
    [(k / 100) mod 10; (k / 10) mod 10; k mod 10]%nat.

Definition exCounting (from n : nat) : gostring :=
  flat_map exDigits (seq from n).

Definition exCountingEvent (from n : nat) : StreamEvent exArguments :=
  exEvent EventContent
    (DataContent (mkContentEvent (exCounting from n) true false)).

(** A state with 1010 bytes in the buffer and two recorded offsets. *)
Definition exLongState : LoopDetectionService :=
  with_stats {[ "k" := [3; 20] ]}
    (with_history (replicate 1010 "x"%char) NewLoopDetectionService).

(** ** The configuration ([pkg/gomini/config.go]) and the construction of
    a client ([NewClient], [initializeProvider] of [pkg/core/client.go])

    [Providers] maps a provider type to a pointer: [None] is an entry
    that holds the nil pointer, which the functions below dereference.
    A [range] over the map visits its entries in an order that Go leaves
    unspecified: every function with such a loop takes the order of the
    visit as an argument.  The fields of the configuration that none of
    these functions reads are left out, apart from those [NewConfig]
    sets. *)
Module Setup.

Definition ProviderOpenAI : string := "openai".
Definition ProviderGemini : string := "gemini".

(** [gomini.OpenAIConfig] and [gomini.GeminiConfig] *)
Record OpenAIConfig : Type := mkOpenAIConfig {
  Organization : string;
  BaseURL : string;
  OpenAIDefaultModel : string
}.

Record GeminiConfig : Type := mkGeminiConfig {
  GeminiDefaultModel : string;
  SafetySettings : list (string * string);
  ThinkingEnabled : bool;
  ThinkingBudget : Z
}.

(** [gomini.ProviderConfig] *)
Record ProviderConfig : Type := mkProviderConfig {
  Enabled : bool;
  APIKey : string;
  Endpoint : string;
  Project : string;
  Location : string;
  UseVertex : bool;
  DefaultModel : string;
  ExtraHeaders : gmap string string;
  OpenAI : option OpenAIConfig;
  Gemini : option GeminiConfig
}.

(** [gomini.RouterConfig]: the fields [NewConfig] and [LoadFromEnv]
    set. *)
Record RouterConfig : Type := mkRouterConfig {
  Strategy : string;
  CostOptimized : bool;
  FallbackOnError : bool;
  MaxFallbackAttempts : Z
}.

(** [gomini.Config]; durations are in nanoseconds. *)
Record Config : Type := mkConfig {
  Providers : gmap string (option ProviderConfig);
  DefaultProvider : string;
  EnableFallback : bool;
  Router : option RouterConfig;
  RequestTimeout : Z;
  MaxRetries : Z;
  RetryDelay : Z;
  Debug : bool;
  MaxSessionTurns : Z;
  SkipNextSpeakerCheck : bool;
  LoopDetectionEnabled : bool
}.

Definition with_DefaultProvider (t : string) (c : Config) : Config :=
  mkConfig (Providers c) t (EnableFallback c) (Router c) (RequestTimeout c)
    (MaxRetries c) (RetryDelay c) (Debug c) (MaxSessionTurns c)
    (SkipNextSpeakerCheck c) (LoopDetectionEnabled c).

Definition NewConfig : Config :=
  mkConfig ∅ "" true (Some (mkRouterConfig "manual" false true 2))
    (30 * 1000000000) 3 (1 * 1000000000) false 100 false true.

(** The entry of a provider type as [LoadFromEnv] finds it, a missing
    entry and a nil pointer being replaced by [&ProviderConfig{}], and
    the assignment of an entry. *)
Definition zeroProviderConfig : ProviderConfig :=
  mkProviderConfig false "" "" "" "" false "" ∅ None None.

Definition entry (c : Config) (t : string) : ProviderConfig :=
  match Providers c !! t with
  | Some (Some pc) => pc
  | _ => zeroProviderConfig
  end.

Definition with_Providers (m : gmap string (option ProviderConfig))
    (c : Config) : Config :=
  mkConfig m (DefaultProvider c) (EnableFallback c) (Router c)
    (RequestTimeout c) (MaxRetries c) (RetryDelay c) (Debug c)
    (MaxSessionTurns c) (SkipNextSpeakerCheck c) (LoopDetectionEnabled c).

Definition setEntry (t : string) (f : ProviderConfig -> ProviderConfig)
    (c : Config) : Config :=
  with_Providers (<[t := Some (f (entry c t))]> (Providers c)) c.

Definition enable (apiKey : string) (pc : ProviderConfig) : ProviderConfig :=
  mkProviderConfig true apiKey (Endpoint pc) (Project pc)
    (Location pc) (UseVertex pc) (DefaultModel pc) (ExtraHeaders pc)
    (OpenAI pc) (Gemini pc).

Definition with_OpenAI (f : OpenAIConfig -> OpenAIConfig) (pc : ProviderConfig)
    : ProviderConfig :=
  mkProviderConfig (Enabled pc) (APIKey pc) (Endpoint pc) (Project pc)
    (Location pc) (UseVertex pc) (DefaultModel pc) (ExtraHeaders pc)
    (Some (f (default (mkOpenAIConfig "" "" "") (OpenAI pc)))) (Gemini pc).

Definition with_Vertex (project location : option string)
    (pc : ProviderConfig) : ProviderConfig :=
  mkProviderConfig true (APIKey pc) (Endpoint pc)
    (default (Project pc) project) (default (Location pc) location) true
    (DefaultModel pc) (ExtraHeaders pc) (OpenAI pc) (Gemini pc).

Definition with_Router (f : RouterConfig -> RouterConfig) (c : Config) : Config :=
  mkConfig (Providers c) (DefaultProvider c) (EnableFallback c)
    (Some (f (default (mkRouterConfig "" false false 0) (Router c))))
    (RequestTimeout c) (MaxRetries c) (RetryDelay c) (Debug c)
    (MaxSessionTurns c) (SkipNextSpeakerCheck c) (LoopDetectionEnabled c).

Definition with_settings (debug : bool) (timeout retries turns : Z)
    (skip detection : bool) (c : Config) : Config :=
  mkConfig (Providers c) (DefaultProvider c) (EnableFallback c) (Router c)
    timeout retries (RetryDelay c) debug turns skip detection.

(** [os.Getenv]: the empty string for a variable that is not set; and a
    variable that is set to a value that is not empty. *)
Definition Getenv (env : gmap string string) (name : string) : string :=
  default ""%string (env !! name).

Definition nonEmpty (value : string) : option string :=
  if String.eqb value "" then None else Some value.

(** The four blocks of [LoadFromEnv] that write the provider map: OpenAI
    configuration, Gemini configuration, alternative Gemini API key and
    Vertex AI configuration. *)
Definition loadOpenAI (env : gmap string string) (c : Config) : Config :=
  match nonEmpty (Getenv env "OPENAI_API_KEY") with
  | Some apiKey =>
      let c := setEntry ProviderOpenAI (enable apiKey) c in
      let c :=
        match nonEmpty (Getenv env "OPENAI_ORGANIZATION") with
        | Some org =>
            setEntry ProviderOpenAI
              (with_OpenAI (fun o =>
                 mkOpenAIConfig org (BaseURL o) (OpenAIDefaultModel o))) c
        | None => c
        end in
      match nonEmpty (Getenv env "OPENAI_BASE_URL") with
      | Some baseURL =>
          setEntry ProviderOpenAI
            (with_OpenAI (fun o =>
               mkOpenAIConfig (Organization o) baseURL (OpenAIDefaultModel o))) c
      | None => c
      end
  | None => c
  end.

Definition loadGemini (env : gmap string string) (c : Config) : Config :=
  match nonEmpty (Getenv env "GEMINI_API_KEY") with
  | Some apiKey => setEntry ProviderGemini (enable apiKey) c
  | None => c
  end.

Definition loadGoogle (env : gmap string string) (c : Config) : Config :=
  match nonEmpty (Getenv env "GOOGLE_API_KEY") with
  | Some apiKey => setEntry ProviderGemini (enable apiKey) c
  | None => c
  end.

Definition loadVertex (env : gmap string string) (c : Config) : Config :=
  match nonEmpty (Getenv env "GOOGLE_GENAI_USE_VERTEXAI") with
  | Some _ =>
      setEntry ProviderGemini
        (with_Vertex (nonEmpty (Getenv env "GOOGLE_CLOUD_PROJECT"))
           (nonEmpty (Getenv env "GOOGLE_CLOUD_LOCATION"))) c
  | None => c
  end.

Section Libraries.

(** [strings.ToLower], [time.ParseDuration] (in nanoseconds) and
    [strconv.Atoi]; the last two are [None] when they return an error. *)
Variable strings_ToLower : string -> string.
Variable time_ParseDuration : string -> option Z.
Variable strconv_Atoi : string -> option Z.

(** [LoadFromEnv], on a configuration whose map is allocated (as
    [NewConfig] leaves it); [env] is the environment of the process.  It
    always returns the nil error. *)
Definition LoadFromEnv (c : Config) (env : gmap string string)
    : Config * option string :=
  let c := loadOpenAI env c in
  let c := loadGemini env c in
  let c := loadGoogle env c in
  let c := loadVertex env c in
  (* Default provider *)
  let c :=
    match nonEmpty (Getenv env "GOMINI_DEFAULT_PROVIDER") with
    | Some provider => with_DefaultProvider provider c
    | None => c
    end in
  (* Router strategy and cost optimization *)
  let c :=
    match nonEmpty (Getenv env "GOMINI_ROUTER_STRATEGY") with
    | Some strategy =>
        with_Router (fun r =>
          mkRouterConfig strategy (CostOptimized r) (FallbackOnError r)
            (MaxFallbackAttempts r)) c
    | None => c
    end in
  let c :=
    match nonEmpty (Getenv env "GOMINI_COST_OPTIMIZED") with
    | Some costOpt =>
        with_Router (fun r =>
          mkRouterConfig (Strategy r)
            (String.eqb (strings_ToLower costOpt) "true") (FallbackOnError r)
            (MaxFallbackAttempts r)) c
    | None => c
    end in
  (* Debug mode, request timeout, max retries, session settings *)
  let debug :=
    match nonEmpty (Getenv env "GOMINI_DEBUG") with
    | Some debug => String.eqb (strings_ToLower debug) "true"
    | None => Debug c
    end in
  let timeout :=
    match nonEmpty (Getenv env "GOMINI_REQUEST_TIMEOUT") with
    | Some timeout => default (RequestTimeout c) (time_ParseDuration timeout)
    | None => RequestTimeout c
    end in
  let retries :=
    match nonEmpty (Getenv env "GOMINI_MAX_RETRIES") with
    | Some retries => default (MaxRetries c) (strconv_Atoi retries)
    | None => MaxRetries c
    end in
  let turns :=
    match nonEmpty (Getenv env "GOMINI_MAX_SESSION_TURNS") with
    | Some maxTurns => default (MaxSessionTurns c) (strconv_Atoi maxTurns)
    | None => MaxSessionTurns c
    end in
  let skip :=
    match nonEmpty (Getenv env "GOMINI_SKIP_NEXT_SPEAKER_CHECK") with
    | Some skipCheck => String.eqb (strings_ToLower skipCheck) "true"
    | None => SkipNextSpeakerCheck c
    end in
  let detection :=
    match nonEmpty (Getenv env "GOMINI_LOOP_DETECTION_ENABLED") with
    | Some loopDetection => String.eqb (strings_ToLower loopDetection) "true"
    | None => LoopDetectionEnabled c
    end in
  (with_settings debug timeout retries turns skip detection c, None).

End Libraries.

(** The first loop of [Validate] over the entries still to visit;
    [enabledProviders] counts the enabled entries seen (a map holds far
    fewer entries than an [int] can count).  [inr] is the error
    returned from inside the loop. *)
Fixpoint validateEntries (visit : list (string * option ProviderConfig))
    (enabledProviders : Z) : outcome (Z + string) :=
  match visit with
  | [] => Done (inl enabledProviders)
  | (providerType, None) :: _ => Panic
  | (providerType, Some config) :: rest =>
      if negb (Enabled config) then validateEntries rest enabledProviders
      else
        let enabledProviders := enabledProviders + 1 in
        if String.eqb providerType ProviderOpenAI then
          if String.eqb (APIKey config) "" then
            Done (inr "OpenAI API key is required"%string)
          else validateEntries rest enabledProviders
        else if String.eqb providerType ProviderGemini then
          if negb (UseVertex config) && String.eqb (APIKey config) "" then
            Done (inr "Gemini API key is required (unless using Vertex AI)"%string)
          else if UseVertex config
                  && (String.eqb (Project config) ""
                      || String.eqb (Location config) "") then
            Done (inr "Vertex AI requires both project and location"%string)
          else validateEntries rest enabledProviders
        else validateEntries rest enabledProviders
  end.

(** The second loop of [Validate]: the first enabled entry visited. *)
Fixpoint firstEnabled (visit : list (string * option ProviderConfig))
    : outcome (option string) :=
  match visit with
  | [] => Done None
  | (providerType, None) :: _ => Panic
  | (providerType, Some config) :: rest =>
      if Enabled config then Done (Some providerType) else firstEnabled rest
  end.

(** [Validate]: the configuration as the call leaves it (it may set
    [DefaultProvider]) and the error, if any.  [order1] and [order2] are
    the orders in which its two loops visit the map. *)
Definition Validate (c : Config)
    (order1 order2 : list (string * option ProviderConfig))
    : outcome (Config * option string) :=
  if len (map_to_list (Providers c)) =? 0 then
    Done (c, Some "no providers configured"%string)
  else
    r ← validateEntries order1 0;
    match r with
    | inr err => Done (c, Some err)
    | inl enabledProviders =>
        if enabledProviders =? 0 then
          Done (c, Some "no enabled providers found"%string)
        else
          c ← (if String.eqb (DefaultProvider c) "" then
                 t ← firstEnabled order2;
                 Done (match t with
                       | Some providerType => with_DefaultProvider providerType c
                       | None => c
                       end)
               else Done c);
          let notEnabled :=
            ("default provider " ++ DefaultProvider c ++ " is not enabled")%string in
          match Providers c !! DefaultProvider c with
          | None => Done (c, Some notEnabled)
          | Some None => Panic
          | Some (Some defaultConfig) =>
              if negb (Enabled defaultConfig) then Done (c, Some notEnabled)
              else Done (c, None)
          end
    end.

(** [GetProviderConfig]: the configuration of the provider, or the text
    of the error. *)
Definition GetProviderConfig (c : Config) (provider : string)
    : outcome (ProviderConfig + string) :=
  match Providers c !! provider with
  | None => Done (inr ("provider " ++ provider ++ " not configured")%string)
  | Some None => Panic
  | Some (Some config) =>
      if negb (Enabled config) then
        Done (inr ("provider " ++ provider ++ " is disabled")%string)
      else Done (inl config)
  end.

(** [GetEnabledProviders], visiting the map in the order [visit]. *)
Fixpoint GetEnabledProviders (visit : list (string * option ProviderConfig))
    : outcome (list string) :=
  match visit with
  | [] => Done []
  | (providerType, None) :: _ => Panic
  | (providerType, Some config) :: rest =>
      enabled ← GetEnabledProviders rest;
      Done (if Enabled config then providerType :: enabled else enabled)
  end.

Definition HasProvider (c : Config) (provider : string) : outcome bool :=
  match Providers c !! provider with
  | None => Done false
  | Some None => Panic
  | Some (Some config) => Done (Enabled config)
  end.

(** [gemini.Config] and [openai.Config] of the provider packages, without
    [Timeout], which the conversions leave at zero. *)
Record geminiConfig : Type := mkgeminiConfig {
  gAPIKey : string;
  gProject : string;
  gLocation : string;
  gUseVertexAI : bool;
  gDefaultModel : string;
  gSafetySettings : list (string * string);
  gThinkingEnabled : bool;
  gThinkingBudget : Z;
  gExtraHeaders : gmap string string
}.

Record openaiConfig : Type := mkopenaiConfig {
  oAPIKey : string;
  oBaseURL : string;
  oOrganization : string;
  oProject : string;
  oDefaultModel : string;
  oExtraHeaders : gmap string string
}.

(** [convertToGeminiConfig] and [convertToOpenAIConfig] of client.go. *)
Definition convertToGeminiConfig (pc : ProviderConfig) : geminiConfig :=
  let config :=
    mkgeminiConfig (APIKey pc) (Project pc) (Location pc) (UseVertex pc)
      (DefaultModel pc) [] false 0 (ExtraHeaders pc) in
  match Gemini pc with
  | Some g =>
      mkgeminiConfig (gAPIKey config) (gProject config) (gLocation config)
        (gUseVertexAI config)
        (if negb (String.eqb (GeminiDefaultModel g) "")
         then GeminiDefaultModel g else gDefaultModel config)
        (SafetySettings g) (ThinkingEnabled g) (ThinkingBudget g)
        (gExtraHeaders config)
  | None => config
  end.

Definition convertToOpenAIConfig (pc : ProviderConfig) : openaiConfig :=
  let config :=
    mkopenaiConfig (APIKey pc) (Endpoint pc) "" (Project pc) (DefaultModel pc)
      (ExtraHeaders pc) in
  match OpenAI pc with
  | Some o =>
      mkopenaiConfig (oAPIKey config)
        (if negb (String.eqb (BaseURL o) "") then BaseURL o else oBaseURL config)
        (Organization o) (oProject config)
        (if negb (String.eqb (OpenAIDefaultModel o) "")
         then OpenAIDefaultModel o else oDefaultModel config)
        (oExtraHeaders config)
  | None => config
  end.

(** The provider a client holds: the vendor client behind it is known by
    the configuration it was built from. *)
Inductive Provider : Type :=
| GeminiProvider (config : geminiConfig)
| OpenAIProvider (config : openaiConfig).

(** [providers.NewLLMError] and [providers.WrapProviderError] of the
    providers package: the text of the error they build. *)
Definition NewLLMError (code message provider : string) : string :=
  ("[" ++ provider ++ ":" ++ code ++ "] " ++ message)%string.

Definition WrapProviderError (err provider model : string) : string :=
  ("[" ++ provider ++ ":" ++ model ++ "] " ++ err)%string.

Definition ErrorInvalidAPIKey : string := "invalid_api_key".
Definition ErrorInvalidAuth : string := "invalid_auth".

(** [core.Client] with the provider it holds. *)
Record Client : Type := mkClient {
  config : Config;
  currentProvider : option Provider;
  providerType : string;
  sessionTurnCount : Z;
  lastPromptID : string;
  loopDetector : LoopDetectionService
}.

Section Vendor.

(** [genai.NewClient] of the Gemini SDK: the error it returns, if any,
    for a client configuration (Vertex AI or API key). *)
Variable genai_NewClient : geminiConfig -> option string.

(** [gemini.NewProvider] *)
Definition gemini_NewProvider (config : geminiConfig) : Provider + string :=
  let client :=
    if gUseVertexAI config then
      if String.eqb (gProject config) "" || String.eqb (gLocation config) ""
      then inr (NewLLMError ErrorInvalidAuth
                  "Vertex AI requires project and location" ProviderGemini)
      else inl (genai_NewClient config)
    else
      if String.eqb (gAPIKey config) ""
      then inr (NewLLMError ErrorInvalidAPIKey "Gemini API key is required"
                  ProviderGemini)
      else inl (genai_NewClient config) in
  match client with
  | inr err => inr err
  | inl (Some err) => inr (WrapProviderError err ProviderGemini "")
  | inl None => inl (GeminiProvider config)
  end.

(** [openai.NewProvider]: [openai.NewClient] returns no error. *)
Definition openai_NewProvider (config : openaiConfig) : Provider + string :=
  if String.eqb (oAPIKey config) "" then
    inr (NewLLMError ErrorInvalidAPIKey "OpenAI API key is required"
           ProviderOpenAI)
  else inl (OpenAIProvider config).

(** [Client.initializeProvider]; [Close] of the provider it replaces does
    nothing in either provider package. *)
Definition initializeProvider (c : Client) (providerType : string)
    : outcome (Client * option string) :=
  r ← GetProviderConfig (config c) providerType;
  match r with
  | inr err =>
      Done (c, Some ("provider " ++ providerType ++ " not found in config: "
                     ++ err)%string)
  | inl providerConfig =>
      if negb (Enabled providerConfig) then
        Done (c, Some ("provider " ++ providerType ++ " is not enabled")%string)
      else
        let built :=
          if String.eqb providerType ProviderGemini then
            Some (gemini_NewProvider (convertToGeminiConfig providerConfig))
          else if String.eqb providerType ProviderOpenAI then
            Some (openai_NewProvider (convertToOpenAIConfig providerConfig))
          else None in
        match built with
        | None =>
            Done (c, Some ("unsupported provider type: " ++ providerType)%string)
        | Some (inr err) =>
            Done (c, Some ("failed to initialize " ++ providerType
                           ++ " provider: " ++ err)%string)
        | Some (inl provider) =>
            Done (mkClient (config c) (Some provider) providerType
                    (sessionTurnCount c) (lastPromptID c) (loopDetector c),
                  None)
        end
  end.

(** [Client.SwitchProvider] *)
Definition SwitchProvider (c : Client) (t : string)
    : outcome (Client * option string) :=
  if String.eqb (providerType c) t then Done (c, None)
  else initializeProvider c t.

(** [NewClient]: the client, or the text of the error.  [None] is the nil
    configuration; [order1] and [order2] are the orders of the two loops
    of [Validate] and [order3] the one of [GetEnabledProviders]. *)
Definition NewClient (config : option Config)
    (order1 order2 order3 : list (string * option ProviderConfig))
    : outcome (Client + string) :=
  let config := default NewConfig config in
  '(config, err) ← Validate config order1 order2;
  match err with
  | Some err => Done (inr ("invalid configuration: " ++ err)%string)
  | None =>
      let client := mkClient config None "" 0 "" NewLoopDetectionService in
      defaultProvider ←
        (if String.eqb (DefaultProvider config) "" then
           enabledProviders ← GetEnabledProviders order3;
           Done (match enabledProviders with
                 | [] => inr "no providers enabled"%string
                 | first :: _ => inl first
                 end)
         else Done (inl (DefaultProvider config)));
      match defaultProvider with
      | inr err => Done (inr err)
      | inl defaultProvider =>
          '(client, err) ← initializeProvider client defaultProvider;
          match err with
          | Some err =>
              Done (inr ("failed to initialize default provider: " ++ err)%string)
          | None => Done (inl client)
          end
      end
  end.

(** [NewClientFromEnv]: [LoadFromEnv] returns no error. *)
Definition NewClientFromEnv (strings_ToLower : string -> string)
    (time_ParseDuration strconv_Atoi : string -> option Z)
    (env : gmap string string)
    (order1 order2 order3 : list (string * option ProviderConfig))
    : outcome (Client + string) :=
  let config := NewConfig in
  let '(config, err) :=
    LoadFromEnv strings_ToLower time_ParseDuration strconv_Atoi config env in
  match err with
  | Some err =>
      Done (inr ("failed to load config from environment: " ++ err)%string)
  | None => NewClient (Some config) order1 order2 order3
  end.

End Vendor.

(** The statement notions: the map holds no nil pointer; a list is an
    order in which a [range] can visit the map; an entry passes the
    checks of [Validate]; and the configuration is one [Validate]
    accepts. *)
Definition noNil (c : Config) : Prop :=
  forall t, Providers c !! t <> Some None.

Definition visits (c : Config) (order : list (string * option ProviderConfig))
    : Prop :=
  order ≡ₚ map_to_list (Providers c).

Definition entryOK (t : string) (pc : ProviderConfig) : Prop :=
  Enabled pc = true ->
  (t = ProviderOpenAI -> APIKey pc <> ""%string) /\
  (t = ProviderGemini ->
   (UseVertex pc = false -> APIKey pc <> ""%string) /\
   (UseVertex pc = true -> Project pc <> ""%string /\ Location pc <> ""%string)).

Definition enabledIn (c : Config) (t : string) : Prop :=
  exists pc, Providers c !! t = Some (Some pc) /\ Enabled pc = true.

Definition valid (c : Config) : Prop :=
  (forall t pc, Providers c !! t = Some (Some pc) -> entryOK t pc) /\
  (exists t, enabledIn c t) /\
  (DefaultProvider c <> ""%string -> enabledIn c (DefaultProvider c)).

(** Data for examples: a configuration with an OpenAI entry, and two
    environments. *)
Definition exEntry : ProviderConfig :=
  mkProviderConfig true "sk-test" "" "" "" false "gpt-4" ∅ None None.

Definition exConfig : Config :=
  with_Providers {[ProviderOpenAI := Some exEntry]} NewConfig.

Definition exEnv : gmap string string :=
  {["OPENAI_API_KEY" := "sk-test"%string]}.

Definition exGoogleEnv : gmap string string :=
  <["GOOGLE_API_KEY" := "g-key"%string]>
    {["GEMINI_API_KEY" := "m-key"%string]}.

(** A block of [LoadFromEnv] that writes one entry of the map and
    disables nothing. *)
Definition writesOnly (t : string) (g : Config -> Config) : Prop :=
  forall c,
    (forall t', t' <> t -> Providers (g c) !! t' = Providers c !! t') /\
    (forall t', enabledIn c t' -> enabledIn (g c) t').

End Setup.

Section Detector.

(** The dynamic type of tool-call arguments and the two library functions
    the detector calls: [json.Marshal] ([None] when it returns an error)
    and [sha256.Sum256] followed by [hex.EncodeToString]. *)
Variable Args : Type.
Variable json_Marshal : Args -> option gostring.
Variable sha256hex : gostring -> string.

(** [getToolCallKey]: the error of [json.Marshal] is discarded, and the
    bytes it returns with an error are nil. *)
Definition getToolCallKey (toolCall : ToolCallEvent Args) : string :=
  let argsBytes := default [] (json_Marshal (ToolArguments toolCall)) in
  let keyString := str (ToolName toolCall) ++ str ":" ++ argsBytes in
  sha256hex keyString.

Definition checkToolCallLoop (l : LoopDetectionService)
    (toolCall : ToolCallEvent Args) : bool * LoopDetectionService :=
  let key := getToolCallKey toolCall in
  let l :=
    if String.eqb (lastToolCallKey l) key
    then with_toolCall (lastToolCallKey l)
           (wrap64 (toolCallRepetitionCount l + 1)) l
    else with_toolCall key 1 l in
  if toolCallRepetitionCount l >=? TOOL_CALL_LOOP_THRESHOLD
  then (true, l)
  else (false, l).

Definition hashChunk (chunk : gostring) : string := sha256hex chunk.

(** The [for] loop of [analyzeContentChunksForLoop]; every iteration
    moves the index one byte forward, [fuel] bounds their number. *)
Fixpoint analyzeLoop (fuel : nat) (l : LoopDetectionService)
    : outcome (bool * LoopDetectionService) :=
  if hasMoreChunksToProcess l then
    match fuel with
    | O => Fuel
    | S fuel' =>
        let endIndex := lastContentIndex l + CONTENT_CHUNK_SIZE in
        let endIndex :=
          if endIndex >? len (streamContentHistory l)
          then len (streamContentHistory l) else endIndex in
        if slice_ok (streamContentHistory l) (lastContentIndex l) endIndex then
          let currentChunk :=
            slice (streamContentHistory l) (lastContentIndex l) endIndex in
          let chunkHash := hashChunk currentChunk in
          '(detected, l) ← isLoopDetectedForChunk l currentChunk chunkHash;
          if detected : bool then Done (true, l)
          else analyzeLoop fuel' (with_index (lastContentIndex l + 1) l)
        else Panic
    end
  else Done (false, l).

Definition analyzeContentChunksForLoop (l : LoopDetectionService)
    : outcome (bool * LoopDetectionService) :=
  analyzeLoop (S (length (streamContentHistory l))) l.

Definition checkContentLoop (l : LoopDetectionService) (content : gostring)
    : outcome (bool * LoopDetectionService) :=
  let numFences := countFences content in
  let hasTable := MatchString reTable content in
  let hasListItem :=
    MatchString reBullet content || MatchString reNumbered content in
  let hasHeading := MatchString reHeading content in
  let hasBlockquote := MatchString reBlockquote content in
  let isDivider := MatchString reDivider content in
  let l :=
    if (numFences >? 0) || hasTable || hasListItem || hasHeading
       || hasBlockquote || isDivider
    then resetContentTracking false l else l in
  let wasInCodeBlock := inCodeBlock l in
  let l := with_inCodeBlock
             (Bool.eqb (Z.rem numFences 2 =? 0) (inCodeBlock l)) l in
  if wasInCodeBlock || inCodeBlock l || isDivider then Done (false, l)
  else
    let l := with_history (streamContentHistory l ++ content) l in
    let l := truncateAndUpdate l in
    analyzeContentChunksForLoop l.

(** [AddAndCheck]: the [switch] is on the event type, the checks run only
    when [Data] holds a value of the matching dynamic type. *)
Definition AddAndCheck (l : LoopDetectionService) (event : StreamEvent Args)
    : outcome (bool * LoopDetectionService) :=
  if loopDetected l then Done (true, l)
  else if String.eqb (EvType event) EventToolCall then
    let l := resetContentTracking false l in
    match Data event with
    | DataToolCall toolCallData =>
        let '(r, l) := checkToolCallLoop l toolCallData in
        let l := with_loopDetected r l in
        Done (loopDetected l, l)
    | _ => Done (loopDetected l, l)
    end
  else if String.eqb (EvType event) EventContent then
    match Data event with
    | DataContent contentData =>
        '(r, l) ← checkContentLoop l (Text contentData);
        let l := with_loopDetected r l in
        Done (loopDetected l, l)
    | _ => Done (loopDetected l, l)
    end
  else Done (loopDetected l, l).

(** ** The stream session controller ([Client.SendMessageStream])

    [Client] without the configuration that is only handed to providers
    and without the provider object itself: the active provider is known
    by [providerType], and what it streams is an argument of the call. *)
Record Client : Type := mkClient {
  config : Config;
  providerType : ProviderType;
  sessionTurnCount : Z;
  lastPromptID : string;
  loopDetector : LoopDetectionService
}.

Definition with_detector (d : LoopDetectionService) (c : Client) : Client :=
  mkClient (config c) (providerType c) (sessionTurnCount c) (lastPromptID c) d.
Definition with_session (n : Z) (p : string) (c : Client) : Client :=
  mkClient (config c) (providerType c) n p (loopDetector c).
Definition with_providerType (t : ProviderType) (c : Client) : Client :=
  mkClient (config c) t (sessionTurnCount c) (lastPromptID c) (loopDetector c).

(** The text of the error of [initializeProvider] for a provider type
    ([None] when the vendor client is built): it depends on the
    configuration and on the vendor packages only. *)
Variable initializeProviderError : Config -> ProviderType -> option string.

Definition initializeProvider (c : Client) (t : ProviderType)
    : Client * option string :=
  match initializeProviderError (config c) t with
  | Some err => (c, Some err)
  | None => (with_providerType t c, None)
  end.

Definition SwitchProvider (c : Client) (t : ProviderType)
    : Client * option string :=
  if String.eqb (providerType c) t then (c, None)
  else initializeProvider c t.

(** The constructors of events in events.go; [now] is [time.Now()]. *)
Definition NewMaxSessionTurnsEvent (provider : ProviderType) (model : string)
    (currentTurns maxTurns : Z) (promptID : string) (now : Z) : StreamEvent Args :=
  mkStreamEvent EventMaxSessionTurns provider model
    (DataMaxSessionTurns (mkMaxSessionTurnsEvent currentTurns maxTurns promptID))
    None now "" zeroMeta.

Definition NewLoopDetectedEvent (provider : ProviderType) (model : string)
    (loopType : LoopType) (promptID description : string)
    (turnCount repeatCount : Z) (now : Z) : StreamEvent Args :=
  mkStreamEvent EventLoopDetected provider model
    (DataLoopDetected
       (mkLoopDetectedEvent loopType promptID description turnCount repeatCount))
    None now "" zeroMeta.

Definition NewErrorEvent (provider : ProviderType) (model : string)
    (err : string) (retryable : bool) (now : Z) : StreamEvent Args :=
  mkStreamEvent EventError provider model (DataError err retryable)
    (Some err) now "" zeroMeta.

(** [convertEventData] *)
Definition convertEventData (eventType : EventType) (data : EventData Args)
    : EventData Args :=
  if String.eqb eventType EventContent then
    match data with
    | DataProvidersContent e => DataContent e
    | _ => data
    end
  else if String.eqb eventType EventThought then
    match data with
    | DataProvidersThought e => DataThought e
    | _ => data
    end
  else data.

(** The conversion at the head of the consumption loop. *)
Definition convertEvent (event : ProviderStreamEvent Args) : StreamEvent Args :=
  mkStreamEvent (PType event) (PProvider event) (PModel event)
    (convertEventData (PType event) (PData event)) (PError event)
    (PTimestamp event) (PRequestID event)
    (mkEventMeta 0 (PFinishReason (PMetadata event))
       (PUsage (PMetadata event)) None).

(** What the controller does to its collaborators, in order. *)
Inductive Call : Type :=
| CallReset (promptID : string)
| CallTurnStarted
| CallAddAndCheck (event : StreamEvent Args)
| CallProviderStream (provider : ProviderType).

(** The loop [for event := range providerChan]: the events sent on the
    result channel and the calls made. *)
Fixpoint consume (c : Client) (request : ChatRequest) (promptID : string)
    (now : Z) (events : list (ProviderStreamEvent Args))
    : outcome (Client * list (StreamEvent Args) * list Call) :=
  match events with
  | [] => Done (c, [], [])
  | event :: rest =>
      let gominiEvent := convertEvent event in
      '(detected, c, calls) ←
        (if LoopDetectionEnabled (config c) then
           '(r, d) ← AddAndCheck (loopDetector c) gominiEvent;
           Done (r, with_detector d c, [CallAddAndCheck gominiEvent])
         else Done (false, c, []));
      if detected : bool then
        let loopType :=
          if String.eqb (EvType gominiEvent) EventContent
          then LoopTypeContent else LoopTypeToolCall in
        let description :=
          if String.eqb (EvType gominiEvent) EventContent
          then "Content repetition loop detected"%string
          else "Tool call loop detected"%string in
        let loopEvent :=
          NewLoopDetectedEvent (providerType c) (ReqModel request) loopType
            promptID description (sessionTurnCount c) 0 now in
        Done (c, [loopEvent], calls)
      else if String.eqb (EvType gominiEvent) EventError then
        Done (c, [gominiEvent], calls)
      else
        '(c, out, calls') ← consume c request promptID now rest;
        Done (c, gominiEvent :: out, calls ++ calls')
  end.

(** The body of the goroutine of [SendMessageStream], run to completion:
    [upstream t] is what the provider of type [t] streams for the request. *)
Definition SendMessageStream (c : Client) (request : ChatRequest)
    (promptID : string) (now : Z)
    (upstream : ProviderType -> list (ProviderStreamEvent Args))
    : outcome (Client * list (StreamEvent Args) * list Call) :=
  let '(c, calls0) :=
    if negb (String.eqb (lastPromptID c) promptID) then
      (with_session 0 promptID
         (with_detector (Reset promptID (loopDetector c)) c),
       [CallReset promptID])
    else (c, []) in
  let c := with_session (wrap64 (sessionTurnCount c + 1)) (lastPromptID c) c in
  if (MaxSessionTurns (config c) >? 0)
     && (sessionTurnCount c >? MaxSessionTurns (config c)) then
    Done (c,
          [NewMaxSessionTurnsEvent (providerType c) (ReqModel request)
             (sessionTurnCount c) (MaxSessionTurns (config c)) promptID now],
          calls0)
  else
    let '(loopDetected, c, calls1) :=
      if LoopDetectionEnabled (config c) then
        let '(r, d) := TurnStarted (loopDetector c) in
        (r, with_detector d c, [CallTurnStarted])
      else (false, c, []) in
    if loopDetected : bool then
      Done (c,
            [NewLoopDetectedEvent (providerType c) (ReqModel request)
               LoopTypeLLMDetected promptID "LLM detected conversation loop"
               (sessionTurnCount c) 0 now],
            calls0 ++ calls1)
    else
      let '(c, err) :=
        if negb (String.eqb (ReqProvider request) "")
           && negb (String.eqb (ReqProvider request) (providerType c))
        then SwitchProvider c (ReqProvider request)
        else (c, None) in
      match err with
      | Some e =>
          Done (c,
                [NewErrorEvent (providerType c) (ReqModel request)
                   ("failed to switch provider: " ++ e)%string false now],
                calls0 ++ calls1)
      | None =>
          '(c, out, calls2) ←
            consume c request promptID now (upstream (providerType c));
          Done (c, out,
                calls0 ++ calls1 ++ [CallProviderStream (providerType c)] ++ calls2)
      end.

(** [NewClient], after the default provider [t] has been initialised. *)
Definition NewClient (cfg : Config) (t : ProviderType) : Client :=
  mkClient cfg t 0 "" NewLoopDetectionService.

(** [gomini.NewContentEvent] and [gomini.NewToolCallEvent] of events.go. *)
Definition NewContentEvent (provider : ProviderType) (model : string)
    (text : gostring) (delta : bool) (now : Z) : StreamEvent Args :=
  mkStreamEvent EventContent provider model
    (DataContent (mkContentEvent text delta false)) None now "" zeroMeta.

Definition NewToolCallEvent (provider : ProviderType) (model : string)
    (callID toolName : string) (args : Args) (now : Z) : StreamEvent Args :=
  mkStreamEvent EventToolCall provider model
    (DataToolCall (mkToolCallEvent callID toolName args "" 0%Q)) None now ""
    zeroMeta.

(** [n] successive calls of [checkToolCallLoop] with the same tool call:
    their results, in order, and the final state. *)
Fixpoint checkToolCallLoopN (n : nat) (l : LoopDetectionService)
    (toolCall : ToolCallEvent Args) : list bool * LoopDetectionService :=
  match n with
  | O => ([], l)
  | S n' =>
      let '(r, l) := checkToolCallLoop l toolCall in
      let '(rs, l) := checkToolCallLoopN n' l toolCall in
      (r :: rs, l)
  end.

(** A run of [AddAndCheck] over a list of events: the results, in order,
    and the final state. *)
Fixpoint AddAndCheckAll (l : LoopDetectionService) (events : list (StreamEvent Args))
    : outcome (list bool * LoopDetectionService) :=
  match events with
  | [] => Done ([], l)
  | event :: rest =>
      '(r, l) ← AddAndCheck l event;
      '(rs, l) ← AddAndCheckAll l rest;
      Done (r :: rs, l)
  end.

(** ** Notions used in the statements *)

(** The chunk of the history that starts at offset [i]. *)
Definition chunkAt (history : gostring) (i : Z) : gostring :=
  slice history i (i + CONTENT_CHUNK_SIZE).

(** The chunk under the scan cursor. *)
Definition currentChunk (l : LoopDetectionService) : gostring :=
  chunkAt (streamContentHistory l) (lastContentIndex l).

(** The [CONTENT_LOOP_THRESHOLD] most recent occurrences of a list, the
    span between the oldest and the newest of them, and the clustering
    condition: the span divided by [threshold - 1] is at most
    [1.5 * CHUNK_SIZE]. *)
Definition recentWindow (occ : list Z) : list Z :=
  drop (length occ - Z.to_nat CONTENT_LOOP_THRESHOLD) occ.

Definition windowSpan (w : list Z) : Z := default 0 (last w) - default 0 (head w).

Definition clustered (occ : list Z) : Prop :=
  (inject_Z (windowSpan (recentWindow occ))
     / inject_Z (CONTENT_LOOP_THRESHOLD - 1)
   <= (3 # 2) * inject_Z CONTENT_CHUNK_SIZE)%Q.

#[global] Instance clustered_dec (occ : list Z) : Decision (clustered occ).
Proof.
  unfold clustered.
  match goal with
  | |- Decision (?a <= ?b)%Q =>
      destruct (Qlt_le_dec b a) as [H|H];
      [right; apply Qlt_not_le; exact H | left; exact H]
  end.
Defined.

(** A fingerprint entry is valid for a buffer: it is not empty, every
    offset addresses a full chunk of the buffer whose digest is the key,
    and all its offsets address the same text. *)
Definition validEntry (history : gostring) (hash : string) (idxs : list Z)
    : Prop :=
  idxs <> [] /\
  Forall (fun i => 0 <= i /\ i + CONTENT_CHUNK_SIZE <= len history /\
                   hashChunk (chunkAt history i) = hash) idxs /\
  (forall i j, i ∈ idxs -> j ∈ idxs -> chunkAt history i = chunkAt history j).

Definition offsetsValid (l : LoopDetectionService) : Prop :=
  map_Forall (validEntry (streamContentHistory l)) (contentStats l).

(** The invariant of the content tracker. *)
Definition inv (l : LoopDetectionService) : Prop :=
  0 <= lastContentIndex l /\
  len (streamContentHistory l) <= MAX_HISTORY_LENGTH /\
  offsetsValid l.

(** The parts of [checkContentLoop]: whether a fragment carries a
    structural marker, the fence flag after it, whether it is exempt from
    the repetition analysis, and the state on which the scan runs if it is
    not. *)
Definition hasStructuralMarker (content : gostring) : bool :=
  (countFences content >? 0) || MatchString reTable content
  || (MatchString reBullet content || MatchString reNumbered content)
  || MatchString reHeading content || MatchString reBlockquote content
  || MatchString reDivider content.

Definition inCodeBlockAfter (inBlock : bool) (content : gostring) : bool :=
  Bool.eqb (Z.rem (countFences content) 2 =? 0) inBlock.

Definition exempt (l : LoopDetectionService) (content : gostring) : bool :=
  inCodeBlock l || inCodeBlockAfter (inCodeBlock l) content
  || MatchString reDivider content.

Definition afterMarkers (l : LoopDetectionService) (content : gostring)
    : LoopDetectionService :=
  with_inCodeBlock (inCodeBlockAfter (inCodeBlock l) content)
    (if hasStructuralMarker content then resetContentTracking false l else l).

Definition beforeScan (l : LoopDetectionService) (content : gostring)
    : LoopDetectionService :=
  let l := afterMarkers l content in
  truncateAndUpdate (with_history (streamContentHistory l ++ content) l).

(** [l'] differs from [l] in the fingerprint index and the scan cursor
    at most. *)
Definition scanFrame (l l' : LoopDetectionService) : Prop :=
  exists i m, l' = with_index i (with_stats m l).

(** The states a service can be in: built by [NewLoopDetectionService]
    and changed by its exported methods. *)
Inductive reachable : LoopDetectionService -> Prop :=
| reachable_new : reachable NewLoopDetectionService
| reachable_Reset p l : reachable l -> reachable (Reset p l)
| reachable_TurnStarted l : reachable l -> reachable (snd (TurnStarted l))
| reachable_AddAndCheck l event r l' :
    reachable l -> AddAndCheck l event = Done (r, l') -> reachable l'.

(** The results of a run that returned. *)
Definition results (o : outcome (list bool * LoopDetectionService))
    : option (list bool) :=
  match o with
  | Done (rs, _) => Some rs
  | _ => None
  end.

(** The state after a run (the initial state if the run panics). *)
Definition finalState (l : LoopDetectionService)
    (o : outcome (list bool * LoopDetectionService)) : LoopDetectionService :=
  match o with
  | Done (_, l') => l'
  | _ => l
  end.

Definition stateAfter (l : LoopDetectionService)
    (events : list (StreamEvent Args)) : LoopDetectionService :=
  finalState l (AddAndCheckAll l events).

(** One iteration of the scan that finds no loop, and the states the scan
    of [analyzeContentChunksForLoop] goes through from a state. *)
Definition scanStep (l l' : LoopDetectionService) : Prop :=
  hasMoreChunksToProcess l = true /\
  exists l1,
    isLoopDetectedForChunk l (currentChunk l) (hashChunk (currentChunk l))
      = Done (false, l1) /\
    l' = with_index (lastContentIndex l1 + 1) l1.

Inductive scans : LoopDetectionService -> LoopDetectionService -> Prop :=
| scans_here l : scans l l
| scans_next l l1 l2 : scanStep l l1 -> scans l1 l2 -> scans l l2.

(** The chunk under the cursor is a verified repetition: its digest is
    in the index and the text at the first recorded offset equals it. *)
Definition verifiedRepeat (l : LoopDetectionService) (occ : list Z) : Prop :=
  exists first rest,
    contentStats l !! hashChunk (currentChunk l) = Some (first :: rest) /\
    first + CONTENT_CHUNK_SIZE <= len (streamContentHistory l) /\
    chunkAt (streamContentHistory l) first = currentChunk l /\
    occ = (first :: rest) ++ [lastContentIndex l].

(** The fragment holds an odd number of fence delimiters: it toggles the
    fence flag. *)
Definition oddFences (content : gostring) : bool :=
  negb (Z.rem (countFences content) 2 =? 0).

(** The exported methods other than [Reset], and runs of them. *)
Inductive Method : Type :=
| MAddAndCheck (event : StreamEvent Args)
| MTurnStarted
| MIsLoopDetected.

Definition callMethod (l : LoopDetectionService) (m : Method)
    : outcome (bool * LoopDetectionService) :=
  match m with
  | MAddAndCheck event => AddAndCheck l event
  | MTurnStarted => Done (TurnStarted l)
  | MIsLoopDetected => Done (IsLoopDetected l, l)
  end.

Fixpoint callMethods (l : LoopDetectionService) (ms : list Method)
    : outcome (list bool * LoopDetectionService) :=
  match ms with
  | [] => Done ([], l)
  | m :: rest =>
      '(r, l) ← callMethod l m;
      '(rs, l) ← callMethods l rest;
      Done (r :: rs, l)
  end.

(** The provider events the consumption loop gets to: all of them up to
    and including the first one of type [EventError]. *)
Fixpoint throughFirstError (events : list (ProviderStreamEvent Args))
    : list (ProviderStreamEvent Args) :=
  match events with
  | [] => []
  | event :: rest =>
      if String.eqb (PType event) EventError then [event]
      else event :: throughFirstError rest
  end.

(** The session bookkeeping at the head of [SendMessageStream], and the
    test of the turn budget that follows it. *)
Definition enterTurn (c : Client) (promptID : string) : Client :=
  let c :=
    if negb (String.eqb (lastPromptID c) promptID) then
      with_session 0 promptID
        (with_detector (Reset promptID (loopDetector c)) c)
    else c in
  with_session (wrap64 (sessionTurnCount c + 1)) (lastPromptID c) c.

Definition turnBudgetExceeded (c : Client) : bool :=
  (MaxSessionTurns (config c) >? 0)
  && (sessionTurnCount c >? MaxSessionTurns (config c)).

(** What [SendMessageStream] does once the budget test has passed, in the
    client state [c] it has then and after the calls [calls0]. *)
Definition afterBudget (c : Client) (request : ChatRequest)
    (promptID : string) (now : Z)
    (upstream : ProviderType -> list (ProviderStreamEvent Args))
    (calls0 : list Call)
    : outcome (Client * list (StreamEvent Args) * list Call) :=
  let '(loopDetected, c, calls1) :=
    if LoopDetectionEnabled (config c) then
      let '(r, d) := TurnStarted (loopDetector c) in
      (r, with_detector d c, [CallTurnStarted])
    else (false, c, []) in
  if loopDetected : bool then
    Done (c,
          [NewLoopDetectedEvent (providerType c) (ReqModel request)
             LoopTypeLLMDetected promptID "LLM detected conversation loop"
             (sessionTurnCount c) 0 now],
          calls0 ++ calls1)
  else
    let '(c, err) :=
      if negb (String.eqb (ReqProvider request) "")
         && negb (String.eqb (ReqProvider request) (providerType c))
      then SwitchProvider c (ReqProvider request)
      else (c, None) in
    match err with
    | Some e =>
        Done (c,
              [NewErrorEvent (providerType c) (ReqModel request)
                 ("failed to switch provider: " ++ e)%string false now],
              calls0 ++ calls1)
    | None =>
        '(c, out, calls2) ←
          consume c request promptID now (upstream (providerType c));
        Done (c, out,
              calls0 ++ calls1 ++ [CallProviderStream (providerType c)] ++ calls2)
    end.

(** A generation call got past the turn budget: the provider was asked
    for its stream, or the provider switch the request asked for failed
    and its error is the only event. *)
Definition pastTurnBudget (out : list (StreamEvent Args)) (calls : list Call)
    : Prop :=
  (exists t, CallProviderStream t ∈ calls) \/
  (exists t model err now, out = [NewErrorEvent t model err false now]).

(** The condition under which the scan declares a loop at a state: a full
    chunk lies under the cursor, it is a verified repetition, and its
    occurrences, the present one included, number at least
    [CONTENT_LOOP_THRESHOLD] and are clustered. *)
Definition loopCondition (l : LoopDetectionService) : Prop :=
  hasMoreChunksToProcess l = true /\
  exists occ,
    verifiedRepeat l occ /\ CONTENT_LOOP_THRESHOLD <= len occ /\ clustered occ.

(** ** Notions used in the further properties *)

(** The state that has the bookkeeping fields (prompt identity and the
    turn counters of the LLM check) of [b] and the detection fields of
    [l]. *)
Definition with_book (b l : LoopDetectionService) : LoopDetectionService :=
  mkLoopDetectionService (promptID b) (lastToolCallKey l)
    (toolCallRepetitionCount l) (streamContentHistory l) (contentStats l)
    (lastContentIndex l) (loopDetected l) (inCodeBlock l)
    (turnsInCurrentPrompt b) (llmCheckInterval b) (lastCheckTurn b).

(** The outcome [o] with the function [f] applied to its final state. *)
Definition onState {A} (f : LoopDetectionService -> LoopDetectionService)
    (o : outcome (A * LoopDetectionService)) : outcome (A * LoopDetectionService) :=
  '(r, l) ← o; Done (r, f l).

(** The events [AddAndCheck] looks into: tool calls, and content events
    that carry a [gomini.ContentEvent]. *)
Definition relevant (event : StreamEvent Args) : bool :=
  String.eqb (EvType event) EventToolCall
  || (String.eqb (EvType event) EventContent
      && match Data event with DataContent _ => true | _ => false end).


(** A run of [TOOL_CALL_LOOP_THRESHOLD] equal signatures ends at position
    [j] of a list of signatures. *)
Definition streakEnds (keys : list string) (j : nat) : Prop :=
  (4 <= j)%nat /\
  exists key, forall i, (j - 4 <= i <= j)%nat -> keys !! i = Some key.

(** The event is a tool call that carries [tc]. *)
Definition carries (event : StreamEvent Args) (tc : ToolCallEvent Args) : Prop :=
  EvType event = EventToolCall /\ Data event = DataToolCall tc.


(** The offsets of a list increase strictly, from [lo] at least. *)
Fixpoint ascendingFrom (lo : Z) (idxs : list Z) : Prop :=
  match idxs with
  | [] => True
  | i :: rest => lo <= i /\ ascendingFrom (i + 1) rest
  end.

(** Every entry of the fingerprint index lists offsets that are not
    negative, increase strictly and lie before the scan cursor. *)
Definition ascending (l : LoopDetectionService) : Prop :=
  map_Forall
    (fun _ idxs =>
       ascendingFrom 0 idxs /\ Forall (fun i => i < lastContentIndex l) idxs)
    (contentStats l).


(** Every byte, and a sufficient condition for a pattern to match only
    texts that hold a byte of the class [P]. *)
Definition allAscii : list ascii := map ascii_of_nat (seq 0 256).

Fixpoint needs (P : ascii -> bool) (r : regex) : bool :=
  match r with
  | RNone => true
  | REps | RBot | REot | RStar _ => false
  | RClass p => forallb (fun c => implb (p c) (P c)) allAscii
  | RCat r1 r2 => needs P r1 || needs P r2
  | RAlt r1 r2 => needs P r1 && needs P r2
  end.

(** The bytes one of which every structural marker but the numbered list
    item needs: [`|+-*#>_=]. *)
Definition markerByte (c : ascii) : bool :=
  oneOf ["`"; "|"; "+"; "-"; "*"; "#"; ">"; "_"; "="]%char c.

(** The last [MAX_HISTORY_LENGTH] bytes of a text. *)
Definition keepRecent (h : gostring) : gostring :=
  if len h <=? MAX_HISTORY_LENGTH then h
  else slice_from h (len h - MAX_HISTORY_LENGTH).


(** The text repeats with period [p]: the byte at every offset is the
    byte [p] offsets earlier. *)
Definition periodic (p : nat) (s : gostring) : Prop :=
  forall i, (i + p < length s)%nat -> s !! (i + p)%nat = s !! i.


(** The event [SendMessageStream] sends in place of the event on which
    [AddAndCheck] answered [true]. *)
Definition loopEventFor (c : Client) (request : ChatRequest)
    (promptID : string) (now : Z) (event : StreamEvent Args) : StreamEvent Args :=
  NewLoopDetectedEvent (providerType c) (ReqModel request)
    (if String.eqb (EvType event) EventContent
     then LoopTypeContent else LoopTypeToolCall)
    promptID
    (if String.eqb (EvType event) EventContent
     then "Content repetition loop detected"%string
     else "Tool call loop detected"%string)
    (sessionTurnCount c) 0 now.


(** ** Run-time lemmas *)

Lemma wrap64_small (z : Z) : - 2 ^ 63 <= z < 2 ^ 63 -> wrap64 z = z.
Proof.
  intros Hz. unfold wrap64. rewrite Z.mod_small; lia.
Qed.

Lemma len_app {A} (s t : list A) : len (s ++ t) = len s + len t.
Proof. unfold len. rewrite length_app. lia. Qed.

Lemma len_nonneg {A} (s : list A) : 0 <= len s.
Proof. unfold len. lia. Qed.

Lemma len_slice_from {A} (s : list A) (lo : Z) :
  0 <= lo <= len s -> len (slice_from s lo) = len s - lo.
Proof.
  intros H. unfold slice_from, len in *. rewrite length_drop. lia.
Qed.

(** ** The tool-call repetition tracker *)

Lemma checkToolCallLoop_same (l : LoopDetectionService) (tc : ToolCallEvent Args) :
  lastToolCallKey l = getToolCallKey tc ->
  checkToolCallLoop l tc =
    (wrap64 (toolCallRepetitionCount l + 1) >=? TOOL_CALL_LOOP_THRESHOLD,
     with_toolCall (lastToolCallKey l)
       (wrap64 (toolCallRepetitionCount l + 1)) l).
Proof.
  intros Hk. unfold checkToolCallLoop.
  rewrite <- Hk, String.eqb_refl. cbn.
  destruct (_ >=? _); reflexivity.
Qed.

Lemma checkToolCallLoop_other (l : LoopDetectionService) (tc : ToolCallEvent Args) :
  lastToolCallKey l <> getToolCallKey tc ->
  checkToolCallLoop l tc = (false, with_toolCall (getToolCallKey tc) 1 l).
Proof.
  intros Hk. unfold checkToolCallLoop.
  apply String.eqb_neq in Hk. rewrite Hk. reflexivity.
Qed.

(** The first call of a streak leaves the count at 1 and reports nothing. *)
Lemma checkToolCallLoop_first (l : LoopDetectionService) (tc : ToolCallEvent Args) :
  lastToolCallKey l <> getToolCallKey tc \/ toolCallRepetitionCount l = 0 ->
  exists l',
    checkToolCallLoop l tc = (false, l') /\
    lastToolCallKey l' = getToolCallKey tc /\
    toolCallRepetitionCount l' = 1.
Proof.
  intros Hfresh.
  destruct (String.eqb_spec (lastToolCallKey l) (getToolCallKey tc)) as [He|Hne].
  - destruct Hfresh as [Hc|Hc]; [congruence|].
    rewrite checkToolCallLoop_same, Hc by assumption.
    eexists. split; [reflexivity|]. cbn. auto.
  - rewrite checkToolCallLoop_other by assumption.
    eexists. split; [reflexivity|]. cbn. auto.
Qed.

(** Inside a streak whose count is [c], the next [n] calls report
    [c + 1 >= 5], [c + 2 >= 5], ... *)
Lemma checkToolCallLoopN_streak (n : nat) :
  forall (l : LoopDetectionService) (tc : ToolCallEvent Args),
    lastToolCallKey l = getToolCallKey tc ->
    0 <= toolCallRepetitionCount l ->
    toolCallRepetitionCount l + Z.of_nat n <= maxInt64 ->
    fst (checkToolCallLoopN n l tc) =
      map (fun k => toolCallRepetitionCount l + Z.of_nat k + 1 >=? 5) (seq 0 n) /\
    lastToolCallKey (snd (checkToolCallLoopN n l tc)) = getToolCallKey tc /\
    toolCallRepetitionCount (snd (checkToolCallLoopN n l tc)) =
      toolCallRepetitionCount l + Z.of_nat n.
Proof.
  unfold maxInt64.
  induction n as [|n IH]; intros l tc Hk H0 Hmax.
  - cbn. repeat split; [assumption|lia].
  - cbn [checkToolCallLoopN].
    rewrite checkToolCallLoop_same by assumption.
    rewrite wrap64_small by lia.
    set (l1 := with_toolCall _ _ l).
    specialize (IH l1 tc).
    destruct (checkToolCallLoopN n l1 tc) as [rs l2] eqn:HN.
    cbn [fst snd] in *.
    destruct IH as (Hrs & Hkey & Hcnt); subst l1; cbn; try lia; try assumption.
    cbn in Hrs, Hcnt. repeat split.
    + rewrite Hrs, <- seq_shift, map_map. f_equal; [f_equal; lia|].
      apply map_ext. intros k. f_equal. lia.
    + assumption.
    + lia.
Qed.

Lemma map_seq_from (B : Type) (f g : nat -> B) (a m : nat) :
  (forall k, (k < m)%nat -> f k = g (a + k)%nat) ->
  map f (seq 0 m) = map g (seq a m).
Proof.
  revert f a. induction m as [|m IH]; intros f a Hfg; [reflexivity|].
  cbn. f_equal.
  - rewrite (Hfg 0%nat) by lia. f_equal. lia.
  - rewrite <- seq_shift, map_map. apply IH.
    intros k Hk. rewrite (Hfg (S k)) by lia. f_equal. lia.
Qed.

(** From the start of a streak the [k]-th identical call, counted from 1,
    reports a loop exactly when [k >= 5]. *)
Lemma checkToolCallLoopN_fresh (n : nat) (l : LoopDetectionService)
    (tc : ToolCallEvent Args) :
  Z.of_nat n <= maxInt64 ->
  lastToolCallKey l <> getToolCallKey tc \/ toolCallRepetitionCount l = 0 ->
  fst (checkToolCallLoopN n l tc) =
    map (fun k => bool_decide (5 <= k)%nat) (seq 1 n) /\
  ((0 < n)%nat -> lastToolCallKey (snd (checkToolCallLoopN n l tc)) = getToolCallKey tc) /\
  ((0 < n)%nat -> toolCallRepetitionCount (snd (checkToolCallLoopN n l tc)) = Z.of_nat n).
Proof.
  intros Hn Hfresh. destruct n as [|n]; [cbn; split; [reflexivity|lia]|].
  destruct (checkToolCallLoop_first l tc Hfresh) as (l1 & Hc & Hk & Hcnt).
  cbn [checkToolCallLoopN]. rewrite Hc.
  pose proof (checkToolCallLoopN_streak n l1 tc Hk) as Hs.
  destruct (checkToolCallLoopN n l1 tc) as [rs l2].
  cbn [fst snd] in *. rewrite Hcnt in Hs.
  destruct Hs as (Hrs & Hkey & Hc2); [lia | unfold maxInt64 in *; lia |].
  repeat split; [|auto|lia].
  cbn [seq map]. f_equal. rewrite Hrs. apply map_seq_from.
  intros k _. unfold TOOL_CALL_LOOP_THRESHOLD.
  destruct (Z.geb_spec (1 + Z.of_nat k + 1) 5);
    [rewrite bool_decide_eq_true_2|rewrite bool_decide_eq_false_2]; auto; lia.
Qed.

(** ** Slices of the rolling buffer *)

Lemma chunkAt_eq (h : gostring) (i : Z) :
  chunkAt h i = take 50 (drop (Z.to_nat i) h).
Proof.
  unfold chunkAt, slice, CONTENT_CHUNK_SIZE. f_equal. lia.
Qed.

(** Appending to the buffer does not change a chunk that lies inside it. *)
Lemma chunkAt_app (h c : gostring) (i : Z) :
  0 <= i -> i + CONTENT_CHUNK_SIZE <= len h ->
  chunkAt (h ++ c) i = chunkAt h i.
Proof.
  unfold CONTENT_CHUNK_SIZE, len. intros H0 Hi.
  rewrite !chunkAt_eq, drop_app_le by lia.
  rewrite take_app_le; [reflexivity|]. rewrite length_drop. lia.
Qed.

(** Dropping [t] bytes from the front moves the chunk at [i] to [i - t]. *)
Lemma chunkAt_slice_from (h : gostring) (t i : Z) :
  0 <= t -> 0 <= i ->
  chunkAt (slice_from h t) i = chunkAt h (i + t).
Proof.
  intros Ht Hi. unfold slice_from.
  rewrite !chunkAt_eq, drop_drop. do 2 f_equal. lia.
Qed.

(** ** One chunk: [isLoopDetectedForChunk] *)

Lemma at_head {A} (w : list A) : at_ w 0 = head w.
Proof. unfold at_. cbn. destruct w; reflexivity. Qed.

Lemma at_last {A} (w : list A) : w <> [] -> at_ w (len w - 1) = last w.
Proof.
  intros Hw. unfold at_, len.
  destruct (Z.ltb_spec (Z.of_nat (length w) - 1) 0) as [Hlt|_].
  - destruct w; [congruence|]. cbn [length] in Hlt. lia.
  - rewrite last_lookup. f_equal. lia.
Qed.

(** The comparison of the source, on rationals, is [clustered]. *)
Lemma clustered_span (occ : list Z) :
  clustered occ <-> windowSpan (recentWindow occ) <= 675.
Proof.
  unfold clustered, CONTENT_LOOP_THRESHOLD, CONTENT_CHUNK_SIZE.
  generalize (windowSpan (recentWindow occ)). intros z.
  unfold Qle, Qdiv, Qmult, Qinv, inject_Z. change (10 - 1) with 9.
  cbn [Qnum Qden]. lia.
Qed.

Lemma isLoopDetectedForChunk_unseen (l : LoopDetectionService)
    (chunk : gostring) (hash : string) :
  contentStats l !! hash = None ->
  isLoopDetectedForChunk l chunk hash =
    Done (false,
          with_stats (<[hash := [lastContentIndex l]]> (contentStats l)) l).
Proof. intros H. unfold isLoopDetectedForChunk. rewrite H. reflexivity. Qed.

Lemma isLoopDetectedForChunk_empty (l : LoopDetectionService)
    (chunk : gostring) (hash : string) :
  contentStats l !! hash = Some [] ->
  isLoopDetectedForChunk l chunk hash = Panic.
Proof. intros H. unfold isLoopDetectedForChunk. rewrite H. reflexivity. Qed.

Lemma isActualContentMatch_spec (l : LoopDetectionService)
    (chunk : gostring) (i : Z) :
  0 <= i ->
  isActualContentMatch l chunk i =
    Done (bool_decide (i + CONTENT_CHUNK_SIZE <= len (streamContentHistory l) /\
                       chunkAt (streamContentHistory l) i = chunk)).
Proof.
  intros Hi. unfold isActualContentMatch, slice_ok.
  destruct (Z.gtb_spec (i + CONTENT_CHUNK_SIZE) (len (streamContentHistory l)))
    as [Hgt|Hle].
  - rewrite bool_decide_eq_false_2 by lia. reflexivity.
  - replace (0 <=? i) with true by (symmetry; apply Z.leb_le; lia).
    replace (i <=? i + CONTENT_CHUNK_SIZE) with true
      by (symmetry; apply Z.leb_le; unfold CONTENT_CHUNK_SIZE; lia).
    replace (i + CONTENT_CHUNK_SIZE <=? len (streamContentHistory l)) with true
      by (symmetry; apply Z.leb_le; lia).
    cbn [andb]. f_equal. apply bool_decide_ext. fold (chunkAt (streamContentHistory l) i).
    tauto.
Qed.

Lemma isLoopDetectedForChunk_mismatch (l : LoopDetectionService)
    (chunk : gostring) (hash : string) (first : Z) (rest : list Z) :
  contentStats l !! hash = Some (first :: rest) -> 0 <= first ->
  ~ (first + CONTENT_CHUNK_SIZE <= len (streamContentHistory l) /\
     chunkAt (streamContentHistory l) first = chunk) ->
  isLoopDetectedForChunk l chunk hash = Done (false, l).
Proof.
  intros H H0 Hno. unfold isLoopDetectedForChunk. rewrite H, (at_head (first :: rest)).
  cbn [head of_index mbind outcome_bind].
  rewrite isActualContentMatch_spec by assumption.
  rewrite bool_decide_eq_false_2 by assumption. reflexivity.
Qed.

Lemma isLoopDetectedForChunk_match (l : LoopDetectionService)
    (chunk : gostring) (hash : string) (first : Z) (rest : list Z) :
  contentStats l !! hash = Some (first :: rest) -> 0 <= first ->
  first + CONTENT_CHUNK_SIZE <= len (streamContentHistory l) ->
  chunkAt (streamContentHistory l) first = chunk ->
  let occ := (first :: rest) ++ [lastContentIndex l] in
  isLoopDetectedForChunk l chunk hash =
    Done (bool_decide (CONTENT_LOOP_THRESHOLD <= len occ /\ clustered occ),
          with_stats (<[hash := occ]> (contentStats l)) l).
Proof.
  intros H H0 Hlen Hchunk occ. unfold isLoopDetectedForChunk.
  rewrite H, (at_head (first :: rest)). cbn [head of_index mbind outcome_bind].
  rewrite isActualContentMatch_spec by assumption.
  rewrite bool_decide_eq_true_2 by auto. cbn [negb]. fold occ.
  destruct (Z.ltb_spec (len occ) CONTENT_LOOP_THRESHOLD) as [Hlt|Hge].
  - rewrite bool_decide_eq_false_2 by lia. reflexivity.
  - set (w := slice_from occ (len occ - CONTENT_LOOP_THRESHOLD)).
    assert (Hw : w = recentWindow occ).
    { unfold w, slice_from, recentWindow, len. f_equal.
      unfold CONTENT_LOOP_THRESHOLD in *. unfold len in Hge. lia. }
    assert (Hne : w <> []).
    { rewrite Hw. unfold recentWindow. intros Hnil.
      apply (f_equal length) in Hnil. rewrite length_drop in Hnil.
      unfold len, CONTENT_LOOP_THRESHOLD in *. cbn in Hnil. lia. }
    rewrite at_last, at_head by assumption.
    destruct w as [|a w'] eqn:Ew; [congruence|].
    cbn [head]. destruct (last (a :: w')) as [z|] eqn:El.
    2:{ apply last_None in El. discriminate El. }
    cbn [of_index mbind outcome_bind]. f_equal. f_equal.
    assert (Hspan : windowSpan (recentWindow occ) = z - a).
    { rewrite <- Hw. unfold windowSpan. rewrite El. reflexivity. }
    destruct (Qle_bool _ _) eqn:Eq.
    + symmetry. apply bool_decide_eq_true_2. split; [assumption|].
      unfold clustered. rewrite Hspan. apply Qle_bool_iff. exact Eq.
    + symmetry. apply bool_decide_eq_false_2. intros [_ Hc].
      unfold clustered in Hc. rewrite Hspan in Hc.
      match type of Eq with
      | ?t = false =>
          assert (Hc' : t = true) by (apply Qle_bool_iff; exact Hc)
      end.
      congruence.
Qed.

(** ** The invariant of the content tracker *)

Lemma validEntry_app (h c : gostring) (hash : string) (idxs : list Z) :
  validEntry h hash idxs -> validEntry (h ++ c) hash idxs.
Proof.
  intros (Hne & Hall & Hsame). split; [assumption|].
  rewrite Forall_forall in Hall. split.
  - apply Forall_forall. intros i Hi.
    destruct (Hall i Hi) as (H0 & Hlen & Hh).
    rewrite chunkAt_app, len_app by assumption.
    pose proof (len_nonneg c). repeat split; [lia|lia|assumption].
  - intros i j Hi Hj.
    destruct (Hall i Hi) as (? & ? & _), (Hall j Hj) as (? & ? & _).
    rewrite !chunkAt_app by assumption. auto.
Qed.

Lemma elem_of_adjustIndices (t : Z) (idxs : list Z) (j : Z) :
  j ∈ adjustIndices t idxs <-> 0 <= j /\ j + t ∈ idxs.
Proof.
  induction idxs as [|i idxs IH]; cbn [adjustIndices].
  - rewrite !elem_of_nil. tauto.
  - destruct (Z.geb_spec (i - t) 0) as [Hge|Hlt].
    + rewrite !elem_of_cons, IH. split.
      * intros [->|[? ?]]; [split; [lia|left; lia]|tauto].
      * intros [? [Hj|?]]; [left; lia|tauto].
    + rewrite IH, elem_of_cons. split; [tauto|].
      intros [? [Hj|?]]; [lia|tauto].
Qed.

Lemma validEntry_truncate (h : gostring) (t : Z) (hash : string)
    (idxs : list Z) :
  0 <= t <= len h ->
  validEntry h hash idxs ->
  adjustIndices t idxs <> [] ->
  validEntry (slice_from h t) hash (adjustIndices t idxs).
Proof.
  intros Ht (Hne & Hall & Hsame) Hadj. split; [assumption|].
  rewrite Forall_forall in Hall. split.
  - apply Forall_forall. intros j Hj.
    apply elem_of_adjustIndices in Hj as [Hj0 Hj].
    destruct (Hall _ Hj) as (H0 & Hlen & Hh).
    rewrite chunkAt_slice_from, len_slice_from by lia.
    repeat split; [lia|lia|assumption].
  - intros i j Hi Hj.
    apply elem_of_adjustIndices in Hi as [Hi0 Hi].
    apply elem_of_adjustIndices in Hj as [Hj0 Hj].
    rewrite !chunkAt_slice_from by lia. auto.
Qed.

Lemma truncateAndUpdate_short (l : LoopDetectionService) :
  len (streamContentHistory l) <= MAX_HISTORY_LENGTH ->
  truncateAndUpdate l = l.
Proof.
  intros H. unfold truncateAndUpdate.
  destruct (Z.leb_spec (len (streamContentHistory l)) MAX_HISTORY_LENGTH);
    [reflexivity|lia].
Qed.

Lemma truncateAndUpdate_long (l : LoopDetectionService) :
  MAX_HISTORY_LENGTH < len (streamContentHistory l) ->
  let t := len (streamContentHistory l) - MAX_HISTORY_LENGTH in
  truncateAndUpdate l =
    with_stats
      (omap (fun oldIndices =>
               if len (adjustIndices t oldIndices) >? 0
               then Some (adjustIndices t oldIndices) else None)
         (contentStats l))
      (with_index (max 0 (lastContentIndex l - t))
         (with_history (slice_from (streamContentHistory l) t) l)).
Proof.
  intros H t. unfold truncateAndUpdate.
  destruct (Z.leb_spec (len (streamContentHistory l)) MAX_HISTORY_LENGTH);
    [lia|reflexivity].
Qed.

Lemma max_0_nonneg (z : Z) : 0 <= max 0 z.
Proof. unfold max. destruct (Z.gtb_spec 0 z); lia. Qed.

Lemma len_pos_nonempty {A} (s : list A) :
  ((len s >? 0) = true) <-> (s <> []).
Proof.
  unfold len. rewrite Z.gtb_lt. destruct s; cbn [length]; split; intros H.
  - lia.
  - congruence.
  - discriminate.
  - lia.
Qed.

(** [truncateAndUpdate] establishes the bound on the buffer and keeps the
    index valid. *)
Lemma truncateAndUpdate_inv (l : LoopDetectionService) :
  0 <= lastContentIndex l -> offsetsValid l -> inv (truncateAndUpdate l).
Proof.
  intros Hidx Hval.
  destruct (Z.le_gt_cases (len (streamContentHistory l)) MAX_HISTORY_LENGTH)
    as [Hle|Hgt].
  - rewrite truncateAndUpdate_short by assumption.
    split; [|split]; assumption.
  - rewrite truncateAndUpdate_long by lia.
    set (t := len (streamContentHistory l) - MAX_HISTORY_LENGTH).
    unfold inv, offsetsValid. cbn.
    split; [apply max_0_nonneg|]. split.
    + rewrite len_slice_from by (unfold t, MAX_HISTORY_LENGTH in *; lia).
      unfold t. lia.
    + intros hash idxs Hlook.
      rewrite lookup_omap in Hlook.
      destruct (contentStats l !! hash) as [old|] eqn:Hold; [|discriminate].
      cbn in Hlook.
      destruct (len (adjustIndices t old) >? 0) eqn:Hpos; [|discriminate].
      injection Hlook as <-.
      apply validEntry_truncate.
      * unfold t, MAX_HISTORY_LENGTH in *. lia.
      * exact (Hval hash old Hold).
      * apply len_pos_nonempty. assumption.
Qed.

Lemma hasMoreChunksToProcess_true (l : LoopDetectionService) :
  hasMoreChunksToProcess l = true <->
  lastContentIndex l + CONTENT_CHUNK_SIZE <= len (streamContentHistory l).
Proof. unfold hasMoreChunksToProcess. apply Z.leb_le. Qed.

(** At a position with a full chunk, [isLoopDetectedForChunk] returns; it
    changes the index only, and keeps it valid. *)
Lemma isLoopDetectedForChunk_inv (l : LoopDetectionService) :
  0 <= lastContentIndex l -> offsetsValid l ->
  hasMoreChunksToProcess l = true ->
  exists r l',
    isLoopDetectedForChunk l (currentChunk l) (hashChunk (currentChunk l))
      = Done (r, l') /\
    l' = with_stats (contentStats l') l /\ offsetsValid l'.
Proof.
  intros Hidx Hval Hmore. apply hasMoreChunksToProcess_true in Hmore.
  set (hash := hashChunk (currentChunk l)).
  assert (Hcur : 0 <= lastContentIndex l /\
                 lastContentIndex l + CONTENT_CHUNK_SIZE
                   <= len (streamContentHistory l) /\
                 hashChunk (chunkAt (streamContentHistory l) (lastContentIndex l))
                   = hash) by (repeat split; auto).
  destruct (contentStats l !! hash) as [idxs|] eqn:Hlook.
  - destruct (Hval hash idxs Hlook) as (Hne & Hall & Hsame).
    destruct idxs as [|first rest]; [congruence|].
    pose proof (Forall_inv Hall) as (Hf0 & Hflen & Hfh).
    destruct (decide (chunkAt (streamContentHistory l) first = currentChunk l))
      as [Heq|Hneq].
    + rewrite (isLoopDetectedForChunk_match l _ hash first rest)
        by assumption.
      eexists _, _. split; [reflexivity|]. split; [reflexivity|].
      unfold offsetsValid. cbn [streamContentHistory contentStats with_stats].
      apply map_Forall_insert_2; [|assumption].
      split; [intros Hnil; apply app_eq_nil in Hnil as [? _]; congruence|].
      split.
      * apply Forall_app. split; [assumption|]. apply Forall_singleton. exact Hcur.
      * assert (Hone : forall i, i ∈ (first :: rest) ++ [lastContentIndex l] ->
                  chunkAt (streamContentHistory l) i
                  = chunkAt (streamContentHistory l) first).
        { intros i [Hi|Hi%list_elem_of_singleton]%elem_of_app.
          - apply Hsame; [assumption|left].
          - subst i. symmetry. exact Heq. }
        intros i j Hi Hj. rewrite (Hone i Hi), (Hone j Hj). reflexivity.
    + rewrite (isLoopDetectedForChunk_mismatch l _ hash first rest);
        [|assumption|assumption|tauto].
      exists false, l. split; [reflexivity|]. split; [|assumption].
      destruct l; reflexivity.
  - rewrite isLoopDetectedForChunk_unseen by assumption.
    eexists _, _. split; [reflexivity|]. split; [reflexivity|].
    unfold offsetsValid. cbn [streamContentHistory contentStats with_stats].
    apply map_Forall_insert_2; [|assumption].
    split; [discriminate|]. split.
    + apply Forall_singleton. exact Hcur.
    + intros i j Hi%list_elem_of_singleton Hj%list_elem_of_singleton.
      congruence.
Qed.

Lemma scanFrame_refl (l : LoopDetectionService) : scanFrame l l.
Proof.
  exists (lastContentIndex l), (contentStats l). destruct l; reflexivity.
Qed.

Lemma scanFrame_trans (l1 l2 l3 : LoopDetectionService) :
  scanFrame l1 l2 -> scanFrame l2 l3 -> scanFrame l1 l3.
Proof.
  intros (i & m & ->) (j & k & ->). exists j, k. reflexivity.
Qed.

Lemma scanFrame_history (l l' : LoopDetectionService) :
  scanFrame l l' -> streamContentHistory l' = streamContentHistory l.
Proof. intros (i & m & ->). reflexivity. Qed.

(** ** The scan: [analyzeContentChunksForLoop] *)

Lemma analyzeLoop_end (fuel : nat) (l : LoopDetectionService) :
  hasMoreChunksToProcess l = false -> analyzeLoop fuel l = Done (false, l).
Proof. intros H. destruct fuel; cbn [analyzeLoop]; rewrite H; reflexivity. Qed.

Lemma analyzeLoop_step (fuel : nat) (l : LoopDetectionService) :
  0 <= lastContentIndex l ->
  hasMoreChunksToProcess l = true ->
  analyzeLoop (S fuel) l =
    '(detected, l1) ←
      isLoopDetectedForChunk l (currentChunk l) (hashChunk (currentChunk l));
    if detected : bool then Done (true, l1)
    else analyzeLoop fuel (with_index (lastContentIndex l1 + 1) l1).
Proof.
  intros Hidx Hmore. cbn [analyzeLoop]. rewrite Hmore.
  apply hasMoreChunksToProcess_true in Hmore.
  destruct (Z.gtb_spec (lastContentIndex l + CONTENT_CHUNK_SIZE)
              (len (streamContentHistory l))) as [Hgt|_]; [lia|].
  unfold slice_ok.
  replace (0 <=? lastContentIndex l) with true by (symmetry; apply Z.leb_le; lia).
  replace (lastContentIndex l <=? lastContentIndex l + CONTENT_CHUNK_SIZE)
    with true by (symmetry; apply Z.leb_le; unfold CONTENT_CHUNK_SIZE; lia).
  replace (lastContentIndex l + CONTENT_CHUNK_SIZE <=? len (streamContentHistory l))
    with true by (symmetry; apply Z.leb_le; lia).
  reflexivity.
Qed.

(** With enough fuel the scan returns; it keeps the invariant and changes
    the index and the cursor only. *)
Lemma analyzeLoop_inv (fuel : nat) :
  forall l : LoopDetectionService,
    0 <= lastContentIndex l -> offsetsValid l ->
    len (streamContentHistory l) - lastContentIndex l - 49 <= Z.of_nat fuel ->
    exists r l',
      analyzeLoop fuel l = Done (r, l') /\
      scanFrame l l' /\ 0 <= lastContentIndex l' /\ offsetsValid l'.
Proof.
  induction fuel as [|fuel IH]; intros l Hidx Hval Hfuel.
  - exists false, l. rewrite analyzeLoop_end.
    + auto using scanFrame_refl.
    + apply not_true_is_false. rewrite hasMoreChunksToProcess_true.
      unfold CONTENT_CHUNK_SIZE. lia.
  - destruct (hasMoreChunksToProcess l) eqn:Hmore.
    2:{ exists false, l. rewrite analyzeLoop_end by assumption.
        auto using scanFrame_refl. }
    rewrite analyzeLoop_step by assumption.
    destruct (isLoopDetectedForChunk_inv l Hidx Hval Hmore)
      as (r & l1 & -> & Hl1 & Hval1).
    cbn [mbind outcome_bind].
    assert (Hf1 : scanFrame l l1)
      by (exists (lastContentIndex l), (contentStats l1); rewrite Hl1 at 1;
          destruct l; reflexivity).
    destruct r.
    + exists true, l1. split; [reflexivity|]. split; [assumption|].
      split; [|assumption]. rewrite Hl1. cbn. assumption.
    + set (l2 := with_index (lastContentIndex l1 + 1) l1).
      assert (Hc1 : lastContentIndex l1 = lastContentIndex l)
        by (rewrite Hl1; reflexivity).
      assert (Hh1 : streamContentHistory l1 = streamContentHistory l)
        by (rewrite Hl1; reflexivity).
      destruct (IH l2) as (r & l' & Hrun & Hf & Hidx' & Hval').
      * cbn. lia.
      * exact Hval1.
      * cbn. rewrite Hh1, Hc1. lia.
      * exists r, l'. split; [exact Hrun|]. split; [|auto].
        apply (scanFrame_trans l l2 l'); [|assumption].
        apply (scanFrame_trans l l1 l2); [assumption|].
        exists (lastContentIndex l1 + 1), (contentStats l1).
        destruct l1; reflexivity.
Qed.

Lemma analyzeContentChunksForLoop_inv (l : LoopDetectionService) :
  0 <= lastContentIndex l -> offsetsValid l ->
  exists r l',
    analyzeContentChunksForLoop l = Done (r, l') /\
    scanFrame l l' /\ 0 <= lastContentIndex l' /\ offsetsValid l'.
Proof.
  intros Hidx Hval. apply analyzeLoop_inv; [assumption|assumption|].
  unfold len. lia.
Qed.

(** ** The fuel of the scan is never exhausted *)

Lemma isLoopDetectedForChunk_frame (l : LoopDetectionService)
    (chunk : gostring) (hash : string) (r : bool) (l1 : LoopDetectionService) :
  isLoopDetectedForChunk l chunk hash = Done (r, l1) ->
  exists m, l1 = with_stats m l.
Proof.
  assert (Hself : l = with_stats (contentStats l) l) by (destruct l; reflexivity).
  unfold isLoopDetectedForChunk.
  destruct (contentStats l !! hash) as [idxs|].
  2:{ intros [= <- <-]. eexists. reflexivity. }
  destruct (at_ idxs 0) as [first|]; cbn [of_index mbind outcome_bind];
    [|intros [=]].
  destruct (isActualContentMatch l chunk first) as [[|]| |];
    cbn [mbind outcome_bind negb]; try (intros [=]; fail).
  - destruct (len (idxs ++ [lastContentIndex l]) <? CONTENT_LOOP_THRESHOLD);
      [intros [= <- <-]; eexists; reflexivity|].
    set (w := slice_from _ _).
    destruct (at_ w (len w - 1)); cbn [of_index mbind outcome_bind];
      [|intros [=]].
    destruct (at_ w 0); cbn [of_index mbind outcome_bind]; [|intros [=]].
    intros [= <- <-]. eexists. reflexivity.
  - intros [= <- <-]. exists (contentStats l). exact Hself.
Qed.

Lemma isLoopDetectedForChunk_no_fuel (l : LoopDetectionService)
    (chunk : gostring) (hash : string) :
  isLoopDetectedForChunk l chunk hash <> Fuel.
Proof.
  unfold isLoopDetectedForChunk, isActualContentMatch.
  destruct (contentStats l !! hash) as [idxs|]; [|discriminate].
  destruct (at_ idxs 0) as [first|]; cbn [of_index mbind outcome_bind];
    [|discriminate].
  destruct (first + CONTENT_CHUNK_SIZE >? len (streamContentHistory l));
    cbn [mbind outcome_bind negb]; [discriminate|].
  destruct (slice_ok _ _ _); cbn [mbind outcome_bind]; [|discriminate].
  destruct (bool_decide _); cbn [negb]; [|discriminate].
  destruct (len (idxs ++ [lastContentIndex l]) <? CONTENT_LOOP_THRESHOLD);
    [discriminate|].
  set (w := slice_from _ _).
  destruct (at_ w (len w - 1)); cbn [of_index mbind outcome_bind];
    [|discriminate].
  destruct (at_ w 0); cbn [of_index mbind outcome_bind]; discriminate.
Qed.

Lemma analyzeLoop_fuel (fuel : nat) :
  forall l : LoopDetectionService,
    0 <= lastContentIndex l ->
    len (streamContentHistory l) - lastContentIndex l - 49 <= Z.of_nat fuel ->
    analyzeLoop fuel l <> Fuel.
Proof.
  induction fuel as [|fuel IH]; intros l Hidx Hfuel.
  - rewrite analyzeLoop_end; [discriminate|].
    apply not_true_is_false. rewrite hasMoreChunksToProcess_true.
    unfold CONTENT_CHUNK_SIZE. lia.
  - destruct (hasMoreChunksToProcess l) eqn:Hmore;
      [|rewrite analyzeLoop_end by assumption; discriminate].
    rewrite analyzeLoop_step by assumption.
    pose proof (isLoopDetectedForChunk_no_fuel l (currentChunk l)
                  (hashChunk (currentChunk l))) as Hnf.
    destruct (isLoopDetectedForChunk l (currentChunk l)
                (hashChunk (currentChunk l))) as [[r l1]| |] eqn:Hchunk;
      cbn [mbind outcome_bind]; [|discriminate|contradiction].
    destruct r; [discriminate|].
    destruct (isLoopDetectedForChunk_frame _ _ _ _ _ Hchunk) as (m & ->).
    apply IH; cbn [lastContentIndex streamContentHistory with_index with_stats];
      lia.
Qed.

(** In every state, valid or not, [analyzeContentChunksForLoop] returns
    or panics: the bound on the iterations is never what stops it. *)
Lemma analyzeContentChunksForLoop_fuel (l : LoopDetectionService) :
  analyzeContentChunksForLoop l <> Fuel.
Proof.
  unfold analyzeContentChunksForLoop.
  destruct (Z.lt_ge_cases (lastContentIndex l) 0) as [Hneg|Hidx].
  - cbn [analyzeLoop]. destruct (hasMoreChunksToProcess l); [|discriminate].
    unfold slice_ok.
    replace (0 <=? lastContentIndex l) with false
      by (symmetry; apply Z.leb_gt; lia).
    discriminate.
  - apply analyzeLoop_fuel; [assumption|]. unfold len. lia.
Qed.


(** ** One fragment: [checkContentLoop] *)

Lemma checkContentLoop_eq (l : LoopDetectionService) (content : gostring) :
  checkContentLoop l content =
    if exempt l content then Done (false, afterMarkers l content)
    else analyzeContentChunksForLoop (beforeScan l content).
Proof.
  unfold checkContentLoop, exempt, beforeScan, afterMarkers,
    hasStructuralMarker, inCodeBlockAfter.
  destruct ((countFences content >? 0) || _ || _ || _ || _ || _); reflexivity.
Qed.

Lemma inv_ext (l l' : LoopDetectionService) :
  streamContentHistory l' = streamContentHistory l ->
  contentStats l' = contentStats l ->
  lastContentIndex l' = lastContentIndex l ->
  inv l -> inv l'.
Proof.
  unfold inv, offsetsValid. intros -> -> ->. auto.
Qed.

Lemma inv_resetContentTracking (b : bool) (l : LoopDetectionService) :
  inv l -> inv (resetContentTracking b l).
Proof.
  intros (Hidx & Hlen & Hval). unfold inv, offsetsValid.
  unfold resetContentTracking.
  destruct b; cbn [lastContentIndex streamContentHistory contentStats
                   with_index with_stats with_history];
    (split; [lia|]); (split; [|apply map_Forall_empty]).
  - unfold MAX_HISTORY_LENGTH, len. cbn [length]. lia.
  - assumption.
Qed.

Lemma inv_afterMarkers (l : LoopDetectionService) (content : gostring) :
  inv l -> inv (afterMarkers l content).
Proof.
  intros Hinv. unfold afterMarkers.
  destruct (hasStructuralMarker content).
  - apply (inv_ext (resetContentTracking false l)); try reflexivity.
    apply inv_resetContentTracking. assumption.
  - apply (inv_ext l); try reflexivity. assumption.
Qed.

Lemma inv_beforeScan (l : LoopDetectionService) (content : gostring) :
  inv l -> inv (beforeScan l content).
Proof.
  intros Hinv. apply (inv_afterMarkers l content) in Hinv.
  unfold beforeScan. set (l1 := afterMarkers l content) in *.
  destruct Hinv as (Hidx & Hlen & Hval).
  apply truncateAndUpdate_inv; [exact Hidx|].
  unfold offsetsValid. cbn.
  eapply map_Forall_impl; [exact Hval|].
  intros hash idxs. apply validEntry_app.
Qed.

(** [checkContentLoop] returns in every state that satisfies the
    invariant, and keeps it. *)
Lemma checkContentLoop_inv (l : LoopDetectionService) (content : gostring) :
  inv l ->
  exists r l', checkContentLoop l content = Done (r, l') /\ inv l'.
Proof.
  intros Hinv. rewrite checkContentLoop_eq.
  destruct (exempt l content).
  - eexists _, _. split; [reflexivity|]. apply inv_afterMarkers. assumption.
  - destruct (inv_beforeScan l content Hinv) as (Hidx & Hlen & Hval).
    destruct (analyzeContentChunksForLoop_inv _ Hidx Hval)
      as (r & l' & Hrun & Hf & Hidx' & Hval').
    exists r, l'. split; [exact Hrun|].
    split; [assumption|]. split; [|assumption].
    rewrite (scanFrame_history _ _ Hf). assumption.
Qed.

Lemma AddAndCheck_inv (l : LoopDetectionService) (event : StreamEvent Args) :
  inv l ->
  exists r l', AddAndCheck l event = Done (r, l') /\ inv l'.
Proof.
  intros Hinv. unfold AddAndCheck.
  destruct (loopDetected l); [eauto|].
  destruct (String.eqb (EvType event) EventToolCall).
  - pose proof (inv_resetContentTracking false l Hinv) as Hr.
    destruct (Data event); try (eexists _, _; split; [reflexivity|];
      eapply inv_ext; [| | |exact Hr]; reflexivity).
    destruct (checkToolCallLoop _ _) as [r l1] eqn:Hc.
    eexists _, _. split; [reflexivity|].
    unfold checkToolCallLoop in Hc.
    destruct (String.eqb _ _), (_ >=? _); injection Hc as <- <-;
      (eapply inv_ext; [| | |exact Hr]; reflexivity).
  - destruct (String.eqb (EvType event) EventContent).
    + destruct (Data event); try (eexists _, _; split; [reflexivity|];
        eapply inv_ext; [| | |exact Hinv]; reflexivity).
      destruct (checkContentLoop_inv l (Text e) Hinv) as (r & l' & -> & Hinv').
      cbn [mbind outcome_bind]. eexists _, _. split; [reflexivity|].
      eapply inv_ext; [| | |exact Hinv']; reflexivity.
    + eexists _, _. split; [reflexivity|].
      eapply inv_ext; [| | |exact Hinv]; reflexivity.
Qed.

Lemma inv_new : inv NewLoopDetectionService.
Proof.
  unfold inv, offsetsValid, NewLoopDetectionService.
  cbn [lastContentIndex streamContentHistory contentStats].
  split; [lia|]. split; [|apply map_Forall_empty].
  unfold MAX_HISTORY_LENGTH, len. cbn [length]. lia.
Qed.

(** Every state of a service satisfies the invariant. *)
Lemma reachable_inv (l : LoopDetectionService) : reachable l -> inv l.
Proof.
  induction 1 as [|p l _ IH|l _ IH|l event r l' _ IH Hrun].
  - apply inv_new.
  - eapply inv_ext; [| | |exact (inv_resetContentTracking true l IH)]; reflexivity.
  - eapply inv_ext; [| | |exact IH]; reflexivity.
  - destruct (AddAndCheck_inv l event IH) as (r' & l'' & Hrun' & Hinv).
    congruence.
Qed.

(** ** When the scan declares a loop *)

Lemma isLoopDetectedForChunk_true_iff (l : LoopDetectionService) (r : bool)
    (l' : LoopDetectionService) :
  0 <= lastContentIndex l -> offsetsValid l ->
  hasMoreChunksToProcess l = true ->
  isLoopDetectedForChunk l (currentChunk l) (hashChunk (currentChunk l))
    = Done (r, l') ->
  (r = true <-> loopCondition l) /\
  (r = true ->
   exists occ, contentStats l' !! hashChunk (currentChunk l) = Some occ /\
               CONTENT_LOOP_THRESHOLD <= len occ /\ clustered occ).
Proof.
  intros Hidx Hval Hmore Hrun. unfold loopCondition.
  set (hash := hashChunk (currentChunk l)) in *.
  destruct (contentStats l !! hash) as [idxs|] eqn:Hlook.
  - destruct (Hval hash idxs Hlook) as (Hne & Hall & Hsame).
    destruct idxs as [|first rest]; [congruence|].
    pose proof (Forall_inv Hall) as (Hf0 & Hflen & Hfh).
    destruct (decide (chunkAt (streamContentHistory l) first = currentChunk l))
      as [Heq|Hneq].
    + rewrite (isLoopDetectedForChunk_match l _ hash first rest) in Hrun
        by assumption.
      injection Hrun as <- <-.
      set (occ := (first :: rest) ++ [lastContentIndex l]).
      split; [split|].
      * intros Hd%bool_decide_eq_true. split; [assumption|].
        exists occ. split; [|exact Hd].
        exists first, rest. fold hash. auto.
      * intros (_ & occ' & (f & rs & Hl & _ & _ & ->) & Hd).
        fold hash in Hl. rewrite Hlook in Hl. injection Hl as <- <-.
        apply bool_decide_eq_true_2. exact Hd.
      * intros Hd%bool_decide_eq_true. exists occ.
        cbn [contentStats with_stats]. rewrite lookup_insert_eq. auto.
    + rewrite (isLoopDetectedForChunk_mismatch l _ hash first rest) in Hrun;
        [|assumption|assumption|tauto].
      injection Hrun as <- <-.
      split; [split|]; try discriminate.
      intros (_ & occ' & (f & rs & Hl & Hlen & Hc & _) & _).
      fold hash in Hl. rewrite Hlook in Hl. injection Hl as <- <-.
      contradiction.
  - rewrite isLoopDetectedForChunk_unseen in Hrun by assumption.
    injection Hrun as <- <-.
    split; [split|]; try discriminate.
    intros (_ & occ' & (f & rs & Hl & _) & _).
    fold hash in Hl. congruence.
Qed.

Lemma scanStep_inv (l l2 : LoopDetectionService) :
  0 <= lastContentIndex l -> offsetsValid l -> scanStep l l2 ->
  0 <= lastContentIndex l2 /\ offsetsValid l2 /\
  streamContentHistory l2 = streamContentHistory l /\
  lastContentIndex l2 = lastContentIndex l + 1.
Proof.
  intros Hidx Hval (Hmore & l1 & Hrun & ->).
  destruct (isLoopDetectedForChunk_inv l Hidx Hval Hmore)
    as (r & l1' & Hrun' & Hl1 & Hval1).
  rewrite Hrun in Hrun'. injection Hrun' as <- <-.
  assert (Hc : lastContentIndex l1 = lastContentIndex l)
    by (rewrite Hl1; reflexivity).
  assert (Hh : streamContentHistory l1 = streamContentHistory l)
    by (rewrite Hl1; reflexivity).
  cbn [lastContentIndex streamContentHistory with_index].
  split; [lia|]. split; [exact Hval1|]. split; [exact Hh|lia].
Qed.

(** The scan returns [true] exactly when it reaches, through iterations
    that find nothing, a state where the loop condition holds. *)
Lemma analyzeLoop_true_iff (fuel : nat) :
  forall (l : LoopDetectionService) (r : bool) (l' : LoopDetectionService),
    0 <= lastContentIndex l -> offsetsValid l ->
    analyzeLoop fuel l = Done (r, l') ->
    (r = true <-> exists l1, scans l l1 /\ loopCondition l1) /\
    (r = true ->
     exists occ, contentStats l' !! hashChunk (currentChunk l') = Some occ /\
                 CONTENT_LOOP_THRESHOLD <= len occ /\ clustered occ).
Proof.
  assert (Hstop : forall l, hasMoreChunksToProcess l = false ->
            ~ exists l1, scans l l1 /\ loopCondition l1).
  { intros l Hmore (l1 & Hs & Hc).
    destruct Hs as [l|l l2 l3 (Hm & _) _]; [destruct Hc|]; congruence. }
  induction fuel as [|fuel IH]; intros l r l' Hidx Hval Hrun.
  - cbn [analyzeLoop] in Hrun.
    destruct (hasMoreChunksToProcess l) eqn:Hmore; [discriminate|].
    injection Hrun as <- <-.
    split; [split|]; try discriminate. intros H. destruct (Hstop l Hmore H).
  - destruct (hasMoreChunksToProcess l) eqn:Hmore.
    2:{ rewrite analyzeLoop_end in Hrun by assumption. injection Hrun as <- <-.
        split; [split|]; try discriminate.
        intros H. destruct (Hstop l Hmore H). }
    rewrite analyzeLoop_step in Hrun by assumption.
    destruct (isLoopDetectedForChunk_inv l Hidx Hval Hmore)
      as (d & l1 & Hchunk & Hl1 & Hval1).
    rewrite Hchunk in Hrun. cbn [mbind outcome_bind] in Hrun.
    destruct (isLoopDetectedForChunk_true_iff l d l1 Hidx Hval Hmore Hchunk)
      as (Hiff & Hocc).
    destruct d.
    + injection Hrun as <- <-.
      split; [split; [|reflexivity]|].
      * intros _. exists l. split; [constructor|]. apply Hiff. reflexivity.
      * intros _. destruct (Hocc eq_refl) as (occ & Ho).
        exists occ.
        replace (currentChunk l1) with (currentChunk l)
          by (rewrite Hl1; reflexivity).
        exact Ho.
    + set (l2 := with_index (lastContentIndex l1 + 1) l1) in *.
      assert (Hstep : scanStep l l2) by (split; [assumption|]; eauto).
      destruct (scanStep_inv l l2 Hidx Hval Hstep) as (Hidx2 & Hval2 & _).
      destruct (IH l2 r l' Hidx2 Hval2 Hrun) as (IHiff & IHocc).
      split; [|exact IHocc]. rewrite IHiff. split.
      * intros (lx & Hs & Hc). exists lx. split; [|exact Hc].
        econstructor; eassumption.
      * intros (lx & Hs & Hc).
        destruct Hs as [l|l l2' l3 Hstep' Hs].
        -- apply Hiff in Hc. discriminate.
        -- destruct Hstep' as (_ & l1' & Hchunk' & ->).
           rewrite Hchunk in Hchunk'. injection Hchunk' as <-.
           exists l3. auto.
Qed.

(** C1.  Content clustering.  In every state of the tracker and for every
    fragment, [checkContentLoop] returns, and it declares a loop exactly
    when the fragment is not exempt and the scan reaches a position whose
    chunk is a verified repetition with at least [CONTENT_LOOP_THRESHOLD]
    occurrences of which the [CONTENT_LOOP_THRESHOLD] most recent span, from
    oldest to newest, at most [1.5 * CONTENT_CHUNK_SIZE] on average over
    [CONTENT_LOOP_THRESHOLD - 1] gaps.  When a loop is declared the index
    holds such a list; with fewer than [CONTENT_LOOP_THRESHOLD] verified
    occurrences no loop is declared. *)
Theorem content_loop_clustering (l : LoopDetectionService) (content : gostring) :
  inv l ->
  exists r l',
    checkContentLoop l content = Done (r, l') /\
    (r = true <->
     exempt l content = false /\
     exists l1, scans (beforeScan l content) l1 /\ loopCondition l1) /\
    (r = true ->
     exists occ, contentStats l' !! hashChunk (currentChunk l') = Some occ /\
                 CONTENT_LOOP_THRESHOLD <= len occ /\ clustered occ).
Proof.
  intros Hinv.
  destruct (checkContentLoop_inv l content Hinv) as (r & l' & Hrun & _).
  exists r, l'. split; [exact Hrun|].
  rewrite checkContentLoop_eq in Hrun.
  destruct (exempt l content) eqn:Hex.
  - injection Hrun as <- <-.
    split; [split|]; try discriminate. intros [? _]. discriminate.
  - destruct (inv_beforeScan l content Hinv) as (Hidx & _ & Hval).
    destruct (analyzeLoop_true_iff _ _ r l' Hidx Hval Hrun) as (Hiff & Hocc).
    split.
    + rewrite Hiff. tauto.
    + exact Hocc.
Qed.

(** ** Truncation of the rolling buffer *)

Lemma adjustIndices_filter (t : Z) (idxs : list Z) :
  adjustIndices t idxs = filter (fun j => 0 <= j) ((fun i => i - t) <$> idxs).
Proof.
  induction idxs as [|i idxs IH]; [reflexivity|].
  cbn [adjustIndices fmap list_fmap]. rewrite IH.
  destruct (Z.geb_spec (i - t) 0) as [Hge|Hlt].
  - rewrite filter_cons_True by lia. reflexivity.
  - rewrite filter_cons_False by lia. reflexivity.
Qed.

Lemma AddAndCheckAll_reachable (events : list (StreamEvent Args)) :
  forall l, reachable l -> reachable (finalState l (AddAndCheckAll l events)).
Proof.
  induction events as [|event events IH]; intros l Hl; [exact Hl|].
  cbn [AddAndCheckAll].
  destruct (AddAndCheck l event) as [[r l1]| |] eqn:Hrun; try exact Hl.
  cbn [mbind outcome_bind].
  pose proof (reachable_AddAndCheck l event r l1 Hl Hrun) as Hl1.
  specialize (IH l1 Hl1).
  destruct (AddAndCheckAll l1 events) as [[rs l2]| |]; cbn in *;
    first [exact IH | exact Hl].
Qed.

Lemma stateAfter_inv (events : list (StreamEvent Args)) :
  inv (stateAfter NewLoopDetectionService events).
Proof.
  apply reachable_inv, AddAndCheckAll_reachable, reachable_new.
Qed.

(** C5.  Truncation correctness.  In every state of a service the buffer
    holds at most [MAX_HISTORY_LENGTH] bytes and every stored offset
    addresses a full chunk of the present buffer whose digest is its key;
    [checkContentLoop] returns and keeps both.  When [truncateAndUpdate]
    drops [t > 0] bytes, the entry of every fingerprint becomes its old
    offsets shifted left by [t] without those that became negative, and
    is removed when none is left; the chunk at a shifted offset is the
    chunk that was at the old offset; and [isActualContentMatch] at a
    shifted offset accepts only the text that was at the old offset. *)
Theorem truncation_correct (l : LoopDetectionService) (content : gostring) :
  (reachable l ->
   len (streamContentHistory l) <= MAX_HISTORY_LENGTH /\ offsetsValid l /\
   exists r l',
     checkContentLoop l content = Done (r, l') /\
     len (streamContentHistory l') <= MAX_HISTORY_LENGTH /\ offsetsValid l') /\
  let t := len (streamContentHistory l) - MAX_HISTORY_LENGTH in
  let l' := truncateAndUpdate l in
  len (streamContentHistory l') <= MAX_HISTORY_LENGTH /\
  (0 < t ->
   streamContentHistory l' = slice_from (streamContentHistory l) t /\
   (forall hash,
      contentStats l' !! hash =
        old ← contentStats l !! hash;
        let shifted := filter (fun j => 0 <= j) ((fun i => i - t) <$> old) in
        if decide (shifted = []) then None else Some shifted) /\
   (forall j, 0 <= j ->
      chunkAt (streamContentHistory l') j = chunkAt (streamContentHistory l) (j + t)) /\
   (forall chunk j, 0 <= j ->
      isActualContentMatch l' chunk j = Done true ->
      chunkAt (streamContentHistory l) (j + t) = chunk)).
Proof.
  split.
  - intros Hl. pose proof (reachable_inv l Hl) as Hinv.
    destruct Hinv as (Hidx & Hlen & Hval).
    split; [exact Hlen|]. split; [exact Hval|].
    destruct (checkContentLoop_inv l content (conj Hidx (conj Hlen Hval)))
      as (r & l' & Hrun & _ & Hlen' & Hval').
    eauto.
  - intros t l'. subst l'.
    destruct (Z.le_gt_cases (len (streamContentHistory l)) MAX_HISTORY_LENGTH)
      as [Hle|Hgt].
    + rewrite truncateAndUpdate_short by assumption.
      split; [assumption|]. intros Ht. unfold t in Ht. lia.
    + rewrite truncateAndUpdate_long by lia. fold t.
      cbn [streamContentHistory contentStats with_stats with_index with_history].
      assert (Ht : 0 <= t <= len (streamContentHistory l))
        by (unfold t, MAX_HISTORY_LENGTH in *; lia).
      split; [rewrite len_slice_from by lia; unfold t; lia|].
      intros _. split; [reflexivity|]. split; [|split].
      * intros hash. rewrite lookup_omap.
        destruct (contentStats l !! hash) as [old|]; [|reflexivity].
        cbn [mbind option_bind]. rewrite <- adjustIndices_filter.
        destruct (len (adjustIndices t old) >? 0) eqn:Hpos.
        -- apply len_pos_nonempty in Hpos. rewrite decide_False by assumption.
           reflexivity.
        -- rewrite decide_True; [reflexivity|].
           destruct (adjustIndices t old); [reflexivity|].
           unfold len in Hpos. cbn [length] in Hpos.
           rewrite Z.gtb_ltb in Hpos. apply Z.ltb_ge in Hpos. lia.
      * intros j Hj. apply chunkAt_slice_from; lia.
      * intros chunk j Hj Hm.
        rewrite isActualContentMatch_spec in Hm by assumption.
        injection Hm as Hm. apply bool_decide_eq_true in Hm as [_ Hm].
        cbn [streamContentHistory with_stats with_index with_history] in Hm.
        rewrite chunkAt_slice_from in Hm by lia. exact Hm.
Qed.

(** ** The façade: [AddAndCheck] *)

Lemma AddAndCheck_latched (l : LoopDetectionService) (event : StreamEvent Args) :
  loopDetected l = true -> AddAndCheck l event = Done (true, l).
Proof. intros H. unfold AddAndCheck. rewrite H. reflexivity. Qed.

(** The result of [AddAndCheck] is the flag it leaves. *)
Lemma AddAndCheck_result (l : LoopDetectionService) (event : StreamEvent Args)
    (r : bool) (l' : LoopDetectionService) :
  AddAndCheck l event = Done (r, l') -> loopDetected l' = r.
Proof.
  unfold AddAndCheck. destruct (loopDetected l) eqn:Hd.
  - intros [= <- <-]. exact Hd.
  - destruct (String.eqb (EvType event) EventToolCall).
    + destruct (Data event); try (intros [= <- <-]; reflexivity).
      destruct (checkToolCallLoop _ _). intros [= <- <-]. reflexivity.
    + destruct (String.eqb (EvType event) EventContent).
      * destruct (Data event); try (intros [= <- <-]; exact Hd).
        destruct (checkContentLoop l (Text e)) as [[r0 l0]| |];
          cbn [mbind outcome_bind]; try discriminate.
        intros [= <- <-]. reflexivity.
      * intros [= <- <-]. exact Hd.
Qed.

Lemma AddAndCheck_toolCall (l : LoopDetectionService) (event : StreamEvent Args) :
  loopDetected l = false -> EvType event = EventToolCall ->
  AddAndCheck l event =
    match Data event with
    | DataToolCall toolCallData =>
        let '(r, l1) := checkToolCallLoop (resetContentTracking false l)
                          toolCallData in
        Done (r, with_loopDetected r l1)
    | _ => Done (false, resetContentTracking false l)
    end.
Proof.
  intros Hd Ht. unfold AddAndCheck. rewrite Hd, Ht. cbn [String.eqb].
  change (String.eqb EventToolCall EventToolCall) with true. cbn iota.
  destruct (Data event); try (cbn; rewrite Hd; reflexivity).
  destruct (checkToolCallLoop _ _). reflexivity.
Qed.

Lemma AddAndCheck_content (l : LoopDetectionService) (event : StreamEvent Args)
    (c : ContentEvent) :
  loopDetected l = false -> EvType event = EventContent ->
  Data event = DataContent c ->
  AddAndCheck l event =
    '(r, l1) ← checkContentLoop l (Text c); Done (r, with_loopDetected r l1).
Proof.
  intros Hd Ht Hdata. unfold AddAndCheck. rewrite Hd, Ht, Hdata.
  change (String.eqb EventContent EventToolCall) with false.
  change (String.eqb EventContent EventContent) with true. cbn iota.
  destruct (checkContentLoop l (Text c)) as [[r l1]| |]; reflexivity.
Qed.

Lemma checkToolCallLoop_frame (l : LoopDetectionService) (tc : ToolCallEvent Args) :
  exists k n, snd (checkToolCallLoop l tc) = with_toolCall k n l.
Proof.
  unfold checkToolCallLoop.
  destruct (String.eqb _ _), (_ >=? _); cbn [snd]; eauto.
Qed.

(** ** Tool-call streaks through the façade *)

Lemma AddAndCheckAll_latched (events : list (StreamEvent Args)) :
  forall l,
    loopDetected l = true ->
    AddAndCheckAll l events = Done (replicate (length events) true, l).
Proof.
  induction events as [|event rest IH]; intros l Hd; [reflexivity|].
  cbn [AddAndCheckAll]. rewrite AddAndCheck_latched by assumption.
  cbn [mbind outcome_bind]. rewrite IH by assumption. reflexivity.
Qed.

Lemma map_seq_all_true (f : nat -> bool) (a n : nat) :
  (forall k, (a <= k)%nat -> f k = true) ->
  map f (seq a n) = replicate n true.
Proof.
  revert a. induction n as [|n IH]; intros a Hf; [reflexivity|].
  cbn [seq map replicate]. rewrite Hf by lia. f_equal.
  apply IH. intros k Hk. apply Hf. lia.
Qed.

(** Inside a streak of [c < 5] identical calls, [AddAndCheck] answers the
    next calls [c + 1 >= 5], [c + 2 >= 5], ..., however many they are. *)
Lemma AddAndCheckAll_streak (tc : ToolCallEvent Args) (event : StreamEvent Args)
    (n : nat) :
  EvType event = EventToolCall -> Data event = DataToolCall tc ->
  forall (l : LoopDetectionService) (c : nat),
    loopDetected l = false ->
    lastToolCallKey l = getToolCallKey tc ->
    toolCallRepetitionCount l = Z.of_nat c -> (c <= 4)%nat ->
    exists l',
      AddAndCheckAll l (replicate n event)
      = Done (map (fun k => bool_decide (5 <= c + k)%nat) (seq 1 n), l').
Proof.
  intros Ht Hdata. induction n as [|n IH]; intros l c Hd Hk Hc Hc4.
  - exists l. reflexivity.
  - cbn [replicate AddAndCheckAll].
    rewrite AddAndCheck_toolCall, Hdata by assumption.
    rewrite checkToolCallLoop_same by exact Hk.
    cbn [toolCallRepetitionCount lastToolCallKey resetContentTracking
         with_index with_stats with_history].
    rewrite Hc, wrap64_small by lia.
    cbn [mbind outcome_bind seq map].
    destruct (Nat.eq_dec c 4%nat) as [-> | Hne].
    + change (Z.of_nat 4 + 1 >=? TOOL_CALL_LOOP_THRESHOLD) with true.
      rewrite AddAndCheckAll_latched by reflexivity.
      cbn [mbind outcome_bind]. eexists. f_equal. f_equal.
      rewrite length_replicate. f_equal.
      symmetry. apply map_seq_all_true. intros k Hk2.
      apply bool_decide_eq_true_2. lia.
    + replace (Z.of_nat c + 1 >=? TOOL_CALL_LOOP_THRESHOLD) with false
        by (symmetry; unfold TOOL_CALL_LOOP_THRESHOLD;
            rewrite Z.geb_leb; apply Z.leb_gt; lia).
      match goal with
      | |- context [AddAndCheckAll ?l1 (replicate n event)] =>
          destruct (IH l1 (S c)) as (l' & ->)
      end.
      * reflexivity.
      * cbn. exact Hk.
      * cbn. lia.
      * lia.
      * cbn [mbind outcome_bind]. exists l'. f_equal. f_equal.
        f_equal; [symmetry; apply bool_decide_eq_false_2; lia|].
        rewrite <- (seq_shift n 1), map_map. apply map_ext.
        intros k. apply bool_decide_ext. lia.
Qed.

(** From the start of a streak [AddAndCheck] answers the [k]-th identical
    tool call [true] exactly when [k >= 5]. *)
Lemma AddAndCheckAll_fresh (tc : ToolCallEvent Args) (event : StreamEvent Args)
    (n : nat) (l : LoopDetectionService) :
  EvType event = EventToolCall -> Data event = DataToolCall tc ->
  loopDetected l = false ->
  lastToolCallKey l <> getToolCallKey tc \/ toolCallRepetitionCount l = 0 ->
  exists l',
    AddAndCheckAll l (replicate n event)
    = Done (map (fun k => bool_decide (5 <= k)%nat) (seq 1 n), l').
Proof.
  intros Ht Hdata Hd Hfresh. destruct n as [|n]; [exists l; reflexivity|].
  cbn [replicate AddAndCheckAll].
  rewrite AddAndCheck_toolCall, Hdata by assumption.
  destruct (checkToolCallLoop_first (resetContentTracking false l) tc Hfresh)
    as (l1 & -> & Hk1 & Hc1).
  cbn [mbind outcome_bind].
  destruct (AddAndCheckAll_streak tc event n Ht Hdata
              (with_loopDetected false l1) 1%nat) as (l' & ->);
    [reflexivity|exact Hk1|exact Hc1|lia|].
  cbn [mbind outcome_bind seq map]. exists l'. f_equal. f_equal.
  f_equal. rewrite <- (seq_shift n 1), map_map. reflexivity.
Qed.

(** C2.  Tool-call threshold.  For [n] successive [checkToolCallLoop]
    calls with the same tool call, starting a streak (the stored
    signature differs, or nothing has been counted yet), the [k]-th call
    returns [true] exactly when [k >= 5], for every number of calls an
    [int] can count.  A call with a different signature returns [false]
    and leaves the repeat count at 1, not 0, and the streak of the first
    tool call then starts over.  Through [AddAndCheck], which latches,
    the [k]-th identical tool-call event is answered [true] exactly when
    [k >= 5], however many there are. *)
Theorem tool_call_loop_threshold (n : nat) (l : LoopDetectionService)
    (tc other : ToolCallEvent Args) (event : StreamEvent Args) (m : nat) :
  Z.of_nat n <= maxInt64 ->
  lastToolCallKey l <> getToolCallKey tc \/ toolCallRepetitionCount l = 0 ->
  getToolCallKey other <> getToolCallKey tc ->
  let after := snd (checkToolCallLoopN n l tc) in
  let interrupted := snd (checkToolCallLoop after other) in
  fst (checkToolCallLoopN n l tc) =
    map (fun k => bool_decide (5 <= k)%nat) (seq 1 n) /\
  ((0 < n)%nat -> toolCallRepetitionCount after = Z.of_nat n) /\
  ((0 < n)%nat ->
   fst (checkToolCallLoop after other) = false /\
   toolCallRepetitionCount interrupted = 1 /\
   fst (checkToolCallLoopN n interrupted tc) =
     map (fun k => bool_decide (5 <= k)%nat) (seq 1 n)) /\
  (loopDetected l = false ->
   EvType event = EventToolCall -> Data event = DataToolCall tc ->
   exists l',
     AddAndCheckAll l (replicate m event)
     = Done (map (fun k => bool_decide (5 <= k)%nat) (seq 1 m), l')).
Proof.
  intros Hn Hfresh Hother after interrupted.
  destruct (checkToolCallLoopN_fresh n l tc Hn Hfresh) as (Hrs & Hkey & Hcnt).
  split; [exact Hrs|]. split; [exact Hcnt|]. split.
  - intros Hpos. specialize (Hkey Hpos).
    assert (Hne : lastToolCallKey after <> getToolCallKey other)
      by (fold after in Hkey; congruence).
    subst interrupted. rewrite (checkToolCallLoop_other after other Hne).
    cbn [fst snd]. repeat split.
    apply checkToolCallLoopN_fresh; [assumption|]. left. cbn. assumption.
  - intros Hd Ht Hdata. apply (AddAndCheckAll_fresh tc); assumption.
Qed.

(** C3.  Sticky latch.  Once [AddAndCheck] has returned [true], every
    run of [AddAndCheck], [TurnStarted] and [IsLoopDetected] calls
    returns normally with the flag still set; in the state it reaches
    every [AddAndCheck], for any event, returns [true] and changes nothing,
    and nothing but the turn counter differs from the state in which the
    loop was found.  [Reset] clears the flag. *)
Theorem sticky_latch (l l1 : LoopDetectionService) (event : StreamEvent Args)
    (ms : list Method) (p : string) :
  AddAndCheck l event = Done (true, l1) ->
  exists rs l2,
    callMethods l1 ms = Done (rs, l2) /\
    loopDetected l2 = true /\
    (forall k e, ms !! k = Some (MAddAndCheck e) -> rs !! k = Some true) /\
    (forall e, AddAndCheck l2 e = Done (true, l2)) /\
    l2 = with_llm (turnsInCurrentPrompt l2) (llmCheckInterval l1)
           (lastCheckTurn l1) l1 /\
    loopDetected (Reset p l2) = false.
Proof.
  intros Hrun. apply AddAndCheck_result in Hrun. clear l event.
  revert l1 Hrun. induction ms as [|m ms IH]; intros l1 Hd.
  - exists [], l1. split; [reflexivity|]. split; [exact Hd|].
    split; [intros k e Hk; rewrite lookup_nil in Hk; discriminate|].
    split; [intros e; apply AddAndCheck_latched; exact Hd|].
    split; [destruct l1; reflexivity|reflexivity].
  - cbn [callMethods].
    assert (Hstep : exists r l1',
              callMethod l1 m = Done (r, l1') /\ loopDetected l1' = true /\
              (forall e, m = MAddAndCheck e -> r = true) /\
              l1' = with_llm (turnsInCurrentPrompt l1') (llmCheckInterval l1)
                      (lastCheckTurn l1) l1).
    { destruct m as [e| |]; cbn [callMethod].
      - rewrite AddAndCheck_latched by assumption.
        eexists _, _. split; [reflexivity|]. split; [exact Hd|].
        split; [reflexivity|destruct l1; reflexivity].
      - eexists _, _. split; [reflexivity|]. split; [exact Hd|].
        split; [discriminate|reflexivity].
      - eexists _, _. split; [reflexivity|]. split; [exact Hd|].
        split; [discriminate|destruct l1; reflexivity]. }
    destruct Hstep as (r & l1' & -> & Hd' & Hr & Hframe).
    cbn [mbind outcome_bind].
    destruct (IH l1' Hd') as (rs & l2 & -> & Hd2 & Hrs & Hall & Hframe2 & Hreset).
    cbn [mbind outcome_bind].
    exists (r :: rs), l2. split; [reflexivity|]. split; [exact Hd2|].
    split.
    { intros [|k] e Hk; cbn in Hk |- *.
      - injection Hk as ->. f_equal. eapply Hr. reflexivity.
      - eapply Hrs. exact Hk. }
    split; [exact Hall|]. split; [|exact Hreset].
    rewrite Hframe2. rewrite Hframe. reflexivity.
Qed.

Lemma truncateAndUpdate_history (l : LoopDetectionService) :
  streamContentHistory (truncateAndUpdate l) =
    if len (streamContentHistory l) <=? MAX_HISTORY_LENGTH
    then streamContentHistory l
    else slice_from (streamContentHistory l)
           (len (streamContentHistory l) - MAX_HISTORY_LENGTH).
Proof.
  unfold truncateAndUpdate.
  destruct (len (streamContentHistory l) <=? MAX_HISTORY_LENGTH); reflexivity.
Qed.

Lemma afterMarkers_history (l : LoopDetectionService) (content : gostring) :
  streamContentHistory (afterMarkers l content) = streamContentHistory l.
Proof. unfold afterMarkers. destruct (hasStructuralMarker content); reflexivity. Qed.

Lemma beforeScan_history (l : LoopDetectionService) (content : gostring) :
  streamContentHistory (beforeScan l content) =
    let h := streamContentHistory l ++ content in
    if len h <=? MAX_HISTORY_LENGTH then h
    else slice_from h (len h - MAX_HISTORY_LENGTH).
Proof.
  unfold beforeScan. rewrite truncateAndUpdate_history.
  cbn [streamContentHistory with_history]. rewrite afterMarkers_history.
  reflexivity.
Qed.

(** Under the invariant [checkContentLoop] returns; the state it leaves
    differs in the index and the cursor at most from the state after the
    markers (exempt fragment) or from the state before the scan. *)
Lemma checkContentLoop_frame (l : LoopDetectionService) (content : gostring) :
  inv l ->
  exists r l',
    checkContentLoop l content = Done (r, l') /\ inv l' /\
    scanFrame (if exempt l content then afterMarkers l content
               else beforeScan l content) l'.
Proof.
  intros Hinv. rewrite checkContentLoop_eq.
  destruct (exempt l content).
  - eexists _, _. split; [reflexivity|].
    split; [apply inv_afterMarkers; assumption|apply scanFrame_refl].
  - destruct (inv_beforeScan l content Hinv) as (Hidx & Hlen & Hval).
    destruct (analyzeContentChunksForLoop_inv _ Hidx Hval)
      as (r & l' & Hrun & Hf & Hidx' & Hval').
    exists r, l'. split; [exact Hrun|]. split; [|exact Hf].
    split; [assumption|]. split; [|assumption].
    rewrite (scanFrame_history _ _ Hf). assumption.
Qed.

(** No method but [Reset] shortens the buffer. *)
Lemma callMethod_history (l : LoopDetectionService) (m : Method) :
  inv l ->
  exists r l',
    callMethod l m = Done (r, l') /\
    len (streamContentHistory l) <= len (streamContentHistory l').
Proof.
  intros Hinv. destruct m as [event| |]; cbn [callMethod];
    try (eexists _, _; split; [reflexivity|cbn; lia]).
  destruct (loopDetected l) eqn:Hd.
  { rewrite AddAndCheck_latched by assumption. eexists _, _.
    split; [reflexivity|lia]. }
  unfold AddAndCheck. rewrite Hd.
  destruct (String.eqb (EvType event) EventToolCall).
  - destruct (Data event); try (eexists _, _; split; [reflexivity|cbn; lia]).
    destruct (checkToolCallLoop_frame (resetContentTracking false l) e)
      as (k & n & Hf).
    destruct (checkToolCallLoop _ _) as [r l1]. cbn [snd] in Hf. subst l1.
    eexists _, _. split; [reflexivity|cbn; lia].
  - destruct (String.eqb (EvType event) EventContent);
      [|eexists _, _; split; [reflexivity|cbn; lia]].
    destruct (Data event); try (eexists _, _; split; [reflexivity|cbn; lia]).
    destruct (checkContentLoop_frame l (Text e) Hinv)
      as (r & l' & -> & _ & Hf).
    cbn [mbind outcome_bind]. eexists _, _. split; [reflexivity|].
    cbn [streamContentHistory with_loopDetected].
    rewrite (scanFrame_history _ _ Hf).
    destruct Hinv as (_ & Hlen & _).
    destruct (exempt l (Text e)).
    + rewrite afterMarkers_history. lia.
    + rewrite beforeScan_history. cbn zeta.
      pose proof (len_app (streamContentHistory l) (Text e)) as Happ.
      pose proof (len_nonneg (Text e)).
      destruct (Z.leb_spec (len (streamContentHistory l ++ Text e))
                  MAX_HISTORY_LENGTH) as [Hle|Hgt]; [lia|].
      unfold MAX_HISTORY_LENGTH in *.
      rewrite len_slice_from by lia. lia.
Qed.

(** C9.  A tool-call event, when no loop is latched, empties the
    fingerprint index and leaves the text buffer as it is, and the
    repetition check of the tool call runs on the state so cleared.  The
    other methods never shorten the buffer; [Reset] empties it. *)
Theorem tool_call_clears_index_only (l : LoopDetectionService)
    (event : StreamEvent Args) (m : Method) (p : string) :
  (loopDetected l = false -> EvType event = EventToolCall ->
   exists r l',
     AddAndCheck l event = Done (r, l') /\
     contentStats l' = ∅ /\
     streamContentHistory l' = streamContentHistory l /\
     (forall tc, Data event = DataToolCall tc ->
        let cleared := resetContentTracking false l in
        r = fst (checkToolCallLoop cleared tc) /\
        l' = with_loopDetected r (snd (checkToolCallLoop cleared tc)))) /\
  (inv l ->
   exists r l',
     callMethod l m = Done (r, l') /\
     len (streamContentHistory l) <= len (streamContentHistory l')) /\
  streamContentHistory (Reset p l) = [].
Proof.
  split; [|split; [apply callMethod_history|reflexivity]].
  intros Hd Ht. rewrite AddAndCheck_toolCall by assumption.
  destruct (Data event) as [| | |tc| | | | | |];
    try (eexists _, _; split; [reflexivity|];
         split; [reflexivity|]; split; [reflexivity|]; discriminate).
  destruct (checkToolCallLoop_frame (resetContentTracking false l) tc)
    as (k & n & Hf).
  destruct (checkToolCallLoop (resetContentTracking false l) tc) as [r l1] eqn:Hc.
  cbn [snd] in Hf. subst l1.
  eexists _, _. split; [reflexivity|]. split; [reflexivity|].
  split; [reflexivity|].
  intros tc' [= <-]. cbn zeta. rewrite Hc. split; reflexivity.
Qed.

(** ** Fenced code and dividers *)

Lemma inCodeBlockAfter_xorb (b : bool) (content : gostring) :
  inCodeBlockAfter b content = xorb (oddFences content) b.
Proof.
  unfold inCodeBlockAfter, oddFences.
  destruct (Z.rem (countFences content) 2 =? 0), b; reflexivity.
Qed.

Lemma exempt_true (l : LoopDetectionService) (content : gostring) :
  exempt l content = true <->
  inCodeBlock l = true \/ inCodeBlockAfter (inCodeBlock l) content = true \/
  MatchString reDivider content = true.
Proof.
  unfold exempt. rewrite !orb_true_iff. tauto.
Qed.

Lemma AddAndCheck_exempt (l : LoopDetectionService) (provider model : string)
    (text : gostring) (delta : bool) (now : Z) :
  loopDetected l = false -> exempt l text = true ->
  AddAndCheck l (NewContentEvent provider model text delta now) =
    Done (false, with_loopDetected false (afterMarkers l text)).
Proof.
  intros Hd He.
  rewrite (AddAndCheck_content l _ (mkContentEvent text delta false))
    by (assumption || reflexivity).
  cbn [Text]. rewrite checkContentLoop_eq, He. reflexivity.
Qed.

Lemma AddAndCheckAll_app (es1 es2 : list (StreamEvent Args)) :
  forall l,
    AddAndCheckAll l (es1 ++ es2) =
      '(rs1, l1) ← AddAndCheckAll l es1;
      '(rs2, l2) ← AddAndCheckAll l1 es2;
      Done (rs1 ++ rs2, l2).
Proof.
  induction es1 as [|e es1 IH]; intros l.
  - cbn. destruct (AddAndCheckAll l es2) as [[rs2 l2]| |]; reflexivity.
  - cbn [app AddAndCheckAll].
    destruct (AddAndCheck l e) as [[r l1]| |]; cbn [mbind outcome_bind];
      try reflexivity.
    rewrite IH.
    destruct (AddAndCheckAll l1 es1) as [[rs1 l2]| |]; cbn [mbind outcome_bind];
      try reflexivity.
    destruct (AddAndCheckAll l2 es2) as [[rs2 l3]| |]; reflexivity.
Qed.

(** While the fence is open, or when the fragment toggles it, repeating a
    fragment is never analysed. *)
Lemma AddAndCheckAll_fenced (provider model : string) (text : gostring)
    (delta : bool) (now : Z) (n : nat) :
  forall l,
    loopDetected l = false ->
    inCodeBlock l = true \/ oddFences text = true ->
    exists l',
      AddAndCheckAll l (replicate n (NewContentEvent provider model text delta now))
        = Done (replicate n false, l') /\
      loopDetected l' = false /\
      streamContentHistory l' = streamContentHistory l /\
      (inCodeBlock l' = true \/ oddFences text = true).
Proof.
  induction n as [|n IH]; intros l Hd Hin.
  - exists l. cbn. auto.
  - cbn [replicate AddAndCheckAll].
    rewrite AddAndCheck_exempt; [|assumption|].
    2:{ apply exempt_true. rewrite inCodeBlockAfter_xorb.
        destruct Hin as [-> | ->]; [auto|].
        destruct (inCodeBlock l); auto. }
    cbn [mbind outcome_bind].
    set (l1 := with_loopDetected false (afterMarkers l text)).
    destruct (IH l1) as (l' & -> & Hd' & Hh & Hin').
    + reflexivity.
    + cbn. rewrite inCodeBlockAfter_xorb.
      destruct Hin as [-> | ->]; [|auto].
      destruct (oddFences text); auto.
    + cbn [mbind outcome_bind]. exists l'. split; [reflexivity|].
      split; [assumption|]. split; [|assumption].
      rewrite Hh. cbn. apply afterMarkers_history.
Qed.

(** C4.  Code-fence immunity.  A fragment that starts inside a fenced
    block, ends inside one, or is a pure divider line makes
    [checkContentLoop] return [false] with the buffer unchanged and no
    occurrence added to the index.  A fragment with an odd number of fence
    delimiters, then any number of copies of one fragment, then a
    fragment that again has an odd number of fence delimiters are all
    answered [false] by [AddAndCheck], the last one included, and leave
    the buffer unchanged. *)
Theorem code_fence_immunity (l : LoopDetectionService)
    (content opening text closing : gostring) (n : nat)
    (provider model : string) (delta : bool) (now : Z) :
  (inCodeBlock l = true \/ inCodeBlockAfter (inCodeBlock l) content = true \/
   MatchString reDivider content = true ->
   exists l',
     checkContentLoop l content = Done (false, l') /\
     streamContentHistory l' = streamContentHistory l /\
     contentStats l' ⊆ contentStats l) /\
  (loopDetected l = false -> inCodeBlock l = false ->
   oddFences opening = true -> oddFences closing = true ->
   let ev t := NewContentEvent provider model t delta now in
   exists l',
     AddAndCheckAll l (ev opening :: replicate n (ev text) ++ [ev closing])
       = Done (replicate (S (S n)) false, l') /\
     streamContentHistory l' = streamContentHistory l).
Proof.
  split.
  - intros He%exempt_true. rewrite checkContentLoop_eq, He.
    eexists. split; [reflexivity|].
    split; [apply afterMarkers_history|].
    unfold afterMarkers. destruct (hasStructuralMarker content); cbn.
    + apply map_empty_subseteq.
    + reflexivity.
  - intros Hd Hin Hopen Hclose ev. subst ev. cbv beta.
    cbn [AddAndCheckAll].
    rewrite AddAndCheck_exempt; [|assumption|].
    2:{ apply exempt_true. rewrite inCodeBlockAfter_xorb, Hopen, Hin. auto. }
    cbn [mbind outcome_bind].
    set (l1 := with_loopDetected false (afterMarkers l opening)).
    rewrite AddAndCheckAll_app.
    destruct (AddAndCheckAll_fenced provider model text delta now n l1)
      as (l2 & Hrun & Hd2 & Hh2 & Hin2).
    { reflexivity. }
    { left. cbn. rewrite inCodeBlockAfter_xorb, Hopen, Hin. reflexivity. }
    rewrite Hrun. cbn [mbind outcome_bind AddAndCheckAll].
    rewrite AddAndCheck_exempt; [|assumption|].
    2:{ apply exempt_true. rewrite inCodeBlockAfter_xorb, Hclose.
        destruct (inCodeBlock l2); auto. }
    cbn [mbind outcome_bind]. eexists. split.
    + f_equal. f_equal. cbn [replicate]. f_equal.
      change (false :: replicate n false) with (replicate (S n) false).
      rewrite replicate_S_end. reflexivity.
    + cbn [streamContentHistory with_loopDetected].
      rewrite afterMarkers_history, Hh2. cbn. apply afterMarkers_history.
Qed.

(** ** Scanning retained text again *)

Lemma chunkAt_replicate (c : ascii) (n k : nat) :
  (k + 50 <= n)%nat ->
  chunkAt (replicate n c) (Z.of_nat k) = replicate 50 c.
Proof.
  intros Hk. rewrite chunkAt_eq, Nat2Z.id, drop_replicate, take_replicate.
  f_equal. lia.
Qed.

(** A buffer of 59 equal bytes whose first [k] chunks are in the index:
    the scan declares a loop at the tenth chunk. *)
Lemma analyzeLoop_uniform (c : ascii) (d : nat) :
  forall (k : nat) (l : LoopDetectionService) (fuel : nat),
    (k + d = 9)%nat -> (1 <= k)%nat -> (d < fuel)%nat ->
    streamContentHistory l = replicate 59 c ->
    lastContentIndex l = Z.of_nat k ->
    contentStats l !! hashChunk (replicate 50 c) = Some (seqZ 0 (Z.of_nat k)) ->
    exists l', analyzeLoop fuel l = Done (true, l').
Proof.
  induction d as [|d IH]; intros k l fuel Hk H1 Hf Hh Hc Hs;
    (destruct fuel as [|fuel]; [lia|]).
  all: assert (Hcur : currentChunk l = replicate 50 c)
         by (unfold currentChunk; rewrite Hh, Hc; apply chunkAt_replicate; lia).
  all: assert (Hlen : len (streamContentHistory l) = 59)
         by (rewrite Hh; unfold len; rewrite length_replicate; reflexivity).
  all: rewrite analyzeLoop_step;
         [|lia|apply hasMoreChunksToProcess_true; unfold CONTENT_CHUNK_SIZE; lia].
  all: rewrite Hcur.
  all: rewrite seqZ_cons in Hs by lia.
  all: rewrite (isLoopDetectedForChunk_match l _ _ _ _ Hs);
         [|lia|unfold CONTENT_CHUNK_SIZE; lia
          |rewrite Hh; apply (chunkAt_replicate c 59 0); lia].
  all: assert (Hocc : (0 :: seqZ (Z.succ 0) (Z.pred (Z.of_nat k)))
                        ++ [lastContentIndex l] = seqZ 0 (Z.of_nat (S k)))
         by (rewrite <- seqZ_cons by lia; rewrite seqZ_S, Hc; reflexivity).
  all: cbv zeta; rewrite Hocc.
  - assert (k = 9%nat) as -> by lia.
    rewrite bool_decide_eq_true_2.
    + cbn [mbind outcome_bind]. eauto.
    + split; [vm_compute; discriminate|].
      apply clustered_span. vm_compute. discriminate.
  - rewrite bool_decide_eq_false_2.
    + cbn [mbind outcome_bind].
      apply (IH (S k)); try lia.
      * exact Hh.
      * cbn [lastContentIndex with_index with_stats]. lia.
      * cbn [contentStats with_index with_stats]. apply lookup_insert_eq.
    + intros [Hn _]. unfold len, CONTENT_LOOP_THRESHOLD in Hn.
      rewrite length_seqZ in Hn. lia.
Qed.

Lemma analyzeContentChunksForLoop_uniform (c : ascii) (l : LoopDetectionService) :
  streamContentHistory l = replicate 59 c ->
  lastContentIndex l = 0 ->
  contentStats l = ∅ ->
  exists l', analyzeContentChunksForLoop l = Done (true, l').
Proof.
  intros Hh Hc Hs. unfold analyzeContentChunksForLoop.
  replace (length (streamContentHistory l)) with 59%nat
    by (rewrite Hh, length_replicate; reflexivity).
  rewrite analyzeLoop_step;
    [|lia|apply hasMoreChunksToProcess_true; rewrite Hh, Hc; vm_compute;
          discriminate].
  assert (Hcur : currentChunk l = replicate 50 c)
    by (unfold currentChunk; rewrite Hh, Hc; apply (chunkAt_replicate c 59 0); lia).
  rewrite Hcur, isLoopDetectedForChunk_unseen
    by (rewrite Hs; apply lookup_empty).
  cbn [mbind outcome_bind].
  apply (analyzeLoop_uniform c 8 1); try lia.
  - exact Hh.
  - cbn [lastContentIndex with_index with_stats]. lia.
  - cbn [contentStats with_index with_stats]. rewrite Hc.
    apply lookup_insert_eq.
Qed.

Lemma checkContentLoop_marked (l : LoopDetectionService) (content : gostring) :
  hasStructuralMarker content = true ->
  checkContentLoop l content
  = checkContentLoop (resetContentTracking false l) content.
Proof.
  intros Hm. rewrite !checkContentLoop_eq.
  unfold exempt, beforeScan, afterMarkers. rewrite Hm. reflexivity.
Qed.

(** With an empty index and the cursor at 0, the scan of the next analysed
    fragment starts at offset 0 of the whole retained buffer. *)
Lemma beforeScan_fresh (l : LoopDetectionService) (content : gostring) :
  contentStats l = ∅ -> lastContentIndex l = 0 ->
  contentStats (beforeScan l content) = ∅ /\
  lastContentIndex (beforeScan l content) = 0.
Proof.
  intros Hs Hc. unfold beforeScan.
  set (l1 := afterMarkers l content).
  assert (Hs1 : contentStats l1 = ∅)
    by (unfold l1, afterMarkers; destruct (hasStructuralMarker content);
        [reflexivity|exact Hs]).
  assert (Hc1 : lastContentIndex l1 = 0)
    by (unfold l1, afterMarkers; destruct (hasStructuralMarker content);
        [reflexivity|exact Hc]).
  cbv zeta. set (l2 := with_history _ l1).
  destruct (Z.le_gt_cases (len (streamContentHistory l2)) MAX_HISTORY_LENGTH)
    as [Hle|Hgt].
  - rewrite truncateAndUpdate_short by assumption. auto.
  - rewrite truncateAndUpdate_long by lia.
    cbn [contentStats lastContentIndex with_stats with_index with_history l2].
    rewrite Hs1, Hc1, omap_empty. split; [reflexivity|].
    unfold max.
    destruct (Z.gtb_spec 0 (0 - (len (streamContentHistory l2) - MAX_HISTORY_LENGTH)));
      lia.
Qed.

Lemma AddAndCheck_toolCall_fields (l : LoopDetectionService)
    (event : StreamEvent Args) (r : bool) (l' : LoopDetectionService) :
  loopDetected l = false -> EvType event = EventToolCall ->
  AddAndCheck l event = Done (r, l') ->
  contentStats l' = ∅ /\ lastContentIndex l' = 0 /\
  streamContentHistory l' = streamContentHistory l /\
  inCodeBlock l' = inCodeBlock l.
Proof.
  intros Hd Ht. rewrite AddAndCheck_toolCall by assumption.
  destruct (Data event) as [| | |tc| | | | | |];
    try (intros [= <- <-]; repeat split; reflexivity).
  destruct (checkToolCallLoop_frame (resetContentTracking false l) tc)
    as (k & n & Hf).
  destruct (checkToolCallLoop (resetContentTracking false l) tc) as [r1 l1].
  cbn [snd] in Hf. subst l1. intros [= <- <-]. repeat split; reflexivity.
Qed.

Lemma AddAndCheck_toolCall_done (l : LoopDetectionService)
    (event : StreamEvent Args) :
  loopDetected l = false -> EvType event = EventToolCall ->
  exists r l', AddAndCheck l event = Done (r, l').
Proof.
  intros Hd Ht. rewrite AddAndCheck_toolCall by assumption.
  destruct (Data event); eauto.
  destruct (checkToolCallLoop _ _). eauto.
Qed.

(** C10.  Whenever the index is cleared without the buffer (a tool-call
    event, or a fragment with a structural marker) the cursor goes to 0
    as well; the fragment with the marker is processed as from the cleared
    state; and the next fragment that is analysed is scanned from offset 0
    of the whole retained buffer, with an empty index.  So repetition
    received before the reset counts again: 58 equal bytes before a tool
    call and a single such byte after it make [AddAndCheck] declare a
    loop. *)
Theorem index_reset_rescans (l : LoopDetectionService)
    (event : StreamEvent Args) (content : gostring)
    (provider model : string) (delta : bool) (now : Z) :
  (let cleared := resetContentTracking false l in
   contentStats cleared = ∅ /\ lastContentIndex cleared = 0 /\
   streamContentHistory cleared = streamContentHistory l) /\
  (loopDetected l = false -> EvType event = EventToolCall ->
   exists r l',
     AddAndCheck l event = Done (r, l') /\
     contentStats l' = ∅ /\ lastContentIndex l' = 0 /\
     streamContentHistory l' = streamContentHistory l) /\
  (hasStructuralMarker content = true ->
   let marked := afterMarkers l content in
   contentStats marked = ∅ /\ lastContentIndex marked = 0 /\
   streamContentHistory marked = streamContentHistory l /\
   checkContentLoop l content
   = checkContentLoop (resetContentTracking false l) content) /\
  (contentStats l = ∅ -> lastContentIndex l = 0 -> exempt l content = false ->
   let start := beforeScan l content in
   checkContentLoop l content = analyzeContentChunksForLoop start /\
   contentStats start = ∅ /\ lastContentIndex start = 0 /\
   streamContentHistory start =
     let h := streamContentHistory l ++ content in
     if len h <=? MAX_HISTORY_LENGTH then h
     else slice_from h (len h - MAX_HISTORY_LENGTH)) /\
  (forall l1,
     loopDetected l = false -> inCodeBlock l = false ->
     streamContentHistory l = replicate 58 "a"%char ->
     EvType event = EventToolCall ->
     AddAndCheck l event = Done (false, l1) ->
     exists l2,
       AddAndCheck l1 (NewContentEvent provider model (str "a") delta now)
       = Done (true, l2)).
Proof.
  split; [repeat split|]. split; [|split; [|split]].
  - intros Hd Ht.
    destruct (AddAndCheck_toolCall_done l event Hd Ht) as (r & l' & Hrun).
    exists r, l'. split; [exact Hrun|].
    destruct (AddAndCheck_toolCall_fields l event r l' Hd Ht Hrun)
      as (? & ? & ? & _). auto.
  - intros Hm marked. subst marked. unfold afterMarkers. rewrite Hm.
    repeat split. apply checkContentLoop_marked. exact Hm.
  - intros Hs Hc He start. subst start.
    rewrite checkContentLoop_eq, He.
    destruct (beforeScan_fresh l content Hs Hc) as (? & ?).
    repeat split; try assumption. apply beforeScan_history.
  - intros l1 Hd Hin Hh Ht Hrun.
    destruct (AddAndCheck_toolCall_fields l event false l1 Hd Ht Hrun)
      as (Hs1 & Hc1 & Hh1 & Hin1).
    apply AddAndCheck_result in Hrun.
    rewrite (AddAndCheck_content l1 _ (mkContentEvent (str "a") delta false))
      by (assumption || reflexivity).
    cbn [Text]. rewrite checkContentLoop_eq.
    assert (He : exempt l1 (str "a") = false)
      by (unfold exempt; rewrite Hin1, Hin; reflexivity).
    rewrite He.
    destruct (beforeScan_fresh l1 (str "a") Hs1 Hc1) as (Hs2 & Hc2).
    destruct (analyzeContentChunksForLoop_uniform "a"%char
                (beforeScan l1 (str "a"))) as (l2 & ->).
    + rewrite beforeScan_history, Hh1, Hh. reflexivity.
    + exact Hc2.
    + exact Hs2.
    + cbn [mbind outcome_bind]. eauto.
Qed.

(** ** Tool calls whose arguments cannot be serialized *)

Lemma getToolCallKey_unserializable (tc : ToolCallEvent Args) :
  json_Marshal (ToolArguments tc) = None ->
  getToolCallKey tc = sha256hex (str (ToolName tc) ++ str ":").
Proof.
  intros Hm. unfold getToolCallKey. rewrite Hm. cbn [default].
  rewrite app_nil_r. reflexivity.
Qed.

(** C8, as the code has it.  A tool call whose arguments [json.Marshal]
    rejects gets the signature of its name with no argument bytes, so two
    such calls of one tool have the same signature.  The call is counted
    like any other: it extends the streak of its signature, or starts one
    at 1, and the fifth in a row is reported as a loop.  [AddAndCheck]
    returns normally on it. *)
Theorem unserializable_tool_call_counted (tc tc' : ToolCallEvent Args)
    (l : LoopDetectionService) (event : StreamEvent Args) (n : nat) :
  json_Marshal (ToolArguments tc) = None ->
  getToolCallKey tc = sha256hex (str (ToolName tc) ++ str ":") /\
  (json_Marshal (ToolArguments tc') = None -> ToolName tc' = ToolName tc ->
   getToolCallKey tc' = getToolCallKey tc) /\
  (lastToolCallKey l = getToolCallKey tc ->
   toolCallRepetitionCount (snd (checkToolCallLoop l tc))
   = wrap64 (toolCallRepetitionCount l + 1)) /\
  (lastToolCallKey l <> getToolCallKey tc ->
   lastToolCallKey (snd (checkToolCallLoop l tc)) = getToolCallKey tc /\
   toolCallRepetitionCount (snd (checkToolCallLoop l tc)) = 1) /\
  (Z.of_nat n <= maxInt64 ->
   lastToolCallKey l <> getToolCallKey tc \/ toolCallRepetitionCount l = 0 ->
   fst (checkToolCallLoopN n l tc)
   = map (fun k => bool_decide (5 <= k)%nat) (seq 1 n)) /\
  (loopDetected l = false -> EvType event = EventToolCall ->
   Data event = DataToolCall tc ->
   exists r l', AddAndCheck l event = Done (r, l')).
Proof.
  intros Hm. split; [apply getToolCallKey_unserializable; exact Hm|].
  split.
  { intros Hm' Hname. rewrite !getToolCallKey_unserializable by assumption.
    rewrite Hname. reflexivity. }
  split.
  { intros Hk. rewrite checkToolCallLoop_same by assumption. reflexivity. }
  split.
  { intros Hk. rewrite checkToolCallLoop_other by assumption. split; reflexivity. }
  split.
  { intros Hn Hfresh. apply checkToolCallLoopN_fresh; assumption. }
  intros Hd Ht _. apply AddAndCheck_toolCall_done; assumption.
Qed.

(** ** The stream session controller *)

(** With detection disabled the loop forwards the converted events up to
    the first error and calls nothing. *)
Lemma consume_disabled (request : ChatRequest) (promptID : string) (now : Z)
    (events : list (ProviderStreamEvent Args)) :
  forall c,
    LoopDetectionEnabled (config c) = false ->
    consume c request promptID now events
    = Done (c, convertEvent <$> throughFirstError events, []).
Proof.
  induction events as [|event rest IH]; intros c Hoff; [reflexivity|].
  cbn [consume throughFirstError]. rewrite Hoff. cbn [mbind outcome_bind].
  change (EvType (convertEvent event)) with (PType event).
  destruct (String.eqb (PType event) EventError); [reflexivity|].
  rewrite IH by assumption. reflexivity.
Qed.

(** The loop returns when the detector satisfies its invariant; it
    changes the detector only and does not ask the provider again. *)
Lemma consume_inv (request : ChatRequest) (promptID : string) (now : Z)
    (events : list (ProviderStreamEvent Args)) :
  forall c,
    inv (loopDetector c) ->
    exists d out calls,
      consume c request promptID now events
      = Done (with_detector d c, out, calls) /\
      inv d /\ (forall t, CallProviderStream t ∉ calls).
Proof.
  induction events as [|event rest IH]; intros c Hinv.
  - exists (loopDetector c), [], []. split; [destruct c; reflexivity|].
    split; [assumption|]. intros t Ht. apply elem_of_nil in Ht. exact Ht.
  - cbn [consume].
    assert (Hstep : exists r d calls,
              (if LoopDetectionEnabled (config c) then
                 '(r, d) ← AddAndCheck (loopDetector c) (convertEvent event);
                 Done (r, with_detector d c, [CallAddAndCheck (convertEvent event)])
               else Done (false, c, []))
              = Done (r, with_detector d c, calls) /\
              inv d /\ (forall t, CallProviderStream t ∉ calls)).
    { destruct (LoopDetectionEnabled (config c)).
      - destruct (AddAndCheck_inv (loopDetector c) (convertEvent event) Hinv)
          as (r & d & -> & Hd).
        cbn [mbind outcome_bind]. eexists _, _, _. split; [reflexivity|].
        split; [assumption|]. intros t Ht.
        apply list_elem_of_singleton in Ht. discriminate.
      - exists false, (loopDetector c), []. split; [destruct c; reflexivity|].
        split; [assumption|]. intros t Ht. apply elem_of_nil in Ht. exact Ht. }
    destruct Hstep as (r & d & calls & -> & Hd & Hcalls).
    cbn [mbind outcome_bind].
    destruct r; [eexists _, _, _; split; [reflexivity|]; auto|].
    destruct (String.eqb (EvType (convertEvent event)) EventError);
      [eexists _, _, _; split; [reflexivity|]; auto|].
    destruct (IH (with_detector d c) Hd) as (d' & out & calls' & -> & Hd' & Hcalls').
    cbn [mbind outcome_bind]. eexists d', _, _. split; [reflexivity|].
    split; [assumption|]. intros t [Ht|Ht]%elem_of_app.
    + exact (Hcalls t Ht).
    + exact (Hcalls' t Ht).
Qed.

Lemma enterTurn_fields (c : Client) (promptID : string) :
  config (enterTurn c promptID) = config c /\
  providerType (enterTurn c promptID) = providerType c /\
  lastPromptID (enterTurn c promptID) = promptID /\
  sessionTurnCount (enterTurn c promptID)
  = wrap64 ((if String.eqb (lastPromptID c) promptID
             then sessionTurnCount c else 0) + 1) /\
  loopDetector (enterTurn c promptID)
  = (if String.eqb (lastPromptID c) promptID then loopDetector c
     else Reset promptID (loopDetector c)).
Proof.
  unfold enterTurn.
  destruct (String.eqb_spec (lastPromptID c) promptID) as [He|Hne];
    cbn; auto.
Qed.

Lemma SendMessageStream_eq (c : Client) (request : ChatRequest)
    (promptID : string) (now : Z)
    (upstream : string -> list (ProviderStreamEvent Args)) :
  SendMessageStream c request promptID now upstream =
    let c1 := enterTurn c promptID in
    let calls0 := if String.eqb (lastPromptID c) promptID then []
                  else [CallReset promptID] in
    if turnBudgetExceeded c1 then
      Done (c1,
            [NewMaxSessionTurnsEvent (providerType c1) (ReqModel request)
               (sessionTurnCount c1) (MaxSessionTurns (config c1)) promptID now],
            calls0)
    else afterBudget c1 request promptID now upstream calls0.
Proof.
  unfold SendMessageStream, enterTurn, turnBudgetExceeded, afterBudget.
  destruct (String.eqb (lastPromptID c) promptID); reflexivity.
Qed.

(** Over budget: the only event is the terminal one and nothing is called
    after the bookkeeping. *)
Lemma SendMessageStream_exceeded (c : Client) (request : ChatRequest)
    (promptID : string) (now : Z)
    (upstream : string -> list (ProviderStreamEvent Args)) :
  turnBudgetExceeded (enterTurn c promptID) = true ->
  SendMessageStream c request promptID now upstream =
    Done (enterTurn c promptID,
          [NewMaxSessionTurnsEvent (providerType c) (ReqModel request)
             (sessionTurnCount (enterTurn c promptID))
             (MaxSessionTurns (config c)) promptID now],
          if String.eqb (lastPromptID c) promptID then []
          else [CallReset promptID]).
Proof.
  unfold turnBudgetExceeded, enterTurn, SendMessageStream.
  destruct (String.eqb (lastPromptID c) promptID); cbn [negb];
    cbn [config sessionTurnCount providerType with_session with_detector];
    intros ->; reflexivity.
Qed.

(** What follows the budget test returns when the detector satisfies its
    invariant; the provider is asked unless a requested switch fails, and
    the session bookkeeping is left as it is. *)
Lemma afterBudget_inv (c : Client) (request : ChatRequest)
    (promptID : string) (now : Z)
    (upstream : string -> list (ProviderStreamEvent Args))
    (calls0 : list Call) :
  inv (loopDetector c) ->
  exists c' out calls,
    afterBudget c request promptID now upstream calls0 = Done (c', out, calls) /\
    pastTurnBudget out calls /\
    config c' = config c /\
    lastPromptID c' = lastPromptID c /\
    sessionTurnCount c' = sessionTurnCount c /\
    inv (loopDetector c').
Proof.
  intros Hinv. unfold afterBudget.
  (* the turn-start check never reports *)
  set (c2 := if LoopDetectionEnabled (config c)
             then with_detector (snd (TurnStarted (loopDetector c))) c
             else c).
  set (calls1 := if LoopDetectionEnabled (config c) then [CallTurnStarted]
                 else []).
  replace (if LoopDetectionEnabled (config c) then
             let '(r, d) := TurnStarted (loopDetector c) in
             (r, with_detector d c, [CallTurnStarted])
           else (false, c, []))
    with (false, c2, calls1)
    by (unfold c2, calls1; destruct (LoopDetectionEnabled (config c));
        reflexivity).
  assert (Hc2 : config c2 = config c /\ lastPromptID c2 = lastPromptID c /\
                sessionTurnCount c2 = sessionTurnCount c /\
                inv (loopDetector c2)).
  { unfold c2. destruct (LoopDetectionEnabled (config c)); cbn; auto. }
  destruct Hc2 as (Hcfg2 & Hpid2 & Hcnt2 & Hinv2).
  (* the provider switch *)
  assert (Hsw : exists c3 err,
            (if negb (String.eqb (ReqProvider request) "")
                && negb (String.eqb (ReqProvider request) (providerType c2))
             then SwitchProvider c2 (ReqProvider request)
             else (c2, None)) = (c3, err) /\
            config c3 = config c /\ lastPromptID c3 = lastPromptID c /\
            sessionTurnCount c3 = sessionTurnCount c /\
            loopDetector c3 = loopDetector c2).
  { destruct (negb (String.eqb (ReqProvider request) "")
              && negb (String.eqb (ReqProvider request) (providerType c2)));
      [|eexists _, _; split; [reflexivity|]; auto].
    unfold SwitchProvider, initializeProvider.
    destruct (String.eqb (providerType c2) (ReqProvider request));
      [eexists _, _; split; [reflexivity|]; auto|].
    destruct (initializeProviderError (config c2) (ReqProvider request));
      eexists _, _; (split; [reflexivity|]); cbn; auto. }
  destruct Hsw as (c3 & err & -> & Hcfg3 & Hpid3 & Hcnt3 & Hdet3).
  destruct err as [e|].
  - eexists _, _, _. split; [reflexivity|].
    split; [right; eauto|].
    split; [assumption|]. split; [assumption|]. split; [assumption|].
    rewrite Hdet3. assumption.
  - rewrite <- Hdet3 in Hinv2.
    destruct (consume_inv request promptID now (upstream (providerType c3)) c3 Hinv2)
      as (d & out & calls2 & -> & Hd & _).
    cbn [mbind outcome_bind]. eexists _, _, _. split; [reflexivity|].
    split.
    { left. exists (providerType (with_detector d c3)).
      rewrite !elem_of_app. right. right. left.
      apply list_elem_of_singleton. reflexivity. }
    cbn. auto.
Qed.

(** Within budget: the call returns, past the budget test. *)
Lemma SendMessageStream_within (c : Client) (request : ChatRequest)
    (promptID : string) (now : Z)
    (upstream : string -> list (ProviderStreamEvent Args)) :
  turnBudgetExceeded (enterTurn c promptID) = false ->
  inv (loopDetector c) ->
  exists c' out calls,
    SendMessageStream c request promptID now upstream = Done (c', out, calls) /\
    pastTurnBudget out calls /\
    config c' = config c /\
    lastPromptID c' = promptID /\
    sessionTurnCount c' = sessionTurnCount (enterTurn c promptID) /\
    inv (loopDetector c').
Proof.
  intros Hgate Hinv.
  destruct (enterTurn_fields c promptID) as (Hcfg & _ & Hpid & _ & Hdet).
  assert (Hinv1 : inv (loopDetector (enterTurn c promptID))).
  { rewrite Hdet.
    destruct (String.eqb (lastPromptID c) promptID); [assumption|].
    eapply inv_ext; [| | |exact (inv_resetContentTracking true _ Hinv)];
      reflexivity. }
  rewrite SendMessageStream_eq. cbv zeta. rewrite Hgate.
  destruct (afterBudget_inv (enterTurn c promptID) request promptID now upstream
              (if String.eqb (lastPromptID c) promptID then []
               else [CallReset promptID]) Hinv1)
    as (c' & out & calls & Hrun & Hpast & Hcfg' & Hpid' & Hcnt' & Hinv').
  exists c', out, calls. rewrite Hcfg', Hpid', Hcfg, Hpid. auto 10.
Qed.

(** A call whose turn, counted from the last change of prompt, is within
    the budget (or with no budget set) gets past the budget test and
    leaves the turn count one higher. *)
Lemma SendMessageStream_turn (c : Client) (request : ChatRequest)
    (promptID : string) (now : Z)
    (upstream : string -> list (ProviderStreamEvent Args)) (turns : Z) :
  inv (loopDetector c) ->
  turns = (if String.eqb (lastPromptID c) promptID
           then sessionTurnCount c else 0) ->
  0 <= turns < maxInt64 ->
  MaxSessionTurns (config c) <= 0 \/ turns + 1 <= MaxSessionTurns (config c) ->
  exists c' out calls,
    SendMessageStream c request promptID now upstream = Done (c', out, calls) /\
    pastTurnBudget out calls /\
    config c' = config c /\ lastPromptID c' = promptID /\
    sessionTurnCount c' = turns + 1 /\ inv (loopDetector c').
Proof.
  intros Hinv Hturns Hrange Hbudget.
  destruct (enterTurn_fields c promptID) as (Hcfg & _ & _ & Hcnt & _).
  rewrite <- Hturns, wrap64_small in Hcnt by (unfold maxInt64 in *; lia).
  destruct (SendMessageStream_within c request promptID now upstream)
    as (c' & out & calls & Hrun & Hpast & Hcfg' & Hpid' & Hcnt' & Hinv').
  - unfold turnBudgetExceeded. rewrite Hcfg, Hcnt.
    apply andb_false_iff. destruct Hbudget as [Hb|Hb].
    + left. rewrite Z.gtb_ltb. apply Z.ltb_ge. lia.
    + right. rewrite Z.gtb_ltb. apply Z.ltb_ge. lia.
  - exact Hinv.
  - exists c', out, calls. rewrite Hcnt' , Hcnt. auto 10.
Qed.

(** C6.  Turn budget.  With [MaxSessionTurns = 3], the first three
    generation calls under a prompt identity get past the budget test
    (the provider is asked for its stream, unless a requested provider
    switch fails) with turn counts 1, 2 and 3; the fourth call sends the
    single terminal event [MaxSessionTurnsEvent] with current turns 4 and
    maximum 3 and calls neither the provider nor the detector; a call
    under another identity then gets past the test again with the turn
    count back at 1.  With [MaxSessionTurns = 0] every call gets past the
    test. *)
Theorem session_turn_budget (c : Client) (P P' : string)
    (r1 r2 r3 r4 r5 : ChatRequest) (n1 n2 n3 n4 n5 : Z)
    (u1 u2 u3 u4 u5 : string -> list (ProviderStreamEvent Args)) :
  inv (loopDetector c) ->
  (MaxSessionTurns (config c) = 3 ->
   lastPromptID c <> P \/ sessionTurnCount c = 0 -> P' <> P ->
   exists c1 o1 k1 c2 o2 k2 c3 o3 k3 c4 c5 o5 k5,
     SendMessageStream c r1 P n1 u1 = Done (c1, o1, k1) /\
     pastTurnBudget o1 k1 /\ sessionTurnCount c1 = 1 /\
     SendMessageStream c1 r2 P n2 u2 = Done (c2, o2, k2) /\
     pastTurnBudget o2 k2 /\ sessionTurnCount c2 = 2 /\
     SendMessageStream c2 r3 P n3 u3 = Done (c3, o3, k3) /\
     pastTurnBudget o3 k3 /\ sessionTurnCount c3 = 3 /\
     SendMessageStream c3 r4 P n4 u4
     = Done (c4,
             [NewMaxSessionTurnsEvent (providerType c3) (ReqModel r4) 4 3 P n4],
             []) /\
     SendMessageStream c4 r5 P' n5 u5 = Done (c5, o5, k5) /\
     pastTurnBudget o5 k5 /\ sessionTurnCount c5 = 1) /\
  (MaxSessionTurns (config c) = 0 ->
   exists c1 o1 k1,
     SendMessageStream c r1 P n1 u1 = Done (c1, o1, k1) /\
     pastTurnBudget o1 k1).
Proof.
  intros Hinv. split.
  - intros Hmax Hnew HP'.
    assert (Hrange : forall z, 0 <= z <= 3 -> 0 <= z < maxInt64)
      by (unfold maxInt64; lia).
    destruct (SendMessageStream_turn c r1 P n1 u1 0 Hinv)
      as (c1 & o1 & k1 & Hrun1 & Hp1 & Hcfg1 & Hpid1 & Hcnt1 & Hinv1).
    { destruct (String.eqb_spec (lastPromptID c) P) as [He|_]; [|reflexivity].
      destruct Hnew as [Hne|Hz]; [contradiction|auto]. }
    { apply Hrange. lia. }
    { right. lia. }
    destruct (SendMessageStream_turn c1 r2 P n2 u2 1 Hinv1)
      as (c2 & o2 & k2 & Hrun2 & Hp2 & Hcfg2 & Hpid2 & Hcnt2 & Hinv2).
    { rewrite Hpid1, String.eqb_refl. auto. }
    { apply Hrange. lia. }
    { right. rewrite Hcfg1. lia. }
    destruct (SendMessageStream_turn c2 r3 P n3 u3 2 Hinv2)
      as (c3 & o3 & k3 & Hrun3 & Hp3 & Hcfg3 & Hpid3 & Hcnt3 & Hinv3).
    { rewrite Hpid2, String.eqb_refl. auto. }
    { apply Hrange. lia. }
    { right. rewrite Hcfg2, Hcfg1. lia. }
    assert (Hcfg3' : MaxSessionTurns (config c3) = 3)
      by (rewrite Hcfg3, Hcfg2, Hcfg1; exact Hmax).
    destruct (enterTurn_fields c3 P) as (Hcfg4 & Hpt4 & Hpid4 & Hcnt4 & Hdet4).
    rewrite Hpid3, String.eqb_refl in Hcnt4, Hdet4.
    rewrite Hcnt3 in Hcnt4. change (wrap64 (2 + 1 + 1)) with 4 in Hcnt4.
    pose proof (SendMessageStream_exceeded c3 r4 P n4 u4) as Hrun4.
    rewrite Hpid3, String.eqb_refl, Hcnt4, Hcfg3' in Hrun4.
    specialize (Hrun4 ltac:(unfold turnBudgetExceeded;
                            rewrite Hcfg4, Hcfg3', Hcnt4; reflexivity)).
    set (c4 := enterTurn c3 P) in *.
    destruct (SendMessageStream_turn c4 r5 P' n5 u5 0)
      as (c5 & o5 & k5 & Hrun5 & Hp5 & _ & _ & Hcnt5 & _).
    { rewrite Hdet4. exact Hinv3. }
    { rewrite Hpid4. apply String.eqb_neq in HP'.
      rewrite String.eqb_sym, HP'. reflexivity. }
    { apply Hrange. lia. }
    { right. rewrite Hcfg4, Hcfg3'. lia. }
    exists c1, o1, k1, c2, o2, k2, c3, o3, k3, c4, c5, o5, k5.
    repeat (split; [first [assumption | lia]|]). lia.
  - intros Hmax.
    destruct (SendMessageStream_within c r1 P n1 u1)
      as (c1 & o1 & k1 & Hrun1 & Hp1 & _).
    { unfold turnBudgetExceeded.
      destruct (enterTurn_fields c P) as (-> & _). rewrite Hmax. reflexivity. }
    { exact Hinv. }
    eauto.
Qed.

(** With detection disabled, what follows the budget test calls the
    provider at most, and sends either the error of a failed switch or
    the provider's events up to the first error. *)
Lemma afterBudget_disabled (c : Client) (request : ChatRequest)
    (promptID : string) (now : Z)
    (upstream : string -> list (ProviderStreamEvent Args))
    (calls0 : list Call) :
  LoopDetectionEnabled (config c) = false ->
  exists c' out calls1,
    afterBudget c request promptID now upstream calls0
    = Done (c', out, calls0 ++ calls1) /\
    loopDetector c' = loopDetector c /\
    ((calls1 = [] /\
      exists t model err, out = [NewErrorEvent t model err false now]) \/
     (exists t, calls1 = [CallProviderStream t] /\
                out = convertEvent <$> throughFirstError (upstream t))).
Proof.
  intros Hoff. unfold afterBudget. rewrite Hoff.
  assert (Hsw : exists c3 err,
            (if negb (String.eqb (ReqProvider request) "")
                && negb (String.eqb (ReqProvider request) (providerType c))
             then SwitchProvider c (ReqProvider request)
             else (c, None)) = (c3, err) /\
            config c3 = config c /\ loopDetector c3 = loopDetector c).
  { destruct (negb (String.eqb (ReqProvider request) "")
              && negb (String.eqb (ReqProvider request) (providerType c)));
      [|eexists _, _; split; [reflexivity|]; auto].
    unfold SwitchProvider, initializeProvider.
    destruct (String.eqb (providerType c) (ReqProvider request));
      [eexists _, _; split; [reflexivity|]; auto|].
    destruct (initializeProviderError (config c) (ReqProvider request));
      eexists _, _; (split; [reflexivity|]); cbn; auto. }
  destruct Hsw as (c3 & err & -> & Hcfg3 & Hdet3).
  destruct err as [e|].
  - eexists _, _, []. split; [reflexivity|]. split; [exact Hdet3|].
    left. eauto.
  - rewrite consume_disabled by (rewrite Hcfg3; exact Hoff).
    cbn [mbind outcome_bind].
    eexists _, _, [CallProviderStream (providerType c3)].
    split; [rewrite app_nil_r; reflexivity|]. split; [exact Hdet3|].
    right. eauto.
Qed.

(** C7, as the code has it.  With [LoopDetectionEnabled] false the
    controller calls neither [TurnStarted] nor [AddAndCheck], but it does
    call [Reset] whenever the prompt identity changes, and only then.
    When it asks the provider, what it sends is the provider's events,
    converted field by field, in order, up to and including the first
    event of type error, and nothing of its own: no loop event is
    injected.  A call within the turn budget gets that far unless a
    requested provider switch fails. *)
Theorem disabled_detection_forwards (c : Client) (request : ChatRequest)
    (P : string) (now : Z)
    (upstream : string -> list (ProviderStreamEvent Args)) :
  LoopDetectionEnabled (config c) = false ->
  exists c' out calls,
    SendMessageStream c request P now upstream = Done (c', out, calls) /\
    (CallTurnStarted ∉ calls) /\
    (forall e, CallAddAndCheck e ∉ calls) /\
    ((CallReset P ∈ calls) <-> (lastPromptID c <> P)) /\
    loopDetector c' = (if String.eqb (lastPromptID c) P then loopDetector c
                       else Reset P (loopDetector c)) /\
    (forall t, CallProviderStream t ∈ calls ->
       out = convertEvent <$> throughFirstError (upstream t)) /\
    (turnBudgetExceeded (enterTurn c P) = false -> pastTurnBudget out calls).
Proof.
  intros Hoff. rewrite SendMessageStream_eq. cbv zeta.
  set (calls0 := if String.eqb (lastPromptID c) P then [] else [CallReset P]).
  assert (Hcalls0 :
    (CallTurnStarted ∉ calls0) /\ (forall e, CallAddAndCheck e ∉ calls0) /\
    ((CallReset P ∈ calls0) <-> (lastPromptID c <> P)) /\
    (forall t, CallProviderStream t ∉ calls0)).
  { unfold calls0.
    destruct (String.eqb_spec (lastPromptID c) P) as [He|Hne].
    - split; [apply not_elem_of_nil|]. split; [intros e; apply not_elem_of_nil|].
      split; [|intros t; apply not_elem_of_nil].
      rewrite elem_of_nil. tauto.
    - split; [rewrite list_elem_of_singleton; discriminate|].
      split; [intros e; rewrite list_elem_of_singleton; discriminate|].
      split; [|intros t; rewrite list_elem_of_singleton; discriminate].
      rewrite list_elem_of_singleton. tauto. }
  destruct Hcalls0 as (Hts & Hac & Hreset & Hps).
  destruct (enterTurn_fields c P) as (Hcfg & _ & _ & _ & Hdet).
  destruct (turnBudgetExceeded (enterTurn c P)) eqn:Hgate.
  - eexists _, _, _. split; [reflexivity|].
    split; [exact Hts|]. split; [exact Hac|]. split; [exact Hreset|].
    split; [exact Hdet|]. split; [|discriminate].
    intros t Ht. destruct (Hps t Ht).
  - destruct (afterBudget_disabled (enterTurn c P) request P now upstream calls0)
      as (c' & out & calls1 & -> & Hdet' & Hshape).
    { rewrite Hcfg. exact Hoff. }
    exists c', out, (calls0 ++ calls1). split; [reflexivity|].
    rewrite Hdet', Hdet.
    destruct Hshape as [(-> & Herr)|(t0 & -> & Hout)]; rewrite ?app_nil_r.
    + split; [exact Hts|]. split; [exact Hac|]. split; [exact Hreset|].
      split; [reflexivity|]. split; [intros t Ht; destruct (Hps t Ht)|].
      intros _. right. destruct Herr as (t & model & err & ->). eauto.
    + split.
      { rewrite elem_of_app, list_elem_of_singleton.
        intros [Hin|Hin]; [exact (Hts Hin)|discriminate]. }
      split.
      { intros e. rewrite elem_of_app, list_elem_of_singleton.
        intros [Hin|Hin]; [exact (Hac e Hin)|discriminate]. }
      split.
      { rewrite elem_of_app, list_elem_of_singleton, Hreset.
        split; [intros [Hne|Hin]; [exact Hne|discriminate]|auto]. }
      split; [reflexivity|]. split.
      { intros t. rewrite elem_of_app, list_elem_of_singleton.
        intros [Hin|Hin]; [destruct (Hps t Hin)|].
        injection Hin as ->. exact Hout. }
      intros _. left. exists t0. rewrite elem_of_app, list_elem_of_singleton.
      auto.
Qed.

(** ** The bookkeeping fields do not influence detection *)

Lemma isLoopDetectedForChunk_book (b l : LoopDetectionService)
    (chunk : gostring) (hash : string) :
  isLoopDetectedForChunk (with_book b l) chunk hash
  = onState (with_book b) (isLoopDetectedForChunk l chunk hash).
Proof.
  unfold isLoopDetectedForChunk, isActualContentMatch, onState.
  cbn [contentStats streamContentHistory lastContentIndex with_book].
  destruct (contentStats l !! hash) as [idxs|]; [|reflexivity].
  destruct (at_ idxs 0) as [first|]; cbn [of_index mbind outcome_bind];
    [|reflexivity].
  destruct (first + CONTENT_CHUNK_SIZE >? len (streamContentHistory l));
    cbn [mbind outcome_bind negb]; [reflexivity|].
  destruct (slice_ok _ _ _); cbn [mbind outcome_bind]; [|reflexivity].
  destruct (bool_decide _); cbn [negb]; [|reflexivity].
  destruct (len (idxs ++ [lastContentIndex l]) <? CONTENT_LOOP_THRESHOLD);
    [reflexivity|].
  set (w := slice_from _ _).
  destruct (at_ w (len w - 1)); cbn [of_index mbind outcome_bind];
    [|reflexivity].
  destruct (at_ w 0); cbn [of_index mbind outcome_bind]; reflexivity.
Qed.

Lemma analyzeLoop_book (b : LoopDetectionService) (fuel : nat) :
  forall l,
    analyzeLoop fuel (with_book b l) = onState (with_book b) (analyzeLoop fuel l).
Proof.
  induction fuel as [|fuel IH]; intros l; cbn [analyzeLoop];
    change (hasMoreChunksToProcess (with_book b l))
      with (hasMoreChunksToProcess l);
    destruct (hasMoreChunksToProcess l); try reflexivity.
  cbn [streamContentHistory lastContentIndex with_book].
  destruct (slice_ok _ _ _); [|reflexivity].
  rewrite isLoopDetectedForChunk_book. unfold onState.
  destruct (isLoopDetectedForChunk l _ _) as [[r l1]| |];
    cbn [mbind outcome_bind]; try reflexivity.
  destruct r; [reflexivity|].
  apply (IH (with_index (lastContentIndex l1 + 1) l1)).
Qed.

Lemma truncateAndUpdate_book (b l : LoopDetectionService) :
  truncateAndUpdate (with_book b l) = with_book b (truncateAndUpdate l).
Proof.
  unfold truncateAndUpdate.
  cbn [streamContentHistory with_book].
  destruct (len (streamContentHistory l) <=? MAX_HISTORY_LENGTH); reflexivity.
Qed.

Lemma checkContentLoop_book (b l : LoopDetectionService) (content : gostring) :
  checkContentLoop (with_book b l) content
  = onState (with_book b) (checkContentLoop l content).
Proof.
  rewrite !checkContentLoop_eq.
  change (exempt (with_book b l) content) with (exempt l content).
  destruct (exempt l content).
  - unfold onState, afterMarkers. cbn [mbind outcome_bind].
    destruct (hasStructuralMarker content); reflexivity.
  - assert (beforeScan (with_book b l) content
            = with_book b (beforeScan l content)) as ->.
    { unfold beforeScan, afterMarkers.
      destruct (hasStructuralMarker content);
        match goal with
        | |- _ = with_book b (truncateAndUpdate ?x) =>
            exact (truncateAndUpdate_book b x)
        end. }
    unfold analyzeContentChunksForLoop.
    exact (analyzeLoop_book b _ _).
Qed.

Lemma checkToolCallLoop_book (b l : LoopDetectionService)
    (tc : ToolCallEvent Args) :
  checkToolCallLoop (with_book b l) tc
  = (fst (checkToolCallLoop l tc), with_book b (snd (checkToolCallLoop l tc))).
Proof.
  unfold checkToolCallLoop. cbn [lastToolCallKey with_book].
  destruct (String.eqb (lastToolCallKey l) (getToolCallKey tc));
    cbn [toolCallRepetitionCount with_toolCall with_book];
    match goal with
    | |- context [?c >=? TOOL_CALL_LOOP_THRESHOLD] =>
        destruct (c >=? TOOL_CALL_LOOP_THRESHOLD); reflexivity
    end.
Qed.

Lemma AddAndCheck_book (b l : LoopDetectionService) (event : StreamEvent Args) :
  AddAndCheck (with_book b l) event
  = onState (with_book b) (AddAndCheck l event).
Proof.
  unfold AddAndCheck. cbn [loopDetected with_book].
  destruct (loopDetected l) eqn:Hl; [reflexivity|].
  destruct (String.eqb (EvType event) EventToolCall).
  - destruct (Data event) as [|?|?|tc|?|?|?|?|?|?]; try reflexivity.
    change (resetContentTracking false (with_book b l))
      with (with_book b (resetContentTracking false l)).
    rewrite checkToolCallLoop_book.
    destruct (checkToolCallLoop (resetContentTracking false l) tc) as [r l1].
    reflexivity.
  - destruct (String.eqb (EvType event) EventContent); [|reflexivity].
    destruct (Data event) as [|c|?|?|?|?|?|?|?|?]; try reflexivity.
    rewrite checkContentLoop_book. unfold onState.
    destruct (checkContentLoop l (Text c)) as [[r l1]| |]; reflexivity.
Qed.

(** [AddAndCheck] and [TurnStarted] leave the fields of the other
    alone. *)
Lemma analyzeLoop_frame (fuel : nat) :
  forall l r l', analyzeLoop fuel l = Done (r, l') -> scanFrame l l'.
Proof.
  induction fuel as [|fuel IH]; intros l r l'; cbn [analyzeLoop];
    destruct (hasMoreChunksToProcess l); try discriminate;
    try (intros [= _ <-]; apply scanFrame_refl).
  destruct (slice_ok _ _ _); [|discriminate].
  destruct (isLoopDetectedForChunk l _ _) as [[d l1]| |] eqn:Hchunk;
    cbn [mbind outcome_bind]; try discriminate.
  destruct (isLoopDetectedForChunk_frame _ _ _ _ _ Hchunk) as (m & ->).
  destruct d.
  - intros [= _ <-]. exists (lastContentIndex l), m. reflexivity.
  - intros H. apply IH in H. destruct H as (i & m' & ->).
    exists i, m'. reflexivity.
Qed.

Lemma checkContentLoop_book_frame (l : LoopDetectionService)
    (content : gostring) (r : bool) (l' : LoopDetectionService) :
  checkContentLoop l content = Done (r, l') ->
  with_book l l' = l' /\
  lastToolCallKey l' = lastToolCallKey l /\
  toolCallRepetitionCount l' = toolCallRepetitionCount l /\
  loopDetected l' = loopDetected l.
Proof.
  rewrite checkContentLoop_eq.
  destruct (exempt l content).
  - intros [= _ <-]. unfold afterMarkers.
    destruct (hasStructuralMarker content), l; repeat split; reflexivity.
  - unfold analyzeContentChunksForLoop. intros H.
    apply analyzeLoop_frame in H. destruct H as (i & m & ->).
    unfold beforeScan, afterMarkers, truncateAndUpdate.
    cbn [streamContentHistory with_history with_inCodeBlock].
    destruct (hasStructuralMarker content);
      match goal with
      | |- context [?a <=? MAX_HISTORY_LENGTH] =>
          destruct (a <=? MAX_HISTORY_LENGTH)
      end; destruct l; repeat split; reflexivity.
Qed.

Lemma AddAndCheck_book_frame (l : LoopDetectionService)
    (event : StreamEvent Args) (r : bool) (l' : LoopDetectionService) :
  AddAndCheck l event = Done (r, l') -> with_book l l' = l'.
Proof.
  unfold AddAndCheck.
  destruct (loopDetected l).
  { intros [= _ <-]. destruct l; reflexivity. }
  destruct (String.eqb (EvType event) EventToolCall).
  - destruct (Data event) as [|?|?|tc|?|?|?|?|?|?];
      try (intros [= _ <-]; destruct l; reflexivity).
    destruct (checkToolCallLoop_frame (resetContentTracking false l) tc)
      as (k & n & Hf).
    destruct (checkToolCallLoop (resetContentTracking false l) tc) as [r1 l1].
    cbn [snd] in Hf. subst l1. intros [= _ <-]. destruct l; reflexivity.
  - destruct (String.eqb (EvType event) EventContent);
      [|intros [= _ <-]; destruct l; reflexivity].
    destruct (Data event) as [|c|?|?|?|?|?|?|?|?];
      try (intros [= _ <-]; destruct l; reflexivity).
    destruct (checkContentLoop l (Text c)) as [[r1 l1]| |] eqn:Hc;
      cbn [mbind outcome_bind]; try discriminate.
    apply checkContentLoop_book_frame in Hc. destruct Hc as (Hb & _).
    intros [= _ <-]. rewrite <- Hb. destruct l, l1; reflexivity.
Qed.

(** ** [Reset] and [TurnStarted] *)

Lemma results_bind_cons (r : bool)
    (o : outcome (list bool * LoopDetectionService)) :
  results ('(rs, l) ← o; Done (r :: rs, l)) = (r ::.) <$> results o.
Proof. destruct o as [[rs l]| |]; reflexivity. Qed.

Lemma callMethods_book (ms : list Method) :
  forall b l,
    results (callMethods (with_book b l) ms) = results (callMethods l ms).
Proof.
  induction ms as [|m ms IH]; intros b l; [reflexivity|].
  cbn [callMethods]. destruct m as [e| |]; cbn [callMethod].
  - rewrite AddAndCheck_book. unfold onState.
    destruct (AddAndCheck l e) as [[r l1]| |]; cbn [mbind outcome_bind];
      try reflexivity.
    rewrite !results_bind_cons, (IH b l1). reflexivity.
  - cbn [mbind outcome_bind TurnStarted].
    rewrite !results_bind_cons.
    set (b1 := with_llm (wrap64 (turnsInCurrentPrompt b + 1))
                 (llmCheckInterval b) (lastCheckTurn b) b).
    set (b2 := with_llm (wrap64 (turnsInCurrentPrompt l + 1))
                 (llmCheckInterval l) (lastCheckTurn l) l).
    pose proof (IH b1 l) as H1. pose proof (IH b2 l) as H2.
    change (with_book b1 l)
      with (with_llm (wrap64 (turnsInCurrentPrompt (with_book b l) + 1))
              (llmCheckInterval (with_book b l))
              (lastCheckTurn (with_book b l)) (with_book b l)) in H1.
    change (with_book b2 l) with b2 in H2.
    rewrite H1, <- H2. reflexivity.
  - cbn [mbind outcome_bind IsLoopDetected loopDetected with_book].
    rewrite !results_bind_cons, (IH b l). reflexivity.
Qed.

(** X1.  [Reset] clears every field of the service but the fence flag
    [inCodeBlock].  When it is called inside an open code fence, the
    state it leaves is the one a reset of a new service leaves, with the
    flag set; every fragment with an even number of fence delimiters that
    follows is then exempt: [AddAndCheck] answers [false] however often
    the fragment is repeated, and stores nothing. *)
Theorem reset_keeps_fence_flag (p : string) (l : LoopDetectionService)
    (provider model : string) (text : gostring) (delta : bool) (now : Z)
    (n : nat) :
  inCodeBlock l = true -> oddFences text = false ->
  Reset p l = with_inCodeBlock true (Reset p NewLoopDetectionService) /\
  exists l',
    AddAndCheckAll (Reset p l)
      (replicate n (NewContentEvent provider model text delta now))
    = Done (replicate n false, l') /\
    streamContentHistory l' = [] /\ inCodeBlock l' = true.
Proof.
  intros Hin Heven. split.
  { unfold Reset, resetToolCallCount, resetContentTracking,
      resetLLMCheckTracking.
    destruct l; cbn in Hin; subst; reflexivity. }
  destruct (AddAndCheckAll_fenced provider model text delta now n (Reset p l))
    as (l' & Hrun & _ & Hh & Hflag).
  - reflexivity.
  - left. exact Hin.
  - exists l'. split; [exact Hrun|]. split; [exact Hh|].
    destruct Hflag as [Hflag|Hodd]; [exact Hflag|congruence].
Qed.

(** X2.  The prompt identity and the turn counters are only stored: no
    answer of [AddAndCheck], [TurnStarted] or [IsLoopDetected] depends on
    them.  Outside a code fence, [Reset] therefore makes the service
    answer every later sequence of calls exactly as a new service
    does. *)
Theorem reset_restarts_detection (p : string) (b l : LoopDetectionService)
    (ms : list Method) :
  results (callMethods (with_book b l) ms) = results (callMethods l ms) /\
  (inCodeBlock l = false ->
   results (callMethods (Reset p l) ms)
   = results (callMethods NewLoopDetectionService ms)).
Proof.
  split; [apply callMethods_book|].
  intros Hout.
  assert (Reset p l = with_book (Reset p l) NewLoopDetectionService) as ->.
  { unfold Reset, resetToolCallCount, resetContentTracking,
      resetLLMCheckTracking.
    destruct l; cbn in Hout; subst; reflexivity. }
  apply callMethods_book.
Qed.

Lemma callMethods_TurnStarted (n : nat) :
  forall l,
    0 <= turnsInCurrentPrompt l ->
    turnsInCurrentPrompt l + Z.of_nat n <= maxInt64 ->
    callMethods l (replicate n MTurnStarted)
    = Done (replicate n false,
            with_llm (turnsInCurrentPrompt l + Z.of_nat n)
              (llmCheckInterval l) (lastCheckTurn l) l).
Proof.
  induction n as [|n IH]; intros l H0 Hmax.
  - cbn [replicate callMethods]. rewrite Z.add_0_r. destruct l; reflexivity.
  - cbn [replicate callMethods callMethod mbind outcome_bind TurnStarted].
    rewrite wrap64_small by (unfold maxInt64 in Hmax; lia).
    rewrite IH; cbn [turnsInCurrentPrompt with_llm]; [|lia|lia].
    cbn [mbind outcome_bind]. do 2 f_equal.
    unfold with_llm; cbn. f_equal. lia.
Qed.

(** X3.  [TurnStarted] only counts: [n] calls all answer [false] and add
    [n] to the turn counter (as long as an [int] holds it), which [Reset]
    puts back to 0; and a [TurnStarted] before an [AddAndCheck] changes
    neither its answer nor what it does to the detection state. *)
Theorem turn_started_only_counts (l : LoopDetectionService) (n : nat)
    (event : StreamEvent Args) (p : string) :
  0 <= turnsInCurrentPrompt l ->
  turnsInCurrentPrompt l + Z.of_nat n <= maxInt64 ->
  callMethods l (replicate n MTurnStarted)
  = Done (replicate n false,
          with_llm (turnsInCurrentPrompt l + Z.of_nat n)
            (llmCheckInterval l) (lastCheckTurn l) l) /\
  turnsInCurrentPrompt (Reset p l) = 0 /\
  AddAndCheck (snd (TurnStarted l)) event
  = onState (fun l' => snd (TurnStarted l')) (AddAndCheck l event).
Proof.
  intros H0 Hmax. split; [apply callMethods_TurnStarted; assumption|].
  split; [reflexivity|].
  change (snd (TurnStarted l)) with (with_book (snd (TurnStarted l)) l).
  rewrite AddAndCheck_book. unfold onState.
  destruct (AddAndCheck l event) as [[r l1]| |] eqn:Hrun;
    cbn [mbind outcome_bind]; try reflexivity.
  apply AddAndCheck_book_frame in Hrun.
  do 2 f_equal.
  transitivity (snd (TurnStarted (with_book l l1))); [reflexivity|].
  rewrite Hrun. reflexivity.
Qed.

(** ** Tool-call loops over arbitrary sequences of tool calls *)

Lemma streakEnds_shift (pre xs : list string) (j : nat) :
  streakEnds xs j -> streakEnds (pre ++ xs) (length pre + j).
Proof.
  intros (H4 & key & Hkey). split; [lia|]. exists key. intros i Hi.
  rewrite lookup_app_r by lia. apply Hkey. lia.
Qed.

Lemma streakEnds_unshift (K K' : string) (c : nat) (xs : list string) (j : nat) :
  K <> K' ->
  streakEnds (replicate c K ++ K' :: xs) (c + j) ->
  streakEnds (K' :: xs) j.
Proof.
  intros Hne (H4 & key & Hkey).
  assert (Hc : (replicate c K ++ K' :: xs) !! c = Some K').
  { rewrite lookup_app_r by (rewrite length_replicate; lia).
    rewrite length_replicate, Nat.sub_diag. reflexivity. }
  assert (Hj : (4 <= j)%nat).
  { destruct (decide (4 <= j)%nat) as [|Hlt]; [assumption|exfalso].
    assert (Hpos : (1 <= c)%nat) by lia.
    pose proof (Hkey c ltac:(lia)) as H1.
    pose proof (Hkey (c - 1)%nat ltac:(lia)) as H2.
    rewrite lookup_app_l in H2 by (rewrite length_replicate; lia).
    rewrite lookup_replicate_2 in H2 by lia.
    congruence. }
  split; [exact Hj|]. exists key. intros i Hi.
  specialize (Hkey (c + i)%nat ltac:(lia)).
  rewrite lookup_app_r in Hkey by (rewrite length_replicate; lia).
  rewrite length_replicate in Hkey.
  replace (c + i - c)%nat with i in Hkey by lia. exact Hkey.
Qed.

Lemma AddAndCheckAll_toolCalls (events : list (StreamEvent Args))
    (calls : list (ToolCallEvent Args)) :
  Forall2 carries events calls ->
  forall (l : LoopDetectionService) (c : nat),
    loopDetected l = false ->
    toolCallRepetitionCount l = Z.of_nat c -> (c <= 4)%nat ->
    exists rs l',
      AddAndCheckAll l events = Done (rs, l') /\
      forall k,
        rs !! k = Some true <->
        (k < length events)%nat /\
        exists j, (j <= k)%nat /\
          streakEnds (replicate c (lastToolCallKey l) ++ (getToolCallKey <$> calls))
            (c + j).
Proof.
  induction 1 as [|e tc es tcs [Hty Hdata] _ IH]; intros l c Hl Hc Hc4.
  { exists [], l. split; [reflexivity|]. intros k. split.
    - rewrite lookup_nil. discriminate.
    - cbn [length]. lia. }
  cbn [AddAndCheckAll fmap list_fmap].
  rewrite (AddAndCheck_toolCall l e Hl Hty), Hdata.
  set (L0 := resetContentTracking false l).
  assert (HK0 : lastToolCallKey L0 = lastToolCallKey l) by reflexivity.
  assert (HC0 : toolCallRepetitionCount L0 = Z.of_nat c) by exact Hc.
  set (K := lastToolCallKey l) in *.
  destruct (decide (K = getToolCallKey tc)) as [Hsame|Hother].
  - rewrite (checkToolCallLoop_same L0 tc) by congruence.
    rewrite HC0, HK0.
    rewrite wrap64_small by lia.
    destruct (decide (c = 4)%nat) as [->|Hlt].
    + (* the fifth call of the run *)
      change (Z.of_nat 4 + 1 >=? TOOL_CALL_LOOP_THRESHOLD) with true.
      cbn [mbind outcome_bind].
      rewrite AddAndCheckAll_latched by reflexivity.
      cbn [mbind outcome_bind].
      eexists _, _. split; [reflexivity|].
      intros k. split.
      * intros Hk. split.
        { apply lookup_lt_Some in Hk. cbn [length] in *.
          rewrite length_replicate in Hk. exact Hk. }
        exists 0%nat. split; [lia|]. split; [lia|].
        exists K. intros i Hi.
        destruct (decide (i < 4)%nat).
        -- rewrite lookup_app_l by (rewrite length_replicate; lia).
           apply lookup_replicate_2. lia.
        -- rewrite lookup_app_r by (rewrite length_replicate; lia).
           rewrite length_replicate.
           replace (i - 4)%nat with 0%nat by lia. cbn. congruence.
      * intros (Hk & _).
        change (true :: replicate (length es) true)
          with (replicate (S (length es)) true).
        apply lookup_replicate_2. exact Hk.
    + (* the run goes on, below the threshold *)
      assert (Hsmall : (Z.of_nat c + 1 >=? TOOL_CALL_LOOP_THRESHOLD) = false).
      { unfold TOOL_CALL_LOOP_THRESHOLD.
        destruct (Z.geb_spec (Z.of_nat c + 1) 5); [lia|reflexivity]. }
      rewrite Hsmall. cbn [mbind outcome_bind].
      set (l2 := with_loopDetected false
                   (with_toolCall K (Z.of_nat c + 1) L0)).
      destruct (IH l2 (S c)) as (rs & l' & Hrun & Hiff);
        [reflexivity|cbn; lia|lia|].
      rewrite Hrun. cbn [mbind outcome_bind].
      exists (false :: rs), l'. split; [reflexivity|].
      change (lastToolCallKey l2) with K in Hiff.
      assert (Hlist : replicate (S c) K ++ (getToolCallKey <$> tcs)
                      = replicate c K ++ getToolCallKey tc
                          :: (getToolCallKey <$> tcs)).
      { rewrite <- Hsame. rewrite replicate_S_end, <- app_assoc.
        reflexivity. }
      rewrite Hlist in Hiff.
      intros [|k]; cbn [lookup list_lookup length].
      * split; [discriminate|].
        intros (_ & j & Hj & H4 & _). lia.
      * rewrite Hiff. split.
        -- intros (Hk & j & Hj & Hs). split; [lia|].
           exists (S j). split; [lia|].
           replace (c + S j)%nat with (S c + j)%nat by lia. exact Hs.
        -- intros (Hk & j & Hj & Hs). split; [lia|].
           destruct j as [|j]; [destruct Hs as (H4 & _); lia|].
           exists j. split; [lia|].
           replace (S c + j)%nat with (c + S j)%nat by lia. exact Hs.
  - (* a different signature starts a run *)
    rewrite (checkToolCallLoop_other L0 tc) by congruence.
    cbn [mbind outcome_bind].
    set (l2 := with_loopDetected false
                 (with_toolCall (getToolCallKey tc) 1 L0)).
    destruct (IH l2 1%nat) as (rs & l' & Hrun & Hiff);
      [reflexivity|reflexivity|lia|].
    rewrite Hrun. cbn [mbind outcome_bind].
    exists (false :: rs), l'. split; [reflexivity|].
    change (lastToolCallKey l2) with (getToolCallKey tc) in Hiff.
    change (replicate 1 (getToolCallKey tc) ++ (getToolCallKey <$> tcs))
      with (getToolCallKey tc :: (getToolCallKey <$> tcs)) in Hiff.
    intros [|k]; cbn [lookup list_lookup length].
    * split; [discriminate|].
      intros (_ & j & Hj & Hs).
      replace j with 0%nat in Hs by lia.
      apply (streakEnds_unshift K _ c _ 0 Hother) in Hs.
      destruct Hs as (H4 & _). lia.
    * rewrite Hiff. split.
      -- intros (Hk & j & Hj & Hs). split; [lia|].
         exists (S j). split; [lia|].
         apply (streakEnds_shift (replicate c K)) in Hs.
         rewrite length_replicate in Hs. exact Hs.
      -- intros (Hk & j & Hj & Hs). split; [lia|].
         apply (streakEnds_unshift K _ c _ j Hother) in Hs.
         destruct j as [|j]; [destruct Hs as (H4 & _); lia|].
         exists j. split; [lia|]. exact Hs.
Qed.

(** X4.  Over any sequence of tool calls given to a service that is not
    latched and has counted nothing (a new one, or one after [Reset]),
    [AddAndCheck] answers [true] at a position exactly when a run of five
    consecutive calls with the same signature has ended at or before that
    position: detection is neither late nor early, whatever calls
    precede the run. *)
Theorem tool_call_loop_sound_complete (l : LoopDetectionService)
    (events : list (StreamEvent Args)) (calls : list (ToolCallEvent Args)) :
  Forall2 carries events calls ->
  loopDetected l = false -> toolCallRepetitionCount l = 0 ->
  exists rs l',
    AddAndCheckAll l events = Done (rs, l') /\
    forall k,
      rs !! k = Some true <->
      (k < length events)%nat /\
      exists j, (j <= k)%nat /\ streakEnds (getToolCallKey <$> calls) j.
Proof.
  intros Hall Hl Hc.
  destruct (AddAndCheckAll_toolCalls events calls Hall l 0 Hl Hc)
    as (rs & l' & Hrun & Hiff); [lia|].
  exists rs, l'. split; [exact Hrun|]. exact Hiff.
Qed.

(** ** Events that are not tool calls *)

Lemma AddAndCheck_irrelevant (l : LoopDetectionService) (event : StreamEvent Args) :
  relevant event = false -> AddAndCheck l event = Done (loopDetected l, l).
Proof.
  unfold relevant, AddAndCheck. intros H.
  apply orb_false_iff in H. destruct H as [Htool Hcontent].
  rewrite Htool.
  destruct (loopDetected l) eqn:Hl; [reflexivity|].
  destruct (String.eqb (EvType event) EventContent); [|reflexivity].
  destruct (Data event); try reflexivity. discriminate.
Qed.

Lemma AddAndCheck_notToolCall (l : LoopDetectionService)
    (event : StreamEvent Args) (r : bool) (l' : LoopDetectionService) :
  EvType event <> EventToolCall ->
  AddAndCheck l event = Done (r, l') ->
  lastToolCallKey l' = lastToolCallKey l /\
  toolCallRepetitionCount l' = toolCallRepetitionCount l.
Proof.
  intros Hty. apply String.eqb_neq in Hty.
  unfold AddAndCheck. rewrite Hty.
  destruct (loopDetected l); [intros [= _ <-]; auto|].
  destruct (String.eqb (EvType event) EventContent);
    [|intros [= _ <-]; auto].
  destruct (Data event) as [|c|?|?|?|?|?|?|?|?];
    try (intros [= _ <-]; auto).
  destruct (checkContentLoop l (Text c)) as [[r1 l1]| |] eqn:Hc;
    cbn [mbind outcome_bind]; try discriminate.
  apply checkContentLoop_book_frame in Hc.
  destruct Hc as (_ & Hk & Hn & _).
  intros [= _ <-]. auto.
Qed.

(** X5.  Only tool calls touch the tool-call streak: events of any other
    type, content included, leave the stored signature and the repeat
    count as they are, so they do not interrupt a run.  Four equal tool
    calls, then any events that are not tool calls and trigger nothing,
    then the same tool call again: the last one is reported. *)
Theorem tool_streak_survives_other_events (l : LoopDetectionService)
    (events : list (StreamEvent Args)) (rs : list bool)
    (l' : LoopDetectionService) (event : StreamEvent Args)
    (tc : ToolCallEvent Args) :
  Forall (fun e => EvType e <> EventToolCall) events ->
  AddAndCheckAll l events = Done (rs, l') ->
  lastToolCallKey l' = lastToolCallKey l /\
  toolCallRepetitionCount l' = toolCallRepetitionCount l /\
  (loopDetected l' = false -> carries event tc ->
   lastToolCallKey l = getToolCallKey tc -> toolCallRepetitionCount l = 4 ->
   exists l'', AddAndCheck l' event = Done (true, l'')).
Proof.
  intros Hall Hrun.
  assert (H : lastToolCallKey l' = lastToolCallKey l /\
              toolCallRepetitionCount l' = toolCallRepetitionCount l).
  { revert l rs l' Hrun.
    induction Hall as [|e es He _ IH]; intros l rs l'; cbn [AddAndCheckAll].
    - intros [= _ <-]. auto.
    - destruct (AddAndCheck l e) as [[r1 l1]| |] eqn:H1;
        cbn [mbind outcome_bind]; try discriminate.
      destruct (AddAndCheckAll l1 es) as [[rs1 l2]| |] eqn:H2;
        cbn [mbind outcome_bind]; try discriminate.
      intros [= _ <-].
      destruct (AddAndCheck_notToolCall _ _ _ _ He H1) as [Ha Hb].
      destruct (IH _ _ _ H2) as [Hc Hd]. split; congruence. }
  destruct H as [Hk Hn]. split; [exact Hk|]. split; [exact Hn|].
  intros Hl' [Hty Hdata] Hkey H4.
  rewrite (AddAndCheck_toolCall l' event Hl' Hty), Hdata.
  rewrite (checkToolCallLoop_same (resetContentTracking false l') tc)
    by (cbn; congruence).
  cbn [toolCallRepetitionCount lastToolCallKey resetContentTracking
       with_index with_stats].
  rewrite Hn, H4. eexists. reflexivity.
Qed.

(** X6.  [AddAndCheck] looks into tool calls and into content events
    that carry a [gomini.ContentEvent] only.  Every other event
    (thought, finished, error, usage, or one whose data has another
    type) is returned on at once with the present flag: taking those
    events out of a stream changes neither the answers to the events
    that remain nor the state the service ends in. *)
Theorem other_events_transparent (events : list (StreamEvent Args)) :
  forall l : LoopDetectionService,
    inv l ->
    exists rs l',
      AddAndCheckAll l events = Done (rs, l') /\
      length rs = length events /\
      AddAndCheckAll l (List.filter relevant events)
      = Done (snd <$> List.filter (fun p => relevant (fst p)) (combine events rs),
              l') /\
      (forall k e, events !! k = Some e -> relevant e = false ->
         exists rs1 l1,
           AddAndCheckAll l (take k events) = Done (rs1, l1) /\
           rs !! k = Some (loopDetected l1)).
Proof.
  induction events as [|e es IH]; intros l Hinv.
  { exists [], l. repeat split; try reflexivity.
    intros k e. rewrite lookup_nil. discriminate. }
  destruct (AddAndCheck_inv l e Hinv) as (r & l1 & H1 & Hinv1).
  destruct (IH l1 Hinv1) as (rs & l' & Hrun & Hlen & Hfilter & Hskip).
  exists (r :: rs), l'. cbn [AddAndCheckAll].
  rewrite H1. cbn [mbind outcome_bind]. rewrite Hrun. cbn [mbind outcome_bind].
  split; [reflexivity|]. split; [cbn [length]; congruence|].
  cbn [List.filter combine fst].
  destruct (relevant e) eqn:Hrel.
  - split.
    + cbn [AddAndCheckAll fmap list_fmap snd]. rewrite H1.
      cbn [mbind outcome_bind]. rewrite Hfilter. reflexivity.
    + intros [|k] e0; cbn [lookup list_lookup take].
      * intros [= <-]. congruence.
      * intros He0 Hrel0.
        destruct (Hskip k e0 He0 Hrel0) as (rs1 & l2 & Hpre & Hk).
        exists (r :: rs1), l2. cbn [AddAndCheckAll]. rewrite H1.
        cbn [mbind outcome_bind]. rewrite Hpre. auto.
  - rewrite (AddAndCheck_irrelevant l e Hrel) in H1.
    injection H1 as <- <-.
    split; [exact Hfilter|].
    intros [|k] e0; cbn [lookup list_lookup take].
    + intros _ _. exists [], l. auto.
    + intros He0 Hrel0.
      destruct (Hskip k e0 He0 Hrel0) as (rs1 & l2 & Hpre & Hk).
      exists (loopDetected l :: rs1), l2. cbn [AddAndCheckAll].
      rewrite (AddAndCheck_irrelevant l e Hrel).
      cbn [mbind outcome_bind]. rewrite Hpre. auto.
Qed.

(** ** The recorded offsets increase *)

Lemma ascendingFrom_mono (lo lo' : Z) (idxs : list Z) :
  lo' <= lo -> ascendingFrom lo idxs -> ascendingFrom lo' idxs.
Proof. destruct idxs as [|i rest]; cbn; [auto|]. intros ? [? ?]. split; [lia|auto]. Qed.

Lemma ascendingFrom_snoc (c : Z) (idxs : list Z) :
  forall lo,
    lo <= c -> ascendingFrom lo idxs -> Forall (fun i => i < c) idxs ->
    ascendingFrom lo (idxs ++ [c]).
Proof.
  induction idxs as [|i rest IH]; intros lo Hlo Hasc Hall; cbn.
  - auto.
  - destruct Hasc as [Hi Hrest]. apply Forall_cons in Hall as [Hic Hall].
    split; [exact Hi|]. apply IH; [lia|assumption|assumption].
Qed.

Lemma ascendingFrom_len (c : Z) (idxs : list Z) :
  forall lo,
    ascendingFrom lo idxs -> Forall (fun i => i < c) idxs ->
    idxs <> [] -> lo + len idxs <= c.
Proof.
  induction idxs as [|i rest IH]; intros lo Hasc Hall Hne; [congruence|].
  destruct Hasc as [Hi Hrest]. apply Forall_cons in Hall as [Hic Hall].
  unfold len in *. cbn [length].
  destruct rest as [|j rest'].
  - cbn. lia.
  - specialize (IH (i + 1) Hrest Hall ltac:(discriminate)). lia.
Qed.

Lemma ascendingFrom_adjust (t : Z) (idxs : list Z) :
  forall lo,
    ascendingFrom lo idxs ->
    ascendingFrom (Z.max 0 (lo - t)) (adjustIndices t idxs).
Proof.
  induction idxs as [|i rest IH]; intros lo Hasc; cbn [adjustIndices];
    [exact I|].
  destruct Hasc as [Hi Hrest]. specialize (IH (i + 1) Hrest).
  destruct (Z.geb_spec (i - t) 0).
  - cbn. split; [lia|].
    apply (ascendingFrom_mono (Z.max 0 (i + 1 - t))); [lia|exact IH].
  - apply (ascendingFrom_mono (Z.max 0 (i + 1 - t))); [lia|exact IH].
Qed.

Lemma ascending_ext (l l' : LoopDetectionService) :
  contentStats l' = contentStats l ->
  lastContentIndex l' = lastContentIndex l ->
  ascending l -> ascending l'.
Proof. unfold ascending. intros -> ->. auto. Qed.

Lemma ascending_empty (l : LoopDetectionService) :
  contentStats l = ∅ -> ascending l.
Proof. unfold ascending. intros ->. apply map_Forall_empty. Qed.

Lemma ascending_truncateAndUpdate (l : LoopDetectionService) :
  ascending l -> ascending (truncateAndUpdate l).
Proof.
  intros Hasc.
  destruct (Z.leb_spec (len (streamContentHistory l)) MAX_HISTORY_LENGTH)
    as [Hshort|Hlong].
  { rewrite truncateAndUpdate_short by assumption. exact Hasc. }
  rewrite truncateAndUpdate_long by assumption.
  set (t := len (streamContentHistory l) - MAX_HISTORY_LENGTH).
  assert (Ht : 0 < t) by (unfold t; lia).
  unfold ascending. cbn [contentStats lastContentIndex with_stats with_index].
  intros hash idxs Hlook.
  rewrite lookup_omap in Hlook.
  destruct (contentStats l !! hash) as [old|] eqn:Hold; [|discriminate].
  cbn in Hlook.
  destruct (len (adjustIndices t old) >? 0); [|discriminate].
  injection Hlook as <-.
  destruct (Hasc hash old Hold) as [Ha Hb]. split.
  - apply (ascendingFrom_mono (Z.max 0 (0 - t))); [lia|].
    apply ascendingFrom_adjust. exact Ha.
  - apply Forall_forall. intros j Hj.
    apply elem_of_adjustIndices in Hj. destruct Hj as [Hj0 Hj].
    rewrite Forall_forall in Hb. specialize (Hb _ Hj).
    unfold max. destruct (Z.gtb_spec 0 (lastContentIndex l - t)); lia.
Qed.

Lemma ascending_beforeScan (l : LoopDetectionService) (content : gostring) :
  ascending l -> ascending (beforeScan l content).
Proof.
  intros Hasc. unfold beforeScan. apply ascending_truncateAndUpdate.
  unfold afterMarkers. destruct (hasStructuralMarker content).
  - apply ascending_empty. reflexivity.
  - exact Hasc.
Qed.

Lemma ascending_afterMarkers (l : LoopDetectionService) (content : gostring) :
  ascending l -> ascending (afterMarkers l content).
Proof.
  intros Hasc. unfold afterMarkers. destruct (hasStructuralMarker content).
  - apply ascending_empty. reflexivity.
  - exact Hasc.
Qed.

Lemma ascending_insert (l : LoopDetectionService) (hash : string)
    (occ : list Z) :
  ascending l ->
  ascendingFrom 0 occ -> Forall (fun i => i < lastContentIndex l + 1) occ ->
  ascending (with_index (lastContentIndex l + 1)
               (with_stats (<[hash := occ]> (contentStats l)) l)).
Proof.
  intros Hasc Ha Hb. unfold ascending.
  cbn [contentStats lastContentIndex with_stats with_index].
  apply map_Forall_insert_2; [auto|].
  intros k idxs Hk. destruct (Hasc k idxs Hk) as [H1 H2]. split; [exact H1|].
  eapply Forall_impl; [exact H2|]. cbn. intros; lia.
Qed.

Lemma isLoopDetectedForChunk_ascending (l : LoopDetectionService)
    (chunk : gostring) (hash : string) (r : bool) (l1 : LoopDetectionService) :
  0 <= lastContentIndex l -> ascending l ->
  isLoopDetectedForChunk l chunk hash = Done (r, l1) ->
  ascending (with_index (lastContentIndex l + 1) l1) /\
  (r = true -> 9 <= lastContentIndex l).
Proof.
  intros Hidx Hasc. unfold isLoopDetectedForChunk.
  assert (Hsame : ascending (with_index (lastContentIndex l + 1) l)).
  { intros k idxs Hk. destruct (Hasc k idxs Hk) as [H1 H2].
    split; [exact H1|]. eapply Forall_impl; [exact H2|]. cbn. intros; lia. }
  destruct (contentStats l !! hash) as [idxs|] eqn:Hlook.
  2:{ intros [= <- <-]. split; [|discriminate].
      apply ascending_insert; [exact Hasc|cbn; lia|].
      apply Forall_singleton. lia. }
  destruct (Hasc hash idxs Hlook) as [Ha Hb].
  destruct (at_ idxs 0) as [first|] eqn:Hfirst;
    cbn [of_index mbind outcome_bind]; [|discriminate].
  destruct (isActualContentMatch l chunk first) as [matches| |];
    cbn [mbind outcome_bind]; try discriminate.
  destruct matches; cbn [negb].
  2:{ intros [= <- <-]. split; [exact Hsame|discriminate]. }
  assert (Hocc : ascending
                   (with_index (lastContentIndex l + 1)
                      (with_stats
                         (<[hash := idxs ++ [lastContentIndex l]]>
                            (contentStats l)) l))).
  { apply ascending_insert; [exact Hasc| |].
    - apply ascendingFrom_snoc; [|exact Ha|exact Hb].
      assert (idxs <> []) as Hne.
      { intros ->. unfold at_ in Hfirst. cbn in Hfirst. discriminate. }
      pose proof (ascendingFrom_len _ _ _ Ha Hb Hne).
      pose proof (len_nonneg idxs). lia.
    - apply Forall_app. split.
      + eapply Forall_impl; [exact Hb|]. cbn. intros; lia.
      + apply Forall_singleton. lia. }
  destruct (Z.ltb_spec (len (idxs ++ [lastContentIndex l]))
              CONTENT_LOOP_THRESHOLD) as [Hfew|Hmany].
  { intros [= <- <-]. split; [exact Hocc|discriminate]. }
  set (w := slice_from _ _).
  destruct (at_ w (len w - 1)); cbn [of_index mbind outcome_bind];
    [|discriminate].
  destruct (at_ w 0); cbn [of_index mbind outcome_bind]; [|discriminate].
  intros [= <- <-]. split; [exact Hocc|]. intros _.
  assert (idxs <> []) as Hne.
  { intros ->. unfold at_ in Hfirst. cbn in Hfirst. discriminate. }
  pose proof (ascendingFrom_len _ _ _ Ha Hb Hne) as Hlen.
  rewrite len_app in Hmany. unfold CONTENT_LOOP_THRESHOLD in Hmany.
  change (len [lastContentIndex l]) with 1 in Hmany. lia.
Qed.

Lemma analyzeLoop_ascending (fuel : nat) :
  forall (l : LoopDetectionService) (r : bool) (l' : LoopDetectionService),
    0 <= lastContentIndex l -> ascending l ->
    analyzeLoop fuel l = Done (r, l') ->
    (r = false -> ascending l') /\
    (r = true -> 59 <= len (streamContentHistory l')).
Proof.
  induction fuel as [|fuel IH]; intros l r l' Hidx Hasc.
  - cbn [analyzeLoop]. destruct (hasMoreChunksToProcess l); [discriminate|].
    intros [= <- <-]. split; [auto|discriminate].
  - destruct (hasMoreChunksToProcess l) eqn:Hmore.
    2:{ rewrite analyzeLoop_end by assumption.
        intros [= <- <-]. split; [auto|discriminate]. }
    rewrite analyzeLoop_step by assumption.
    destruct (isLoopDetectedForChunk l (currentChunk l)
                (hashChunk (currentChunk l))) as [[d l1]| |] eqn:Hchunk;
      cbn [mbind outcome_bind]; try discriminate.
    destruct (isLoopDetectedForChunk_ascending _ _ _ _ _ Hidx Hasc Hchunk)
      as [Hasc1 Hnine].
    destruct (isLoopDetectedForChunk_frame _ _ _ _ _ Hchunk) as (m & ->).
    destruct d.
    + intros [= <- <-]. split; [discriminate|]. intros _.
      specialize (Hnine eq_refl).
      apply hasMoreChunksToProcess_true in Hmore.
      cbn [streamContentHistory with_stats].
      unfold CONTENT_CHUNK_SIZE in Hmore. lia.
    + intros Hrec.
      apply IH in Hrec; [exact Hrec| |exact Hasc1].
      cbn [lastContentIndex with_index with_stats]. lia.
Qed.

Lemma max_0_ge (z : Z) : 0 <= max 0 z.
Proof. unfold max. destruct (Z.gtb_spec 0 z); lia. Qed.

Lemma beforeScan_index_nonneg (l : LoopDetectionService) (content : gostring) :
  0 <= lastContentIndex l -> 0 <= lastContentIndex (beforeScan l content).
Proof.
  intros Hidx. unfold beforeScan, truncateAndUpdate.
  match goal with
  | |- context [?a <=? MAX_HISTORY_LENGTH] => destruct (a <=? MAX_HISTORY_LENGTH)
  end.
  - unfold afterMarkers. destruct (hasStructuralMarker content); cbn; lia.
  - cbn [lastContentIndex with_stats with_index]. apply max_0_ge.
Qed.

Lemma checkContentLoop_ascending (l : LoopDetectionService)
    (content : gostring) (r : bool) (l' : LoopDetectionService) :
  0 <= lastContentIndex l -> ascending l ->
  checkContentLoop l content = Done (r, l') ->
  (r = false -> ascending l') /\
  (r = true -> 59 <= len (streamContentHistory l')).
Proof.
  intros Hidx Hasc. rewrite checkContentLoop_eq.
  destruct (exempt l content).
  - intros [= <- <-]. split; [|discriminate]. intros _.
    apply ascending_afterMarkers. exact Hasc.
  - unfold analyzeContentChunksForLoop. intros Hrun.
    eapply analyzeLoop_ascending; [| |exact Hrun].
    + apply beforeScan_index_nonneg. exact Hidx.
    + apply ascending_beforeScan. exact Hasc.
Qed.

Lemma AddAndCheck_ascending (l : LoopDetectionService)
    (event : StreamEvent Args) (r : bool) (l' : LoopDetectionService) :
  0 <= lastContentIndex l ->
  (loopDetected l = false -> ascending l) ->
  AddAndCheck l event = Done (r, l') ->
  (loopDetected l' = false -> ascending l') /\
  (r = true -> loopDetected l = false -> EvType event = EventContent ->
   59 <= len (streamContentHistory l')).
Proof.
  intros Hidx Hasc. unfold AddAndCheck.
  destruct (loopDetected l) eqn:Hl.
  { intros [= <- <-]. split; [congruence|discriminate]. }
  specialize (Hasc eq_refl).
  destruct (String.eqb (EvType event) EventToolCall) eqn:Htool.
  - apply String.eqb_eq in Htool.
    assert (Hnot : EvType event <> EventContent)
      by (rewrite Htool; discriminate).
    destruct (Data event) as [|?|?|tc|?|?|?|?|?|?];
      try (intros [= <- <-]; split;
           [intros _; apply ascending_empty; reflexivity|congruence]).
    destruct (checkToolCallLoop_frame (resetContentTracking false l) tc)
      as (k & n & Hf).
    destruct (checkToolCallLoop (resetContentTracking false l) tc) as [r1 l1].
    cbn [snd] in Hf. subst l1. intros [= <- <-].
    split; [intros _; apply ascending_empty; reflexivity|congruence].
  - destruct (String.eqb (EvType event) EventContent);
      [|intros [= <- <-]; split; [auto|discriminate]].
    destruct (Data event) as [|c|?|?|?|?|?|?|?|?];
      try (intros [= <- <-]; split; [auto|discriminate]).
    destruct (checkContentLoop l (Text c)) as [[r1 l1]| |] eqn:Hc;
      cbn [mbind outcome_bind]; try discriminate.
    destruct (checkContentLoop_ascending _ _ _ _ Hidx Hasc Hc) as [Hf Ht].
    intros [= <- <-]. cbn [loopDetected with_loopDetected]. split.
    + intros ->. apply (ascending_ext l1); [reflexivity|reflexivity|auto].
    + intros -> _ _. cbn [streamContentHistory with_loopDetected]. auto.
Qed.

Lemma reachable_ascending (l : LoopDetectionService) :
  reachable l -> loopDetected l = false -> ascending l.
Proof.
  induction 1 as [|p l Hr IH|l Hr IH|l event r l' Hr IH Hrun].
  - intros _. apply ascending_empty. reflexivity.
  - intros _. apply ascending_empty. reflexivity.
  - cbn [TurnStarted snd loopDetected with_llm]. intros Hl.
    apply (ascending_ext l); [reflexivity|reflexivity|auto].
  - apply reachable_inv in Hr. destruct Hr as (Hidx & _).
    exact (proj1 (AddAndCheck_ascending _ _ _ _ Hidx IH Hrun)).
Qed.

(** X7.  A content loop is never declared on less text than ten chunk
    positions take: whenever [AddAndCheck] answers [true] to a content
    event (in a state of a service in which no loop is latched), the
    buffer holds at least [CONTENT_CHUNK_SIZE + CONTENT_LOOP_THRESHOLD - 1]
    = 59 bytes, because the offsets recorded for a fingerprint are
    distinct.  The bound is reached: after [Reset], outside a code fence,
    a single fragment of 59 equal letters is declared a loop. *)
Theorem content_loop_needs_59_bytes (l : LoopDetectionService)
    (event : StreamEvent Args) (l' : LoopDetectionService)
    (p provider model : string) (delta : bool) (now : Z) :
  (reachable l -> loopDetected l = false ->
   EvType event = EventContent ->
   AddAndCheck l event = Done (true, l') ->
   CONTENT_CHUNK_SIZE + CONTENT_LOOP_THRESHOLD - 1
   <= len (streamContentHistory l')) /\
  (inCodeBlock l = false ->
   exists l2,
     AddAndCheck (Reset p l)
       (NewContentEvent provider model (replicate 59 "a"%char) delta now)
     = Done (true, l2)).
Proof.
  split.
  - intros Hr Hl Hty Hrun.
    pose proof (reachable_inv _ Hr) as (Hidx & _).
    pose proof (reachable_ascending _ Hr) as Hasc.
    destruct (AddAndCheck_ascending _ _ _ _ Hidx Hasc Hrun) as [_ H59].
    unfold CONTENT_CHUNK_SIZE, CONTENT_LOOP_THRESHOLD. cbn.
    apply H59; auto.
  - intros Hout.
    rewrite (AddAndCheck_content (Reset p l) _
               (mkContentEvent (replicate 59 "a"%char) delta false))
      by reflexivity.
    cbn [Text].
    rewrite checkContentLoop_eq.
    assert (exempt (Reset p l) (replicate 59 "a"%char) = false) as ->.
    { unfold exempt. cbn [inCodeBlock Reset with_loopDetected
        resetLLMCheckTracking with_llm resetContentTracking with_index
        with_stats with_history resetToolCallCount with_toolCall
        with_promptID].
      rewrite Hout. vm_compute. reflexivity. }
    destruct (analyzeContentChunksForLoop_uniform "a"%char
                (beforeScan (Reset p l) (replicate 59 "a"%char)))
      as (l2 & Hscan).
    + rewrite beforeScan_history. reflexivity.
    + apply beforeScan_fresh; reflexivity.
    + apply beforeScan_fresh; reflexivity.
    + rewrite Hscan. cbn [mbind outcome_bind]. eexists. reflexivity.
Qed.

(** ** What a scan that finds no loop has recorded *)

Lemma isLoopDetectedForChunk_record (l : LoopDetectionService) (r : bool)
    (l1 : LoopDetectionService) :
  0 <= lastContentIndex l -> offsetsValid l ->
  hasMoreChunksToProcess l = true ->
  isLoopDetectedForChunk l (currentChunk l) (hashChunk (currentChunk l))
    = Done (r, l1) ->
  (forall k idxs, contentStats l !! k = Some idxs ->
     exists more, contentStats l1 !! k = Some (idxs ++ more)) /\
  exists idxs,
    contentStats l1 !! hashChunk (currentChunk l) = Some idxs /\
    (lastContentIndex l ∈ idxs \/
     exists first, head idxs = Some first /\
       chunkAt (streamContentHistory l) first <> currentChunk l).
Proof.
  intros Hidx Hvalid Hmore.
  set (hash := hashChunk (currentChunk l)).
  destruct (contentStats l !! hash) as [[|first rest]|] eqn:Hlook.
  - rewrite (isLoopDetectedForChunk_empty _ _ _ Hlook). discriminate.
  - destruct (Hvalid hash _ Hlook) as (_ & Hall & _).
    apply Forall_cons in Hall as [(Hf0 & Hf50 & _) _].
    destruct (decide (chunkAt (streamContentHistory l) first = currentChunk l))
      as [Heq|Hne].
    + rewrite (isLoopDetectedForChunk_match _ _ _ _ _ Hlook Hf0 Hf50 Heq).
      intros [= _ <-]. cbn [contentStats with_stats]. split.
      * intros k idxs Hk. destruct (decide (k = hash)) as [->|Hk'].
        -- rewrite lookup_insert_eq. rewrite Hlook in Hk. injection Hk as <-.
           eexists. reflexivity.
        -- rewrite lookup_insert_ne by congruence. exists [].
           rewrite app_nil_r. exact Hk.
      * eexists. rewrite lookup_insert_eq. split; [reflexivity|]. left.
        change (lastContentIndex l ∈ (first :: rest) ++ [lastContentIndex l]).
        apply elem_of_app. right. apply list_elem_of_singleton. reflexivity.
    + rewrite (isLoopDetectedForChunk_mismatch _ _ _ _ _ Hlook Hf0)
        by (intros [_ ?]; contradiction).
      intros [= _ <-]. split.
      * intros k idxs Hk. exists []. rewrite app_nil_r. exact Hk.
      * exists (first :: rest). split; [exact Hlook|]. right.
        exists first. split; [reflexivity|exact Hne].
  - rewrite (isLoopDetectedForChunk_unseen _ _ _ Hlook).
    intros [= _ <-]. cbn [contentStats with_stats]. split.
    + intros k idxs Hk. destruct (decide (k = hash)) as [->|Hk'].
      * congruence.
      * rewrite lookup_insert_ne by congruence. exists [].
        rewrite app_nil_r. exact Hk.
    + eexists. rewrite lookup_insert_eq. split; [reflexivity|]. left.
      apply list_elem_of_singleton. reflexivity.
Qed.

Lemma analyzeLoop_coverage (fuel : nat) :
  forall (l l' : LoopDetectionService),
    0 <= lastContentIndex l -> offsetsValid l ->
    analyzeLoop fuel l = Done (false, l') ->
    lastContentIndex l' =
      Z.max (lastContentIndex l) (len (streamContentHistory l) - 49) /\
    (forall k idxs, contentStats l !! k = Some idxs ->
       exists more, contentStats l' !! k = Some (idxs ++ more)) /\
    (forall i, lastContentIndex l <= i < lastContentIndex l' ->
       exists idxs,
         contentStats l' !! hashChunk (chunkAt (streamContentHistory l) i)
           = Some idxs /\
         (i ∈ idxs \/
          exists first, head idxs = Some first /\
            chunkAt (streamContentHistory l) first
            <> chunkAt (streamContentHistory l) i)).
Proof.
  induction fuel as [|fuel IH]; intros l l' Hidx Hvalid.
  - cbn [analyzeLoop]. destruct (hasMoreChunksToProcess l) eqn:Hmore;
      [discriminate|].
    intros [= <-].
    assert (~ lastContentIndex l + CONTENT_CHUNK_SIZE
              <= len (streamContentHistory l)) as Hno.
    { rewrite <- hasMoreChunksToProcess_true. congruence. }
    unfold CONTENT_CHUNK_SIZE in Hno.
    split; [lia|]. split.
    + intros k idxs Hk. exists []. rewrite app_nil_r. exact Hk.
    + intros i Hi. lia.
  - destruct (hasMoreChunksToProcess l) eqn:Hmore.
    2:{ rewrite analyzeLoop_end by assumption. intros [= <-].
        assert (~ lastContentIndex l + CONTENT_CHUNK_SIZE
                  <= len (streamContentHistory l)) as Hno.
        { rewrite <- hasMoreChunksToProcess_true. congruence. }
        unfold CONTENT_CHUNK_SIZE in Hno.
        split; [lia|]. split.
        + intros k idxs Hk. exists []. rewrite app_nil_r. exact Hk.
        + intros i Hi. lia. }
    rewrite analyzeLoop_step by assumption.
    destruct (isLoopDetectedForChunk l (currentChunk l)
                (hashChunk (currentChunk l))) as [[d l1]| |] eqn:Hchunk;
      cbn [mbind outcome_bind]; try discriminate.
    destruct d; [discriminate|].
    intros Hrec.
    destruct (isLoopDetectedForChunk_record _ _ _ Hidx Hvalid Hmore Hchunk)
      as (Hgrow1 & idxs0 & Hlook0 & Hrec0).
    assert (Hstep : scanStep l (with_index (lastContentIndex l1 + 1) l1)).
    { split; [exact Hmore|]. exists l1. auto. }
    destruct (scanStep_inv _ _ Hidx Hvalid Hstep) as (Hidx2 & Hvalid2 & Hh2 & Hc2).
    destruct (IH _ _ Hidx2 Hvalid2 Hrec) as (Hcur & Hgrow & Hcover).
    rewrite Hh2, Hc2 in Hcur. rewrite Hh2, Hc2 in Hcover.
    cbn [contentStats with_index] in Hgrow.
    apply hasMoreChunksToProcess_true in Hmore.
    unfold CONTENT_CHUNK_SIZE in Hmore.
    split; [lia|]. split.
    + intros k idxs Hk. destruct (Hgrow1 k idxs Hk) as (m1 & H1).
      destruct (Hgrow k _ H1) as (m2 & H2).
      exists (m1 ++ m2). rewrite H2, app_assoc. reflexivity.
    + intros i Hi.
      destruct (decide (i = lastContentIndex l)) as [->|Hne].
      * destruct (Hgrow _ _ Hlook0) as (m2 & H2).
        exists (idxs0 ++ m2). split; [exact H2|].
        destruct Hrec0 as [Hin|(first & Hhead & Hdiff)].
        -- left. apply elem_of_app. left. exact Hin.
        -- right. exists first. split; [|exact Hdiff].
           destruct idxs0; [discriminate|exact Hhead].
      * apply Hcover. lia.
Qed.

(** X8.  When [checkContentLoop] analyses a fragment and finds no loop,
    the scan has gone through the whole buffer: the cursor is left at the
    first offset at which no complete chunk starts yet, and every
    complete chunk from the offset where the scan began has its digest in
    the index, with its own offset recorded there unless the digest was
    first recorded for a different text (a collision of digests). *)
Theorem scan_covers_buffer (l : LoopDetectionService) (content : gostring)
    (l' : LoopDetectionService) :
  inv l -> exempt l content = false ->
  checkContentLoop l content = Done (false, l') ->
  let start := beforeScan l content in
  let history := streamContentHistory l' in
  history = streamContentHistory start /\
  hasMoreChunksToProcess l' = false /\
  lastContentIndex l' = Z.max (lastContentIndex start) (len history - 49) /\
  (forall i, lastContentIndex start <= i -> i + CONTENT_CHUNK_SIZE <= len history ->
     exists idxs,
       contentStats l' !! hashChunk (chunkAt history i) = Some idxs /\
       (i ∈ idxs \/
        exists first, head idxs = Some first /\
          chunkAt history first <> chunkAt history i)).
Proof.
  intros Hinv Hex. rewrite checkContentLoop_eq, Hex.
  unfold analyzeContentChunksForLoop. intros Hrun. cbn zeta.
  destruct (inv_beforeScan l content Hinv) as (Hidx & _ & Hvalid).
  pose proof (analyzeLoop_frame _ _ _ _ Hrun) as Hframe.
  apply scanFrame_history in Hframe.
  destruct (analyzeLoop_coverage _ _ _ Hidx Hvalid Hrun)
    as (Hcur & _ & Hcover).
  rewrite Hframe.
  split; [reflexivity|]. split.
  { unfold hasMoreChunksToProcess. rewrite Hframe, Hcur.
    unfold CONTENT_CHUNK_SIZE. apply Z.leb_gt. lia. }
  split; [exact Hcur|].
  intros i Hi Hfull. apply Hcover. unfold CONTENT_CHUNK_SIZE in Hfull. lia.
Qed.

(** ** The patterns of [checkContentLoop] *)

Lemma in_allAscii (c : ascii) : In c allAscii.
Proof.
  unfold allAscii. rewrite <- (ascii_nat_embedding c).
  apply in_map, in_seq. pose proof (nat_ascii_bounded c). lia.
Qed.

Lemma needs_nullable (P : ascii -> bool) (bot eot : bool) (r : regex) :
  needs P r = true -> nullable bot eot r = false.
Proof.
  induction r as [| | | |p|r1 IH1 r2 IH2|r1 IH1 r2 IH2|r1 IH1];
    cbn [needs nullable]; try discriminate; try reflexivity.
  - intros H. apply orb_true_iff in H. destruct H as [H|H].
    + rewrite (IH1 H). reflexivity.
    + rewrite (IH2 H). apply andb_false_r.
  - intros H. apply andb_true_iff in H. destruct H as [H1 H2].
    rewrite (IH1 H1), (IH2 H2). reflexivity.
Qed.

Lemma needs_rcat (P : ascii -> bool) (r1 r2 : regex) :
  needs P r1 || needs P r2 = true -> needs P (rcat r1 r2) = true.
Proof. destruct r1; cbn [rcat needs]; auto. Qed.

Lemma needs_ralt (P : ascii -> bool) (r1 r2 : regex) :
  needs P r1 = true -> needs P r2 = true -> needs P (ralt r1 r2) = true.
Proof.
  intros H1 H2. destruct r1, r2; cbn [ralt needs] in *;
    try assumption; try reflexivity; rewrite ?H1, ?H2; reflexivity.
Qed.

Lemma needs_deriv (P : ascii -> bool) (c : ascii) (r : regex) :
  forall bot, P c = false -> needs P r = true -> needs P (deriv bot c r) = true.
Proof.
  induction r as [| | | |p|r1 IH1 r2 IH2|r1 IH1 r2 IH2|r1 IH1];
    intros bot Hc; cbn [needs deriv]; try discriminate; try reflexivity.
  - intros H. rewrite forallb_forall in H. specialize (H c (in_allAscii c)).
    rewrite Hc in H. destruct (p c); [discriminate|reflexivity].
  - intros H. apply orb_true_iff in H. destruct H as [H|H].
    + rewrite (needs_nullable P bot false r1 H).
      apply needs_ralt; [|reflexivity].
      apply needs_rcat. rewrite (IH1 bot Hc H). reflexivity.
    + apply needs_ralt.
      * apply needs_rcat. rewrite H. apply orb_true_r.
      * destruct (nullable bot false r1); [auto|reflexivity].
  - intros H. apply andb_true_iff in H. destruct H as [H1 H2].
    apply needs_ralt; auto.
Qed.

Lemma needs_matchPrefix (P : ascii -> bool) (s : gostring) :
  forall bot r,
    Forall (fun c => P c = false) s -> needs P r = true ->
    matchPrefix bot r s = false.
Proof.
  induction s as [|c s IH]; intros bot r Hs Hr; cbn [matchPrefix].
  - rewrite (needs_nullable P _ _ r Hr). reflexivity.
  - rewrite (needs_nullable P _ _ r Hr). cbn [orb].
    apply Forall_cons in Hs as [Hc Hs].
    apply IH; [exact Hs|]. apply needs_deriv; assumption.
Qed.

Lemma needs_matchFrom (P : ascii -> bool) (r : regex) (s : gostring) :
  forall bot,
    Forall (fun c => P c = false) s -> needs P r = true ->
    matchFrom bot r s = false.
Proof.
  induction s as [|c s IH]; intros bot Hs Hr; cbn [matchFrom].
  - rewrite (needs_matchPrefix P [] bot r Hs Hr). reflexivity.
  - rewrite (needs_matchPrefix P (c :: s) bot r Hs Hr). cbn [orb].
    apply Forall_cons in Hs as [_ Hs]. apply IH; assumption.
Qed.

Lemma needs_MatchString (P : ascii -> bool) (r : regex) (s : gostring) :
  Forall (fun c => P c = false) s -> needs P r = true ->
  MatchString r s = false.
Proof. apply needs_matchFrom. Qed.

Lemma countFences_none (s : gostring) :
  Forall (fun c => c <> "`"%char) s -> countFences s = 0.
Proof.
  induction s as [|c s IH]; [reflexivity|].
  intros Hs. apply Forall_cons in Hs as [Hc Hs]. specialize (IH Hs).
  cbn [countFences].
  destruct c as [[] [] [] [] [] [] [] []]; try exact IH.
  contradiction.
Qed.

Lemma matchFrom_app (r : regex) (s pre : gostring) :
  (forall bot, matchFrom bot r s = true) ->
  forall bot, matchFrom bot r (pre ++ s) = true.
Proof.
  intros Hs. induction pre as [|x pre IH]; intros bot; [apply Hs|].
  cbn [app matchFrom]. rewrite IH. apply orb_true_r.
Qed.

Lemma plain_no_marker (s : gostring) :
  Forall (fun c => markerByte c = false) s ->
  Forall (fun c => c <> "."%char) s \/ Forall (fun c => range "0" "9" c = false) s ->
  countFences s = 0 /\ hasStructuralMarker s = false.
Proof.
  intros Hs Hnum.
  assert (Hf : countFences s = 0).
  { apply countFences_none. eapply Forall_impl; [exact Hs|].
    intros c Hc ->. discriminate. }
  split; [exact Hf|].
  unfold hasStructuralMarker. rewrite Hf.
  rewrite (needs_MatchString markerByte reTable s Hs) by (vm_compute; reflexivity).
  rewrite (needs_MatchString markerByte reBullet s Hs) by (vm_compute; reflexivity).
  rewrite (needs_MatchString markerByte reHeading s Hs) by (vm_compute; reflexivity).
  rewrite (needs_MatchString markerByte reBlockquote s Hs) by (vm_compute; reflexivity).
  rewrite (needs_MatchString markerByte reDivider s Hs) by (vm_compute; reflexivity).
  assert (MatchString reNumbered s = false) as ->; [|reflexivity].
  destruct Hnum as [Hdot|Hdigit].
  - apply (needs_MatchString (Ascii.eqb "."%char)); [|vm_compute; reflexivity].
    eapply Forall_impl; [exact Hdot|]. intros c Hc.
    apply Ascii.eqb_neq. congruence.
  - apply (needs_MatchString (range "0" "9")); [exact Hdigit|].
    vm_compute. reflexivity.
Qed.

(** X9.  Plain text carries no structural marker.  A fragment with none
    of the bytes [`|+-*#>_=], and with no digit or no full stop, holds no
    fence delimiter and matches none of the table, list, heading,
    blockquote and divider patterns; outside a code fence
    [checkContentLoop] therefore always analyses it: it returns, and the
    buffer afterwards is the old buffer followed by the fragment, cut to
    its last [MAX_HISTORY_LENGTH] bytes. *)
Theorem plain_text_is_analysed (l : LoopDetectionService) (content : gostring) :
  Forall (fun c => markerByte c = false) content ->
  Forall (fun c => c <> "."%char) content \/
    Forall (fun c => range "0" "9" c = false) content ->
  countFences content = 0 /\ hasStructuralMarker content = false /\
  (inv l -> inCodeBlock l = false ->
   exists r l',
     checkContentLoop l content = Done (r, l') /\
     inCodeBlock l' = false /\
     streamContentHistory l' = keepRecent (streamContentHistory l ++ content)).
Proof.
  intros Hs Hnum.
  destruct (plain_no_marker content Hs Hnum) as [Hf Hm].
  split; [exact Hf|]. split; [exact Hm|].
  intros Hinv Hout.
  assert (Hex : exempt l content = false).
  { unfold exempt, inCodeBlockAfter. rewrite Hout, Hf.
    unfold hasStructuralMarker in Hm.
    apply orb_false_iff in Hm. destruct Hm as [_ ->]. reflexivity. }
  destruct (checkContentLoop_frame l content Hinv)
    as (r & l' & Hrun & _ & Hframe).
  rewrite Hex in Hframe.
  exists r, l'. split; [exact Hrun|].
  destruct Hframe as (i & m & ->).
  cbn [inCodeBlock streamContentHistory with_index with_stats].
  split.
  - unfold beforeScan, truncateAndUpdate, afterMarkers. rewrite Hm.
    match goal with
    | |- context [?a <=? MAX_HISTORY_LENGTH] => destruct (a <=? MAX_HISTORY_LENGTH)
    end; cbn; unfold inCodeBlockAfter; rewrite Hout, Hf; reflexivity.
  - rewrite beforeScan_history. reflexivity.
Qed.

(** X10.  The bullet pattern [(^|\n)\s*[*-+]\s] has the class [[*-+]],
    which is the range from [*] to [+]: a line that begins with [*] or
    [+] and a blank is a list item wherever it stands in the fragment,
    and no text without a [*] and without a [+] matches the pattern, so
    a line that begins with [-] and a blank is not a list item. *)
Theorem bullet_pattern_star_plus_only (pre rest s : gostring) (bullet : ascii) :
  (bullet = "*"%char \/ bullet = "+"%char ->
   MatchString reBullet (bullet :: " "%char :: rest) = true /\
   MatchString reBullet (pre ++ nl :: bullet :: " "%char :: rest) = true) /\
  (Forall (fun c => c <> "*"%char /\ c <> "+"%char) s ->
   MatchString reBullet s = false).
Proof.
  split.
  - intros Hb. split.
    + destruct Hb as [-> | ->]; destruct rest; reflexivity.
    + apply matchFrom_app. intros bot.
      destruct Hb as [-> | ->]; destruct bot, rest; reflexivity.
  - intros Hs.
    apply (needs_MatchString (range "*" "+")); [|vm_compute; reflexivity].
    eapply Forall_impl; [exact Hs|]. intros c [H1 H2].
    destruct c as [[] [] [] [] [] [] [] []]; try reflexivity; congruence.
Qed.

(** ** Periodic text is reported *)

Lemma chunkAt_periodic (p : nat) (s : gostring) :
  periodic p s ->
  forall k : nat,
    Z.of_nat (k * p) + CONTENT_CHUNK_SIZE <= len s ->
    chunkAt s (Z.of_nat (k * p)) = chunkAt s 0.
Proof.
  intros Hper. unfold CONTENT_CHUNK_SIZE, len.
  induction k as [|k IH]; intros Hlen; [reflexivity|].
  rewrite <- IH by lia.
  rewrite !chunkAt_eq, !Nat2Z.id.
  apply list_eq. intros j.
  destruct (decide (j < 50)%nat) as [Hj|Hj].
  - rewrite !lookup_take_lt, !lookup_drop by lia.
    replace (S k * p + j)%nat with ((k * p + j) + p)%nat by lia.
    apply Hper. lia.
  - rewrite !lookup_take_ge by lia. reflexivity.
Qed.

Lemma windowSpan_recent (occ : list Z) (m : Z) :
  Forall (fun x => 0 <= x) occ -> last occ = Some m ->
  windowSpan (recentWindow occ) <= m.
Proof.
  intros Hall Hlast. unfold windowSpan, recentWindow.
  set (n := (length occ - Z.to_nat CONTENT_LOOP_THRESHOLD)%nat).
  assert (Hocc : occ <> []) by (intros ->; discriminate).
  assert (Hn : (n < length occ)%nat).
  { destruct occ; [congruence|]. unfold n, CONTENT_LOOP_THRESHOLD.
    cbn [length]. lia. }
  assert (Hl : last (drop n occ) = Some m).
  { rewrite last_lookup in Hlast |- *.
    rewrite lookup_drop, length_drop.
    replace (n + pred (length occ - n))%nat with (pred (length occ)) by lia.
    exact Hlast. }
  rewrite Hl.
  destruct (drop n occ) as [|x w] eqn:Hw; [discriminate|].
  cbn [head default from_option]. unfold id.
  assert (x ∈ occ) as Hx.
  { apply (list_elem_of_lookup_2 _ n).
    rewrite <- (Nat.add_0_r n), <- lookup_drop, Hw. reflexivity. }
  rewrite Forall_forall in Hall. specialize (Hall x Hx). lia.
Qed.

Lemma multiples_length (p : nat) (L : list Z) :
  (1 <= p)%nat ->
  (forall k : nat, (k < 9)%nat -> Z.of_nat (k * p) ∈ L) ->
  9 <= len L.
Proof.
  intros Hp Hin.
  assert (Hsub : (fun k => Z.of_nat (k * p)) <$> seq 0 9 ⊆+ L).
  { apply NoDup_submseteq.
    - apply NoDup_fmap_2_strong; [|apply NoDup_seq].
      intros a b _ _ Hab. apply Nat2Z.inj in Hab. nia.
    - intros x Hx. apply list_elem_of_fmap in Hx.
      destruct Hx as (k & -> & Hk). apply elem_of_seq in Hk.
      apply Hin. lia. }
  apply submseteq_length in Hsub.
  rewrite length_fmap, length_seq in Hsub. unfold len. lia.
Qed.

Lemma analyzeLoop_periodic (s : gostring) (p : nat) :
  (1 <= p <= 75)%nat -> periodic p s ->
  9 * Z.of_nat p + CONTENT_CHUNK_SIZE <= len s ->
  let h0 := hashChunk (chunkAt s 0) in
  forall (d c : nat) (l : LoopDetectionService) (fuel : nat),
    (c + d = 9 * p)%nat -> (d < fuel)%nat ->
    streamContentHistory l = s -> lastContentIndex l = Z.of_nat c ->
    offsetsValid l ->
    (forall L, contentStats l !! h0 = Some L -> head L = Some 0) ->
    (forall k : nat, (k * p < c)%nat ->
       exists L, contentStats l !! h0 = Some L /\ Z.of_nat (k * p) ∈ L) ->
    exists l', analyzeLoop fuel l = Done (true, l').
Proof.
  intros Hp Hper Hlen h0.
  unfold CONTENT_CHUNK_SIZE in Hlen.
  induction d as [|d IH]; intros c l fuel Hcd Hfuel Hs Hc Hvalid Hhead Hmult;
    (destruct fuel as [|fuel]; [lia|]);
    assert (Hidx : 0 <= lastContentIndex l) by lia;
    assert (Hmore : hasMoreChunksToProcess l = true)
      by (apply hasMoreChunksToProcess_true; rewrite Hs, Hc;
          unfold CONTENT_CHUNK_SIZE; lia);
    rewrite analyzeLoop_step by assumption.
  - (* the tenth occurrence of the first chunk *)
    assert (Hc9 : c = (9 * p)%nat) by lia.
    assert (Hchunk : currentChunk l = chunkAt s 0).
    { unfold currentChunk. rewrite Hs, Hc, Hc9.
      apply chunkAt_periodic; [exact Hper|].
      unfold CONTENT_CHUNK_SIZE. lia. }
    rewrite Hchunk. fold h0.
    destruct (Hmult 0%nat ltac:(lia)) as (L & HL & _).
    pose proof (Hhead L HL) as HheadL.
    destruct L as [|first rest]; [discriminate|].
    injection HheadL as ->.
    rewrite (isLoopDetectedForChunk_match l (chunkAt s 0) h0 0 rest HL);
      [|lia|rewrite Hs; unfold CONTENT_CHUNK_SIZE; lia|rewrite Hs; reflexivity].
    rewrite bool_decide_eq_true_2.
    { cbn [mbind outcome_bind]. eexists. reflexivity. }
    destruct (Hvalid h0 _ HL) as (_ & Hall & _).
    assert (H9 : 9 <= len (0 :: rest)).
    { apply (multiples_length p); [lia|].
      intros k Hk. destruct (Hmult k ltac:(nia)) as (L' & HL' & Hin).
      congruence. }
    split.
    + rewrite len_app. unfold CONTENT_LOOP_THRESHOLD.
      change (len [lastContentIndex l]) with 1. lia.
    + apply clustered_span.
      transitivity (lastContentIndex l); [|lia].
      apply windowSpan_recent.
      * apply Forall_app. split.
        -- eapply Forall_impl; [exact Hall|]. cbn. intros x Hx. lia.
        -- apply Forall_singleton. lia.
      * apply last_snoc.
  - (* an earlier position: the scan finds a loop or goes on *)
    set (chunk := currentChunk l).
    set (hc := hashChunk chunk).
    assert (Hself : (exists k : nat, c = (k * p)%nat) -> chunk = chunkAt s 0).
    { intros (k & ->). unfold chunk, currentChunk. rewrite Hs, Hc.
      apply chunkAt_periodic; [exact Hper|].
      unfold CONTENT_CHUNK_SIZE. nia. }
    destruct (isLoopDetectedForChunk_inv l Hidx Hvalid Hmore)
      as (r & l1 & Hrun & Hframe & Hvalid1).
    fold chunk hc in Hrun. rewrite Hrun. cbn [mbind outcome_bind].
    destruct r; [eexists; reflexivity|].
    assert (Hh1 : streamContentHistory l1 = s) by (rewrite Hframe; exact Hs).
    assert (Hc1 : lastContentIndex l1 = Z.of_nat c) by (rewrite Hframe; exact Hc).
    apply (IH (S c)); try lia.
    + exact Hh1.
    + cbn [lastContentIndex with_index]. lia.
    + apply (map_Forall_impl _ _ _ Hvalid1). intros k idxs Hv. exact Hv.
    + (* the entry of the first chunk still begins with offset 0 *)
      cbn [contentStats with_index]. intros L HL.
      destruct (contentStats l !! hc) as [[|first rest]|] eqn:Hlook.
      * rewrite (isLoopDetectedForChunk_empty _ _ _ Hlook) in Hrun.
        discriminate.
      * destruct (Hvalid hc _ Hlook) as (_ & Hall & _).
        apply Forall_cons in Hall as [(Hf0 & Hf50 & _) _].
        destruct (decide (chunkAt (streamContentHistory l) first = chunk))
          as [Heq|Hne].
        -- rewrite (isLoopDetectedForChunk_match _ _ _ _ _ Hlook Hf0 Hf50 Heq)
             in Hrun.
           injection Hrun as _ <-. cbn [contentStats with_stats] in HL.
           destruct (decide (h0 = hc)) as [Hk|Hk].
           ++ rewrite <- Hk, lookup_insert_eq in HL. injection HL as <-.
              rewrite <- Hk in Hlook. apply Hhead in Hlook. exact Hlook.
           ++ rewrite lookup_insert_ne in HL by congruence. auto.
        -- rewrite (isLoopDetectedForChunk_mismatch _ _ _ _ _ Hlook Hf0)
             in Hrun by (intros [_ ?]; contradiction).
           injection Hrun as <-. auto.
      * rewrite (isLoopDetectedForChunk_unseen _ _ _ Hlook) in Hrun.
        injection Hrun as <-. cbn [contentStats with_stats] in HL.
        destruct (decide (h0 = hc)) as [Hk|Hk].
        -- rewrite <- Hk, lookup_insert_eq in HL. injection HL as <-.
           destruct c as [|c'].
           ++ rewrite Hc. reflexivity.
           ++ destruct (Hmult 0%nat ltac:(lia)) as (L' & HL' & _).
              rewrite Hk in HL'. congruence.
        -- rewrite lookup_insert_ne in HL by congruence. auto.
    + (* the multiples of the period below the cursor are recorded *)
      cbn [contentStats with_index]. intros k Hk.
      assert (Hgrow : forall L, contentStats l !! h0 = Some L ->
                exists L', contentStats l1 !! h0 = Some L' /\
                           forall x, x ∈ L -> x ∈ L').
      { intros L HL.
        destruct (isLoopDetectedForChunk_record _ _ _ Hidx Hvalid Hmore Hrun)
          as (Hg & _).
        destruct (Hg _ _ HL) as (more & Hm).
        exists (L ++ more). split; [exact Hm|].
        intros x Hx. apply elem_of_app. left. exact Hx. }
      destruct (decide (k * p < c)%nat) as [Hlt|Hge].
      * destruct (Hmult k Hlt) as (L & HL & Hin).
        destruct (Hgrow L HL) as (L' & HL' & Hsub).
        exists L'. split; [exact HL'|]. apply Hsub. exact Hin.
      * assert (Hkc : c = (k * p)%nat) by lia.
        pose proof (Hself (ex_intro _ k Hkc)) as Hchunk0.
        assert (Hhc : hc = h0) by (unfold hc, h0; rewrite Hchunk0; reflexivity).
        destruct (isLoopDetectedForChunk_record _ _ _ Hidx Hvalid Hmore Hrun)
          as (_ & idxs & Hlook1 & Hrec).
        fold chunk hc in Hlook1. rewrite Hhc in Hlook1.
        exists idxs. split; [exact Hlook1|].
        destruct Hrec as [Hin|(first & Hfirst & Hdiff)].
        -- rewrite Hc, Hkc in Hin. exact Hin.
        -- exfalso. apply Hdiff. fold chunk. rewrite Hchunk0, Hs.
           (* the entry begins with offset 0 *)
           assert (head idxs = Some 0) as H0.
           { destruct (contentStats l !! h0) as [L|] eqn:HL.
             - destruct (isLoopDetectedForChunk_record _ _ _ Hidx Hvalid
                           Hmore Hrun) as (Hg & _).
               destruct (Hg _ _ HL) as (more & Hm).
               rewrite Hm in Hlook1. injection Hlook1 as <-.
               pose proof (Hhead L eq_refl) as HhL.
               destruct L; [discriminate|exact HhL].
             - rewrite <- Hhc in HL.
               rewrite (isLoopDetectedForChunk_unseen _ _ _ HL) in Hrun.
               injection Hrun as <-.
               cbn [contentStats with_stats] in Hlook1.
               rewrite Hhc, lookup_insert_eq in Hlook1.
               injection Hlook1 as <-. cbn in Hfirst.
               exfalso. apply Hdiff. fold chunk.
               injection Hfirst as <-. reflexivity. }
           rewrite H0 in Hfirst. injection Hfirst as <-. reflexivity.
Qed.

(** X11.  Periodic text is reported.  A fragment that repeats with a
    period of at most [1.5 * CONTENT_CHUNK_SIZE] = 75 bytes and holds
    nine periods and one chunk (and at most [MAX_HISTORY_LENGTH] bytes),
    given outside a code fence to a service with an empty buffer, makes
    [AddAndCheck] answer [true], whatever the digest function: the chunk
    at offset 0 recurs at every multiple of the period, and its tenth
    occurrence, if nothing is found earlier, closes a window of ten
    occurrences that lie at most 75 bytes apart on average. *)
Theorem periodic_content_is_reported (l : LoopDetectionService)
    (content : gostring) (p : nat) (provider model : string) (delta : bool)
    (now : Z) :
  (1 <= p <= 75)%nat -> periodic p content ->
  9 * Z.of_nat p + CONTENT_CHUNK_SIZE <= len content <= MAX_HISTORY_LENGTH ->
  oddFences content = false -> MatchString reDivider content = false ->
  loopDetected l = false -> inCodeBlock l = false ->
  streamContentHistory l = [] -> contentStats l = ∅ -> lastContentIndex l = 0 ->
  exists l',
    AddAndCheck l (NewContentEvent provider model content delta now)
    = Done (true, l').
Proof.
  intros Hp Hper [Hlen Hmax] Hfence Hdiv Hl Hout Hh Hst Hidx.
  rewrite (AddAndCheck_content l _ (mkContentEvent content delta false))
    by (assumption || reflexivity).
  cbn [Text]. rewrite checkContentLoop_eq.
  assert (exempt l content = false) as ->.
  { unfold exempt. rewrite Hout, inCodeBlockAfter_xorb, Hfence, Hdiv.
    reflexivity. }
  destruct (beforeScan_fresh l content Hst Hidx) as [Hst' Hidx'].
  assert (Hh' : streamContentHistory (beforeScan l content) = content).
  { rewrite beforeScan_history, Hh. cbn [app].
    destruct (Z.leb_spec (len content) MAX_HISTORY_LENGTH); [reflexivity|lia]. }
  unfold analyzeContentChunksForLoop.
  destruct (analyzeLoop_periodic content p Hp Hper Hlen (9 * p) 0
              (beforeScan l content)
              (S (length (streamContentHistory (beforeScan l content)))))
    as (l' & Hrun).
  - lia.
  - rewrite Hh'. unfold len, CONTENT_CHUNK_SIZE in Hlen. lia.
  - exact Hh'.
  - rewrite Hidx'. reflexivity.
  - unfold offsetsValid. rewrite Hst'. apply map_Forall_empty.
  - rewrite Hst'. intros L HL. rewrite lookup_empty in HL. discriminate.
  - intros k Hk. lia.
  - rewrite Hrun. cbn [mbind outcome_bind]. eexists. reflexivity.
Qed.

(** ** The consumption loop with detection enabled *)

Lemma with_detector_same (c : Client) : with_detector (loopDetector c) c = c.
Proof. destruct c; reflexivity. Qed.

(** X12.  With detection enabled, the consumption loop of
    [SendMessageStream] hands the converted provider events to
    [AddAndCheck] one by one, in order, and stops at the first event that
    is answered [true] or has type error.  What it sends is the converted
    events up to there, unchanged and in order; when [AddAndCheck]
    answered [true], the offending event is replaced by one loop event,
    which is the last event sent, of type content when the offending
    event has type content and of type tool call otherwise.  Events after
    the stop are neither examined nor sent. *)
Theorem consume_enabled_shape (request : ChatRequest) (promptID : string)
    (now : Z) (events : list (ProviderStreamEvent Args)) :
  forall c : Client,
    LoopDetectionEnabled (config c) = true -> inv (loopDetector c) ->
    exists d out calls n rs,
      consume c request promptID now events
      = Done (with_detector d c, out, calls) /\
      (n <= length events)%nat /\
      calls = CallAddAndCheck <$> (convertEvent <$> take n events) /\
      AddAndCheckAll (loopDetector c) (convertEvent <$> take n events)
      = Done (rs, d) /\
      ((Forall (fun r => r = false) rs /\
        take n events = throughFirstError events /\
        out = convertEvent <$> take n events) \/
       (exists pre e,
          take n events = pre ++ [e] /\
          rs = replicate (length pre) false ++ [true] /\
          Forall (fun e => PType e <> EventError) pre /\
          out = (convertEvent <$> pre)
                ++ [loopEventFor c request promptID now (convertEvent e)])).
Proof.
  induction events as [|e rest IH]; intros c Hen Hinv.
  { exists (loopDetector c), [], [], 0%nat, [].
    cbn [consume]. rewrite with_detector_same.
    repeat split; try reflexivity; try lia.
    left. repeat split; constructor. }
  cbn [consume]. rewrite Hen.
  destruct (AddAndCheck_inv _ (convertEvent e) Hinv) as (r & d1 & Hrun & Hinv1).
  rewrite Hrun. cbn [mbind outcome_bind].
  destruct r.
  - (* a loop is declared on this event *)
    exists d1, [loopEventFor c request promptID now (convertEvent e)],
      [CallAddAndCheck (convertEvent e)], 1%nat, [true].
    split; [reflexivity|]. split; [cbn [length]; lia|].
    split; [reflexivity|]. split.
    { cbn [take fmap list_fmap AddAndCheckAll]. rewrite Hrun. reflexivity. }
    right. exists [], e. repeat split; constructor.
  - destruct (String.eqb (EvType (convertEvent e)) EventError) eqn:Herr.
    + (* an error event ends the stream *)
      exists d1, [convertEvent e], [CallAddAndCheck (convertEvent e)],
        1%nat, [false].
      split; [reflexivity|]. split; [cbn [length]; lia|].
      split; [reflexivity|]. split.
      { cbn [take fmap list_fmap AddAndCheckAll]. rewrite Hrun. reflexivity. }
      left. split; [repeat constructor|]. split; [|reflexivity].
      cbn [take throughFirstError].
      change (EvType (convertEvent e)) with (PType e) in Herr.
      rewrite Herr. reflexivity.
    + destruct (IH (with_detector d1 c) Hen Hinv1)
        as (d & out & calls & n & rs & Hrec & Hn & Hcalls & Hall & Hshape).
      rewrite Hrec. cbn [mbind outcome_bind].
      exists d, (convertEvent e :: out),
        ([CallAddAndCheck (convertEvent e)] ++ calls), (S n), (false :: rs).
      split; [reflexivity|]. split; [cbn [length]; lia|].
      split; [rewrite Hcalls; reflexivity|]. split.
      { cbn [take fmap list_fmap AddAndCheckAll]. rewrite Hrun.
        cbn [mbind outcome_bind].
        change (loopDetector (with_detector d1 c)) with d1 in Hall.
        rewrite Hall. reflexivity. }
      change (EvType (convertEvent e)) with (PType e) in Herr.
      destruct Hshape as [(Hfalse & Htake & Hout)|(pre & e' & Htake & Hrs & Hpre & Hout)].
      * left. split; [constructor; [reflexivity|exact Hfalse]|].
        cbn [take throughFirstError]. rewrite Herr, Htake, Hout, Htake.
        split; reflexivity.
      * right. exists (e :: pre), e'.
        cbn [take]. rewrite Htake, Hrs, Hout.
        split; [reflexivity|]. split; [reflexivity|]. split; [|reflexivity].
        constructor; [|exact Hpre].
        apply String.eqb_neq. exact Herr.
Qed.

Lemma convertEvent_toolCall (pev : ProviderStreamEvent Args)
    (tc : ToolCallEvent Args) :
  PType pev = EventToolCall -> PData pev = DataToolCall tc ->
  carries (convertEvent pev) tc.
Proof.
  intros Hty Hdata. split; [exact Hty|].
  cbn [Data convertEvent]. rewrite Hty, Hdata. reflexivity.
Qed.

Lemma consume_toolCall_streak (request : ChatRequest) (promptID : string)
    (now : Z) (pev : ProviderStreamEvent Args) (tc : ToolCallEvent Args)
    (rest : list (ProviderStreamEvent Args)) :
  PType pev = EventToolCall -> PData pev = DataToolCall tc ->
  forall (m : nat) (c : Client) (j : nat),
    LoopDetectionEnabled (config c) = true ->
    loopDetected (loopDetector c) = false ->
    (j + m = 4)%nat ->
    toolCallRepetitionCount (loopDetector c) = Z.of_nat j ->
    lastToolCallKey (loopDetector c) = getToolCallKey tc \/ j = 0%nat ->
    exists d,
      consume c request promptID now (replicate (S m) pev ++ rest)
      = Done (with_detector d c,
              replicate m (convertEvent pev)
              ++ [loopEventFor c request promptID now (convertEvent pev)],
              replicate (S m) (CallAddAndCheck (convertEvent pev))) /\
      loopDetected d = true.
Proof.
  intros Hty Hdata.
  destruct (convertEvent_toolCall pev tc Hty Hdata) as [Hty' Hdata'].
  assert (Hnoterr : String.eqb (EvType (convertEvent pev)) EventError = false)
    by (rewrite Hty'; reflexivity).
  induction m as [|m IH]; intros c j Hen Hl Hjm Hcount Hkey;
    match goal with
    | |- context [replicate (S ?k) pev ++ rest] =>
        change (replicate (S k) pev ++ rest)
          with (pev :: (replicate k pev ++ rest))
    end;
    cbn [consume]; rewrite Hen;
    rewrite (AddAndCheck_toolCall _ _ Hl Hty'), Hdata'.
  - assert (j = 4%nat) as -> by lia.
    destruct Hkey as [Hkey|?]; [|lia].
    rewrite (checkToolCallLoop_same
               (resetContentTracking false (loopDetector c)) tc)
      by exact Hkey.
    cbn [toolCallRepetitionCount resetContentTracking with_index with_stats].
    rewrite Hcount.
    change (wrap64 (Z.of_nat 4 + 1) >=? TOOL_CALL_LOOP_THRESHOLD) with true.
    cbn [mbind outcome_bind]. eexists. split; reflexivity.
  - set (L0 := resetContentTracking false (loopDetector c)).
    assert (exists l1,
              checkToolCallLoop L0 tc = (false, l1) /\
              lastToolCallKey l1 = getToolCallKey tc /\
              toolCallRepetitionCount l1 = Z.of_nat (S j)) as (l1 & Hcheck & Hk1 & Hc1).
    { destruct (decide (lastToolCallKey L0 = getToolCallKey tc)) as [Hsame|Hother].
      - rewrite (checkToolCallLoop_same L0 tc Hsame).
        change (toolCallRepetitionCount L0)
          with (toolCallRepetitionCount (loopDetector c)).
        rewrite Hcount, wrap64_small by lia.
        assert ((Z.of_nat j + 1 >=? TOOL_CALL_LOOP_THRESHOLD) = false) as ->.
        { unfold TOOL_CALL_LOOP_THRESHOLD.
          destruct (Z.geb_spec (Z.of_nat j + 1) 5); [lia|reflexivity]. }
        eexists. split; [reflexivity|]. split; [exact Hsame|cbn; lia].
      - destruct Hkey as [Hkey|Hj]; [contradiction|]. subst j.
        rewrite (checkToolCallLoop_other L0 tc Hother).
        eexists. split; [reflexivity|]. split; reflexivity. }
    rewrite Hcheck. cbn [mbind outcome_bind]. rewrite Hnoterr.
    destruct (IH (with_detector (with_loopDetected false l1) c) (S j))
      as (d & Hrec & Hd); try assumption; try reflexivity; try lia.
    { left. exact Hk1. }
    rewrite Hrec. cbn [mbind outcome_bind].
    exists d. split; [reflexivity|exact Hd].
Qed.

(** ** [SendMessageStream] past the turn budget *)

(** The client after the turn-start check of a call. *)
Lemma afterBudget_same_provider (c : Client) (request : ChatRequest)
    (promptID : string) (now : Z)
    (upstream : ProviderType -> list (ProviderStreamEvent Args))
    (calls0 : list Call) :
  LoopDetectionEnabled (config c) = true ->
  ReqProvider request = ""%string \/ ReqProvider request = providerType c ->
  afterBudget c request promptID now upstream calls0 =
    '(c', out, calls2) ←
      consume (with_detector (snd (TurnStarted (loopDetector c))) c) request
        promptID now (upstream (providerType c));
    Done (c', out,
          calls0 ++ [CallTurnStarted]
          ++ [CallProviderStream (providerType c')] ++ calls2).
Proof.
  intros Hen Hsame. unfold afterBudget. rewrite Hen.
  cbn [TurnStarted snd providerType with_detector].
  assert (negb (String.eqb (ReqProvider request) "")
          && negb (String.eqb (ReqProvider request) (providerType c)) = false)
    as ->.
  { destruct Hsame as [-> | ->].
    - reflexivity.
    - rewrite String.eqb_refl. apply andb_false_r. }
  reflexivity.
Qed.

Lemma afterBudget_switch (c : Client) (request : ChatRequest)
    (promptID : string) (now : Z)
    (upstream : ProviderType -> list (ProviderStreamEvent Args))
    (calls0 : list Call) :
  ReqProvider request <> ""%string ->
  ReqProvider request <> providerType c ->
  let c2 := if LoopDetectionEnabled (config c)
            then with_detector (snd (TurnStarted (loopDetector c))) c else c in
  let calls1 := if LoopDetectionEnabled (config c)
                then [CallTurnStarted] else [] in
  afterBudget c request promptID now upstream calls0 =
    match initializeProviderError (config c) (ReqProvider request) with
    | Some err =>
        Done (c2,
              [NewErrorEvent (providerType c) (ReqModel request)
                 ("failed to switch provider: " ++ err)%string false now],
              calls0 ++ calls1)
    | None =>
        '(c', out, calls2) ←
          consume (with_providerType (ReqProvider request) c2) request
            promptID now (upstream (ReqProvider request));
        Done (c', out,
              calls0 ++ calls1
              ++ [CallProviderStream (providerType c')] ++ calls2)
    end.
Proof.
  intros Hne1 Hne2. cbn zeta. unfold afterBudget.
  apply String.eqb_neq in Hne1. apply String.eqb_neq in Hne2.
  destruct (LoopDetectionEnabled (config c));
    cbn [TurnStarted snd providerType with_detector];
    rewrite Hne1, Hne2; cbn [negb andb];
    unfold SwitchProvider, initializeProvider;
    cbn [providerType config with_detector];
    rewrite String.eqb_sym, Hne2;
    destruct (initializeProviderError (config c) (ReqProvider request));
    reflexivity.
Qed.

Lemma consume_providerType (request : ChatRequest) (promptID : string)
    (now : Z) (events : list (ProviderStreamEvent Args)) :
  forall c c' out calls,
    consume c request promptID now events = Done (c', out, calls) ->
    providerType c' = providerType c /\ config c' = config c /\
    sessionTurnCount c' = sessionTurnCount c /\
    lastPromptID c' = lastPromptID c.
Proof.
  induction events as [|e rest IH]; intros c c' out calls; cbn [consume].
  { intros [= <- _ _]. auto. }
  destruct (LoopDetectionEnabled (config c)).
  - destruct (AddAndCheck (loopDetector c) (convertEvent e)) as [[r d]| |];
      cbn [mbind outcome_bind]; try discriminate.
    destruct r; [intros [= <- _ _]; auto|].
    destruct (String.eqb (EvType (convertEvent e)) EventError);
      [intros [= <- _ _]; auto|].
    destruct (consume (with_detector d c) request promptID now rest)
      as [[[c1 out1] calls1]| |] eqn:Hrec; cbn [mbind outcome_bind];
      try discriminate.
    intros [= <- _ _]. apply IH in Hrec. exact Hrec.
  - cbn [mbind outcome_bind].
    destruct (String.eqb (EvType (convertEvent e)) EventError);
      [intros [= <- _ _]; auto|].
    destruct (consume c request promptID now rest)
      as [[[c1 out1] calls1]| |] eqn:Hrec; cbn [mbind outcome_bind];
      try discriminate.
    intros [= <- _ _]. apply IH in Hrec. exact Hrec.
Qed.

Lemma first_turn_within_budget (c : Client) (promptID : string) :
  lastPromptID c <> promptID ->
  sessionTurnCount (enterTurn c promptID) = 1 /\
  turnBudgetExceeded (enterTurn c promptID) = false.
Proof.
  intros Hne. apply String.eqb_neq in Hne.
  destruct (enterTurn_fields c promptID) as (Hcfg & _ & _ & Hcnt & _).
  rewrite Hne in Hcnt. change (wrap64 (0 + 1)) with 1 in Hcnt.
  split; [exact Hcnt|].
  unfold turnBudgetExceeded. rewrite Hcnt, Hcfg.
  destruct (Z.gtb_spec (MaxSessionTurns (config c)) 0);
    destruct (Z.gtb_spec 1 (MaxSessionTurns (config c))); try reflexivity; lia.
Qed.

(** X13.  End to end with detection enabled: on the first call under a
    new prompt identity, when the provider streams five or more equal
    tool calls first, [SendMessageStream] sends the first four on,
    converted, then one loop event of type tool call with turn count 1,
    and stops: it calls [Reset], [TurnStarted], the provider, and
    [AddAndCheck] five times; whatever the provider streams after the
    fifth call is not looked at.  The service is left latched. *)
Theorem tool_call_loop_ends_stream (c : Client) (request : ChatRequest)
    (promptID : string) (now : Z)
    (upstream : ProviderType -> list (ProviderStreamEvent Args))
    (pev : ProviderStreamEvent Args) (tc : ToolCallEvent Args)
    (rest : list (ProviderStreamEvent Args)) (n : nat) :
  LoopDetectionEnabled (config c) = true ->
  lastPromptID c <> promptID ->
  ReqProvider request = ""%string \/ ReqProvider request = providerType c ->
  PType pev = EventToolCall -> PData pev = DataToolCall tc ->
  (5 <= n)%nat ->
  upstream (providerType c) = replicate n pev ++ rest ->
  exists c',
    SendMessageStream c request promptID now upstream
    = Done (c',
            replicate 4 (convertEvent pev)
            ++ [NewLoopDetectedEvent (providerType c) (ReqModel request)
                  LoopTypeToolCall promptID "Tool call loop detected" 1 0 now],
            [CallReset promptID; CallTurnStarted;
             CallProviderStream (providerType c)]
            ++ replicate 5 (CallAddAndCheck (convertEvent pev))) /\
    loopDetected (loopDetector c') = true /\ sessionTurnCount c' = 1.
Proof.
  intros Hen Hnew Hsame Hty Hdata Hn Hup.
  rewrite SendMessageStream_eq. cbn zeta.
  destruct (first_turn_within_budget c promptID Hnew) as [Hcnt Hbudget].
  destruct (enterTurn_fields c promptID) as (Hcfg & Hpt & _ & _ & Hdet).
  rewrite Hbudget.
  apply String.eqb_neq in Hnew. rewrite Hnew in Hdet |- *.
  rewrite afterBudget_same_provider by (rewrite ?Hcfg, ?Hpt; assumption).
  rewrite Hpt, Hup.
  replace n with (5 + (n - 5))%nat by lia.
  rewrite replicate_add, <- app_assoc.
  set (c2 := with_detector _ _).
  destruct (consume_toolCall_streak request promptID now pev tc
              (replicate (n - 5) pev ++ rest) Hty Hdata 4 c2 0)
    as (d & Hrun & Hd).
  - change (config c2) with (config (enterTurn c promptID)).
    rewrite Hcfg. exact Hen.
  - change (loopDetector c2)
      with (snd (TurnStarted (loopDetector (enterTurn c promptID)))).
    rewrite Hdet. reflexivity.
  - reflexivity.
  - change (loopDetector c2)
      with (snd (TurnStarted (loopDetector (enterTurn c promptID)))).
    rewrite Hdet. reflexivity.
  - right. reflexivity.
  - rewrite Hrun. cbn [mbind outcome_bind].
    exists (with_detector d c2). split; [|split; [exact Hd|exact Hcnt]].
    unfold loopEventFor.
    change (EvType (convertEvent pev)) with (PType pev). rewrite Hty.
    change (String.eqb EventToolCall EventContent) with false. cbn match.
    change (providerType (with_detector d c2))
      with (providerType (enterTurn c promptID)).
    change (providerType c2) with (providerType (enterTurn c promptID)).
    change (sessionTurnCount c2) with (sessionTurnCount (enterTurn c promptID)).
    rewrite Hpt, Hcnt. reflexivity.
Qed.

(** X14.  A provider switch that fails.  When the request names a
    provider other than the active one and its initialisation fails, a
    call within the turn budget sends one event only, an error event that
    is not retryable and whose message is the initialisation error after
    [failed to switch provider: ]; the provider is not asked for a stream
    and [AddAndCheck] is not called, the client keeps its provider, but
    the turn has been counted.  When the initialisation succeeds the
    client is switched, stays switched, and the stream is the one of the
    new provider. *)
Theorem provider_switch (c : Client) (request : ChatRequest)
    (promptID : string) (now : Z)
    (upstream : ProviderType -> list (ProviderStreamEvent Args)) :
  turnBudgetExceeded (enterTurn c promptID) = false ->
  ReqProvider request <> ""%string ->
  ReqProvider request <> providerType c ->
  (forall err,
     initializeProviderError (config c) (ReqProvider request) = Some err ->
     exists c' calls,
       SendMessageStream c request promptID now upstream
       = Done (c',
               [NewErrorEvent (providerType c) (ReqModel request)
                  ("failed to switch provider: " ++ err)%string false now],
               calls) /\
       providerType c' = providerType c /\
       sessionTurnCount c' = sessionTurnCount (enterTurn c promptID) /\
       (forall t, CallProviderStream t ∉ calls) /\
       (forall e, CallAddAndCheck e ∉ calls)) /\
  (initializeProviderError (config c) (ReqProvider request) = None ->
   inv (loopDetector c) ->
   exists c' out calls,
     SendMessageStream c request promptID now upstream = Done (c', out, calls) /\
     providerType c' = ReqProvider request /\
     (forall t, CallProviderStream t ∈ calls <-> t = ReqProvider request) /\
     (LoopDetectionEnabled (config c) = false ->
      out = convertEvent <$> throughFirstError (upstream (ReqProvider request)))).
Proof.
  intros Hbudget Hne1 Hne2.
  destruct (enterTurn_fields c promptID) as (Hcfg & Hpt & _ & _ & Hdet).
  assert (Hrun : SendMessageStream c request promptID now upstream
                 = afterBudget (enterTurn c promptID) request promptID now
                     upstream
                     (if String.eqb (lastPromptID c) promptID then []
                      else [CallReset promptID])).
  { rewrite SendMessageStream_eq. cbn zeta. rewrite Hbudget. reflexivity. }
  rewrite Hrun.
  rewrite afterBudget_switch by (rewrite ?Hpt; assumption).
  rewrite Hcfg, Hpt.
  split.
  - intros err ->.
    eexists _, _. split; [reflexivity|].
    split; [destruct (LoopDetectionEnabled (config c)); cbn; exact Hpt|].
    split; [destruct (LoopDetectionEnabled (config c)); reflexivity|].
    split.
    + intros t Hin. apply elem_of_app in Hin.
      destruct Hin as [Hin|Hin].
      * destruct (String.eqb (lastPromptID c) promptID).
        -- apply elem_of_nil in Hin. exact Hin.
        -- apply list_elem_of_singleton in Hin. discriminate.
      * destruct (LoopDetectionEnabled (config c)).
        -- apply list_elem_of_singleton in Hin. discriminate.
        -- apply elem_of_nil in Hin. exact Hin.
    + intros e Hin. apply elem_of_app in Hin.
      destruct Hin as [Hin|Hin].
      * destruct (String.eqb (lastPromptID c) promptID).
        -- apply elem_of_nil in Hin. exact Hin.
        -- apply list_elem_of_singleton in Hin. discriminate.
      * destruct (LoopDetectionEnabled (config c)).
        -- apply list_elem_of_singleton in Hin. discriminate.
        -- apply elem_of_nil in Hin. exact Hin.
  - intros -> Hinv.
    set (c2 := if LoopDetectionEnabled (config c)
               then with_detector _ _ else _).
    assert (Hinv2 : inv (loopDetector (with_providerType (ReqProvider request) c2))).
    { assert (inv (loopDetector (enterTurn c promptID))) as Hi.
      { rewrite Hdet. destruct (String.eqb (lastPromptID c) promptID);
          [exact Hinv|].
        eapply inv_ext;
          [| | |exact (inv_resetContentTracking true _ Hinv)]; reflexivity. }
      unfold c2. destruct (LoopDetectionEnabled (config c)); cbn; exact Hi. }
    assert (Hcfg2 : config (with_providerType (ReqProvider request) c2) = config c).
    { unfold c2. destruct (LoopDetectionEnabled (config c)); cbn; exact Hcfg. }
    destruct (consume_inv request promptID now (upstream (ReqProvider request))
                _ Hinv2) as (d & out & calls2 & Hc & _ & Hnostream).
    rewrite Hc. cbn [mbind outcome_bind].
    eexists _, _, _. split; [reflexivity|].
    split; [reflexivity|]. split.
    + intros t. cbn [providerType with_detector with_providerType].
      rewrite !elem_of_app, list_elem_of_singleton. split.
      * intros [Hin|[Hin|[Hin|Hin]]].
        -- destruct (String.eqb (lastPromptID c) promptID).
           ++ apply elem_of_nil in Hin. contradiction.
           ++ apply list_elem_of_singleton in Hin. discriminate.
        -- destruct (LoopDetectionEnabled (config c)).
           ++ apply list_elem_of_singleton in Hin. discriminate.
           ++ apply elem_of_nil in Hin. contradiction.
        -- congruence.
        -- apply Hnostream in Hin. contradiction.
      * intros ->. right. right. left. reflexivity.
    + intros Hoff.
      rewrite (consume_disabled request promptID now
                 (upstream (ReqProvider request))
                 (with_providerType (ReqProvider request) c2)) in Hc
        by (rewrite Hcfg2; exact Hoff).
      injection Hc as _ <- _. reflexivity.
Qed.

(** X15.  Once over the turn budget, always over it: a call under the
    same prompt identity when the turn count has reached a positive
    [MaxSessionTurns] sends the terminal event alone, with the count
    raised by one, and touches neither the detector nor the provider;
    as the count only grows, every later call under that identity is
    rejected in the same way (as long as an [int] holds the count), and
    only a new prompt identity opens the budget again. *)
Theorem turn_budget_stays_exceeded (c : Client) (request : ChatRequest)
    (promptID other : string) (now : Z)
    (upstream : ProviderType -> list (ProviderStreamEvent Args)) :
  0 < MaxSessionTurns (config c) ->
  MaxSessionTurns (config c) <= sessionTurnCount c < maxInt64 ->
  lastPromptID c = promptID ->
  let c' := with_session (sessionTurnCount c + 1) promptID c in
  SendMessageStream c request promptID now upstream
  = Done (c',
          [NewMaxSessionTurnsEvent (providerType c) (ReqModel request)
             (sessionTurnCount c + 1) (MaxSessionTurns (config c)) promptID now],
          []) /\
  MaxSessionTurns (config c') <= sessionTurnCount c' /\
  lastPromptID c' = promptID /\
  (other <> promptID -> turnBudgetExceeded (enterTurn c' other) = false).
Proof.
  intros Hmax Hcount Hpid. cbn zeta.
  assert (Henter : enterTurn c promptID
                   = with_session (sessionTurnCount c + 1) promptID c).
  { unfold enterTurn. rewrite Hpid, String.eqb_refl. cbn [negb].
    rewrite wrap64_small by (unfold maxInt64 in Hcount; lia).
    rewrite Hpid. reflexivity. }
  split; [|split; [cbn; lia|split; [reflexivity|]]].
  - rewrite SendMessageStream_exceeded.
    + rewrite Henter, Hpid, String.eqb_refl. reflexivity.
    + rewrite Henter. unfold turnBudgetExceeded.
      cbn [config sessionTurnCount with_session].
      apply andb_true_iff. split; apply Z.gtb_lt; lia.
  - intros Hother.
    apply first_turn_within_budget. cbn. congruence.
Qed.

(** X16.  A latched service blocks the later turns of its prompt.  When
    a loop has been detected, the next call under the same prompt
    identity (detection enabled, within the turn budget) still asks the
    provider for its stream, but sends nothing of it: the first provider
    event is answered [true] at once and replaced by a loop event, whose
    type is taken from that event and not from the loop that was found;
    an empty stream gives no event at all.  A call under another prompt
    identity resets the service. *)
Theorem latched_loop_blocks_next_turn (c : Client) (request : ChatRequest)
    (promptID other : string) (now : Z)
    (upstream : ProviderType -> list (ProviderStreamEvent Args)) :
  LoopDetectionEnabled (config c) = true ->
  loopDetected (loopDetector c) = true ->
  lastPromptID c = promptID ->
  turnBudgetExceeded (enterTurn c promptID) = false ->
  ReqProvider request = ""%string \/ ReqProvider request = providerType c ->
  (exists c',
     SendMessageStream c request promptID now upstream
     = Done (c',
             match upstream (providerType c) with
             | [] => []
             | e :: _ =>
                 [loopEventFor (enterTurn c promptID) request promptID now
                    (convertEvent e)]
             end,
             [CallTurnStarted; CallProviderStream (providerType c)]
             ++ match upstream (providerType c) with
                | [] => []
                | e :: _ => [CallAddAndCheck (convertEvent e)]
                end) /\
     loopDetected (loopDetector c') = true) /\
  (other <> promptID ->
   loopDetected (loopDetector (enterTurn c other)) = false).
Proof.
  intros Hen Hl Hpid Hbudget Hsame. subst promptID.
  destruct (enterTurn_fields c (lastPromptID c)) as (Hcfg & Hpt & _ & _ & Hdet).
  split.
  - rewrite SendMessageStream_eq. cbn zeta. rewrite Hbudget.
    rewrite String.eqb_refl in Hdet |- *.
    rewrite afterBudget_same_provider by (rewrite ?Hcfg, ?Hpt; assumption).
    rewrite Hpt.
    set (c1 := enterTurn c (lastPromptID c)) in *.
    set (c2 := with_detector _ c1).
    assert (Hl2 : loopDetected (loopDetector c2) = true).
    { change (loopDetected (loopDetector c1) = true). rewrite Hdet. exact Hl. }
    assert (Hen2 : LoopDetectionEnabled (config c2) = true).
    { change (config c2) with (config c1). rewrite Hcfg. exact Hen. }
    destruct (upstream (providerType c)) as [|e rest]; cbn [consume].
    + cbn [mbind outcome_bind]. exists c2. split; [|exact Hl2].
      change (providerType c2) with (providerType c1).
      rewrite Hpt. reflexivity.
    + rewrite Hen2, (AddAndCheck_latched _ _ Hl2).
      cbn [mbind outcome_bind].
      exists (with_detector (loopDetector c2) c2). split; [|exact Hl2].
      unfold loopEventFor.
      change (providerType (with_detector (loopDetector c2) c2))
        with (providerType c1).
      change (providerType c2) with (providerType c1).
      rewrite !Hpt. reflexivity.
  - intros Hother.
    destruct (enterTurn_fields c other) as (_ & _ & _ & _ & Hdet').
    rewrite Hdet'.
    assert (String.eqb (lastPromptID c) other = false) as ->.
    { apply String.eqb_neq. congruence. }
    reflexivity.
Qed.

End Detector.

Arguments getToolCallKey {Args}.
Arguments checkToolCallLoop {Args}.
Arguments checkToolCallLoopN {Args}.
Arguments AddAndCheck {Args}.
Arguments AddAndCheckAll {Args}.
Arguments reachable {Args}.
Arguments callMethod {Args}.
Arguments callMethods {Args}.
Arguments MAddAndCheck {Args}.
Arguments MTurnStarted {Args}.
Arguments MIsLoopDetected {Args}.
Arguments CallReset {Args}.
Arguments CallTurnStarted {Args}.
Arguments CallAddAndCheck {Args}.
Arguments CallProviderStream {Args}.
Arguments SendMessageStream {Args}.
Arguments NewContentEvent {Args}.
Arguments NewToolCallEvent {Args}.
Arguments NewMaxSessionTurnsEvent {Args}.
Arguments NewErrorEvent {Args}.
Arguments convertEvent {Args}.
Arguments throughFirstError {Args}.
Arguments pastTurnBudget {Args}.
Arguments stateAfter {Args}.
Arguments NewLoopDetectedEvent {Args}.
Arguments consume {Args}.
Arguments relevant {Args}.
Arguments carries {Args}.
Arguments loopEventFor {Args}.

(** ** The configuration and the construction of a client *)

Section SetupProperties.

Import Setup.

Variable genai_NewClient : geminiConfig -> option string.

Lemma visits_elem (c : Config) (order : list (string * option ProviderConfig))
    (t : string) (o : option ProviderConfig) :
  visits c order -> ((t, o) ∈ order <-> Providers c !! t = Some o).
Proof.
  intros Hv. unfold visits in Hv. rewrite Hv. apply elem_of_map_to_list.
Qed.

Lemma visits_noNil (c : Config) (order : list (string * option ProviderConfig)) :
  noNil c -> visits c order -> Forall (fun e => snd e <> None) order.
Proof.
  intros Hnn Hv. apply Forall_forall. intros [t o] Hin.
  apply (visits_elem c order t o Hv) in Hin. cbn. intros ->.
  exact (Hnn t Hin).
Qed.

Lemma entryOK_dec (t : string) (pc : ProviderConfig) :
  {entryOK t pc} + {~ entryOK t pc}.
Proof.
  unfold entryOK.
  destruct (Enabled pc); [|left; discriminate].
  destruct (decide (t = ProviderOpenAI)) as [Ho|Ho].
  - destruct (decide (APIKey pc = ""%string)) as [Hk|Hk].
    + right. intros H. destruct (H eq_refl) as [H1 _]. exact (H1 Ho Hk).
    + left. intros _. split; [auto|]. intros Hg. subst t. discriminate.
  - destruct (decide (t = ProviderGemini)) as [Hg|Hg].
    + destruct (UseVertex pc) eqn:Hv.
      * destruct (decide (Project pc = ""%string)) as [Hp|Hp].
        { right. intros H. destruct (H eq_refl) as [_ H2].
          destruct (H2 Hg) as [_ H3]. destruct (H3 eq_refl). contradiction. }
        destruct (decide (Location pc = ""%string)) as [Hl|Hl].
        { right. intros H. destruct (H eq_refl) as [_ H2].
          destruct (H2 Hg) as [_ H3]. destruct (H3 eq_refl). contradiction. }
        left. intros _. split; [contradiction|]. intros _.
        split; [discriminate|auto].
      * destruct (decide (APIKey pc = ""%string)) as [Hk|Hk].
        { right. intros H. destruct (H eq_refl) as [_ H2].
          destruct (H2 Hg) as [H3 _]. exact (H3 eq_refl Hk). }
        left. intros _. split; [contradiction|]. intros _.
        split; [auto|discriminate].
    + left. intros _. split; contradiction.
Qed.

(** The first loop of [Validate]. *)
Lemma validateEntries_spec (visit : list (string * option ProviderConfig)) :
  Forall (fun e => snd e <> None) visit ->
  forall n,
    exists r,
      validateEntries visit n = Done r /\
      match r with
      | inl m =>
          (forall t pc, (t, Some pc) ∈ visit -> entryOK t pc) /\
          n <= m /\
          (m = n <-> forall t pc, (t, Some pc) ∈ visit -> Enabled pc = false)
      | inr _ => exists t pc, (t, Some pc) ∈ visit /\ ~ entryOK t pc
      end.
Proof.
  induction 1 as [|[t [pc|]] rest Hnn _ IH]; intros n.
  - exists (inl n). split; [reflexivity|]. split.
    + intros t pc Hin. apply elem_of_nil in Hin. contradiction.
    + split; [lia|]. split; [|reflexivity].
      intros _ t pc Hin. apply elem_of_nil in Hin. contradiction.
  - cbn [validateEntries].
    assert (Hgo : forall k,
              (Enabled pc = true -> k = n + 1) ->
              (Enabled pc = false -> k = n) ->
              entryOK t pc ->
              exists r,
                validateEntries rest k = Done r /\
                match r with
                | inl m =>
                    (forall t0 pc0, (t0, Some pc0) ∈ (t, Some pc) :: rest ->
                       entryOK t0 pc0) /\
                    n <= m /\
                    (m = n <->
                     forall t0 pc0, (t0, Some pc0) ∈ (t, Some pc) :: rest ->
                       Enabled pc0 = false)
                | inr _ =>
                    exists t0 pc0,
                      (t0, Some pc0) ∈ (t, Some pc) :: rest /\ ~ entryOK t0 pc0
                end).
    { intros k Hk1 Hk0 Hok.
      destruct (IH k) as (r & Hr & Hspec). exists r. split; [exact Hr|].
      destruct r as [m|err].
      - destruct Hspec as (Hall & Hle & Hiff). split.
        + intros t0 pc0 Hin. apply elem_of_cons in Hin.
          destruct Hin as [[= -> ->]|Hin]; [exact Hok|eauto].
        + destruct (Enabled pc) eqn:Hen.
          * rewrite (Hk1 eq_refl) in *. split; [lia|]. split; [lia|].
            intros Hfalse. specialize (Hfalse t pc ltac:(left)). congruence.
          * rewrite (Hk0 eq_refl) in *. split; [lia|].
            rewrite Hiff. split.
            -- intros Hrest t0 pc0 Hin. apply elem_of_cons in Hin.
               destruct Hin as [[= -> ->]|Hin]; [exact Hen|eauto].
            -- intros Hfull t0 pc0 Hin. apply (Hfull t0). right. exact Hin.
      - destruct Hspec as (t0 & pc0 & Hin & Hbad).
        exists t0, pc0. split; [right; exact Hin|exact Hbad]. }
    assert (Hbad : forall err : string,
              ~ entryOK t pc ->
              exists r : Z + string,
                Done (inr err) = Done r /\
                match r with
                | inl m => False
                | inr _ =>
                    exists t0 pc0,
                      (t0, Some pc0) ∈ (t, Some pc) :: rest /\ ~ entryOK t0 pc0
                end).
    { intros err Hno. exists (inr err). split; [reflexivity|].
      exists t, pc. split; [left|exact Hno]. }
    destruct (Enabled pc) eqn:Hen; cbn [negb].
    2:{ apply Hgo; [discriminate|reflexivity|].
        intros Habs. congruence. }
    destruct (String.eqb t ProviderOpenAI) eqn:Ho.
    { apply String.eqb_eq in Ho.
      destruct (String.eqb (APIKey pc) "") eqn:Hk.
      - apply String.eqb_eq in Hk.
        destruct (Hbad "OpenAI API key is required"%string) as (r & Hr & Hs).
        + intros H. destruct (H Hen) as [H1 _]. exact (H1 Ho Hk).
        + exists r. split; [exact Hr|]. destruct r; [contradiction|exact Hs].
      - apply String.eqb_neq in Hk.
        apply Hgo; [reflexivity|congruence|].
        intros _. split; [auto|]. intros Hg. subst t. discriminate. }
    apply String.eqb_neq in Ho.
    destruct (String.eqb t ProviderGemini) eqn:Hg.
    2:{ apply String.eqb_neq in Hg.
        apply Hgo; [reflexivity|congruence|].
        intros _. split; contradiction. }
    apply String.eqb_eq in Hg.
    destruct (UseVertex pc) eqn:Hv; cbn [negb andb].
    + destruct (String.eqb (Project pc) "") eqn:Hp; cbn [orb].
      { apply String.eqb_eq in Hp.
        destruct (Hbad "Vertex AI requires both project and location"%string)
          as (r & Hr & Hs).
        - intros H. destruct (H Hen) as [_ H2]. destruct (H2 Hg) as [_ H3].
          destruct (H3 Hv). contradiction.
        - exists r. split; [exact Hr|]. destruct r; [contradiction|exact Hs]. }
      destruct (String.eqb (Location pc) "") eqn:Hl.
      { apply String.eqb_eq in Hl.
        destruct (Hbad "Vertex AI requires both project and location"%string)
          as (r & Hr & Hs).
        - intros H. destruct (H Hen) as [_ H2]. destruct (H2 Hg) as [_ H3].
          destruct (H3 Hv). contradiction.
        - exists r. split; [exact Hr|]. destruct r; [contradiction|exact Hs]. }
      apply String.eqb_neq in Hp. apply String.eqb_neq in Hl.
      apply Hgo; [reflexivity|congruence|].
      intros _. split; [contradiction|]. intros _. split; [congruence|auto].
    + destruct (String.eqb (APIKey pc) "") eqn:Hk.
      { apply String.eqb_eq in Hk.
        destruct (Hbad "Gemini API key is required (unless using Vertex AI)"%string)
          as (r & Hr & Hs).
        - intros H. destruct (H Hen) as [_ H2]. destruct (H2 Hg) as [H3 _].
          exact (H3 Hv Hk).
        - exists r. split; [exact Hr|]. destruct r; [contradiction|exact Hs]. }
      apply String.eqb_neq in Hk.
      apply Hgo; [reflexivity|congruence|].
      intros _. split; [contradiction|]. intros _. split; [auto|congruence].
  - cbn in Hnn. contradiction.
Qed.

Lemma firstEnabled_spec (visit : list (string * option ProviderConfig)) :
  Forall (fun e => snd e <> None) visit ->
  exists r,
    firstEnabled visit = Done r /\
    match r with
    | Some t => exists pc, (t, Some pc) ∈ visit /\ Enabled pc = true
    | None => forall t pc, (t, Some pc) ∈ visit -> Enabled pc = false
    end.
Proof.
  induction 1 as [|[t [pc|]] rest Hnn _ IH]; cbn [firstEnabled].
  - exists None. split; [reflexivity|].
    intros t pc Hin. apply elem_of_nil in Hin. contradiction.
  - destruct (Enabled pc) eqn:Hen.
    + exists (Some t). split; [reflexivity|]. exists pc. split; [left|exact Hen].
    + destruct IH as (r & Hr & Hspec). exists r. split; [exact Hr|].
      destruct r as [t0|].
      * destruct Hspec as (pc0 & Hin & H0). exists pc0. split; [right|]; auto.
      * intros t0 pc0 Hin. apply elem_of_cons in Hin.
        destruct Hin as [[= -> ->]|Hin]; [exact Hen|eauto].
  - cbn in Hnn. contradiction.
Qed.

Lemma HasProvider_enabledIn (c : Config) (t : string) :
  noNil c ->
  exists b, HasProvider c t = Done b /\ (b = true <-> enabledIn c t).
Proof.
  intros Hnn. unfold HasProvider, enabledIn.
  destruct (Providers c !! t) as [[pc|]|] eqn:Hlook.
  - exists (Enabled pc). split; [reflexivity|]. split.
    + intros Hen. exists pc. auto.
    + intros (pc' & [= <-] & Hen). exact Hen.
  - destruct (Hnn t Hlook).
  - exists false. split; [reflexivity|]. split; [discriminate|].
    intros (pc & Habs & _). discriminate.
Qed.

(** What [Validate] accepts, read off its code. *)
Lemma Validate_spec (c : Config)
    (o1 o2 : list (string * option ProviderConfig)) :
  noNil c -> visits c o1 -> visits c o2 ->
  exists c' err,
    Validate c o1 o2 = Done (c', err) /\
    (err = None <-> valid c) /\
    (c' = c \/
     DefaultProvider c = ""%string /\
     exists t, enabledIn c t /\ c' = with_DefaultProvider t c) /\
    (err = None -> enabledIn c' (DefaultProvider c')).
Proof.
  intros Hnn Hv1 Hv2. unfold Validate.
  destruct (Z.eqb_spec (len (map_to_list (Providers c))) 0) as [Hempty|Hsome].
  { exists c, (Some "no providers configured"%string).
    split; [reflexivity|]. split; [|split; [left; reflexivity|discriminate]].
    split; [discriminate|]. intros (_ & (t & pc & Hlook & _) & _). exfalso.
    apply elem_of_map_to_list in Hlook.
    destruct (map_to_list (Providers c)); [|discriminate].
    apply elem_of_nil in Hlook. exact Hlook. }
  destruct (validateEntries_spec o1 (visits_noNil c o1 Hnn Hv1) 0)
    as (r & -> & Hspec).
  cbn [mbind outcome_bind].
  destruct r as [m|err].
  2:{ exists c, (Some err). split; [reflexivity|].
      split; [|split; [left; reflexivity|discriminate]].
      split; [discriminate|]. intros (Hok & _). exfalso.
      destruct Hspec as (t & pc & Hin & Hbad). apply Hbad, Hok.
      apply (visits_elem c o1 t (Some pc) Hv1). exact Hin. }
  destruct Hspec as (Hok & Hle & Hzero).
  assert (Hok' : forall t pc, Providers c !! t = Some (Some pc) -> entryOK t pc).
  { intros t pc Hlook. apply Hok.
    apply (visits_elem c o1 t (Some pc) Hv1). exact Hlook. }
  destruct (Z.eqb_spec m 0) as [Hm|Hm].
  { exists c, (Some "no enabled providers found"%string).
    split; [reflexivity|]. split; [|split; [left; reflexivity|discriminate]].
    split; [discriminate|]. intros (_ & (t & pc & Hlook & Hen) & _). exfalso.
    pose proof (proj1 Hzero Hm) as Hnone.
    rewrite (Hnone t pc) in Hen; [discriminate|].
    apply (visits_elem c o1 t (Some pc) Hv1). exact Hlook. }
  assert (Hsomeone : exists t, enabledIn c t).
  { destruct (firstEnabled_spec o1 (visits_noNil c o1 Hnn Hv1))
      as ([t|] & _ & Hfe).
    - destruct Hfe as (pc & Hin & Hen). exists t, pc. split; [|exact Hen].
      apply (visits_elem c o1 t (Some pc) Hv1). exact Hin.
    - exfalso. apply Hm. apply (proj2 Hzero). exact Hfe. }
  destruct (String.eqb_spec (DefaultProvider c) "") as [Hdef|Hdef].
  - destruct (firstEnabled_spec o2 (visits_noNil c o2 Hnn Hv2))
      as (r & -> & Hfe).
    cbn [mbind outcome_bind].
    destruct r as [t|].
    2:{ exfalso. destruct Hsomeone as (t & pc & Hlook & Hen).
        rewrite (Hfe t pc) in Hen; [discriminate|].
        apply (visits_elem c o2 t (Some pc) Hv2). exact Hlook. }
    destruct Hfe as (pc & Hin & Hen).
    apply (visits_elem c o2 t (Some pc) Hv2) in Hin.
    cbn [Providers DefaultProvider with_DefaultProvider].
    rewrite Hin, Hen. cbn [negb].
    exists (with_DefaultProvider t c), None.
    split; [reflexivity|]. split.
    + split; [|reflexivity]. intros _.
      split; [exact Hok'|]. split; [exact Hsomeone|]. contradiction.
    + split.
      * right. split; [exact Hdef|]. exists t. split; [|reflexivity].
        exists pc. auto.
      * intros _. exists pc. auto.
  - cbn [mbind outcome_bind].
    destruct (Providers c !! DefaultProvider c) as [[pc|]|] eqn:Hlook.
    + destruct (Enabled pc) eqn:Hen; cbn [negb].
      * exists c, None. split; [reflexivity|]. split.
        -- split; [|reflexivity]. intros _.
           split; [exact Hok'|]. split; [exact Hsomeone|].
           intros _. exists pc. auto.
        -- split; [left; reflexivity|]. intros _. exists pc. auto.
      * eexists c, (Some _). split; [reflexivity|].
        split; [|split; [left; reflexivity|discriminate]].
        split; [discriminate|]. intros (_ & _ & Hd). exfalso.
        destruct (Hd Hdef) as (pc' & Hl' & Hen'). congruence.
    + destruct (Hnn _ Hlook).
    + eexists c, (Some _). split; [reflexivity|].
      split; [|split; [left; reflexivity|discriminate]].
      split; [discriminate|]. intros (_ & _ & Hd). exfalso.
      destruct (Hd Hdef) as (pc' & Hl' & Hen'). congruence.
Qed.

(** X17.  [Validate], whatever the order in which its loops visit the
    map (which holds no nil pointer): it returns without a panic; it
    returns no error exactly when some provider is enabled, every
    enabled OpenAI entry has an API key, every enabled Gemini entry has
    an API key or, for Vertex AI, a project and a location, and the
    default provider, if one is named, is enabled.  It changes nothing
    but an empty [DefaultProvider], which it sets to an enabled provider;
    after a call without error the default provider is enabled, and a
    second call, when the default provider has a name, returns no error
    and changes nothing. *)
Theorem validate_accepts_valid (c : Config)
    (order1 order2 order1' order2' : list (string * option ProviderConfig)) :
  noNil c -> visits c order1 -> visits c order2 ->
  exists c' err,
    Validate c order1 order2 = Done (c', err) /\
    (err = None <-> valid c) /\
    (c' = c \/
     DefaultProvider c = ""%string /\
     exists t, enabledIn c t /\ c' = with_DefaultProvider t c) /\
    (err = None ->
     enabledIn c' (DefaultProvider c') /\
     (visits c order1' -> visits c order2' ->
      DefaultProvider c' <> ""%string ->
      Validate c' order1' order2' = Done (c', None))).
Proof.
  intros Hnn Hv1 Hv2.
  pose proof Validate_spec as Hcore.
  destruct (Hcore c order1 order2 Hnn Hv1 Hv2)
    as (c' & err & Hrun & Hiff & Hchange & Hdefault).
  exists c', err. split; [exact Hrun|]. split; [exact Hiff|].
  split; [exact Hchange|].
  intros Herr. split; [exact (Hdefault Herr)|].
  intros Hv1' Hv2' Hnamed.
  assert (Hsame : Providers c' = Providers c).
  { destruct Hchange as [-> | (_ & t & _ & ->)]; reflexivity. }
  assert (Hvalid' : valid c').
  { pose proof (Hdefault Herr) as Hd0.
    pose proof (proj1 Hiff Herr) as (Hok & Hone & Hd).
    unfold valid, enabledIn. rewrite Hsame.
    split; [exact Hok|]. split; [exact Hone|].
    intros _. unfold enabledIn in Hd0. rewrite Hsame in Hd0. exact Hd0. }
  destruct (Hcore c' order1' order2') as (c'' & err'' & Hrun' & Hiff' & Hch' & _).
  - unfold noNil. rewrite Hsame. exact Hnn.
  - unfold visits. rewrite Hsame. exact Hv1'.
  - unfold visits. rewrite Hsame. exact Hv2'.
  - rewrite Hrun'. rewrite (proj2 Hiff' Hvalid').
    destruct Hch' as [-> | (Hempty & _)]; [reflexivity|contradiction].
Qed.

Lemma GetEnabledProviders_spec (visit : list (string * option ProviderConfig)) :
  Forall (fun e => snd e <> None) visit ->
  exists enabled,
    GetEnabledProviders visit = Done enabled /\
    enabled `sublist_of` visit.*1 /\
    forall t, t ∈ enabled <->
              exists pc, (t, Some pc) ∈ visit /\ Enabled pc = true.
Proof.
  induction 1 as [|[t [pc|]] rest Hnn _ IH]; cbn [GetEnabledProviders].
  - exists []. split; [reflexivity|]. split; [constructor|].
    intros t. split.
    + intros Hin. apply elem_of_nil in Hin. contradiction.
    + intros (pc & Hin & _). apply elem_of_nil in Hin. contradiction.
  - destruct IH as (enabled & -> & Hsub & Hiff). cbn [mbind outcome_bind].
    eexists. split; [reflexivity|].
    destruct (Enabled pc) eqn:Hen.
    + split; [cbn; constructor; exact Hsub|].
      intros t0. rewrite elem_of_cons, Hiff. split.
      * intros [->|(pc0 & Hin & H0)].
        -- exists pc. split; [left|exact Hen].
        -- exists pc0. split; [right; exact Hin|exact H0].
      * intros (pc0 & Hin & H0). apply elem_of_cons in Hin.
        destruct Hin as [[= -> ->]|Hin]; [left; reflexivity|right; eauto].
    + split; [cbn; constructor; exact Hsub|].
      intros t0. rewrite Hiff. split.
      * intros (pc0 & Hin & H0). exists pc0. split; [right; exact Hin|exact H0].
      * intros (pc0 & Hin & H0). apply elem_of_cons in Hin.
        destruct Hin as [[= -> ->]|Hin]; [congruence|eauto].
  - cbn in Hnn. contradiction.
Qed.

(** X18.  The three readers of the provider map agree, whatever the
    order of the visit (the map holds no nil pointer):
    [GetEnabledProviders] lists every enabled provider once and no
    other, [HasProvider] answers [true] for exactly those, and
    [GetProviderConfig] returns a configuration for exactly those, the
    one stored, which is enabled; for any other provider it returns one
    of its two errors. *)
Theorem provider_readers_agree (c : Config)
    (order : list (string * option ProviderConfig)) (t : string) :
  noNil c -> visits c order ->
  exists enabled b r,
    GetEnabledProviders order = Done enabled /\
    HasProvider c t = Done b /\
    GetProviderConfig c t = Done r /\
    NoDup enabled /\
    (t ∈ enabled <-> enabledIn c t) /\
    (b = true <-> enabledIn c t) /\
    match r with
    | inl pc => Providers c !! t = Some (Some pc) /\ Enabled pc = true
    | inr err =>
        ~ enabledIn c t /\
        (err = ("provider " ++ t ++ " not configured")%string \/
         err = ("provider " ++ t ++ " is disabled")%string)
    end.
Proof.
  intros Hnn Hv.
  destruct (GetEnabledProviders_spec order (visits_noNil c order Hnn Hv))
    as (enabled & Hrun & Hsub & Hiff).
  destruct (HasProvider_enabledIn c t Hnn) as (b & Hhas & Hb).
  exists enabled, b.
  assert (Hget : exists r,
            GetProviderConfig c t = Done r /\
            match r with
            | inl pc => Providers c !! t = Some (Some pc) /\ Enabled pc = true
            | inr err =>
                ~ enabledIn c t /\
                (err = ("provider " ++ t ++ " not configured")%string \/
                 err = ("provider " ++ t ++ " is disabled")%string)
            end).
  { unfold GetProviderConfig, enabledIn.
    destruct (Providers c !! t) as [[pc|]|] eqn:Hlook.
    - destruct (Enabled pc) eqn:Hen; cbn [negb].
      + exists (inl pc). auto.
      + eexists (inr _). split; [reflexivity|]. split; [|right; reflexivity].
        intros (pc' & [= <-] & Hen'). congruence.
    - destruct (Hnn t Hlook).
    - eexists (inr _). split; [reflexivity|]. split; [|left; reflexivity].
      intros (pc' & Habs & _). discriminate. }
  destruct Hget as (r & Hget & Hr). exists r.
  split; [exact Hrun|]. split; [exact Hhas|]. split; [exact Hget|].
  split.
  { eapply sublist_NoDup; [|exact Hsub]. unfold visits in Hv. rewrite Hv.
    apply NoDup_fst_map_to_list. }
  split; [|split; [exact Hb|exact Hr]].
  rewrite Hiff. unfold enabledIn. split.
  - intros (pc & Hin & Hen). exists pc. split; [|exact Hen].
    apply (visits_elem c order t (Some pc) Hv). exact Hin.
  - intros (pc & Hlook & Hen). exists pc. split; [|exact Hen].
    apply (visits_elem c order t (Some pc) Hv). exact Hlook.
Qed.

(** The client [NewClient] builds from a validated configuration for the
    provider [t], and from the environment. *)
Lemma initializeProvider_first (c : Config) (t : string) (pc : ProviderConfig) :
  Providers c !! t = Some (Some pc) -> Enabled pc = true -> entryOK t pc ->
  let built provider :=
    Done (inl (mkClient c (Some provider) t 0 "" NewLoopDetectionService)) in
  ('(client, err) ← initializeProvider genai_NewClient
                      (mkClient c None "" 0 "" NewLoopDetectionService) t;
   match err with
   | Some err =>
       Done (inr ("failed to initialize default provider: " ++ err)%string)
   | None => Done (inl client)
   end)
  = if String.eqb t ProviderGemini then
      match genai_NewClient (convertToGeminiConfig pc) with
      | Some err =>
          Done (inr ("failed to initialize default provider: "
                     ++ "failed to initialize gemini provider: "
                     ++ WrapProviderError err ProviderGemini "")%string)
      | None => built (GeminiProvider (convertToGeminiConfig pc))
      end
    else if String.eqb t ProviderOpenAI then
      built (OpenAIProvider (convertToOpenAIConfig pc))
    else
      Done (inr ("failed to initialize default provider: "
                 ++ "unsupported provider type: " ++ t)%string).
Proof.
  intros Hlook Hen Hok. cbn zeta. specialize (Hok Hen).
  unfold initializeProvider, GetProviderConfig. cbn [config].
  rewrite Hlook, Hen. cbn [negb mbind outcome_bind]. rewrite Hen. cbn [negb].
  destruct (String.eqb_spec t ProviderGemini) as [Hg|Hg].
  - destruct Hok as [_ Hgem]. destruct (Hgem Hg) as [Hkey Hvertex].
    unfold gemini_NewProvider.
    assert (gUseVertexAI (convertToGeminiConfig pc) = UseVertex pc /\
            gProject (convertToGeminiConfig pc) = Project pc /\
            gLocation (convertToGeminiConfig pc) = Location pc /\
            gAPIKey (convertToGeminiConfig pc) = APIKey pc)
      as (-> & -> & -> & ->).
    { unfold convertToGeminiConfig. destruct (Gemini pc); auto. }
    destruct (UseVertex pc) eqn:Hv.
    + destruct (Hvertex eq_refl) as [Hp Hl].
      apply String.eqb_neq in Hp. apply String.eqb_neq in Hl.
      rewrite Hp, Hl. cbn [orb].
      destruct (genai_NewClient (convertToGeminiConfig pc));
        cbn [mbind outcome_bind]; rewrite ?Hg; reflexivity.
    + specialize (Hkey eq_refl). apply String.eqb_neq in Hkey. rewrite Hkey.
      destruct (genai_NewClient (convertToGeminiConfig pc));
        cbn [mbind outcome_bind]; rewrite ?Hg; reflexivity.
  - destruct (String.eqb_spec t ProviderOpenAI) as [Ho|Ho]; [|reflexivity].
    destruct Hok as [Hkey _]. specialize (Hkey Ho).
    unfold openai_NewProvider.
    assert (oAPIKey (convertToOpenAIConfig pc) = APIKey pc) as ->.
    { unfold convertToOpenAIConfig. destruct (OpenAI pc); reflexivity. }
    apply String.eqb_neq in Hkey. rewrite Hkey. reflexivity.
Qed.

(** X19.  [NewClient].  On the nil configuration it fails, for the
    default configuration has no provider.  On a configuration that
    [Validate] accepts, whatever the orders in which the map is visited,
    the construction is made for an enabled provider: the default
    provider, which [Validate] sets to an enabled one when it has no
    name.  The outcome is decided by the type of that provider: for
    [openai] the client is always built; for [gemini] it is built unless
    [genai.NewClient] fails, the checks of [gemini.NewProvider] having
    been made by [Validate] already; for any other type the configuration
    passes [Validate] and the construction fails on the unsupported type.
    A client that is built starts with turn count 0, no prompt identity
    and a new loop detection service. *)
Theorem new_client_outcomes (c : Config)
    (order1 order2 order3 : list (string * option ProviderConfig)) :
  NewClient genai_NewClient None order1 order2 order3
  = Done (inr "invalid configuration: no providers configured"%string) /\
  (noNil c -> visits c order1 -> visits c order2 -> visits c order3 ->
   valid c ->
   exists c' t pc,
     (c' = c \/
      DefaultProvider c = ""%string /\
      exists t1, enabledIn c t1 /\ c' = with_DefaultProvider t1 c) /\
     (DefaultProvider c' <> ""%string -> t = DefaultProvider c') /\
     Providers c !! t = Some (Some pc) /\ Enabled pc = true /\
     let built provider :=
       Done (inl (mkClient c' (Some provider) t 0 ""
                    NewLoopDetectionService)) in
     NewClient genai_NewClient (Some c) order1 order2 order3 =
       if String.eqb t ProviderGemini then
         match genai_NewClient (convertToGeminiConfig pc) with
         | Some err =>
             Done (inr ("failed to initialize default provider: "
                        ++ "failed to initialize gemini provider: "
                        ++ WrapProviderError err ProviderGemini "")%string)
         | None => built (GeminiProvider (convertToGeminiConfig pc))
         end
       else if String.eqb t ProviderOpenAI then
         built (OpenAIProvider (convertToOpenAIConfig pc))
       else
         Done (inr ("failed to initialize default provider: "
                    ++ "unsupported provider type: " ++ t)%string)).
Proof.
  split; [reflexivity|].
  intros Hnn Hv1 Hv2 Hv3 Hvalid.
  destruct (Validate_spec c order1 order2 Hnn Hv1 Hv2)
    as (c' & err & Hrun & Hiff & Hchange & Hdefault).
  pose proof (proj2 Hiff Hvalid) as Herr. subst err.
  specialize (Hdefault eq_refl).
  assert (Hsame : Providers c' = Providers c).
  { destruct Hchange as [-> | (_ & t & _ & ->)]; reflexivity. }
  destruct Hvalid as (Hok & Hsomeone & _).
  assert (Hpick : exists t pc,
            (DefaultProvider c' <> ""%string -> t = DefaultProvider c') /\
            Providers c !! t = Some (Some pc) /\ Enabled pc = true /\
            (if String.eqb (DefaultProvider c') "" then
               enabledProviders ← GetEnabledProviders order3;
               Done (match enabledProviders with
                     | [] => inr "no providers enabled"%string
                     | first :: _ => inl first
                     end)
             else Done (inl (DefaultProvider c'))) = Done (inl t)).
  { destruct (String.eqb_spec (DefaultProvider c') "") as [Hd|Hd].
    - destruct (GetEnabledProviders_spec order3 (visits_noNil c order3 Hnn Hv3))
        as (enabled & -> & _ & Hin).
      cbn [mbind outcome_bind].
      destruct enabled as [|first rest].
      + exfalso. destruct Hsomeone as (t & pc & Hlook & Hen).
        assert (t ∈ @nil string) as Habs.
        { apply Hin. exists pc. split; [|exact Hen].
          apply (visits_elem c order3 t (Some pc) Hv3). exact Hlook. }
        apply elem_of_nil in Habs. exact Habs.
      + destruct (proj1 (Hin first) ltac:(left)) as (pc & Hmem & Hen).
        apply (visits_elem c order3 first (Some pc) Hv3) in Hmem.
        exists first, pc. split; [contradiction|]. auto.
    - destruct Hdefault as (pc & Hlook & Hen). rewrite Hsame in Hlook.
      exists (DefaultProvider c'), pc. auto. }
  destruct Hpick as (t & pc & Hnamed & Hlook & Hen & Hchoice).
  exists c', t, pc.
  split; [exact Hchange|]. split; [exact Hnamed|].
  split; [exact Hlook|]. split; [exact Hen|]. cbn zeta.
  unfold NewClient. cbn [default from_option id]. rewrite Hrun.
  cbn [mbind outcome_bind]. rewrite Hchoice. cbn [mbind outcome_bind].
  apply (initializeProvider_first c' t pc).
  - rewrite Hsame. exact Hlook.
  - exact Hen.
  - exact (Hok t pc Hlook).
Qed.

(** ** The configuration read from the environment *)

Variable strings_ToLower : string -> string.
Variable time_ParseDuration : string -> option Z.
Variable strconv_Atoi : string -> option Z.

Lemma nonEmpty_Some (v : string) : v <> ""%string -> nonEmpty v = Some v.
Proof.
  intros Hv. unfold nonEmpty. apply String.eqb_neq in Hv. rewrite Hv.
  reflexivity.
Qed.

Lemma nonEmpty_None (v : string) : v = ""%string -> nonEmpty v = None.
Proof. intros ->. reflexivity. Qed.

Lemma nonEmpty_default (v old : string) :
  v <> ""%string -> default old (nonEmpty v) = v.
Proof. intros Hv. rewrite (nonEmpty_Some v Hv). reflexivity. Qed.

Lemma setEntry_lookup (t : string) (f : ProviderConfig -> ProviderConfig)
    (c : Config) :
  Providers (setEntry t f c) !! t = Some (Some (f (entry c t))).
Proof. unfold setEntry. cbn [Providers with_Providers]. apply lookup_insert_eq. Qed.

Lemma setEntry_other (t t' : string) (f : ProviderConfig -> ProviderConfig)
    (c : Config) :
  t' <> t -> Providers (setEntry t f c) !! t' = Providers c !! t'.
Proof.
  intros Hne. unfold setEntry. cbn [Providers with_Providers].
  apply lookup_insert_ne. congruence.
Qed.

Lemma entry_lookup (c : Config) (t : string) (pc : ProviderConfig) :
  Providers c !! t = Some (Some pc) -> entry c t = pc.
Proof. intros Hlook. unfold entry. rewrite Hlook. reflexivity. Qed.

Lemma setEntry_enabled (t t' : string) (f : ProviderConfig -> ProviderConfig)
    (c : Config) :
  (forall pc, Enabled pc = true -> Enabled (f pc) = true) ->
  enabledIn c t' -> enabledIn (setEntry t f c) t'.
Proof.
  intros Hf (pc & Hlook & Hen). unfold enabledIn.
  destruct (decide (t' = t)) as [->|Hne].
  - rewrite setEntry_lookup. eexists. split; [reflexivity|].
    rewrite (entry_lookup c t pc Hlook). exact (Hf pc Hen).
  - rewrite (setEntry_other t t' f c Hne). exists pc. auto.
Qed.

Lemma writesOnly_id (t : string) : writesOnly t (fun c => c).
Proof. intros c. split; auto. Qed.

Lemma writesOnly_setEntry (t : string) (f : ProviderConfig -> ProviderConfig) :
  (forall pc, Enabled pc = true -> Enabled (f pc) = true) ->
  writesOnly t (setEntry t f).
Proof.
  intros Hf c. split.
  - intros t' Hne. exact (setEntry_other t t' f c Hne).
  - intros t'. exact (setEntry_enabled t t' f c Hf).
Qed.

Lemma writesOnly_comp (t : string) (g h : Config -> Config) :
  writesOnly t g -> writesOnly t h -> writesOnly t (fun c => h (g c)).
Proof.
  intros Hg Hh c. destruct (Hg c) as [Hg1 Hg2]. destruct (Hh (g c)) as [Hh1 Hh2].
  split.
  - intros t' Hne. rewrite (Hh1 t' Hne). exact (Hg1 t' Hne).
  - intros t' Hen. exact (Hh2 t' (Hg2 t' Hen)).
Qed.

Lemma loadOpenAI_writes (env : gmap string string) :
  writesOnly ProviderOpenAI (loadOpenAI env).
Proof.
  intros c. unfold loadOpenAI.
  destruct (nonEmpty (Getenv env "OPENAI_API_KEY")) as [key|];
    [|exact (writesOnly_id ProviderOpenAI c)].
  cbn zeta.
  set (c1 := setEntry ProviderOpenAI (enable key) c).
  assert (H1 : writesOnly ProviderOpenAI (fun c => setEntry ProviderOpenAI (enable key) c)).
  { apply writesOnly_setEntry. reflexivity. }
  assert (Hw : forall f, writesOnly ProviderOpenAI
                           (setEntry ProviderOpenAI (with_OpenAI f))).
  { intros f. apply writesOnly_setEntry. intros pc Hen. exact Hen. }
  destruct (nonEmpty (Getenv env "OPENAI_ORGANIZATION")) as [org|];
    destruct (nonEmpty (Getenv env "OPENAI_BASE_URL")) as [base|].
  - exact (writesOnly_comp _ _ _
             (writesOnly_comp _ _ _ H1 (Hw _)) (Hw _) c).
  - exact (writesOnly_comp _ _ _ H1 (Hw _) c).
  - exact (writesOnly_comp _ _ _ H1 (Hw _) c).
  - exact (H1 c).
Qed.

Lemma loadGemini_writes (env : gmap string string) :
  writesOnly ProviderGemini (loadGemini env).
Proof.
  intros c. unfold loadGemini.
  destruct (nonEmpty (Getenv env "GEMINI_API_KEY")) as [key|];
    [|exact (writesOnly_id ProviderGemini c)].
  apply (writesOnly_setEntry ProviderGemini (enable key)). reflexivity.
Qed.

Lemma loadGoogle_writes (env : gmap string string) :
  writesOnly ProviderGemini (loadGoogle env).
Proof.
  intros c. unfold loadGoogle.
  destruct (nonEmpty (Getenv env "GOOGLE_API_KEY")) as [key|];
    [|exact (writesOnly_id ProviderGemini c)].
  apply (writesOnly_setEntry ProviderGemini (enable key)). reflexivity.
Qed.

Lemma loadVertex_writes (env : gmap string string) :
  writesOnly ProviderGemini (loadVertex env).
Proof.
  intros c. unfold loadVertex.
  destruct (nonEmpty (Getenv env "GOOGLE_GENAI_USE_VERTEXAI")) as [v|];
    [|exact (writesOnly_id ProviderGemini c)].
  apply (writesOnly_setEntry ProviderGemini (with_Vertex _ _)). reflexivity.
Qed.

(** The provider map [LoadFromEnv] leaves is the one of its four first
    blocks. *)
Lemma LoadFromEnv_Providers (c : Config) (env : gmap string string) :
  Providers
    (LoadFromEnv strings_ToLower time_ParseDuration strconv_Atoi c env).1
  = Providers (loadVertex env (loadGoogle env (loadGemini env (loadOpenAI env c)))).
Proof.
  unfold LoadFromEnv. cbn zeta.
  destruct (nonEmpty (Getenv env "GOMINI_DEFAULT_PROVIDER"));
    destruct (nonEmpty (Getenv env "GOMINI_ROUTER_STRATEGY"));
    destruct (nonEmpty (Getenv env "GOMINI_COST_OPTIMIZED")); reflexivity.
Qed.

Lemma loadProviders_DefaultProvider (c : Config) (env : gmap string string) :
  DefaultProvider
    (loadVertex env (loadGoogle env (loadGemini env (loadOpenAI env c))))
  = DefaultProvider c.
Proof.
  unfold loadVertex, loadGoogle, loadGemini, loadOpenAI.
  repeat match goal with
         | |- context [match nonEmpty ?v with _ => _ end] =>
             destruct (nonEmpty v)
         end; reflexivity.
Qed.

Lemma LoadFromEnv_DefaultProvider (c : Config) (env : gmap string string) :
  DefaultProvider
    (LoadFromEnv strings_ToLower time_ParseDuration strconv_Atoi c env).1
  = default (DefaultProvider c) (nonEmpty (Getenv env "GOMINI_DEFAULT_PROVIDER")).
Proof.
  rewrite <- (loadProviders_DefaultProvider c env).
  unfold LoadFromEnv. cbn zeta.
  destruct (nonEmpty (Getenv env "GOMINI_DEFAULT_PROVIDER"));
    destruct (nonEmpty (Getenv env "GOMINI_ROUTER_STRATEGY"));
    destruct (nonEmpty (Getenv env "GOMINI_COST_OPTIMIZED")); reflexivity.
Qed.

(** The Gemini entry after the three Gemini blocks. *)
Lemma loadGemini_key (env : gmap string string) (c : Config) :
  Getenv env "GEMINI_API_KEY" <> ""%string \/
  Getenv env "GOOGLE_API_KEY" <> ""%string ->
  exists pc,
    Providers (loadGoogle env (loadGemini env c)) !! ProviderGemini
    = Some (Some pc) /\
    Enabled pc = true /\
    APIKey pc = if String.eqb (Getenv env "GOOGLE_API_KEY") ""
                then Getenv env "GEMINI_API_KEY"
                else Getenv env "GOOGLE_API_KEY".
Proof.
  intros Hset. unfold loadGoogle.
  destruct (String.eqb_spec (Getenv env "GOOGLE_API_KEY") "") as [Hg|Hg].
  - rewrite (nonEmpty_None _ Hg). destruct Hset as [Hk|Hk]; [|contradiction].
    unfold loadGemini. rewrite (nonEmpty_Some _ Hk). rewrite setEntry_lookup.
    eexists. split; [reflexivity|]. split; reflexivity.
  - rewrite (nonEmpty_Some _ Hg). rewrite setEntry_lookup.
    eexists. split; [reflexivity|]. split; reflexivity.
Qed.

Lemma loadVertex_keeps (env : gmap string string) (c : Config)
    (pc : ProviderConfig) :
  Providers c !! ProviderGemini = Some (Some pc) ->
  exists pc',
    Providers (loadVertex env c) !! ProviderGemini = Some (Some pc') /\
    APIKey pc' = APIKey pc /\ (Enabled pc = true -> Enabled pc' = true).
Proof.
  intros Hlook. unfold loadVertex.
  destruct (nonEmpty (Getenv env "GOOGLE_GENAI_USE_VERTEXAI")).
  - rewrite setEntry_lookup, (entry_lookup c _ pc Hlook).
    eexists. split; [reflexivity|]. split; reflexivity.
  - exists pc. auto.
Qed.

Lemma loadVertex_on (env : gmap string string) (c : Config) :
  Getenv env "GOOGLE_GENAI_USE_VERTEXAI" <> ""%string ->
  Providers (loadVertex env c) !! ProviderGemini
  = Some (Some (with_Vertex (nonEmpty (Getenv env "GOOGLE_CLOUD_PROJECT"))
                  (nonEmpty (Getenv env "GOOGLE_CLOUD_LOCATION"))
                  (entry c ProviderGemini))).
Proof.
  intros Hv. unfold loadVertex. rewrite (nonEmpty_Some _ Hv).
  apply setEntry_lookup.
Qed.

Lemma loadOpenAI_key (env : gmap string string) (c : Config) :
  Getenv env "OPENAI_API_KEY" <> ""%string ->
  exists pc,
    Providers (loadOpenAI env c) !! ProviderOpenAI = Some (Some pc) /\
    Enabled pc = true /\
    APIKey pc = Getenv env "OPENAI_API_KEY" /\
    Endpoint pc = Endpoint (entry c ProviderOpenAI) /\
    Project pc = Project (entry c ProviderOpenAI) /\
    DefaultModel pc = DefaultModel (entry c ProviderOpenAI) /\
    ExtraHeaders pc = ExtraHeaders (entry c ProviderOpenAI) /\
    (Getenv env "OPENAI_ORGANIZATION" <> ""%string ->
     exists o, OpenAI pc = Some o /\
               Organization o = Getenv env "OPENAI_ORGANIZATION") /\
    (Getenv env "OPENAI_BASE_URL" <> ""%string ->
     exists o, OpenAI pc = Some o /\ BaseURL o = Getenv env "OPENAI_BASE_URL") /\
    (OpenAI (entry c ProviderOpenAI) = None ->
     match OpenAI pc with
     | Some o => Organization o = Getenv env "OPENAI_ORGANIZATION" /\
                 BaseURL o = Getenv env "OPENAI_BASE_URL" /\
                 OpenAIDefaultModel o = ""%string
     | None => Getenv env "OPENAI_ORGANIZATION" = ""%string /\
               Getenv env "OPENAI_BASE_URL" = ""%string
     end).
Proof.
  intros Hkey. unfold loadOpenAI. rewrite (nonEmpty_Some _ Hkey). cbn zeta.
  destruct (String.eqb_spec (Getenv env "OPENAI_ORGANIZATION") "") as [Ho|Ho];
    destruct (String.eqb_spec (Getenv env "OPENAI_BASE_URL") "") as [Hb|Hb];
    rewrite ?(nonEmpty_None _ Ho), ?(nonEmpty_None _ Hb),
            ?(nonEmpty_Some _ Ho), ?(nonEmpty_Some _ Hb);
    rewrite !setEntry_lookup;
    repeat (erewrite (entry_lookup (setEntry _ _ _)); [|apply setEntry_lookup]);
    (eexists; split; [reflexivity|]);
    cbn [Enabled APIKey Endpoint Project DefaultModel ExtraHeaders OpenAI
         with_OpenAI enable];
    repeat (split; [reflexivity|]).
  - split; [contradiction|]. split; [contradiction|]. intros ->. auto.
  - split; [contradiction|]. split; [intros _; eexists; split; reflexivity|].
    intros ->. cbn. rewrite Ho. auto.
  - split; [intros _; eexists; split; reflexivity|]. split; [contradiction|].
    intros ->. cbn. rewrite Hb. auto.
  - split; [intros _; eexists; split; reflexivity|].
    split; [intros _; eexists; split; reflexivity|].
    intros ->. cbn. auto.
Qed.

(** X20.  What [LoadFromEnv] makes of the provider variables.  It returns
    no error, writes no entry but those of [openai] and [gemini], and
    disables nothing that was enabled.  A non-empty OPENAI_API_KEY enables
    [openai] with that key; without it the entry is left as it was, the
    organization and the base URL being read only under the key.  A
    non-empty GEMINI_API_KEY or GOOGLE_API_KEY enables [gemini], and
    GOOGLE_API_KEY wins when both are set.  Any non-empty value of
    GOOGLE_GENAI_USE_VERTEXAI (the text false included) enables [gemini]
    and turns Vertex AI on, with the project and the location of the
    environment when these are not empty; with none of the three the
    Gemini entry is left as it was. *)
Theorem load_from_env_providers (c : Config) (env : gmap string string) :
  let loaded :=
    LoadFromEnv strings_ToLower time_ParseDuration strconv_Atoi c env in
  let c' := loaded.1 in
  loaded.2 = None /\
  (forall t, t <> ProviderOpenAI -> t <> ProviderGemini ->
             Providers c' !! t = Providers c !! t) /\
  (forall t, enabledIn c t -> enabledIn c' t) /\
  (Getenv env "OPENAI_API_KEY" <> ""%string ->
   exists pc,
     Providers c' !! ProviderOpenAI = Some (Some pc) /\
     Enabled pc = true /\ APIKey pc = Getenv env "OPENAI_API_KEY" /\
     (Getenv env "OPENAI_ORGANIZATION" <> ""%string ->
      exists o, OpenAI pc = Some o /\
                Organization o = Getenv env "OPENAI_ORGANIZATION") /\
     (Getenv env "OPENAI_BASE_URL" <> ""%string ->
      exists o, OpenAI pc = Some o /\
                BaseURL o = Getenv env "OPENAI_BASE_URL")) /\
  (Getenv env "OPENAI_API_KEY" = ""%string ->
   Providers c' !! ProviderOpenAI = Providers c !! ProviderOpenAI) /\
  (Getenv env "GEMINI_API_KEY" <> ""%string \/
   Getenv env "GOOGLE_API_KEY" <> ""%string ->
   exists pc,
     Providers c' !! ProviderGemini = Some (Some pc) /\
     Enabled pc = true /\
     APIKey pc = if String.eqb (Getenv env "GOOGLE_API_KEY") ""
                 then Getenv env "GEMINI_API_KEY"
                 else Getenv env "GOOGLE_API_KEY") /\
  (Getenv env "GOOGLE_GENAI_USE_VERTEXAI" <> ""%string ->
   exists pc,
     Providers c' !! ProviderGemini = Some (Some pc) /\
     Enabled pc = true /\ UseVertex pc = true /\
     (Getenv env "GOOGLE_CLOUD_PROJECT" <> ""%string ->
      Project pc = Getenv env "GOOGLE_CLOUD_PROJECT") /\
     (Getenv env "GOOGLE_CLOUD_LOCATION" <> ""%string ->
      Location pc = Getenv env "GOOGLE_CLOUD_LOCATION")) /\
  (Getenv env "GEMINI_API_KEY" = ""%string ->
   Getenv env "GOOGLE_API_KEY" = ""%string ->
   Getenv env "GOOGLE_GENAI_USE_VERTEXAI" = ""%string ->
   Providers c' !! ProviderGemini = Providers c !! ProviderGemini).
Proof.
  cbn zeta. rewrite (LoadFromEnv_Providers c env).
  set (c1 := loadOpenAI env c).
  set (c2 := loadGemini env c1).
  set (c3 := loadGoogle env c2).
  destruct (loadOpenAI_writes env c) as [Ho1 Ho2]. fold c1 in Ho1, Ho2.
  destruct (loadGemini_writes env c1) as [Hg1 Hg2]. fold c2 in Hg1, Hg2.
  destruct (loadGoogle_writes env c2) as [Hh1 Hh2]. fold c3 in Hh1, Hh2.
  destruct (loadVertex_writes env c3) as [Hv1 Hv2].
  assert (Hog : ProviderOpenAI <> ProviderGemini) by discriminate.
  assert (Hgo : ProviderGemini <> ProviderOpenAI) by discriminate.
  split; [reflexivity|].
  split.
  { intros t Hno Hng. rewrite (Hv1 t Hng), (Hh1 t Hng), (Hg1 t Hng).
    exact (Ho1 t Hno). }
  split.
  { intros t Hen. unfold enabledIn.
    cbn [fst]. rewrite (LoadFromEnv_Providers c env).
    exact (Hv2 t (Hh2 t (Hg2 t (Ho2 t Hen)))). }
  split.
  { intros Hkey.
    destruct (loadOpenAI_key env c Hkey)
      as (pc & Hlook & Hen & Hk & _ & _ & _ & _ & Horg & Hbase & _).
    exists pc. rewrite (Hv1 _ Hog), (Hh1 _ Hog), (Hg1 _ Hog). auto. }
  split.
  { intros Hkey. rewrite (Hv1 _ Hog), (Hh1 _ Hog), (Hg1 _ Hog).
    unfold c1, loadOpenAI. rewrite (nonEmpty_None _ Hkey). reflexivity. }
  split.
  { intros Hset.
    destruct (loadGemini_key env c1 Hset) as (pc & Hlook & Hen & Hk).
    destruct (loadVertex_keeps env c3 pc Hlook) as (pc' & Hlook' & Hk' & Hen').
    exists pc'. split; [exact Hlook'|]. split; [auto|]. congruence. }
  split.
  { intros Hv. rewrite (loadVertex_on env c3 Hv).
    eexists. split; [reflexivity|].
    cbn [Enabled UseVertex Project Location with_Vertex].
    split; [reflexivity|]. split; [reflexivity|].
    split; intros Hne; apply nonEmpty_default; exact Hne. }
  intros Hk1 Hk2 Hk3.
  unfold loadVertex. rewrite (nonEmpty_None _ Hk3).
  unfold c3, loadGoogle. rewrite (nonEmpty_None _ Hk2).
  unfold c2, loadGemini. rewrite (nonEmpty_None _ Hk1).
  exact (Ho1 _ Hgo).
Qed.


(** The error [Validate] returns from inside its first loop names the
    check that failed. *)
Lemma validateEntries_error (visit : list (string * option ProviderConfig)) :
  forall n err,
    validateEntries visit n = Done (inr err) ->
    exists t pc,
      (t, Some pc) ∈ visit /\ Enabled pc = true /\
      (t = ProviderOpenAI /\ APIKey pc = ""%string /\
       err = "OpenAI API key is required"%string \/
       t = ProviderGemini /\ UseVertex pc = false /\ APIKey pc = ""%string /\
       err = "Gemini API key is required (unless using Vertex AI)"%string \/
       t = ProviderGemini /\ UseVertex pc = true /\
       (Project pc = ""%string \/ Location pc = ""%string) /\
       err = "Vertex AI requires both project and location"%string).
Proof.
  induction visit as [|[t [pc|]] rest IH]; intros n err; cbn [validateEntries].
  - discriminate.
  - assert (Hrest : forall k,
              validateEntries rest k = Done (inr err) ->
              exists t0 pc0,
                (t0, Some pc0) ∈ (t, Some pc) :: rest /\ Enabled pc0 = true /\
                (t0 = ProviderOpenAI /\ APIKey pc0 = ""%string /\
                 err = "OpenAI API key is required"%string \/
                 t0 = ProviderGemini /\ UseVertex pc0 = false /\
                 APIKey pc0 = ""%string /\
                 err = "Gemini API key is required (unless using Vertex AI)"%string \/
                 t0 = ProviderGemini /\ UseVertex pc0 = true /\
                 (Project pc0 = ""%string \/ Location pc0 = ""%string) /\
                 err = "Vertex AI requires both project and location"%string)).
    { intros k Hk. destruct (IH k err Hk) as (t0 & pc0 & Hin & Hrest).
      exists t0, pc0. split; [right; exact Hin|exact Hrest]. }
    destruct (Enabled pc) eqn:Hen; cbn [negb]; [|apply Hrest].
    destruct (String.eqb_spec t ProviderOpenAI) as [Ho|Ho].
    { destruct (String.eqb_spec (APIKey pc) "") as [Hk|Hk]; [|apply Hrest].
      intros [= <-]. exists t, pc. split; [left|]. split; [exact Hen|].
      left. auto. }
    destruct (String.eqb_spec t ProviderGemini) as [Hg|Hg]; [|apply Hrest].
    destruct (UseVertex pc) eqn:Hv; cbn [negb andb].
    + destruct (String.eqb_spec (Project pc) "") as [Hp|Hp]; cbn [orb].
      { intros [= <-]. exists t, pc. split; [left|]. split; [exact Hen|].
        right. right. auto. }
      destruct (String.eqb_spec (Location pc) "") as [Hl|Hl]; [|apply Hrest].
      intros [= <-]. exists t, pc. split; [left|]. split; [exact Hen|].
      right. right. auto.
    + destruct (String.eqb_spec (APIKey pc) "") as [Hk|Hk]; [|apply Hrest].
      intros [= <-]. exists t, pc. split; [left|]. split; [exact Hen|].
      right. left. auto.
  - discriminate.
Qed.

Lemma LoadFromEnv_pair (c : Config) (env : gmap string string) :
  LoadFromEnv strings_ToLower time_ParseDuration strconv_Atoi c env
  = ((LoadFromEnv strings_ToLower time_ParseDuration strconv_Atoi c env).1,
     None).
Proof. reflexivity. Qed.

Lemma with_DefaultProvider_same (c : Config) (t : string) :
  DefaultProvider c = t -> with_DefaultProvider t c = c.
Proof. destruct c. cbn. intros ->. reflexivity. Qed.

(** The provider map read from the environment into the default
    configuration. *)
Lemma LoadFromEnv_new_entries (env : gmap string string) :
  let cfg :=
    (LoadFromEnv strings_ToLower time_ParseDuration strconv_Atoi
       NewConfig env).1 in
  (forall t, t <> ProviderOpenAI -> t <> ProviderGemini ->
             Providers cfg !! t = None) /\
  (Getenv env "OPENAI_API_KEY" = ""%string ->
   Providers cfg !! ProviderOpenAI = None) /\
  (Getenv env "OPENAI_API_KEY" <> ""%string ->
   exists pc,
     Providers cfg !! ProviderOpenAI = Some (Some pc) /\
     Enabled pc = true /\ APIKey pc = Getenv env "OPENAI_API_KEY" /\
     convertToOpenAIConfig pc
     = mkopenaiConfig (Getenv env "OPENAI_API_KEY")
         (Getenv env "OPENAI_BASE_URL") (Getenv env "OPENAI_ORGANIZATION")
         "" "" ∅) /\
  (Getenv env "GEMINI_API_KEY" = ""%string ->
   Getenv env "GOOGLE_API_KEY" = ""%string ->
   Getenv env "GOOGLE_GENAI_USE_VERTEXAI" = ""%string ->
   Providers cfg !! ProviderGemini = None) /\
  (Getenv env "GOOGLE_GENAI_USE_VERTEXAI" <> ""%string ->
   exists pc,
     Providers cfg !! ProviderGemini = Some (Some pc) /\
     Enabled pc = true /\ UseVertex pc = true /\
     Project pc = Getenv env "GOOGLE_CLOUD_PROJECT" /\
     Location pc = Getenv env "GOOGLE_CLOUD_LOCATION").
Proof.
  cbn zeta. rewrite (LoadFromEnv_Providers NewConfig env).
  set (c1 := loadOpenAI env NewConfig).
  set (c2 := loadGemini env c1).
  set (c3 := loadGoogle env c2).
  destruct (loadOpenAI_writes env NewConfig) as [Ho1 _]. fold c1 in Ho1.
  destruct (loadGemini_writes env c1) as [Hg1 _]. fold c2 in Hg1.
  destruct (loadGoogle_writes env c2) as [Hh1 _]. fold c3 in Hh1.
  destruct (loadVertex_writes env c3) as [Hv1 _].
  assert (Hog : ProviderOpenAI <> ProviderGemini) by discriminate.
  assert (Hgo : ProviderGemini <> ProviderOpenAI) by discriminate.
  assert (Hnew : forall t, Providers NewConfig !! t = None).
  { intros t. apply lookup_empty. }
  split.
  { intros t Hno Hng. rewrite (Hv1 t Hng), (Hh1 t Hng), (Hg1 t Hng), (Ho1 t Hno).
    apply Hnew. }
  split.
  { intros Hkey. rewrite (Hv1 _ Hog), (Hh1 _ Hog), (Hg1 _ Hog).
    unfold c1, loadOpenAI. rewrite (nonEmpty_None _ Hkey). apply Hnew. }
  split.
  { intros Hkey.
    destruct (loadOpenAI_key env NewConfig Hkey)
      as (pc & Hlook & Hen & Hk & He & Hp & Hm & Hx & _ & _ & Hopen).
    exists pc. rewrite (Hv1 _ Hog), (Hh1 _ Hog), (Hg1 _ Hog).
    split; [exact Hlook|]. split; [exact Hen|]. split; [exact Hk|].
    assert (Hzero : entry NewConfig ProviderOpenAI = zeroProviderConfig).
    { unfold entry. rewrite Hnew. reflexivity. }
    rewrite Hzero in He, Hp, Hm, Hx, Hopen. cbn in He, Hp, Hm, Hx.
    specialize (Hopen eq_refl).
    unfold convertToOpenAIConfig. rewrite Hk, He, Hp, Hm, Hx.
    destruct (OpenAI pc) as [o|].
    - destruct Hopen as (-> & -> & ->).
      cbn [oAPIKey oBaseURL oProject oDefaultModel oExtraHeaders negb String.eqb].
      destruct (String.eqb_spec (Getenv env "OPENAI_BASE_URL") "") as [Hb|Hb];
        cbn [negb]; [rewrite Hb|]; reflexivity.
    - destruct Hopen as (-> & ->). reflexivity. }
  split.
  { intros Hk1 Hk2 Hk3.
    unfold loadVertex. rewrite (nonEmpty_None _ Hk3).
    unfold c3, loadGoogle. rewrite (nonEmpty_None _ Hk2).
    unfold c2, loadGemini. rewrite (nonEmpty_None _ Hk1).
    rewrite (Ho1 _ Hgo). apply Hnew. }
  intros Hv. rewrite (loadVertex_on env c3 Hv).
  eexists. split; [reflexivity|].
  cbn [Enabled UseVertex Project Location with_Vertex].
  split; [reflexivity|]. split; [reflexivity|].
  assert (Hentry : Project (entry c3 ProviderGemini) = ""%string /\
                   Location (entry c3 ProviderGemini) = ""%string).
  { assert (H1 : entry c1 ProviderGemini = zeroProviderConfig).
    { unfold entry. rewrite (Ho1 _ Hgo), Hnew. reflexivity. }
    assert (H2 : Project (entry c2 ProviderGemini) = ""%string /\
                 Location (entry c2 ProviderGemini) = ""%string).
    { unfold c2, loadGemini.
      destruct (nonEmpty (Getenv env "GEMINI_API_KEY")).
      - rewrite (entry_lookup _ _ _ (setEntry_lookup _ _ _)), H1. split; reflexivity.
      - rewrite H1. split; reflexivity. }
    unfold c3, loadGoogle.
    destruct (nonEmpty (Getenv env "GOOGLE_API_KEY")); [|exact H2].
    rewrite (entry_lookup _ _ _ (setEntry_lookup _ _ _)). exact H2. }
  destruct Hentry as [-> ->].
  split.
  - destruct (String.eqb_spec (Getenv env "GOOGLE_CLOUD_PROJECT") "") as [He|He].
    + rewrite (nonEmpty_None _ He). symmetry. exact He.
    + apply nonEmpty_default. exact He.
  - destruct (String.eqb_spec (Getenv env "GOOGLE_CLOUD_LOCATION") "") as [He|He].
    + rewrite (nonEmpty_None _ He). symmetry. exact He.
    + apply nonEmpty_default. exact He.
Qed.

(** X21.  [NewClientFromEnv], whatever the orders in which the map is
    visited.  With none of OPENAI_API_KEY, GEMINI_API_KEY, GOOGLE_API_KEY
    and GOOGLE_GENAI_USE_VERTEXAI set, it fails on the empty provider
    map.  With GOOGLE_GENAI_USE_VERTEXAI set (to any text) and the
    project or the location missing, it fails in [Validate], whatever
    API keys are given.  With OPENAI_API_KEY alone of the four, and
    GOMINI_DEFAULT_PROVIDER unset or [openai], it builds the client for
    [openai] from the key, the base URL and the organization of the
    environment. *)
Theorem new_client_from_env (env : gmap string string)
    (order1 order2 order3 : list (string * option ProviderConfig)) :
  let cfg :=
    (LoadFromEnv strings_ToLower time_ParseDuration strconv_Atoi
       NewConfig env).1 in
  let run :=
    NewClientFromEnv genai_NewClient strings_ToLower time_ParseDuration
      strconv_Atoi env order1 order2 order3 in
  (Getenv env "OPENAI_API_KEY" = ""%string ->
   Getenv env "GEMINI_API_KEY" = ""%string ->
   Getenv env "GOOGLE_API_KEY" = ""%string ->
   Getenv env "GOOGLE_GENAI_USE_VERTEXAI" = ""%string ->
   run = Done (inr "invalid configuration: no providers configured"%string)) /\
  (visits cfg order1 ->
   Getenv env "GOOGLE_GENAI_USE_VERTEXAI" <> ""%string ->
   Getenv env "GOOGLE_CLOUD_PROJECT" = ""%string \/
   Getenv env "GOOGLE_CLOUD_LOCATION" = ""%string ->
   run = Done (inr ("invalid configuration: "
                    ++ "Vertex AI requires both project and location")%string)) /\
  (visits cfg order1 -> visits cfg order2 ->
   Getenv env "OPENAI_API_KEY" <> ""%string ->
   Getenv env "GEMINI_API_KEY" = ""%string ->
   Getenv env "GOOGLE_API_KEY" = ""%string ->
   Getenv env "GOOGLE_GENAI_USE_VERTEXAI" = ""%string ->
   Getenv env "GOMINI_DEFAULT_PROVIDER" = ""%string \/
   Getenv env "GOMINI_DEFAULT_PROVIDER" = ProviderOpenAI ->
   run = Done (inl (mkClient (with_DefaultProvider ProviderOpenAI cfg)
                      (Some (OpenAIProvider
                               (mkopenaiConfig (Getenv env "OPENAI_API_KEY")
                                  (Getenv env "OPENAI_BASE_URL")
                                  (Getenv env "OPENAI_ORGANIZATION") "" "" ∅)))
                      ProviderOpenAI 0 "" NewLoopDetectionService))).
Proof.
  cbn zeta. unfold NewClientFromEnv.
  rewrite (LoadFromEnv_pair NewConfig env).
  destruct (LoadFromEnv_new_entries env) as (Hother & Hno & Ho & Hng & Hvx).
  set (cfg := (LoadFromEnv strings_ToLower time_ParseDuration strconv_Atoi
                 NewConfig env).1) in *.
  assert (Hog : ProviderOpenAI <> ProviderGemini) by discriminate.
  split; [|split].
  - intros Hk1 Hk2 Hk3 Hk4.
    assert (Hempty : Providers cfg = ∅).
    { apply map_eq. intros t. rewrite lookup_empty.
      destruct (decide (t = ProviderOpenAI)) as [->|Hto]; [exact (Hno Hk1)|].
      destruct (decide (t = ProviderGemini)) as [->|Htg]; [exact (Hng Hk2 Hk3 Hk4)|].
      exact (Hother t Hto Htg). }
    unfold NewClient, Validate. cbn [default from_option id].
    rewrite Hempty, map_to_list_empty. reflexivity.
  - intros Hv1 Hvertex Hmissing.
    destruct (Hvx Hvertex) as (pc & Hlook & Hen & Huse & Hp & Hl).
    assert (Hnn : noNil cfg).
    { intros t.
      destruct (decide (t = ProviderOpenAI)) as [->|Hto].
      - destruct (String.eqb_spec (Getenv env "OPENAI_API_KEY") "") as [Hk|Hk].
        + rewrite (Hno Hk). discriminate.
        + destruct (Ho Hk) as (pc' & -> & _). discriminate.
      - destruct (decide (t = ProviderGemini)) as [->|Htg].
        + rewrite Hlook. discriminate.
        + rewrite (Hother t Hto Htg). discriminate. }
    unfold NewClient, Validate. cbn [default from_option id].
    destruct (Z.eqb_spec (len (map_to_list (Providers cfg))) 0) as [Hz|Hz].
    { exfalso. apply elem_of_map_to_list in Hlook.
      destruct (map_to_list (Providers cfg)); [|discriminate].
      apply elem_of_nil in Hlook. exact Hlook. }
    destruct (validateEntries_spec order1 (visits_noNil cfg order1 Hnn Hv1) 0)
      as (r & Hrun & Hspec).
    destruct r as [m|err].
    { exfalso. destruct Hspec as (Hok & _).
      assert (Hin : (ProviderGemini, Some pc) ∈ order1).
      { apply (visits_elem cfg order1 _ _ Hv1). exact Hlook. }
      destruct (Hok _ _ Hin Hen) as [_ Hgem].
      destruct (Hgem eq_refl) as [_ Hvert].
      destruct (Hvert Huse) as [Hp' Hl'].
      destruct Hmissing as [Hm|Hm]; congruence. }
    destruct (validateEntries_error order1 0 err Hrun)
      as (t & pc' & Hin & Hen' & Hcase).
    apply (visits_elem cfg order1 _ _ Hv1) in Hin.
    rewrite Hrun. cbn [mbind outcome_bind].
    destruct Hcase as [(-> & Hkey & ->)|[(-> & Huse' & _)|(-> & _ & _ & ->)]].
    + exfalso.
      destruct (String.eqb_spec (Getenv env "OPENAI_API_KEY") "") as [Hk|Hk].
      * rewrite (Hno Hk) in Hin. discriminate.
      * destruct (Ho Hk) as (pc'' & Hlook'' & _ & Hkey'' & _).
        rewrite Hlook'' in Hin. injection Hin as <-. congruence.
    + exfalso. rewrite Hlook in Hin. injection Hin as <-. congruence.
    + reflexivity.
  - intros Hv1 Hv2 Hkey Hk2 Hk3 Hk4 Hdefault.
    destruct (Ho Hkey) as (pc & Hlook & Hen & Hapi & Hconv).
    assert (Hmap : Providers cfg = {[ProviderOpenAI := Some pc]}).
    { apply map_eq. intros t.
      destruct (decide (t = ProviderOpenAI)) as [->|Hto].
      - rewrite Hlook, lookup_singleton_eq. reflexivity.
      - rewrite lookup_singleton_ne by congruence.
        destruct (decide (t = ProviderGemini)) as [->|Htg];
          [exact (Hng Hk2 Hk3 Hk4)|exact (Hother t Hto Htg)]. }
    assert (Hv1' : order1 ≡ₚ map_to_list (Providers cfg)) by exact Hv1.
    assert (Hv2' : order2 ≡ₚ map_to_list (Providers cfg)) by exact Hv2.
    clear Hv1 Hv2.
    rewrite Hmap, map_to_list_singleton in Hv1', Hv2'.
    apply Permutation_singleton_r in Hv1', Hv2'. subst order1 order2.
    assert (Hdp : DefaultProvider cfg
                  = Getenv env "GOMINI_DEFAULT_PROVIDER").
    { unfold cfg. rewrite LoadFromEnv_DefaultProvider. cbn [DefaultProvider NewConfig].
      destruct Hdefault as [Hd|Hd]; rewrite Hd; reflexivity. }
    assert (Hkeyb : String.eqb (APIKey pc) "" = false).
    { apply String.eqb_neq. congruence. }
    assert (Hval : Validate cfg [(ProviderOpenAI, Some pc)]
                     [(ProviderOpenAI, Some pc)]
                   = Done (with_DefaultProvider ProviderOpenAI cfg, None)).
    { unfold Validate. rewrite Hmap, map_to_list_singleton.
      cbn [length len Z.of_nat Z.eqb validateEntries firstEnabled].
      rewrite Hen, Hkeyb. cbn [negb String.eqb Ascii.eqb Bool.eqb ProviderOpenAI
                                mbind outcome_bind Z.add Z.eqb Pos.add].
      rewrite Hdp.
      destruct Hdefault as [Hd|Hd]; rewrite Hd.
      - cbn [String.eqb mbind outcome_bind DefaultProvider with_DefaultProvider
             Providers].
        rewrite Hmap, lookup_singleton_eq, Hen. reflexivity.
      - cbn [String.eqb Ascii.eqb Bool.eqb ProviderOpenAI mbind outcome_bind].
        rewrite (with_DefaultProvider_same cfg ProviderOpenAI)
          by (rewrite Hdp; exact Hd).
        rewrite Hdp, Hd, Hmap, lookup_singleton_eq, Hen. reflexivity. }
    unfold NewClient. cbn [default from_option id]. rewrite Hval.
    cbn [mbind outcome_bind DefaultProvider with_DefaultProvider String.eqb
         Ascii.eqb Bool.eqb ProviderOpenAI].
    pose proof (initializeProvider_first
                  (with_DefaultProvider ProviderOpenAI cfg) ProviderOpenAI pc)
      as Hinit.
    cbn zeta in Hinit. rewrite Hinit.
    + rewrite Hconv. reflexivity.
    + exact Hlook.
    + exact Hen.
    + intros _. split; [intros _; congruence|]. intros Habs. discriminate.
Qed.


Lemma append_inj_l (p a b : string) : (p ++ a)%string = (p ++ b)%string -> a = b.
Proof.
  induction p as [|ch p IH]; cbn; [auto|]. intros [= H]. exact (IH H).
Qed.

(** X22.  [SwitchProvider] (the map holds no nil pointer).  To the type
    the client already has it does nothing, whether or not a provider is
    held.  When it returns an error the client is as it was: the provider
    held is kept.  It succeeds on another type only for [gemini] or
    [openai] enabled in the configuration, and then replaces the provider
    and its type and nothing else: the turn count, the prompt identity
    and the loop detection service are kept.  For a type that is not
    enabled it returns an error, and never the error of the second test
    of [initializeProvider], provider ... is not enabled, which
    [GetProviderConfig] has answered before. *)
Theorem switch_provider_outcomes (c : Client) (t : string) :
  noNil (config c) ->
  exists c' err,
    SwitchProvider genai_NewClient c t = Done (c', err) /\
    (providerType c = t -> c' = c /\ err = None) /\
    (forall e, err = Some e ->
       c' = c /\ e <> ("provider " ++ t ++ " is not enabled")%string) /\
    (err = None -> providerType c <> t ->
     enabledIn (config c) t /\
     (t = ProviderGemini \/ t = ProviderOpenAI) /\
     exists p,
       c' = mkClient (config c) (Some p) t (sessionTurnCount c)
              (lastPromptID c) (loopDetector c)) /\
    (providerType c <> t -> ~ enabledIn (config c) t -> err <> None).
Proof.
  intros Hnn. unfold SwitchProvider.
  destruct (String.eqb_spec (providerType c) t) as [Hsame|Hother].
  { exists c, None. split; [reflexivity|]. split; [auto|].
    split; [discriminate|]. split; contradiction. }
  assert (Hfail : forall e : string,
            e <> ("provider " ++ t ++ " is not enabled")%string ->
            exists c' err,
              Done (c, Some e) = Done (c', err) /\
              (providerType c = t -> c' = c /\ err = None) /\
              (forall e0, err = Some e0 ->
                 c' = c /\ e0 <> ("provider " ++ t ++ " is not enabled")%string) /\
              (err = None -> providerType c <> t ->
               enabledIn (config c) t /\
               (t = ProviderGemini \/ t = ProviderOpenAI) /\
               exists p,
                 c' = mkClient (config c) (Some p) t (sessionTurnCount c)
                        (lastPromptID c) (loopDetector c)) /\
              (providerType c <> t -> ~ enabledIn (config c) t -> err <> None)).
  { intros e He. exists c, (Some e). split; [reflexivity|].
    split; [contradiction|]. split; [intros e0 [= <-]; auto|].
    split; [discriminate|]. intros _ _. discriminate. }
  unfold initializeProvider, GetProviderConfig.
  destruct (Providers (config c) !! t) as [[pc|]|] eqn:Hlook.
  - destruct (Enabled pc) eqn:Hen; cbn [negb mbind outcome_bind].
    2:{ apply Hfail.
        intros Heq. apply append_inj_l, append_inj_l in Heq. discriminate. }
    rewrite Hen. cbn [negb].
    assert (Hin : enabledIn (config c) t) by (exists pc; auto).
    assert (Hok : forall p : Provider,
              t = ProviderGemini \/ t = ProviderOpenAI ->
              exists c' err,
                Done (mkClient (config c) (Some p) t (sessionTurnCount c)
                        (lastPromptID c) (loopDetector c), @None string)
                = Done (c', err) /\
                (providerType c = t -> c' = c /\ err = None) /\
                (forall e0, err = Some e0 ->
                   c' = c /\
                   e0 <> ("provider " ++ t ++ " is not enabled")%string) /\
                (err = None -> providerType c <> t ->
                 enabledIn (config c) t /\
                 (t = ProviderGemini \/ t = ProviderOpenAI) /\
                 exists p,
                   c' = mkClient (config c) (Some p) t (sessionTurnCount c)
                          (lastPromptID c) (loopDetector c)) /\
                (providerType c <> t -> ~ enabledIn (config c) t ->
                 err <> None)).
    { intros p Ht. eexists _, None. split; [reflexivity|].
      split; [contradiction|]. split; [discriminate|].
      split; [|intros _ Hno; contradiction].
      intros _ _. split; [exact Hin|]. split; [exact Ht|].
      exists p. reflexivity. }
    destruct (String.eqb_spec t ProviderGemini) as [Hg|Hg].
    + destruct (gemini_NewProvider genai_NewClient (convertToGeminiConfig pc))
        as [p|e].
      * apply Hok. left. exact Hg.
      * apply Hfail. subst t. cbn. discriminate.
    + destruct (String.eqb_spec t ProviderOpenAI) as [Ho|Ho].
      * destruct (openai_NewProvider (convertToOpenAIConfig pc)) as [p|e].
        -- apply Hok. right. exact Ho.
        -- apply Hfail. subst t. cbn. discriminate.
      * apply Hfail. cbn. discriminate.
  - destruct (Hnn t Hlook).
  - cbn [mbind outcome_bind]. apply Hfail.
    intros Heq. apply append_inj_l, append_inj_l in Heq. discriminate.
Qed.


End SetupProperties.


(** ** The properties at the data of the repository's tests *)

Local Open Scope string_scope.

(** The repeating text of [TestLoopDetectionService_ContentLoop]: the
    tenth copy is the first to be declared a loop. *)
Example content_loop_test :
  results
    (AddAndCheckAll exMarshal exHash NewLoopDetectionService
       (replicate 12 (exContentEvent exRepeatingText)))
  = Some [false; false; false; false; false; false; false; false; false;
          true; true; true].
Proof. vm_compute. reflexivity. Qed.

(** Two fragments of 600 bytes without repetition: the buffer is cut to
    [MAX_HISTORY_LENGTH] and the whole of it has been scanned. *)
Example truncation_test :
  let l := stateAfter exMarshal exHash NewLoopDetectionService
             [exCountingEvent 0 200; exCountingEvent 200 200] in
  len (streamContentHistory l) = 1000 /\ lastContentIndex l = 951 /\
  size (contentStats l) = 951%nat.
Proof. vm_compute. auto. Qed.

(** C1 at the state after nine copies of the repeating text. *)
Lemma content_loop_clustering_witness :
  inv exHash
    (stateAfter exMarshal exHash NewLoopDetectionService
       (replicate 9 (exContentEvent exRepeatingText))) /\
  exists r l',
    checkContentLoop exHash
      (stateAfter exMarshal exHash NewLoopDetectionService
         (replicate 9 (exContentEvent exRepeatingText)))
      (str exRepeatingText) = Done (r, l') /\
    (r = true <->
     exempt
       (stateAfter exMarshal exHash NewLoopDetectionService
          (replicate 9 (exContentEvent exRepeatingText)))
       (str exRepeatingText) = false /\
     exists l1,
       scans exHash
         (beforeScan
            (stateAfter exMarshal exHash NewLoopDetectionService
               (replicate 9 (exContentEvent exRepeatingText)))
            (str exRepeatingText)) l1 /\
       loopCondition exHash l1) /\
    (r = true ->
     exists occ,
       contentStats l' !! hashChunk exHash (currentChunk l') = Some occ /\
       (CONTENT_LOOP_THRESHOLD <= len occ)%Z /\ clustered occ).
Proof.
  pose proof (stateAfter_inv exArguments exMarshal exHash
                (replicate 9 (exContentEvent exRepeatingText))) as Hinv.
  split; [exact Hinv|].
  exact (content_loop_clustering exHash _ (str exRepeatingText) Hinv).
Defined.

(** C2 at the tool call of [TestLoopDetectionService_ToolCallLoop], seven
    times, interrupted by the call of another tool. *)
Lemma tool_call_loop_threshold_witness :
  (Z.of_nat 7 <= maxInt64)%Z /\
  (lastToolCallKey NewLoopDetectionService
     <> getToolCallKey exMarshal exHash exToolCall \/
   toolCallRepetitionCount NewLoopDetectionService = 0%Z) /\
  getToolCallKey exMarshal exHash exOtherCall
    <> getToolCallKey exMarshal exHash exToolCall /\
  fst (checkToolCallLoopN exMarshal exHash 7 NewLoopDetectionService exToolCall)
  = [false; false; false; false; true; true; true].
Proof.
  assert (H1 : (Z.of_nat 7 <= maxInt64)%Z) by (vm_compute; discriminate).
  assert (H2 : lastToolCallKey NewLoopDetectionService
                 <> getToolCallKey exMarshal exHash exToolCall \/
               toolCallRepetitionCount NewLoopDetectionService = 0%Z)
    by (right; reflexivity).
  assert (H3 : getToolCallKey exMarshal exHash exOtherCall
                 <> getToolCallKey exMarshal exHash exToolCall)
    by (vm_compute; discriminate).
  split; [exact H1|]. split; [exact H2|]. split; [exact H3|].
  exact (proj1 (tool_call_loop_threshold exArguments exMarshal exHash 7
                  NewLoopDetectionService exToolCall exOtherCall
                  (exToolCallEvent exToolCall) 7 H1 H2 H3)).
Defined.

(** C3 after the fifth identical tool call: content, a turn and another
    tool call follow. *)
Lemma sticky_latch_witness :
  AddAndCheck exMarshal exHash
    (stateAfter exMarshal exHash NewLoopDetectionService
       (replicate 4 (exToolCallEvent exToolCall)))
    (exToolCallEvent exToolCall)
  = Done (true,
          stateAfter exMarshal exHash NewLoopDetectionService
            (replicate 5 (exToolCallEvent exToolCall))) /\
  exists rs l2,
    callMethods exMarshal exHash
      (stateAfter exMarshal exHash NewLoopDetectionService
         (replicate 5 (exToolCallEvent exToolCall)))
      [MAddAndCheck (exContentEvent "something new"); MTurnStarted;
       MAddAndCheck (exToolCallEvent exOtherCall)]
    = Done (rs, l2) /\
    loopDetected l2 = true /\
    loopDetected (Reset "new-prompt-id" l2) = false.
Proof.
  assert (H : AddAndCheck exMarshal exHash
                (stateAfter exMarshal exHash NewLoopDetectionService
                   (replicate 4 (exToolCallEvent exToolCall)))
                (exToolCallEvent exToolCall)
              = Done (true,
                      stateAfter exMarshal exHash NewLoopDetectionService
                        (replicate 5 (exToolCallEvent exToolCall))))
    by (vm_compute; reflexivity).
  split; [exact H|].
  destruct (sticky_latch exArguments exMarshal exHash _ _ _
              [MAddAndCheck (exContentEvent "something new"); MTurnStarted;
               MAddAndCheck (exToolCallEvent exOtherCall)]
              "new-prompt-id" H)
    as (rs & l2 & Hrun & Hd & _ & _ & _ & Hreset).
  exists rs, l2. auto.
Defined.

(** C4 at the fragments of [TestLoopDetectionService_CodeBlockHandling],
    and at a divider line. *)
Lemma code_fence_immunity_witness :
  (exists l',
     checkContentLoop exHash NewLoopDetectionService (str "-----")
     = Done (false, l') /\
     streamContentHistory l' = streamContentHistory NewLoopDetectionService) /\
  (exists l',
     AddAndCheckAll exMarshal exHash NewLoopDetectionService
       (NewContentEvent "openai" "test-model" (str "```go") true 0
        :: replicate 20
             (NewContentEvent "openai" "test-model" (str "func main() {") true 0)
        ++ [NewContentEvent "openai" "test-model" (str "}```") true 0])
     = Done (replicate 22 false, l') /\
     streamContentHistory l' = streamContentHistory NewLoopDetectionService).
Proof.
  destruct (code_fence_immunity exArguments exMarshal exHash
              NewLoopDetectionService (str "-----") (str "```go")
              (str "func main() {") (str "}```") 20 "openai" "test-model"
              true 0) as (Hexempt & Hfence).
  split.
  - destruct Hexempt as (l' & Hrun & Hh & _);
      [right; right; vm_compute; reflexivity|].
    exists l'. auto.
  - apply Hfence; vm_compute; reflexivity.
Defined.

(** C5 at a state that has received 600 bytes, for a fragment of 600 more,
    and at a buffer of 1010 bytes with the offsets 3 and 20 recorded: ten
    bytes go, the offset 3 with them, and 20 becomes 10. *)
Lemma truncation_correct_witness :
  (exists r l',
     checkContentLoop exHash
       (stateAfter exMarshal exHash NewLoopDetectionService
          [exCountingEvent 0 200])
       (exCounting 200 200) = Done (r, l') /\
     (len (streamContentHistory l') <= MAX_HISTORY_LENGTH)%Z /\
     offsetsValid exHash l') /\
  (0 < len (streamContentHistory exLongState) - MAX_HISTORY_LENGTH)%Z /\
  contentStats (truncateAndUpdate exLongState) !! "k" = Some [10%Z] /\
  (forall chunk j, (0 <= j)%Z ->
     isActualContentMatch (truncateAndUpdate exLongState) chunk j = Done true ->
     chunkAt (streamContentHistory exLongState)
       (j + (len (streamContentHistory exLongState) - MAX_HISTORY_LENGTH))
     = chunk).
Proof.
  pose proof (proj1 (truncation_correct exArguments exMarshal exHash
                       (stateAfter exMarshal exHash NewLoopDetectionService
                          [exCountingEvent 0 200])
                       (exCounting 200 200))) as Hbound.
  pose proof (proj2 (truncation_correct exArguments exMarshal exHash
                       exLongState [])) as Htrunc.
  cbv zeta in Htrunc.
  assert (Ht : (0 < len (streamContentHistory exLongState)
                    - MAX_HISTORY_LENGTH)%Z) by (vm_compute; reflexivity).
  destruct Htrunc as (_ & Htrunc).
  destruct (Htrunc Ht) as (_ & Hstats & _ & Hmatch).
  split.
  - destruct Hbound as (_ & _ & r & l' & Hrun).
    + apply AddAndCheckAll_reachable, reachable_new.
    + exists r, l'. exact Hrun.
  - split; [exact Ht|]. split; [|exact Hmatch].
    rewrite Hstats. vm_compute. reflexivity.
Defined.

(** C6 at the client and the calls of [TestClient_SessionTurnLimits]. *)
Lemma session_turn_budget_witness :
  inv exHash (loopDetector (NewClient (mkConfig 3 true) "openai")) /\
  MaxSessionTurns (config (NewClient (mkConfig 3 true) "openai")) = 3%Z /\
  "other-prompt" <> "test-prompt" /\
  exists c1 o1 k1 c2 o2 k2 c3 o3 k3 c4 c5 o5 k5,
    SendMessageStream exMarshal exHash exInit
      (NewClient (mkConfig 3 true) "openai") exRequest "test-prompt" 0 exHello
    = Done (c1, o1, k1) /\
    pastTurnBudget o1 k1 /\ sessionTurnCount c1 = 1%Z /\
    SendMessageStream exMarshal exHash exInit c1 exRequest "test-prompt" 0 exHello
    = Done (c2, o2, k2) /\
    pastTurnBudget o2 k2 /\ sessionTurnCount c2 = 2%Z /\
    SendMessageStream exMarshal exHash exInit c2 exRequest "test-prompt" 0 exHello
    = Done (c3, o3, k3) /\
    pastTurnBudget o3 k3 /\ sessionTurnCount c3 = 3%Z /\
    SendMessageStream exMarshal exHash exInit c3 exRequest "test-prompt" 0 exHello
    = Done (c4,
            [NewMaxSessionTurnsEvent (providerType c3) (ReqModel exRequest)
               4 3 "test-prompt" 0],
            []) /\
    SendMessageStream exMarshal exHash exInit c4 exRequest "other-prompt" 0 exHello
    = Done (c5, o5, k5) /\
    pastTurnBudget o5 k5 /\ sessionTurnCount c5 = 1%Z.
Proof.
  assert (Hinv : inv exHash (loopDetector (NewClient (mkConfig 3 true) "openai")))
    by (apply inv_new).
  assert (Hne : "other-prompt" <> "test-prompt") by discriminate.
  split; [exact Hinv|]. split; [reflexivity|]. split; [exact Hne|].
  exact (proj1 (session_turn_budget exArguments exMarshal exHash exInit
                  (NewClient (mkConfig 3 true) "openai")
                  "test-prompt" "other-prompt"
                  exRequest exRequest exRequest exRequest exRequest 0 0 0 0 0
                  exHello exHello exHello exHello exHello Hinv)
           eq_refl (or_intror eq_refl) Hne).
Defined.

(** C7, as stated, fails at the client of [TestClient_DisabledLoopDetection]:
    with detection disabled the first call under a prompt identity calls
    [Reset], which changes the detector; and of a provider stream that
    begins with an error event only that event is forwarded. *)
Lemma disabled_detection_skips_all_calls_counterexample :
  LoopDetectionEnabled (config (NewClient (mkConfig 100 false) "openai")) = false /\
  (exists c' out calls,
     SendMessageStream exMarshal exHash exInit
       (NewClient (mkConfig 100 false) "openai") exRequest "test-prompt" 0
       exToolCalls = Done (c', out, calls) /\
     CallReset "test-prompt" ∈ calls /\
     loopDetector c'
       <> loopDetector (NewClient (mkConfig 100 false) "openai")) /\
  (exists c' out calls,
     SendMessageStream exMarshal exHash exInit
       (NewClient (mkConfig 100 false) "openai") exRequest "test-prompt" 0
       exErrorFirst = Done (c', out, calls) /\
     length out = 1%nat /\ length (exErrorFirst "openai") = 2%nat).
Proof.
  split; [reflexivity|]. split.
  - eexists _, _, _. split; [vm_compute; reflexivity|].
    split; [apply list_elem_of_here|]. discriminate.
  - eexists _, _, _. split; [vm_compute; reflexivity|].
    split; reflexivity.
Defined.

(** C7 as amended, at the same client and the ten identical tool calls of
    the test: all ten are forwarded. *)
Lemma disabled_detection_forwards_witness :
  LoopDetectionEnabled (config (NewClient (mkConfig 100 false) "openai")) = false /\
  exists c' out calls,
    SendMessageStream exMarshal exHash exInit
      (NewClient (mkConfig 100 false) "openai") exRequest "test-prompt" 0
      exToolCalls = Done (c', out, calls) /\
    (CallTurnStarted ∉ calls) /\
    (forall e, CallAddAndCheck e ∉ calls) /\
    (forall t, CallProviderStream t ∈ calls ->
       out = convertEvent <$> throughFirstError (exToolCalls t)).
Proof.
  split; [reflexivity|].
  destruct (disabled_detection_forwards exArguments exMarshal exHash exInit
              (NewClient (mkConfig 100 false) "openai") exRequest
              "test-prompt" 0 exToolCalls eq_refl)
    as (c' & out & calls & Hrun & Hts & Hac & _ & _ & Hout & _).
  exists c', out, calls. auto.
Defined.

(** With detection disabled the ten identical tool calls of the test come
    out, converted, and nothing else. *)
Example disabled_detection_test :
  exists c' calls,
    SendMessageStream exMarshal exHash exInit
      (NewClient (mkConfig 100 false) "openai") exRequest "test-prompt" 0
      exToolCalls
    = Done (c', replicate 10 (exToolCallEvent exToolCall), calls).
Proof. eexists _, _. vm_compute. reflexivity. Qed.

(** C8, as stated, fails at a tool call whose argument is a channel: the
    call is counted, and the fifth in a row is reported as a loop. *)
Lemma unserializable_tool_call_skipped_counterexample :
  exMarshal (ToolArguments exChannelCall) = None /\
  exists l',
    AddAndCheckAll exMarshal exHash NewLoopDetectionService
      (replicate 5 (exToolCallEvent exChannelCall))
    = Done ([false; false; false; false; true], l') /\
    toolCallRepetitionCount l' = 5%Z.
Proof.
  split; [reflexivity|].
  eexists. split; [vm_compute; reflexivity|]. reflexivity.
Defined.

(** C8 as amended, at that tool call. *)
Lemma unserializable_tool_call_counted_witness :
  exMarshal (ToolArguments exChannelCall) = None /\
  getToolCallKey exMarshal exHash exChannelCall = exHash (str "watch:") /\
  fst (checkToolCallLoopN exMarshal exHash 6 NewLoopDetectionService
         exChannelCall)
  = [false; false; false; false; true; true].
Proof.
  assert (Hm : exMarshal (ToolArguments exChannelCall) = None) by reflexivity.
  destruct (unserializable_tool_call_counted exArguments exMarshal exHash
              exChannelCall exChannelCall NewLoopDetectionService
              (exToolCallEvent exChannelCall) 6 Hm)
    as (Hkey & _ & _ & _ & Hstreak & _).
  split; [exact Hm|]. split; [exact Hkey|].
  apply Hstreak; [vm_compute; discriminate|right; reflexivity].
Defined.

(** C9 at a state that holds the text of three fragments. *)
Lemma tool_call_clears_index_only_witness :
  loopDetected
    (stateAfter exMarshal exHash NewLoopDetectionService
       (replicate 3 (exContentEvent exRepeatingText))) = false /\
  inv exHash
    (stateAfter exMarshal exHash NewLoopDetectionService
       (replicate 3 (exContentEvent exRepeatingText))) /\
  (exists r l',
     AddAndCheck exMarshal exHash
       (stateAfter exMarshal exHash NewLoopDetectionService
          (replicate 3 (exContentEvent exRepeatingText)))
       (exToolCallEvent exToolCall) = Done (r, l') /\
     contentStats l' = ∅ /\
     streamContentHistory l' = str (exRepeatingText ++ exRepeatingText
                                    ++ exRepeatingText)) /\
  (exists r l',
     callMethod exMarshal exHash
       (stateAfter exMarshal exHash NewLoopDetectionService
          (replicate 3 (exContentEvent exRepeatingText)))
       (MAddAndCheck (exContentEvent "more text")) = Done (r, l') /\
     (len (str (exRepeatingText ++ exRepeatingText ++ exRepeatingText))
      <= len (streamContentHistory l'))%Z).
Proof.
  assert (Hd : loopDetected
                 (stateAfter exMarshal exHash NewLoopDetectionService
                    (replicate 3 (exContentEvent exRepeatingText))) = false)
    by (vm_compute; reflexivity).
  pose proof (stateAfter_inv exArguments exMarshal exHash
                (replicate 3 (exContentEvent exRepeatingText))) as Hinv.
  destruct (tool_call_clears_index_only exArguments exMarshal exHash
              (stateAfter exMarshal exHash NewLoopDetectionService
                 (replicate 3 (exContentEvent exRepeatingText)))
              (exToolCallEvent exToolCall)
              (MAddAndCheck (exContentEvent "more text")) "new-prompt-id")
    as (Htool & Hmethod & _).
  split; [exact Hd|]. split; [exact Hinv|]. split.
  - destruct (Htool Hd eq_refl) as (r & l' & Hrun & Hs & Hh & _).
    exists r, l'. split; [exact Hrun|]. split; [exact Hs|].
    rewrite Hh. vm_compute. reflexivity.
  - destruct (Hmethod Hinv) as (r & l' & Hrun & Hlen).
    exists r, l'. split; [exact Hrun|].
    etransitivity; [|exact Hlen]. vm_compute. discriminate.
Defined.

(** C10 at 58 bytes [a], a tool call, and one more [a]; and at a heading. *)
Lemma index_reset_rescans_witness :
  streamContentHistory
    (stateAfter exMarshal exHash NewLoopDetectionService [exContentEvent exA58])
  = replicate 58 "a"%char /\
  AddAndCheck exMarshal exHash
    (stateAfter exMarshal exHash NewLoopDetectionService [exContentEvent exA58])
    (exToolCallEvent exToolCall)
  = Done (false,
          stateAfter exMarshal exHash NewLoopDetectionService
            [exContentEvent exA58; exToolCallEvent exToolCall]) /\
  (exists l2,
     AddAndCheck exMarshal exHash
       (stateAfter exMarshal exHash NewLoopDetectionService
          [exContentEvent exA58; exToolCallEvent exToolCall])
       (NewContentEvent "openai" "test-model" (str "a") true 0)
     = Done (true, l2)) /\
  hasStructuralMarker (str "# Heading") = true /\
  checkContentLoop exHash
    (stateAfter exMarshal exHash NewLoopDetectionService [exContentEvent exA58])
    (str "# Heading")
  = checkContentLoop exHash
      (resetContentTracking false
         (stateAfter exMarshal exHash NewLoopDetectionService
            [exContentEvent exA58]))
      (str "# Heading").
Proof.
  assert (Hh : streamContentHistory
                 (stateAfter exMarshal exHash NewLoopDetectionService
                    [exContentEvent exA58]) = replicate 58 "a"%char)
    by (vm_compute; reflexivity).
  assert (Hrun : AddAndCheck exMarshal exHash
                   (stateAfter exMarshal exHash NewLoopDetectionService
                      [exContentEvent exA58])
                   (exToolCallEvent exToolCall)
                 = Done (false,
                         stateAfter exMarshal exHash NewLoopDetectionService
                           [exContentEvent exA58; exToolCallEvent exToolCall]))
    by (vm_compute; reflexivity).
  assert (Hm : hasStructuralMarker (str "# Heading") = true)
    by (vm_compute; reflexivity).
  assert (Hd : loopDetected
                 (stateAfter exMarshal exHash NewLoopDetectionService
                    [exContentEvent exA58]) = false)
    by (vm_compute; reflexivity).
  assert (Hin : inCodeBlock
                  (stateAfter exMarshal exHash NewLoopDetectionService
                     [exContentEvent exA58]) = false)
    by (vm_compute; reflexivity).
  destruct (index_reset_rescans exArguments exMarshal exHash
              (stateAfter exMarshal exHash NewLoopDetectionService
                 [exContentEvent exA58])
              (exToolCallEvent exToolCall) (str "# Heading")
              "openai" "test-model" true 0)
    as (_ & _ & Hmarked & _ & Hagain).
  split; [exact Hh|]. split; [exact Hrun|]. split.
  - exact (Hagain _ Hd Hin Hh eq_refl Hrun).
  - split; [exact Hm|]. apply Hmarked. exact Hm.
Defined.

(** ** The further properties at the data of the repository's tests *)

(** X1 at a service left inside a code block by an opening fence: after
    [Reset] twelve copies of the repeating text are all answered
    [false]. *)
Lemma reset_keeps_fence_flag_witness :
  inCodeBlock
    (stateAfter exMarshal exHash NewLoopDetectionService
       [exContentEvent "```go"]) = true /\
  oddFences (str exRepeatingText) = false /\
  exists l',
    AddAndCheckAll exMarshal exHash
      (Reset "prompt-2"
         (stateAfter exMarshal exHash NewLoopDetectionService
            [exContentEvent "```go"]))
      (replicate 12
         (NewContentEvent "openai" "test-model" (str exRepeatingText) true 0))
    = Done (replicate 12 false, l') /\
    streamContentHistory l' = [] /\ inCodeBlock l' = true.
Proof.
  assert (H1 : inCodeBlock
                 (stateAfter exMarshal exHash NewLoopDetectionService
                    [exContentEvent "```go"]) = true)
    by (vm_compute; reflexivity).
  assert (H2 : oddFences (str exRepeatingText) = false)
    by (vm_compute; reflexivity).
  split; [exact H1|]. split; [exact H2|].
  exact (proj2 (reset_keeps_fence_flag exArguments exMarshal exHash "prompt-2"
                  _ "openai" "test-model" (str exRepeatingText) true 0 12
                  H1 H2)).
Defined.

(** X2 at the state after four identical tool calls: after [Reset] the
    fifth call is answered as by a new service. *)
Lemma reset_restarts_detection_witness :
  inCodeBlock
    (stateAfter exMarshal exHash NewLoopDetectionService
       (replicate 4 (exToolCallEvent exToolCall))) = false /\
  results
    (callMethods exMarshal exHash
       (Reset "prompt-2"
          (stateAfter exMarshal exHash NewLoopDetectionService
             (replicate 4 (exToolCallEvent exToolCall))))
       [MAddAndCheck (exToolCallEvent exToolCall); MTurnStarted;
        MIsLoopDetected])
  = results
      (callMethods exMarshal exHash NewLoopDetectionService
         [MAddAndCheck (exToolCallEvent exToolCall); MTurnStarted;
          MIsLoopDetected]).
Proof.
  assert (H1 : inCodeBlock
                 (stateAfter exMarshal exHash NewLoopDetectionService
                    (replicate 4 (exToolCallEvent exToolCall))) = false)
    by (vm_compute; reflexivity).
  split; [exact H1|].
  exact (proj2 (reset_restarts_detection exArguments exMarshal exHash
                  "prompt-2" NewLoopDetectionService _ _) H1).
Defined.

(** X3 at a new service and six turns. *)
Lemma turn_started_only_counts_witness :
  0 <= turnsInCurrentPrompt NewLoopDetectionService /\
  turnsInCurrentPrompt NewLoopDetectionService + Z.of_nat 6 <= maxInt64 /\
  callMethods exMarshal exHash NewLoopDetectionService
    (replicate 6 MTurnStarted)
  = Done (replicate 6 false,
          with_llm (turnsInCurrentPrompt NewLoopDetectionService + Z.of_nat 6)
            (llmCheckInterval NewLoopDetectionService)
            (lastCheckTurn NewLoopDetectionService) NewLoopDetectionService).
Proof.
  assert (H1 : 0 <= turnsInCurrentPrompt NewLoopDetectionService)
    by (vm_compute; discriminate).
  assert (H2 : turnsInCurrentPrompt NewLoopDetectionService + Z.of_nat 6
               <= maxInt64) by (vm_compute; discriminate).
  split; [exact H1|]. split; [exact H2|].
  exact (proj1 (turn_started_only_counts exArguments exMarshal exHash
                  NewLoopDetectionService 6 (exToolCallEvent exToolCall)
                  "prompt-2" H1 H2)).
Defined.

(** X4 at seven tool calls, the second of another tool: the streak that
    starts at the third call ends at the seventh, the only call answered
    [true]. *)
Lemma tool_call_loop_sound_complete_witness :
  Forall2 carries
    (exToolCallEvent <$>
       [exToolCall; exOtherCall; exToolCall; exToolCall; exToolCall;
        exToolCall; exToolCall])
    [exToolCall; exOtherCall; exToolCall; exToolCall; exToolCall;
     exToolCall; exToolCall] /\
  loopDetected NewLoopDetectionService = false /\
  toolCallRepetitionCount NewLoopDetectionService = 0 /\
  exists rs l',
    AddAndCheckAll exMarshal exHash NewLoopDetectionService
      (exToolCallEvent <$>
         [exToolCall; exOtherCall; exToolCall; exToolCall; exToolCall;
          exToolCall; exToolCall]) = Done (rs, l') /\
    forall k,
      rs !! k = Some true <->
      (k < 7)%nat /\
      exists j, (j <= k)%nat /\
        streakEnds
          (getToolCallKey exMarshal exHash <$>
             [exToolCall; exOtherCall; exToolCall; exToolCall; exToolCall;
              exToolCall; exToolCall]) j.
Proof.
  assert (H1 : Forall2 carries
                 (exToolCallEvent <$>
                    [exToolCall; exOtherCall; exToolCall; exToolCall;
                     exToolCall; exToolCall; exToolCall])
                 [exToolCall; exOtherCall; exToolCall; exToolCall;
                  exToolCall; exToolCall; exToolCall]).
  { repeat constructor. }
  split; [exact H1|]. split; [reflexivity|]. split; [reflexivity|].
  exact (tool_call_loop_sound_complete exArguments exMarshal exHash
           NewLoopDetectionService _ _ H1 eq_refl eq_refl).
Defined.

(** X5 at four identical tool calls followed by content and the end of
    the stream: the fifth call is still reported. *)
Lemma tool_streak_survives_other_events_witness :
  Forall (fun e => EvType e <> EventToolCall)
    [exContentEvent "Hello"; exEvent EventFinished DataNil] /\
  AddAndCheckAll exMarshal exHash
    (stateAfter exMarshal exHash NewLoopDetectionService
       (replicate 4 (exToolCallEvent exToolCall)))
    [exContentEvent "Hello"; exEvent EventFinished DataNil]
  = Done ([false; false],
          stateAfter exMarshal exHash NewLoopDetectionService
            (replicate 4 (exToolCallEvent exToolCall)
             ++ [exContentEvent "Hello"; exEvent EventFinished DataNil])) /\
  exists l'',
    AddAndCheck exMarshal exHash
      (stateAfter exMarshal exHash NewLoopDetectionService
         (replicate 4 (exToolCallEvent exToolCall)
          ++ [exContentEvent "Hello"; exEvent EventFinished DataNil]))
      (exToolCallEvent exToolCall) = Done (true, l'').
Proof.
  assert (H1 : Forall (fun e : StreamEvent exArguments =>
                         EvType e <> EventToolCall)
                 [exContentEvent "Hello"; exEvent EventFinished DataNil]).
  { repeat constructor; discriminate. }
  assert (H2 : AddAndCheckAll exMarshal exHash
                 (stateAfter exMarshal exHash NewLoopDetectionService
                    (replicate 4 (exToolCallEvent exToolCall)))
                 [exContentEvent "Hello"; exEvent EventFinished DataNil]
               = Done ([false; false],
                       stateAfter exMarshal exHash NewLoopDetectionService
                         (replicate 4 (exToolCallEvent exToolCall)
                          ++ [exContentEvent "Hello";
                              exEvent EventFinished DataNil])))
    by (vm_compute; reflexivity).
  split; [exact H1|]. split; [exact H2|].
  refine (proj2 (proj2 (tool_streak_survives_other_events exArguments
                          exMarshal exHash _ _ _ _
                          (exToolCallEvent exToolCall) exToolCall H1 H2))
            _ _ _ _).
  - vm_compute. reflexivity.
  - split; reflexivity.
  - vm_compute. reflexivity.
  - vm_compute. reflexivity.
Defined.

(** X6 at a stream of content, a thought, a tool call and the end of the
    stream, given to a new service. *)
Lemma other_events_transparent_witness :
  inv exHash NewLoopDetectionService /\
  exists rs l',
    AddAndCheckAll exMarshal exHash NewLoopDetectionService
      [exContentEvent "Hello"; exEvent EventThought DataNil;
       exToolCallEvent exToolCall; exEvent EventFinished DataNil]
    = Done (rs, l') /\
    length rs = 4%nat /\
    AddAndCheckAll exMarshal exHash NewLoopDetectionService
      (List.filter relevant
         [exContentEvent "Hello"; exEvent EventThought DataNil;
          exToolCallEvent exToolCall; exEvent EventFinished DataNil])
    = Done (snd <$> List.filter (fun p => relevant (fst p))
                      (combine
                         [exContentEvent "Hello"; exEvent EventThought DataNil;
                          exToolCallEvent exToolCall;
                          exEvent EventFinished DataNil] rs),
            l').
Proof.
  assert (H1 : inv exHash NewLoopDetectionService) by apply inv_new.
  split; [exact H1|].
  destruct (other_events_transparent exArguments exMarshal exHash
              [exContentEvent "Hello"; exEvent EventThought DataNil;
               exToolCallEvent exToolCall; exEvent EventFinished DataNil]
              NewLoopDetectionService H1)
    as (rs & l' & Hrun & Hlen & Hfilter & _).
  exists rs, l'. split; [exact Hrun|]. split; [exact Hlen|exact Hfilter].
Defined.

(** X7 at the tenth copy of the repeating text. *)
Lemma content_loop_needs_59_bytes_witness :
  reachable exMarshal exHash
    (stateAfter exMarshal exHash NewLoopDetectionService
       (replicate 9 (exContentEvent exRepeatingText))) /\
  AddAndCheck exMarshal exHash
    (stateAfter exMarshal exHash NewLoopDetectionService
       (replicate 9 (exContentEvent exRepeatingText)))
    (exContentEvent exRepeatingText)
  = Done (true,
          stateAfter exMarshal exHash NewLoopDetectionService
            (replicate 10 (exContentEvent exRepeatingText))) /\
  CONTENT_CHUNK_SIZE + CONTENT_LOOP_THRESHOLD - 1
  <= len (streamContentHistory
            (stateAfter exMarshal exHash NewLoopDetectionService
               (replicate 10 (exContentEvent exRepeatingText)))).
Proof.
  assert (H1 : reachable exMarshal exHash
                 (stateAfter exMarshal exHash NewLoopDetectionService
                    (replicate 9 (exContentEvent exRepeatingText)))).
  { apply AddAndCheckAll_reachable, reachable_new. }
  assert (H2 : AddAndCheck exMarshal exHash
                 (stateAfter exMarshal exHash NewLoopDetectionService
                    (replicate 9 (exContentEvent exRepeatingText)))
                 (exContentEvent exRepeatingText)
               = Done (true,
                       stateAfter exMarshal exHash NewLoopDetectionService
                         (replicate 10 (exContentEvent exRepeatingText))))
    by (vm_compute; reflexivity).
  split; [exact H1|]. split; [exact H2|].
  refine (proj1 (content_loop_needs_59_bytes exArguments exMarshal exHash
                   _ _ _ "prompt-2" "openai" "test-model" true 0)
            H1 _ _ H2).
  - vm_compute. reflexivity.
  - reflexivity.
Defined.

(** X8 at 120 bytes without repetition given to a new service. *)
Lemma scan_covers_buffer_witness :
  inv exHash NewLoopDetectionService /\
  exempt NewLoopDetectionService (exCounting 0 40) = false /\
  checkContentLoop exHash NewLoopDetectionService (exCounting 0 40)
  = Done (false,
          stateAfter exMarshal exHash NewLoopDetectionService
            [exCountingEvent 0 40]) /\
  hasMoreChunksToProcess
    (stateAfter exMarshal exHash NewLoopDetectionService
       [exCountingEvent 0 40]) = false /\
  forall i,
    lastContentIndex (beforeScan NewLoopDetectionService (exCounting 0 40)) <= i ->
    i + CONTENT_CHUNK_SIZE
    <= len (streamContentHistory
              (stateAfter exMarshal exHash NewLoopDetectionService
                 [exCountingEvent 0 40])) ->
    exists idxs,
      contentStats
        (stateAfter exMarshal exHash NewLoopDetectionService
           [exCountingEvent 0 40])
      !! hashChunk exHash
           (chunkAt
              (streamContentHistory
                 (stateAfter exMarshal exHash NewLoopDetectionService
                    [exCountingEvent 0 40])) i)
      = Some idxs.
Proof.
  assert (H1 : inv exHash NewLoopDetectionService) by apply inv_new.
  assert (H2 : exempt NewLoopDetectionService (exCounting 0 40) = false)
    by (vm_compute; reflexivity).
  assert (H3 : checkContentLoop exHash NewLoopDetectionService (exCounting 0 40)
               = Done (false,
                       stateAfter exMarshal exHash NewLoopDetectionService
                         [exCountingEvent 0 40]))
    by (vm_compute; reflexivity).
  split; [exact H1|]. split; [exact H2|]. split; [exact H3|].
  destruct (scan_covers_buffer exHash NewLoopDetectionService
              (exCounting 0 40) _ H1 H2 H3) as (_ & Hmore & _ & Hcover).
  split; [exact Hmore|].
  intros i Hlo Hhi. destruct (Hcover i Hlo Hhi) as (idxs & Hidxs & _).
  exists idxs. exact Hidxs.
Defined.

(** X9 at the text of the repository's tests. *)
Lemma plain_text_is_analysed_witness :
  Forall (fun c => markerByte c = false) (str "Hello world") /\
  Forall (fun c => c <> "."%char) (str "Hello world") /\
  countFences (str "Hello world") = 0 /\
  hasStructuralMarker (str "Hello world") = false.
Proof.
  assert (H1 : Forall (fun c => markerByte c = false) (str "Hello world")).
  { repeat constructor. }
  assert (H2 : Forall (fun c => c <> "."%char) (str "Hello world")).
  { repeat constructor; discriminate. }
  split; [exact H1|]. split; [exact H2|].
  destruct (plain_text_is_analysed exHash NewLoopDetectionService
              (str "Hello world") H1 (or_introl H2)) as (Hf & Hm & _).
  split; [exact Hf|exact Hm].
Defined.

(** X10 at a star bullet and at a dash bullet. *)
Lemma bullet_pattern_star_plus_only_witness :
  MatchString reBullet ("*"%char :: " "%char :: str "item") = true /\
  Forall (fun c => c <> "*"%char /\ c <> "+"%char) (str "- item") /\
  MatchString reBullet (str "- item") = false.
Proof.
  assert (H1 : Forall (fun c => c <> "*"%char /\ c <> "+"%char) (str "- item")).
  { repeat constructor; discriminate. }
  split.
  - exact (proj1 (proj1 (bullet_pattern_star_plus_only [] (str "item")
                           (str "- item") "*"%char) (or_introl eq_refl))).
  - split; [exact H1|].
    exact (proj2 (bullet_pattern_star_plus_only [] (str "item")
                    (str "- item") "*"%char) H1).
Defined.

(** A text is periodic when a check of its offsets says so. *)
Lemma periodic_check (p : nat) (s : gostring) :
  forallb (fun i => bool_decide (s !! (i + p)%nat = s !! i))
    (seq 0 (length s - p)) = true ->
  periodic p s.
Proof.
  intros Hall i Hi. rewrite forallb_forall in Hall.
  eapply bool_decide_eq_true_1. apply Hall. apply in_seq. lia.
Qed.

(** X11 at ten copies of the repeating text in one fragment: the period
    is the length of the text, 63 bytes. *)
Lemma periodic_content_is_reported_witness :
  (1 <= 63 <= 75)%nat /\
  periodic 63 (mjoin (replicate 10 (str exRepeatingText))) /\
  9 * Z.of_nat 63 + CONTENT_CHUNK_SIZE
  <= len (mjoin (replicate 10 (str exRepeatingText))) <= MAX_HISTORY_LENGTH /\
  oddFences (mjoin (replicate 10 (str exRepeatingText))) = false /\
  MatchString reDivider (mjoin (replicate 10 (str exRepeatingText))) = false /\
  exists l',
    AddAndCheck exMarshal exHash NewLoopDetectionService
      (NewContentEvent "openai" "test-model"
         (mjoin (replicate 10 (str exRepeatingText))) true 0)
    = Done (true, l').
Proof.
  assert (H1 : (1 <= 63 <= 75)%nat) by lia.
  assert (H2 : periodic 63 (mjoin (replicate 10 (str exRepeatingText)))).
  { apply periodic_check. vm_compute. reflexivity. }
  assert (H3 : 9 * Z.of_nat 63 + CONTENT_CHUNK_SIZE
               <= len (mjoin (replicate 10 (str exRepeatingText)))
               <= MAX_HISTORY_LENGTH).
  { split; vm_compute; discriminate. }
  assert (H4 : oddFences (mjoin (replicate 10 (str exRepeatingText))) = false)
    by (vm_compute; reflexivity).
  assert (H5 : MatchString reDivider
                 (mjoin (replicate 10 (str exRepeatingText))) = false)
    by (vm_compute; reflexivity).
  split; [exact H1|]. split; [exact H2|]. split; [exact H3|].
  split; [exact H4|]. split; [exact H5|].
  exact (periodic_content_is_reported exArguments exMarshal exHash
           NewLoopDetectionService _ 63 "openai" "test-model" true 0
           H1 H2 H3 H4 H5 eq_refl eq_refl eq_refl eq_refl eq_refl).
Defined.

(** X12 at the client of [TestClient_LoopDetectionIntegration] and its ten
    identical tool calls. *)
Lemma consume_enabled_shape_witness :
  LoopDetectionEnabled (config (NewClient (mkConfig 100 true) "openai")) = true /\
  inv exHash (loopDetector (NewClient (mkConfig 100 true) "openai")) /\
  exists d out calls n,
    consume exMarshal exHash (NewClient (mkConfig 100 true) "openai")
      exRequest "test-prompt" 0 (exToolCalls "openai")
    = Done (with_detector d (NewClient (mkConfig 100 true) "openai"),
            out, calls) /\
    (n <= length (exToolCalls "openai"))%nat /\
    calls = CallAddAndCheck <$>
              (convertEvent <$> take n (exToolCalls "openai")).
Proof.
  assert (H1 : inv exHash (loopDetector (NewClient (mkConfig 100 true) "openai")))
    by apply inv_new.
  split; [reflexivity|]. split; [exact H1|].
  destruct (consume_enabled_shape exArguments exMarshal exHash exRequest
              "test-prompt" 0 (exToolCalls "openai")
              (NewClient (mkConfig 100 true) "openai") eq_refl H1)
    as (d & out & calls & n & rs & Hrun & Hn & Hcalls & _).
  exists d, out, calls, n. split; [exact Hrun|]. split; [exact Hn|exact Hcalls].
Defined.

(** X13 at the client and the stream of
    [TestClient_LoopDetectionIntegration]. *)
Lemma tool_call_loop_ends_stream_witness :
  lastPromptID (NewClient (mkConfig 100 true) "openai") <> "test-prompt" /\
  (5 <= 10)%nat /\
  exists c',
    SendMessageStream exMarshal exHash exInit
      (NewClient (mkConfig 100 true) "openai") exRequest "test-prompt" 0
      exToolCalls
    = Done (c',
            (replicate 4
               (convertEvent
                  (exProviderEvent EventToolCall (DataToolCall exToolCall)))
             ++ [NewLoopDetectedEvent "openai" "test-model" LoopTypeToolCall
                   "test-prompt" "Tool call loop detected" 1 0 0])%list,
            ([CallReset "test-prompt"; CallTurnStarted;
              CallProviderStream "openai"]
             ++ replicate 5
                  (CallAddAndCheck
                     (convertEvent
                        (exProviderEvent EventToolCall
                           (DataToolCall exToolCall)))))%list) /\
    loopDetected (loopDetector c') = true /\ sessionTurnCount c' = 1.
Proof.
  assert (H1 : lastPromptID (NewClient (mkConfig 100 true) "openai")
               <> "test-prompt") by discriminate.
  assert (H2 : (5 <= 10)%nat) by lia.
  split; [exact H1|]. split; [exact H2|].
  exact (tool_call_loop_ends_stream exArguments exMarshal exHash exInit
           (NewClient (mkConfig 100 true) "openai") exRequest "test-prompt" 0
           exToolCalls
           (exProviderEvent EventToolCall (DataToolCall exToolCall))
           exToolCall [] 10 eq_refl H1 (or_introl eq_refl) eq_refl eq_refl H2
           eq_refl).
Defined.

(** X14 at a request for a provider that cannot be initialised. *)
Lemma provider_switch_witness :
  turnBudgetExceeded
    (enterTurn (NewClient (mkConfig 100 true) "openai") "test-prompt") = false /\
  ReqProvider (mkChatRequest "test-model" "gemini") <> "" /\
  ReqProvider (mkChatRequest "test-model" "gemini")
    <> providerType (NewClient (mkConfig 100 true) "openai") /\
  exists c' calls,
    SendMessageStream exMarshal exHash
      (fun _ _ => Some "provider gemini not configured")
      (NewClient (mkConfig 100 true) "openai")
      (mkChatRequest "test-model" "gemini") "test-prompt" 0 exHello
    = Done (c',
            [NewErrorEvent "openai" "test-model"
               "failed to switch provider: provider gemini not configured"
               false 0],
            calls) /\
    providerType c' = "openai" /\
    (forall t, CallProviderStream t ∉ calls).
Proof.
  assert (H1 : turnBudgetExceeded
                 (enterTurn (NewClient (mkConfig 100 true) "openai")
                    "test-prompt") = false) by (vm_compute; reflexivity).
  assert (H2 : ReqProvider (mkChatRequest "test-model" "gemini") <> "")
    by discriminate.
  assert (H3 : ReqProvider (mkChatRequest "test-model" "gemini")
               <> providerType (NewClient (mkConfig 100 true) "openai"))
    by discriminate.
  split; [exact H1|]. split; [exact H2|]. split; [exact H3|].
  destruct (proj1 (provider_switch exArguments exMarshal exHash
                     (fun _ _ => Some "provider gemini not configured")
                     (NewClient (mkConfig 100 true) "openai")
                     (mkChatRequest "test-model" "gemini") "test-prompt" 0
                     exHello H1 H2 H3)
              "provider gemini not configured" eq_refl)
    as (c' & calls & Hrun & Hpt & _ & Hno & _).
  exists c', calls. split; [exact Hrun|]. split; [exact Hpt|exact Hno].
Defined.

(** X15 at a client that has used its three turns. *)
Lemma turn_budget_stays_exceeded_witness :
  0 < MaxSessionTurns
        (config (with_session 3 "test-prompt"
                   (NewClient (mkConfig 3 true) "openai"))) /\
  MaxSessionTurns
    (config (with_session 3 "test-prompt"
               (NewClient (mkConfig 3 true) "openai")))
  <= sessionTurnCount
       (with_session 3 "test-prompt" (NewClient (mkConfig 3 true) "openai"))
  < maxInt64 /\
  SendMessageStream exMarshal exHash exInit
    (with_session 3 "test-prompt" (NewClient (mkConfig 3 true) "openai"))
    exRequest "test-prompt" 0 exHello
  = Done (with_session 4 "test-prompt"
            (with_session 3 "test-prompt"
               (NewClient (mkConfig 3 true) "openai")),
          [NewMaxSessionTurnsEvent "openai" "test-model" 4 3 "test-prompt" 0],
          []).
Proof.
  assert (H1 : 0 < MaxSessionTurns
                     (config (with_session 3 "test-prompt"
                                (NewClient (mkConfig 3 true) "openai"))))
    by (vm_compute; reflexivity).
  assert (H2 : MaxSessionTurns
                 (config (with_session 3 "test-prompt"
                            (NewClient (mkConfig 3 true) "openai")))
               <= sessionTurnCount
                    (with_session 3 "test-prompt"
                       (NewClient (mkConfig 3 true) "openai"))
               < maxInt64).
  { split; [vm_compute; discriminate|vm_compute; reflexivity]. }
  split; [exact H1|]. split; [exact H2|].
  exact (proj1 (turn_budget_stays_exceeded exArguments exMarshal exHash exInit
                  (with_session 3 "test-prompt"
                     (NewClient (mkConfig 3 true) "openai"))
                  exRequest "test-prompt" "other-prompt" 0 exHello
                  H1 H2 eq_refl)).
Defined.

(** X16 at a client whose service has latched on five identical tool
    calls. *)
Lemma latched_loop_blocks_next_turn_witness :
  loopDetected
    (loopDetector
       (with_session 1 "test-prompt"
          (with_detector
             (stateAfter exMarshal exHash NewLoopDetectionService
                (replicate 5 (exToolCallEvent exToolCall)))
             (NewClient (mkConfig 100 true) "openai")))) = true /\
  turnBudgetExceeded
    (enterTurn
       (with_session 1 "test-prompt"
          (with_detector
             (stateAfter exMarshal exHash NewLoopDetectionService
                (replicate 5 (exToolCallEvent exToolCall)))
             (NewClient (mkConfig 100 true) "openai")))
       "test-prompt") = false /\
  exists c' out,
    SendMessageStream exMarshal exHash exInit
      (with_session 1 "test-prompt"
         (with_detector
            (stateAfter exMarshal exHash NewLoopDetectionService
               (replicate 5 (exToolCallEvent exToolCall)))
            (NewClient (mkConfig 100 true) "openai")))
      exRequest "test-prompt" 0 exHello
    = Done (c', out,
            [CallTurnStarted; CallProviderStream "openai";
             CallAddAndCheck
               (convertEvent
                  (exProviderEvent EventContent
                     (DataContent (mkContentEvent (str "Hello") true false))))]) /\
    length out = 1%nat /\
    loopDetected (loopDetector c') = true.
Proof.
  assert (H1 : loopDetected
                 (loopDetector
                    (with_session 1 "test-prompt"
                       (with_detector
                          (stateAfter exMarshal exHash NewLoopDetectionService
                             (replicate 5 (exToolCallEvent exToolCall)))
                          (NewClient (mkConfig 100 true) "openai")))) = true)
    by (vm_compute; reflexivity).
  assert (H2 : turnBudgetExceeded
                 (enterTurn
                    (with_session 1 "test-prompt"
                       (with_detector
                          (stateAfter exMarshal exHash NewLoopDetectionService
                             (replicate 5 (exToolCallEvent exToolCall)))
                          (NewClient (mkConfig 100 true) "openai")))
                    "test-prompt") = false)
    by (vm_compute; reflexivity).
  split; [exact H1|]. split; [exact H2|].
  destruct (proj1 (latched_loop_blocks_next_turn exArguments exMarshal exHash
                     exInit
                     (with_session 1 "test-prompt"
                        (with_detector
                           (stateAfter exMarshal exHash NewLoopDetectionService
                              (replicate 5 (exToolCallEvent exToolCall)))
                           (NewClient (mkConfig 100 true) "openai")))
                     exRequest "test-prompt" "other-prompt" 0 exHello
                     eq_refl H1 eq_refl H2 (or_introl eq_refl)))
    as (c' & Hrun & Hlatch).
  eexists c', _. split; [exact Hrun|]. split; [reflexivity|exact Hlatch].
Defined.

(** The example configuration: no nil pointer, one order of visit, and
    accepted by [Validate]. *)
Lemma exConfig_noNil : Setup.noNil Setup.exConfig.
Proof.
  intros t. unfold Setup.exConfig. cbn [Setup.Providers Setup.with_Providers].
  destruct (decide (t = Setup.ProviderOpenAI)) as [->|Hne].
  - rewrite lookup_singleton_eq. discriminate.
  - rewrite lookup_singleton_ne by congruence. discriminate.
Qed.

Lemma exConfig_visits :
  Setup.visits Setup.exConfig [(Setup.ProviderOpenAI, Some Setup.exEntry)].
Proof.
  unfold Setup.visits, Setup.exConfig.
  cbn [Setup.Providers Setup.with_Providers].
  rewrite map_to_list_singleton. reflexivity.
Qed.

Lemma exConfig_valid : Setup.valid Setup.exConfig.
Proof.
  unfold Setup.valid, Setup.enabledIn, Setup.exConfig.
  cbn [Setup.Providers Setup.with_Providers Setup.DefaultProvider
       Setup.NewConfig].
  split; [|split].
  - intros t pc Hlook. apply lookup_singleton_Some in Hlook.
    destruct Hlook as [<- [= <-]]. intros _.
    split; [intros _; discriminate|]. intros Habs. discriminate.
  - exists Setup.ProviderOpenAI, Setup.exEntry.
    rewrite lookup_singleton_eq. split; reflexivity.
  - intros Habs. contradiction.
Qed.

(** X17 at the example configuration. *)
Lemma validate_accepts_valid_witness :
  Setup.noNil Setup.exConfig /\
  Setup.visits Setup.exConfig [(Setup.ProviderOpenAI, Some Setup.exEntry)] /\
  exists c' err,
    Setup.Validate Setup.exConfig
      [(Setup.ProviderOpenAI, Some Setup.exEntry)]
      [(Setup.ProviderOpenAI, Some Setup.exEntry)] = Done (c', err) /\
    (err = None <-> Setup.valid Setup.exConfig).
Proof.
  split; [exact exConfig_noNil|]. split; [exact exConfig_visits|].
  destruct (validate_accepts_valid Setup.exConfig
              [(Setup.ProviderOpenAI, Some Setup.exEntry)]
              [(Setup.ProviderOpenAI, Some Setup.exEntry)]
              [(Setup.ProviderOpenAI, Some Setup.exEntry)]
              [(Setup.ProviderOpenAI, Some Setup.exEntry)]
              exConfig_noNil exConfig_visits exConfig_visits)
    as (c' & err & Hrun & Hiff & _).
  exists c', err. split; [exact Hrun|exact Hiff].
Defined.

(** X18 at the example configuration and a provider it does not hold. *)
Lemma provider_readers_agree_witness :
  Setup.noNil Setup.exConfig /\
  Setup.visits Setup.exConfig [(Setup.ProviderOpenAI, Some Setup.exEntry)] /\
  exists enabled b r,
    Setup.GetEnabledProviders [(Setup.ProviderOpenAI, Some Setup.exEntry)]
    = Done enabled /\
    Setup.HasProvider Setup.exConfig Setup.ProviderGemini = Done b /\
    Setup.GetProviderConfig Setup.exConfig Setup.ProviderGemini = Done r /\
    NoDup enabled /\
    (Setup.ProviderGemini ∈ enabled
     <-> Setup.enabledIn Setup.exConfig Setup.ProviderGemini) /\
    (b = true <-> Setup.enabledIn Setup.exConfig Setup.ProviderGemini).
Proof.
  split; [exact exConfig_noNil|]. split; [exact exConfig_visits|].
  destruct (provider_readers_agree Setup.exConfig
              [(Setup.ProviderOpenAI, Some Setup.exEntry)]
              Setup.ProviderGemini exConfig_noNil exConfig_visits)
    as (enabled & b & r & H1 & H2 & H3 & H4 & H5 & H6 & _).
  exists enabled, b, r. auto 10.
Defined.

(** X19 at the example configuration: the client is built for [openai]. *)
Lemma new_client_outcomes_witness :
  Setup.noNil Setup.exConfig /\
  Setup.visits Setup.exConfig [(Setup.ProviderOpenAI, Some Setup.exEntry)] /\
  Setup.valid Setup.exConfig /\
  exists client,
    Setup.NewClient (fun _ => None) (Some Setup.exConfig)
      [(Setup.ProviderOpenAI, Some Setup.exEntry)]
      [(Setup.ProviderOpenAI, Some Setup.exEntry)]
      [(Setup.ProviderOpenAI, Some Setup.exEntry)] = Done (inl client) /\
    Setup.providerType client = Setup.ProviderOpenAI.
Proof.
  split; [exact exConfig_noNil|]. split; [exact exConfig_visits|].
  split; [exact exConfig_valid|].
  destruct (proj2 (new_client_outcomes (fun _ => None) Setup.exConfig
                     [(Setup.ProviderOpenAI, Some Setup.exEntry)]
                     [(Setup.ProviderOpenAI, Some Setup.exEntry)]
                     [(Setup.ProviderOpenAI, Some Setup.exEntry)])
              exConfig_noNil exConfig_visits exConfig_visits exConfig_visits
              exConfig_valid)
    as (c' & t & pc & _ & _ & Hlook & _ & Hrun).
  change (Setup.Providers Setup.exConfig)
    with ({[Setup.ProviderOpenAI := Some Setup.exEntry]}
            : gmap string (option Setup.ProviderConfig)) in Hlook.
  apply lookup_singleton_Some in Hlook. destruct Hlook as [<- _].
  eexists. split; [exact Hrun|reflexivity].
Defined.

(** X20 at an environment that sets both Gemini keys: the key of
    GOOGLE_API_KEY is the one kept. *)
Lemma load_from_env_providers_witness :
  (Setup.Getenv Setup.exGoogleEnv "GEMINI_API_KEY" <> "" \/
   Setup.Getenv Setup.exGoogleEnv "GOOGLE_API_KEY" <> "") /\
  exists pc,
    Setup.Providers
      (Setup.LoadFromEnv (fun s => s) (fun _ => None) (fun _ => None)
         Setup.NewConfig Setup.exGoogleEnv).1
    !! Setup.ProviderGemini = Some (Some pc) /\
    Setup.Enabled pc = true /\ Setup.APIKey pc = "g-key".
Proof.
  assert (H1 : Setup.Getenv Setup.exGoogleEnv "GEMINI_API_KEY" <> "" \/
               Setup.Getenv Setup.exGoogleEnv "GOOGLE_API_KEY" <> "").
  { right. vm_compute. discriminate. }
  split; [exact H1|].
  destruct (load_from_env_providers (fun s => s) (fun _ => None)
              (fun _ => None) Setup.NewConfig Setup.exGoogleEnv)
    as (_ & _ & _ & _ & _ & Hgemini & _).
  destruct (Hgemini H1) as (pc & Hlook & Hen & Hkey).
  exists pc. split; [exact Hlook|]. split; [exact Hen|].
  rewrite Hkey. vm_compute. reflexivity.
Defined.

(** X21 at an environment that sets OPENAI_API_KEY only. *)
Lemma new_client_from_env_witness :
  Setup.Getenv Setup.exEnv "OPENAI_API_KEY" <> "" /\
  exists client,
    Setup.NewClientFromEnv (fun _ => None) (fun s => s) (fun _ => None)
      (fun _ => None) Setup.exEnv
      (map_to_list
         (Setup.Providers
            (Setup.LoadFromEnv (fun s => s) (fun _ => None) (fun _ => None)
               Setup.NewConfig Setup.exEnv).1))
      (map_to_list
         (Setup.Providers
            (Setup.LoadFromEnv (fun s => s) (fun _ => None) (fun _ => None)
               Setup.NewConfig Setup.exEnv).1))
      []
    = Done (inl client) /\
    Setup.providerType client = Setup.ProviderOpenAI /\
    Setup.sessionTurnCount client = 0.
Proof.
  assert (H1 : Setup.Getenv Setup.exEnv "OPENAI_API_KEY" <> "")
    by (vm_compute; discriminate).
  split; [exact H1|].
  eexists. split.
  { refine (proj2 (proj2 (new_client_from_env (fun _ => None) (fun s => s)
                            (fun _ => None) (fun _ => None) Setup.exEnv _ _ []))
              _ _ H1 _ _ _ (or_introl _)).
    - unfold Setup.visits. reflexivity.
    - unfold Setup.visits. reflexivity.
    - vm_compute. reflexivity.
    - vm_compute. reflexivity.
    - vm_compute. reflexivity.
    - vm_compute. reflexivity. }
  split; reflexivity.
Defined.

(** X22 at a client of the example configuration asked for [gemini],
    which the configuration does not hold. *)
Lemma switch_provider_outcomes_witness :
  Setup.noNil
    (Setup.config
       (Setup.mkClient Setup.exConfig None Setup.ProviderOpenAI 0 ""
          NewLoopDetectionService)) /\
  exists c' err,
    Setup.SwitchProvider (fun _ => None)
      (Setup.mkClient Setup.exConfig None Setup.ProviderOpenAI 0 ""
         NewLoopDetectionService) Setup.ProviderGemini = Done (c', err) /\
    forall e, err = Some e ->
      c' = Setup.mkClient Setup.exConfig None Setup.ProviderOpenAI 0 ""
             NewLoopDetectionService.
Proof.
  split; [exact exConfig_noNil|].
  destruct (switch_provider_outcomes (fun _ => None)
              (Setup.mkClient Setup.exConfig None Setup.ProviderOpenAI 0 ""
                 NewLoopDetectionService) Setup.ProviderGemini exConfig_noNil)
    as (c' & err & Hrun & _ & Herr & _).
  exists c', err. split; [exact Hrun|].
  intros e He. exact (proj1 (Herr e He)).
Defined.
